(* ===== verification/_CoqProject ===== *)
-Q . S2P
Prelude.v
PyString.v
Hardware.v
PyVal.v
Xml.v
Env.v
Sim.v
Utils.v
Waiters.v
Clients.v
ServiceManager.v
ComputeBase.v
AllComputes.v
Trace.v
NumaHelper.v
Pinning.v
ThreadPolicy.v
EmulatorThreads.v
NumaMigration.v
Evacuation.v
Hugepages.v
HostFeatures.v
Vdpa.v
Vgpu.v
Sriov.v
GuestXml.v
Volumes.v
Devices.v
ResourceSafety.v
Config.v
