(* ===== verification/Prelude.v ===== *)
(** * Whitebox Tempest plugin: verification development

    The program is a plugin for tempest, OpenStack's integration test suite
    (src/whitebox_tempest_plugin). It looks inside a deployment: it reads domain
    XML and host files over SSH, changes the configuration of services and
    restarts them, reads the Nova database, and decides from that whether CPU
    pinning, NUMA placement, PCI devices and the like are what Nova was asked
    for. Its parts and how they are connected:

    - hardware.py parses and prints CPU sets and PCI addresses;
    - utils.py normalises JSON, nests context managers, resolves host addresses
      and caches nodes.yaml;
    - services/clients.py runs commands on hosts (SSHClient) and, on top of
      that, virsh, log queries, qemu-img, numactl, sysfs, database cursors and
      the service managers, which change options of a remote configuration file
      and put them back;
    - common/waiters.py polls the APIs until a state is reached;
    - api/compute/base.py is the base class of all tests (servers, flavors,
      ports, volumes, migrations, cleanups), api/compute/numa_helper.py a mixin
      that reads pinning from the XML;
    - api/compute/test_*.py are the tests; config.py and plugin.py declare and
      register the options they depend on.

    ** Files

    - [Prelude]: outcomes, exceptions (exceptions.py), the state-and-exception
      monad, Python loops and dictionaries, tactics and shared lemmas.
    - [PyString], [PyVal], [Xml]: what the code uses of Python's str, int and
      list.sort, of dynamic JSON values, and of xml.etree.ElementTree.
    - [Env]: CONF, the class [cloud] of everything outside the repository (SSH
      transport, REST clients and tempest's base class, clock, YAML, XML and
      JSON parsing), the state of a run, context managers and ExitStack.
    - [Sim]: a small simulated deployment that instantiates [cloud]; it shows
      that the hypotheses of the theorems can hold.
    - [Hardware], [Utils], [Waiters]: hardware.py, utils.py, common/waiters.py.
    - [Clients], [ServiceManager]: services/clients.py.
    - [ComputeBase], [AllComputes]: api/compute/base.py; the second one holds
      the theory of [config_all_computes].
    - [Trace]: how a run is reasoned about, see below.
    - [NumaHelper]: api/compute/numa_helper.py.
    - [Pinning], [ThreadPolicy], [EmulatorThreads], [NumaMigration]: the classes
      of api/compute/test_cpu_pinning.py.
    - [Evacuation]: test_server_evacuation.py and test_live_migration.py;
      [Hugepages]: test_hugepages.py; [HostFeatures]: test_file_backed_memory.py
      and test_cpu_state_mgmt.py; [Vdpa]: test_vdpa.py; [Vgpu]: test_vgpu.py;
      [Sriov]: test_sriov.py (all of api/compute).
    - [GuestXml]: the sixteen files whose tests look at the domain XML, a log or
      a file of the guest's host (compute_id, console_encryption,
      cpu_model_extra_flags, default_hyperv_enlightenments, flavor_metadata,
      hw_video_type, iso_image, multiqueue, nvdimm, pointer_device_type,
      rx_tx_queue_size, validate_selinux_labels, viommu_devices, virtio_rng,
      vpmu, watchdog_devices); [Volumes]: virtio_scsi_attach, volume_encryption,
      volume_negative, rbd_direct_download; [Devices]: pci_passthrough, vtpm,
      uefi, provider_yaml.
    - [ResourceSafety]: the tests of all these files as one suite, and what
      becomes of the resources they create.
    - [Config]: config.py and plugin.py.

    Definitions keep the names of the functions and methods they translate,
    without leading underscores; a constructor [C.__init__] is [C_init]. The
    body of a loop is a definition of its own where a theorem speaks about it.

    ** How the code is modelled

    A statement is a function from the state of the run to an outcome and a new
    state. The state [pystate W] holds the module global [utils._nodes], the
    cleanups registered by the running test, and the outside world [W]; an
    exception keeps the state reached when it was raised. Values that come from
    REST calls, YAML or the database are dynamic ([val]), so that a missing key
    or a value of the wrong type raises what Python raises. A method of a
    service outside the repository is a call of [api] with the dotted name of
    the client and method and its keyword arguments; nothing is assumed of it.
    Where a theorem needs documented behaviour of the outside it takes it as a
    named class or hypothesis: [lawful_clock] (time does not run backwards,
    sleeping advances it, calls return), [lawful_crudini] (crudini's --get,
    --set and --del, and that service commands do not edit the file),
    [isolated] (commands on one host do not change files of another).
    Code of libraries that is a function of its arguments (oslo's
    string_to_bytes, yaml's safe_load and dump) is an argument of the
    definitions that use it.
    A [with] statement is a record of the code before and after the [yield].
    The order in which Python iterates over a set is an argument of the
    definitions that depend on it.

    What a test has established is stated over its trace: [passes s obs s'] says
    that the run from [s] to [s'] made the observations [obs] in this order, each
    [m ⇓ a] a call of [m] that returned [a]; the states between two observations
    are linked by actions of the code. What holds of every run, whatever the
    outside answers, is proved as [Within R m] for a relation [R] that the
    primitives respect ([Ambient]), with one rule per construct of the monad in
    the hint database [within].

    ** Bounds

    Polling loops take a bound on their iterations and end in [NoFuel] when it
    is used up. The theorems about them show that [NoFuel] does not occur when
    the bound times the polling interval reaches the timeout; the loops of the
    SR-IOV tests on allocated devices and detached ports are treated alike. The
    domain shutdown loop does not sleep, so that no number of iterations covers
    its timeout; its runs are characterised as sequences of polls within the
    timeout, for every bound. [normalize_json] recurses on the depth of its
    argument, which is enough for every value.

    ** What the theorems show

    - CPU sets: [parse_cpu_spec] computes the meaning of a specification and
      fails exactly on unreadable ones, rule order does not matter, printing
      and parsing round-trip, libvirt's lists of siblings are read the same way.
    - Configuration: [config_options] and [config_all_computes] put every option
      back on every host, for any body and outcome, when the set-up succeeds, the
      options are all different, and names and values are words the shell passes
      on unchanged; when the restart of the set-up fails, an option is given twice
      or a value has two words, they do not. [stopped] starts the service again
      once it has been stopped, and does not when the stop itself raises.
    - Waiting: each loop that sleeps ends within its timeout and returns only on
      the state waited for; the domain shutdown loop never reaches its sleep.
    - Reading: numactl, meminfo, sysfs and domain XML are parsed back to what
      was printed; the interface of a port is found exactly when it is unique;
      pinned sets are the unions of their parts.
    - Verdicts: the assertion helpers pass exactly when what they are to check
      holds, and a passing test has established the placement it is about. Some
      theorems show the opposite for checks that cannot fail where they should.
      The tests are covered in the same way from CPU pinning to vGPUs: traces of
      ordered observations with the relations between their results.
    - Resources: what a helper creates it registers for deletion; no test of the
      suite but the two of [leaking_tests] leaves a created resource unregistered
      however it ends, and the deletions are run. test_valid_trait_with_provider_yaml
      is shown to leak its trait, the class set-up of the vGPU tests its flavor;
      test_deploy_multiple_vgpu_types creates its flavors as that set-up does.
    - Options: a default, where there is one, is of its type, names are unique, the default
      configuration skips every test that needs a particular host layout, and
      load_tests gives the directory of the tests.

    ** Not modelled

    Log messages and assertion texts; the inside of tempest, oslo, pymysql,
    sshtunnel, PyYAML, crudini and libvirt; tempest's class plumbing
    (setup_credentials, microversions, setup_clients, network creation flags);
    the job definitions, the devstack plugin and the packaging. The suite of
    [ResourceSafety] leaves out test_hugepages, which its decorator skips, and
    the class set-up of the vGPU tests; files written on hosts, such as the
    provider.yaml of the trait tests, are not counted as resources. Every caller
    of [create_volume_type] uses its default client, the only one modelled.
    Deletions count as given back when they are issued; that
    they succeed is up to the services. *)
From stdpp Require Export base tactics gmap strings list sets fin_maps.
From Stdlib Require Export ZArith Lia.

#[global] Open Scope Z_scope.

(** * Python exceptions

    The exceptions the plugin raises itself (exceptions.py), the ones of
    tempest.lib it catches or raises, and the built-in ones its expressions can
    raise. Message texts are kept only where the code inspects or carries them. *)
Inductive exn :=
| InvalidCPUSpec (spec : string)
| CtrlplaneAddressResolutionError (host : string)
| MissingServiceSectionException (service : string)
| MigrationException (msg : string)
| SSHExecCommandFailed (msg : string)
| TimeoutException
| SkipException
| AssertionFailure
| BuildErrorException
| BadRequest (msg : string)
| Forbidden
| ServerFault
| KeyError
| IndexError
| ValueError
| TypeError
| AttributeError
| UnboundLocalError
| GenericException (msg : string).

#[export] Instance exn_eq_dec : EqDecision exn.
Proof. solve_decision. Defined.

(** * Outcomes of a computation

    [Ret] a value, [Exn] a raised exception, [NoFuel] when a loop was cut off
    by the model's iteration bound (a program that is still running). *)
Inductive outcome (A : Type) :=
| Ret (a : A)
| Exn (e : exn)
| NoFuel.
Arguments Ret {A} a.
Arguments Exn {A} e.
Arguments NoFuel {A}.

#[export] Instance outcome_ret : MRet outcome := λ A a, Ret a.
#[export] Instance outcome_bind : MBind outcome := λ A B f o,
  match o with Ret a => f a | Exn e => Exn e | NoFuel => NoFuel end.

#[export] Instance outcome_fmap : FMap outcome := λ A B f o,
  match o with Ret a => Ret (f a) | Exn e => Exn e | NoFuel => NoFuel end.

Definition is_ret {A} (o : outcome A) : bool :=
  match o with Ret _ => true | _ => false end.

(** A partial expression: the value, or the exception Python raises. *)
Definition or_raise {A} (e : exn) (o : option A) : outcome A :=
  match o with Some a => Ret a | None => Exn e end.

(** * The state-and-exception monad

    A Python statement that touches the outside world is a function of the
    state [S]; an exception keeps the state reached when it was raised. *)
Definition M (S A : Type) : Type := S → outcome A * S.

#[export] Instance M_ret {S} : MRet (M S) := λ A a s, (Ret a, s).
#[export] Instance M_bind {S} : MBind (M S) := λ A B f m s,
  match m s with
  | (Ret a, s') => f a s'
  | (Exn e, s') => (Exn e, s')
  | (NoFuel, s') => (NoFuel, s')
  end.
#[export] Instance M_fmap {S} : FMap (M S) := λ A B f m s,
  match m s with
  | (Ret a, s') => (Ret (f a), s')
  | (Exn e, s') => (Exn e, s')
  | (NoFuel, s') => (NoFuel, s')
  end.

Section monad.
Context {S : Type}.

Definition raise {A} (e : exn) : M S A := λ s, (Exn e, s).
Definition lift {A} (o : outcome A) : M S A := λ s, (o, s).
Definition out_of_fuel {A} : M S A := λ s, (NoFuel, s).
Definition gets {A} (f : S → A) : M S A := λ s, (Ret (f s), s).
Definition modify (f : S → S) : M S unit := λ s, (Ret tt, f s).

(** [try: m finally: fin]: [fin] runs whether [m] returned or raised, and an
    exception of [fin] replaces the outcome of [m]. A body that never finishes
    never reaches its [finally]. *)
Definition try_finally {A} (m : M S A) (fin : M S unit) : M S A := λ s,
  match m s with
  | (NoFuel, s') => (NoFuel, s')
  | (o, s') =>
      match fin s' with
      | (Ret _, s'') => (o, s'')
      | (Exn e, s'') => (Exn e, s'')
      | (NoFuel, s'') => (NoFuel, s'')
      end
  end.

(** [try: m except E as e: h e], where [h] decides whether [e] is caught. *)
Definition try_except {A} (m : M S A) (h : exn → option (M S A)) : M S A := λ s,
  match m s with
  | (Exn e, s') => match h e with Some k => k s' | None => (Exn e, s') end
  | r => r
  end.

(** [assertTrue(b)] and its relatives; the message is not modelled. *)
Definition assert_that (b : bool) : M S unit :=
  if b then mret tt else raise AssertionFailure.

(** [if not b: raise skipException] and [@testtools.skipUnless(b, ...)]. *)
Definition skip_unless (b : bool) : M S unit :=
  if b then mret tt else raise SkipException.

(** [for x in l: f x] *)
Fixpoint for_each {A} (f : A → M S unit) (l : list A) : M S unit :=
  match l with
  | [] => mret tt
  | x :: l' => f x ;; for_each f l'
  end.

(** [for x in l: acc = f acc x] *)
Fixpoint for_acc {A B} (f : B → A → M S B) (b : B) (l : list A) : M S B :=
  match l with
  | [] => mret b
  | x :: l' => b' ← f b x; for_acc f b' l'
  end.

(** [[f x for x in l]] *)
Fixpoint map_m {A B} (f : A → M S B) (l : list A) : M S (list B) :=
  match l with
  | [] => mret []
  | x :: l' => y ← f x; ys ← map_m f l'; mret (y :: ys)
  end.
End monad.

(** The same loops for code that only raises. *)
Fixpoint ofold {A B} (f : B → A → outcome B) (b : B) (l : list A) : outcome B :=
  match l with
  | [] => Ret b
  | x :: l' => b' ← f b x; ofold f b' l'
  end.

Fixpoint omap_l {A B} (f : A → outcome B) (l : list A) : outcome (list B) :=
  match l with
  | [] => Ret []
  | x :: l' => y ← f x; ys ← omap_l f l'; mret (y :: ys)
  end.

(** * Insertion-ordered dictionaries

    A Python dict keeps the position of a key that is assigned again. *)
Section pydict.
Context {K : Type} `{EqDecision K} {V : Type}.

Fixpoint dict_get (d : list (K * V)) (k : K) : option V :=
  match d with
  | [] => None
  | (k', v) :: d' => if decide (k' = k) then Some v else dict_get d' k
  end.

Fixpoint dict_set (d : list (K * V)) (k : K) (v : V) : list (K * V) :=
  match d with
  | [] => [(k, v)]
  | (k', v') :: d' =>
      if decide (k' = k) then (k', v) :: d' else (k', v') :: dict_set d' k v
  end.

Definition dict_update (d e : list (K * V)) : list (K * V) :=
  foldl (λ d kv, dict_set d kv.1 kv.2) d e.
End pydict.

(** * Running a bind *)
Lemma bind_run {S A B} (m : M S A) (f : A → M S B) s :
  (m ≫= f) s =
  match m s with
  | (Ret a, s') => f a s'
  | (Exn e, s') => (Exn e, s')
  | (NoFuel, s') => (NoFuel, s')
  end.
Proof. done. Qed.

Lemma bind_Ret_inv {S A B} (m : M S A) (f : A → M S B) s b s'' :
  (m ≫= f) s = (Ret b, s'') → ∃ a s', m s = (Ret a, s') ∧ f a s' = (Ret b, s'').
Proof. rewrite bind_run. destruct (m s) as [[]]; naive_solver. Qed.

Lemma bind_Ret {S A B} (m : M S A) (f : A → M S B) s a s' :
  m s = (Ret a, s') → (m ≫= f) s = f a s'.
Proof. intros H. by rewrite bind_run, H. Qed.

Lemma bind_inv {S A B} (m : M S A) (f : A → M S B) s o s'' :
  (m ≫= f) s = (o, s'') →
  (∃ a s', m s = (Ret a, s') ∧ f a s' = (o, s'')) ∨
  (∃ e, m s = (Exn e, s'') ∧ o = Exn e) ∨
  (m s = (NoFuel, s'') ∧ o = NoFuel).
Proof. rewrite bind_run. destruct (m s) as [[]]; naive_solver. Qed.

Lemma assert_run {S} b (s : S) u s' : assert_that b s = (Ret u, s') → b = true ∧ s' = s.
Proof. destruct b; [|done]. by intros [= _ <-]. Qed.
Lemma skip_run {S} b (s : S) u s' : skip_unless b s = (Ret u, s') → b = true ∧ s' = s.
Proof. destruct b; [|done]. by intros [= _ <-]. Qed.

(** * Automation *)
Create HintDb whitebox.

(** Invert a run of a sequence of statements that returned normally. *)
Ltac run_ret H :=
  lazymatch type of H with
  | (?m ≫= _) ?s = (Ret _, _) =>
      let a := fresh "a" in let s' := fresh "s" in let E := fresh "E" in
      apply bind_Ret_inv in H as (a & s' & E & H); run_ret H
  | _ => cbn beta iota zeta in H
  end.

(** Turn the assertions and skips a run went through into facts. *)
Ltac use_asserts :=
  repeat match goal with
  | E : assert_that _ _ = (Ret _, _) |- _ => apply assert_run in E as [E ->]
  | E : skip_unless _ _ = (Ret _, _) |- _ => apply skip_run in E as [E ->]
  end.

(** Invert one statement of a run, whatever its outcome. *)
Ltac run_step H :=
  let a := fresh "a" in let s' := fresh "s" in let e := fresh "e" in
  let E := fresh "E" in let He := fresh "He" in
  apply bind_inv in H as [(a & s' & E & H)|[(e & E & He)|(E & He)]];
  cbn beta iota zeta in *.

(** Split on the integer comparison a run branches on. *)
Ltac run_leb H :=
  lazymatch type of H with
  | context [Z.leb ?x ?y] => destruct (Z.leb_spec x y)
  end.

(** * Shared lemmas *)
Lemma mapM_perm {A B} (f : A → option B) l l' k :
  l ≡ₚ l' → mapM f l = Some k → ∃ k', mapM f l' = Some k' ∧ k ≡ₚ k'.
Proof.
  intros Hp. revert k. induction Hp as [|x l l' _ IH|x y l|l1 l2 l3 _ IH1 _ IH2];
    intros k Hk; simpl in *.
  - eauto.
  - destruct (f x) as [b|]; simpl in *; [|done].
    destruct (mapM f l) as [ks|]; [injection Hk as <-|done]. destruct (IH ks) as (k' & -> & ?); [done|].
    eexists; split; [done|]. by apply Permutation_skip.
  - destruct (f x), (f y), (mapM f l); try done. injection Hk as <-.
    eexists; split; [done|]. apply Permutation_swap.
  - destruct (IH1 k Hk) as (k' & Hk' & ?). destruct (IH2 k' Hk') as (k'' & ? & ?).
    exists k''. split; [done|]. by etrans.
Qed.

Lemma mapM_cat {A B} (f : A → option B) l k :
  mapM f (l ++ k) = (r ← mapM f l; r' ← mapM f k; Some (r ++ r')).
Proof.
  induction l as [|x l IH]; simpl; [by destruct (mapM f k)|].
  rewrite IH. destruct (f x), (mapM f l); simpl; try done. by destruct (mapM f k).
Qed.

Lemma Exists_mapM {A B} (f : A → option B) (P : B → Prop) l k :
  mapM f l = Some k → Exists P k ↔ ∃ x y, x ∈ l ∧ f x = Some y ∧ P y.
Proof.
  intros H%mapM_Some. induction H as [|x y l k Hxy _ IH]; [rewrite Exists_nil; set_solver|].
  rewrite Exists_cons, IH. set_solver.
Qed.

Section dict_lemmas.
Context {K : Type} `{EqDecision K} {V : Type}.
Implicit Types d : list (K * V).

Lemma dict_set_new d k v : k ∉ d.*1 → dict_set d k v = d ++ [(k, v)].
Proof.
  induction d as [|[k' v'] d IH]; simpl; intros H; [done|].
  rewrite decide_False by set_solver. rewrite IH by set_solver. done.
Qed.

Lemma dict_get_set d k v k' :
  dict_get (dict_set d k v) k' = if decide (k = k') then Some v else dict_get d k'.
Proof.
  induction d as [|[k1 v1] d IH]; simpl; [by repeat case_decide|].
  repeat case_decide; simpl; repeat case_decide; simplify_eq; try done; by rewrite IH, ?decide_True, ?decide_False.
Qed.

Lemma dict_get_key d k : is_Some (dict_get d k) → k ∈ d.*1.
Proof.
  induction d as [|[k' v] d IH]; simpl; [by intros [? ?]|].
  case_decide; [subst; set_solver|]. intros Hk. right. by apply IH.
Qed.

Lemma dict_get_None d k : k ∉ d.*1 → dict_get d k = None.
Proof.
  induction d as [|[k' v] d IH]; simpl; intros H; [done|].
  rewrite decide_False by set_solver. apply IH. set_solver.
Qed.
End dict_lemmas.

Lemma ofold_app {A B} (f : B → A → outcome B) b l k :
  ofold f b (l ++ k) = (b' ← ofold f b l; ofold f b' k).
Proof. revert b. induction l as [|x l IH]; intros b; simpl; [done|]. destruct (f b x); simpl; auto. Qed.

Lemma omap_l_Ret {A B} (f : A → outcome B) (g : A → B) l :
  (∀ x, x ∈ l → f x = Ret (g x)) → omap_l f l = Ret (map g l).
Proof.
  induction l as [|x l IH]; intros H; simpl; [done|].
  rewrite H by set_solver. simpl. by rewrite IH by set_solver.
Qed.

(** A loop of checks passes exactly when every check does. *)
Lemma for_each_pass {S A} (f : A → M S unit) (ok : A → bool) l s :
  (∀ x, (f x s = (Ret tt, s) ∧ ok x = true) ∨ ((f x s).1 ≠ Ret tt ∧ ok x = false)) →
  (for_each f l s = (Ret tt, s) ∧ forallb ok l = true) ∨
  ((for_each f l s).1 ≠ Ret tt ∧ forallb ok l = false).
Proof.
  intros Hf. induction l as [|x l IH]; [by left|]. cbn [for_each forallb]. rewrite bind_run.
  destruct (Hf x) as [[-> ->]|[Hx ->]]; [exact IH|].
  right. split; [|done]. destruct (f x s) as [[[]|e|] s']; simpl in *; done.
Qed.

Lemma for_each_asserts {S A} (f : A → bool) l (s : S) u s' :
  for_each (λ x, assert_that (f x)) l s = (Ret u, s') → Forall (λ x, f x = true) l ∧ s' = s.
Proof.
  induction l as [|x l IH]; cbn [for_each]; intros H; [injection H as _ <-; by split|].
  apply bind_Ret_inv in H as (v & s1 & E & H). apply assert_run in E as [E ->].
  destruct (IH H). split; [by constructor|done].
Qed.

Lemma for_each_checks {S A} (f : A → M S unit) (Q : A → Prop) l (s : S) u s' :
  (∀ x s s', f x s = (Ret tt, s') → s' = s ∧ Q x) →
  for_each f l s = (Ret u, s') → s' = s ∧ Forall Q l.
Proof.
  intros Hf. revert s. induction l as [|x l IH]; cbn [for_each]; intros s H; [by injection H as _ <-|].
  apply bind_Ret_inv in H as ([] & s1 & E & H). apply Hf in E as [-> Hx].
  destruct (IH _ H). split; [done|by constructor].
Qed.

(** A loop that accumulates what independent statements return first runs them
    all and then folds. *)
Lemma for_acc_map_m {S A B D} (f : B → A → M S B) (g : A → M S D) (h : B → D → B) b l s :
  (∀ b x s, f b x s = (y ← g x; mret (h b y)) s) →
  for_acc f b l s = (ys ← map_m g l; mret (foldl h b ys)) s.
Proof.
  intros Hf. revert b s. induction l as [|x l IH]; intros b s; [done|].
  cbn [for_acc map_m]. rewrite !bind_run, Hf, !bind_run.
  destruct (g x s) as [[y|e|] s1]; try done. cbn [mret M_ret]. rewrite IH, !bind_run.
  by destruct (map_m g l s1) as [[]].
Qed.

Lemma forallb_Forall_true {A} (f : A → bool) l : forallb f l = true ↔ Forall (λ x, f x = true) l.
Proof.
  rewrite Forall_forall, forallb_forall. by setoid_rewrite list_elem_of_In.
Qed.

Lemma elem_of_dict_set_keys {K} `{EqDecision K} {V} (d : list (K * V)) k v x :
  x ∈ (dict_set d k v).*1 → x = k ∨ x ∈ d.*1.
Proof.
  induction d as [|[k' v'] d IH]; simpl; [set_solver|].
  case_decide; simpl; intros [->|Hx]%elem_of_cons; set_solver.
Qed.

Lemma dict_set_keys_NoDup {K} `{EqDecision K} {V} (d : list (K * V)) k v :
  NoDup d.*1 → NoDup (dict_set d k v).*1.
Proof.
  induction d as [|[k' v'] d IH]; intros Hd; [repeat constructor; set_solver|]. simpl in *.
  apply NoDup_cons in Hd as [Hk Hd]. case_decide; simpl; [by constructor|].
  constructor; [|by apply IH]. by intros [->|?]%elem_of_dict_set_keys.
Qed.

Lemma ofold_invariant {A B} (f : B → A → outcome B) (I : B → Prop) b l b' :
  (∀ b x b', I b → f b x = Ret b' → I b') → I b → ofold f b l = Ret b' → I b'.
Proof.
  intros Hf. revert b. induction l as [|x l IH]; intros b Hb H; simpl in H; [by injection H as <-|].
  destruct (f b x) as [b1|e|] eqn:E; [|done..]. by eapply IH; [eapply Hf|].
Qed.
