(* ===== verification/PyString.v ===== *)
(** Python [str] methods the plugin uses, on ASCII strings: [split], [strip],
    [startswith], [in], [replace], [join], [splitlines], [int()] and [str()] of
    an integer, with the lemmas the parsers' proofs share. *)
From S2P Require Import Prelude.
From Stdlib Require Import Ascii String.
#[local] Open Scope string_scope.
#[global] Arguments String.append : simpl nomatch.

(** * Character classes *)
Definition code (a : ascii) : N := N_of_ascii a.

(** [str.isspace] on ASCII: what [strip()] and [split()] drop. *)
Definition is_space (a : ascii) : bool :=
  let n := code a in ((9 <=? n) && (n <=? 13) || (28 <=? n) && (n <=? 32))%N.

(** The C [isspace] that [int()] skips around a literal. *)
Definition is_cspace (a : ascii) : bool :=
  let n := code a in ((9 <=? n) && (n <=? 13) || (n =? 32))%N.

Definition is_digit (a : ascii) : bool :=
  let n := code a in ((48 <=? n) && (n <=? 57))%N.

Definition digit_val (a : ascii) : Z := Z.of_N (code a) - 48.
Definition digit_char (d : Z) : ascii := ascii_of_N (Z.to_N (48 + d)).

(** * Basic methods *)
Fixpoint all_chars (P : ascii → bool) (s : string) : bool :=
  match s with
  | EmptyString => true
  | String a s' => P a && all_chars P s'
  end.

Fixpoint has_char (c : ascii) (s : string) : bool :=
  match s with
  | EmptyString => false
  | String a s' => Ascii.eqb a c || has_char c s'
  end.

Fixpoint lstrip_by (P : ascii → bool) (s : string) : string :=
  match s with
  | EmptyString => EmptyString
  | String a s' => if P a then lstrip_by P s' else s
  end.

Fixpoint rstrip_by (P : ascii → bool) (s : string) : string :=
  match s with
  | EmptyString => EmptyString
  | String a s' =>
      match rstrip_by P s' with
      | EmptyString => if P a then EmptyString else String a EmptyString
      | r => String a r
      end
  end.

Definition strip_by (P : ascii → bool) (s : string) : string :=
  rstrip_by P (lstrip_by P s).

(** * POSIX paths *)
Definition is_slash : ascii → bool := Ascii.eqb "/".

(** [os.path.join(a, b)]; [a] ends with a slash when stripping slashes changes it *)
Definition path_join (a b : string) : string :=
  if match b with String c _ => is_slash c | EmptyString => false end then b
  else if (String.eqb a EmptyString || negb (String.eqb (rstrip_by is_slash a) a))%bool then a ++ b
  else a ++ "/" ++ b.

(** [p[:p.rfind('/') + 1]] *)
Fixpoint dir_part (p : string) : string :=
  match p with
  | EmptyString => EmptyString
  | String a p' =>
      match dir_part p' with
      | EmptyString => if is_slash a then String a EmptyString else EmptyString
      | d => String a d
      end
  end.

(** [os.path.split(p)[0]], which is also [os.path.dirname(p)] *)
Definition path_head (p : string) : string :=
  let head := dir_part p in
  if all_chars is_slash head then head else rstrip_by is_slash head.

(** [s.strip()] and [s.lstrip()], [s.rstrip()] *)
Definition py_strip : string → string := strip_by is_space.
Definition py_lstrip : string → string := lstrip_by is_space.
Definition py_rstrip : string → string := rstrip_by is_space.

(** [s.split(c)] for a one-character separator *)
Fixpoint split_on (c : ascii) (s : string) : list string :=
  match s with
  | EmptyString => [EmptyString]
  | String a s' =>
      if Ascii.eqb a c then EmptyString :: split_on c s'
      else match split_on c s' with
           | [] => [String a EmptyString]
           | w :: ws => String a w :: ws
           end
  end.

(** [s.split(c, 1)]: the part before the first [c] and, if there is one, the rest *)
Fixpoint split_once (c : ascii) (s : string) : string * option string :=
  match s with
  | EmptyString => (EmptyString, None)
  | String a s' =>
      if Ascii.eqb a c then (EmptyString, Some s')
      else let '(w, r) := split_once c s' in (String a w, r)
  end.

(** [s.split()]: maximal runs of non-space characters *)
Fixpoint words_acc (cur s : string) : list string :=
  match s with
  | EmptyString => match cur with EmptyString => [] | _ => [cur] end
  | String a s' =>
      if is_space a
      then match cur with
           | EmptyString => words_acc EmptyString s'
           | _ => cur :: words_acc EmptyString s'
           end
      else words_acc (cur ++ String a EmptyString) s'
  end.
Definition py_words (s : string) : list string := words_acc EmptyString s.

(** [p in s] for strings, and [s.startswith(p)] *)
Definition starts_with (p s : string) : bool := String.prefix p s.
Fixpoint contains (p s : string) : bool :=
  starts_with p s ||
  match s with EmptyString => false | String _ s' => contains p s' end.

(** [c.join(ws)] *)
Fixpoint py_join (c : string) (ws : list string) : string :=
  match ws with
  | [] => EmptyString
  | [w] => w
  | w :: ws' => w ++ c ++ py_join c ws'
  end.

(** [s.replace(c1 c2, '')] for a two-character pattern, left to right. *)
Fixpoint remove_pair (c1 c2 : ascii) (s : string) : string :=
  match s with
  | String a ((String b s') as r) =>
      if Ascii.eqb a c1 && Ascii.eqb b c2 then remove_pair c1 c2 s'
      else String a (remove_pair c1 c2 r)
  | _ => s
  end.

Definition newline : ascii := "010"%char.
(** A double quote, as a string. *)
Definition dq : string := String "034"%char EmptyString.

(** [StringIO(s).readlines()], each line without its line feed, which none of
    the plugin's line parsers distinguish: the text after the last one is a
    line only if it is not empty. *)
Fixpoint drop_last_empty (ls : list string) : list string :=
  match ls with
  | [] => []
  | [EmptyString] => []
  | l :: ls' => l :: drop_last_empty ls'
  end.
Definition read_lines (s : string) : list string :=
  drop_last_empty (split_on newline s).

(** * Integers *)
Fixpoint parse_digits (acc : Z) (after_digit : bool) (s : string) : option Z :=
  match s with
  | EmptyString => if after_digit then Some acc else None
  | String a s' =>
      if is_digit a then parse_digits (10 * acc + digit_val a) true s'
      else if Ascii.eqb a "_" && after_digit then parse_digits acc false s'
      else None
  end.

(** [int(s)]: optional sign, decimal digits, single underscores between digits,
    white space around; [None] is ValueError. *)
Definition py_int (s : string) : option Z :=
  match strip_by is_cspace s with
  | String a r =>
      if Ascii.eqb a "+" then parse_digits 0 false r
      else if Ascii.eqb a "-" then Z.opp <$> parse_digits 0 false r
      else parse_digits 0 false (String a r)
  | EmptyString => None
  end.

Fixpoint digits_acc (fuel : nat) (n : Z) (acc : string) : string :=
  match fuel with
  | O => acc
  | S f => let acc' := String (digit_char (n mod 10)) acc in
           if (n <? 10)%Z then acc' else digits_acc f (n / 10) acc'
  end.

(** [str(n)] of an integer *)
Definition py_str (n : Z) : string :=
  let digits m := digits_acc (S (Z.to_nat (Z.log2 m))) m EmptyString in
  if (n <? 0)%Z then String "-" (digits (- n)) else digits n.

#[global] Arguments py_str : simpl never.
#[global] Arguments py_int : simpl never.

Example py_str_ex : map py_str [0; 7; 10; 1048576; -30] = ["0"; "7"; "10"; "1048576"; "-30"].
Proof. reflexivity. Qed.
Example py_int_ex : map py_int [" 42 "; "+1_0"; "-3"; ""; "1__0"; "4 2"; "_1"] =
  [Some 42; Some 10; Some (-3); None; None; None; None].
Proof. reflexivity. Qed.
Example split_ex : split_on "," "1-4,^3,,6" = ["1-4"; "^3"; ""; "6"].
Proof. reflexivity. Qed.
Example words_ex : py_words "  node 0  cpus:" = ["node"; "0"; "cpus:"].
Proof. reflexivity. Qed.

(** * Lemmas *)
Lemma app_nil_r_s (s : string) : s ++ "" = s.
Proof. induction s; simpl; congruence. Qed.

Lemma app_assoc_s (a b c : string) : (a ++ b) ++ c = a ++ b ++ c.
Proof. induction a; simpl; congruence. Qed.

Lemma all_chars_app P (a b : string) :
  all_chars P (a ++ b) = all_chars P a && all_chars P b.
Proof. induction a; simpl; [done|]. by rewrite IHa, andb_assoc. Qed.

Lemma all_chars_impl (P Q : ascii → bool) s :
  (∀ a, P a = true → Q a = true) → all_chars P s = true → all_chars Q s = true.
Proof.
  intros HPQ. induction s as [|a s IH]; simpl; [done|].
  intros [Ha Hs]%andb_true_iff. by rewrite (HPQ _ Ha), IH.
Qed.

Lemma has_char_false c s :
  all_chars (λ a, negb (Ascii.eqb a c)) s = negb (has_char c s).
Proof. induction s; simpl; [done|]. by rewrite IHs, negb_orb. Qed.

Lemma split_on_nonempty c s : split_on c s ≠ [].
Proof. destruct s; simpl; [done|]. case_match; [done|]. by case_match. Qed.

(** A field without the separator is one element. *)
Lemma split_on_none c s : has_char c s = false → split_on c s = [s].
Proof.
  induction s as [|a s IH]; simpl; [done|].
  destruct (Ascii.eqb a c); simpl; [done|]. intros H. by rewrite (IH H).
Qed.

Lemma split_on_app c w s :
  has_char c w = false → split_on c (w ++ String c s) = w :: split_on c s.
Proof.
  induction w as [|a w IH]; simpl; intros H.
  - by rewrite Ascii.eqb_refl.
  - destruct (Ascii.eqb a c); simpl in *; [done|]. by rewrite (IH H).
Qed.

(** [sep.join(ws).split(sep) == ws] for fields without the separator. *)
Lemma split_on_join c ws :
  ws ≠ [] → Forall (λ w, has_char c w = false) ws →
  split_on c (py_join (String c "") ws) = ws.
Proof.
  intros Hne HF. induction ws as [|w [|w' ws] IH]; [done| |].
  - inversion_clear HF. by apply split_on_none.
  - inversion_clear HF as [|?? Hw HF'].
    change (py_join _ (w :: w' :: ws)) with
      (w ++ String c (py_join (String c "") (w' :: ws))).
    rewrite split_on_app by done. f_equal. by apply IH.
Qed.

Lemma split_once_none c s : has_char c s = false → split_once c s = (s, None).
Proof.
  induction s as [|a s IH]; simpl; [done|].
  destruct (Ascii.eqb a c); simpl; [done|]. intros H. by rewrite (IH H).
Qed.

Lemma split_once_app c w s :
  has_char c w = false → split_once c (w ++ String c s) = (w, Some s).
Proof.
  induction w as [|a w IH]; simpl; intros H.
  - by rewrite Ascii.eqb_refl.
  - destruct (Ascii.eqb a c); simpl in *; [done|]. by rewrite (IH H).
Qed.

Lemma split_once_fst c s : has_char c (split_once c s).1 = false.
Proof.
  induction s as [|a s IH]; simpl; [done|].
  destruct (Ascii.eqb a c) eqn:E; simpl; [done|].
  destruct (split_once c s); simpl in *. by rewrite E.
Qed.

Lemma split_once_whole c s w : split_once c s = (w, None) → w = s.
Proof.
  revert w. induction s as [|a s IH]; simpl; intros w H; [by simplify_eq|].
  destruct (Ascii.eqb a c); [done|]. destruct (split_once c s). simplify_eq.
  f_equal. by apply IH.
Qed.

(** ** Stripping *)
Lemma rstrip_by_none P s : all_chars (λ a, negb (P a)) s = true → rstrip_by P s = s.
Proof.
  induction s as [|a s IH]; simpl; [done|].
  rewrite andb_true_iff, negb_true_iff. intros [Ha Hs].
  rewrite (IH Hs), Ha. by destruct s.
Qed.

Lemma lstrip_by_none P s : all_chars (λ a, negb (P a)) s = true → lstrip_by P s = s.
Proof.
  destruct s as [|a s]; simpl; [done|]. by intros [->%negb_true_iff _]%andb_true_iff.
Qed.

Lemma strip_by_none P s : all_chars (λ a, negb (P a)) s = true → strip_by P s = s.
Proof.
  unfold strip_by. intros H. destruct s as [|a s]; [done|]. simpl.
  pose proof H as H'. simpl in H'. rewrite andb_true_iff, negb_true_iff in H'.
  destruct H' as [-> _]. by apply rstrip_by_none.
Qed.

Lemma all_chars_rstrip (Q P : ascii → bool) s :
  all_chars Q s = true → all_chars Q (rstrip_by P s) = true.
Proof.
  induction s as [|a s IH]; simpl; [done|]. rewrite andb_true_iff. intros [Ha Hs].
  specialize (IH Hs). destruct (rstrip_by P s) as [|b r]; simpl in *.
  - destruct (P a); simpl; by rewrite ?Ha.
  - by rewrite Ha.
Qed.

Lemma all_chars_lstrip (Q P : ascii → bool) s :
  all_chars Q s = true → all_chars Q (lstrip_by P s) = true.
Proof.
  induction s as [|a s IH]; simpl; [done|]. intros H. destruct (P a); [|done].
  apply andb_true_iff in H as [_ H]. auto.
Qed.

Lemma all_chars_strip (Q P : ascii → bool) s :
  all_chars Q s = true → all_chars Q (strip_by P s) = true.
Proof. intros. by apply all_chars_rstrip, all_chars_lstrip. Qed.

Lemma rstrip_by_idem P s : rstrip_by P (rstrip_by P s) = rstrip_by P s.
Proof.
  induction s as [|a s IH]; simpl; [done|].
  destruct (rstrip_by P s) as [|b r] eqn:E.
  - destruct (P a) eqn:Ha; simpl; by rewrite ?Ha.
  - simpl in *. by rewrite IH.
Qed.

Lemma lstrip_by_head P s :
  lstrip_by P s = "" ∨ ∃ a r, lstrip_by P s = String a r ∧ P a = false.
Proof.
  induction s as [|a s IH]; simpl; [auto|]. destruct (P a) eqn:E; [done|]. right. eauto.
Qed.

Lemma strip_by_idem P s : strip_by P (strip_by P s) = strip_by P s.
Proof.
  unfold strip_by. destruct (lstrip_by_head P s) as [->|(a & r & -> & Ha)]; [done|].
  assert (lstrip_by P (rstrip_by P (String a r)) = rstrip_by P (String a r)) as ->.
  { simpl. destruct (rstrip_by P r); rewrite ?Ha; simpl; by rewrite Ha. }
  apply rstrip_by_idem.
Qed.

Lemma has_char_strip c P s : has_char c s = false → has_char c (strip_by P s) = false.
Proof.
  intros Hs. apply negb_true_iff. rewrite <-has_char_false. apply all_chars_strip.
  by rewrite has_char_false, Hs.
Qed.

Lemma rstrip_by_app P s t :
  all_chars (λ a, negb (P a)) s = true → all_chars P t = true → rstrip_by P (s ++ t) = s.
Proof.
  intros Hs Ht. induction s as [|a s IH]; simpl.
  - induction t as [|a t IHt]; simpl in *; [done|].
    apply andb_true_iff in Ht as [Ha Ht]. by rewrite IHt, Ha.
  - simpl in Hs. apply andb_true_iff in Hs as [Ha%negb_true_iff Hs].
    rewrite (IH Hs). destruct s; [by rewrite Ha|done].
Qed.

Lemma dir_part_file d f : has_char "/" f = false → dir_part (d ++ "/" ++ f) = d ++ "/".
Proof.
  intros Hf. assert (dir_part f = "") as Hd.
  { induction f as [|a f IH]; [done|]. simpl in *. apply orb_false_iff in Hf as [Ha Hf].
    rewrite IH by done. unfold is_slash. by rewrite Ascii.eqb_sym, Ha. }
  induction d as [|a d IH]; simpl; [by rewrite Hd|]. simpl in IH. rewrite IH. by destruct d.
Qed.

Lemma rstrip_by_keeps P a b : b ≠ "" → rstrip_by P b = b → rstrip_by P (a ++ b) = a ++ b.
Proof.
  intros Hb Hr. induction a as [|c a IH]; [done|]. cbn [rstrip_by append]. rewrite IH.
  destruct a; [by destruct b|done].
Qed.

(** The directory of a file below a directory written without a final slash *)
Lemma path_head_file d f :
  d ≠ "" → rstrip_by is_slash d = d → has_char "/" f = false → path_head (d ++ "/" ++ f) = d.
Proof.
  intros Hd Hr Hf. unfold path_head. rewrite dir_part_file by done.
  assert (rstrip_by is_slash (d ++ "/") = d) as Hs.
  { clear Hf Hd. revert Hr. induction d as [|a d IH]; intros Hr; [done|]. cbn [rstrip_by append] in *.
    destruct (rstrip_by is_slash d) as [|b r] eqn:Hrd.
    - destruct (is_slash a) eqn:Ha; [done|]. injection Hr as <-.
      done.
    - injection Hr as Hr. rewrite IH by congruence. by rewrite <-Hr. }
  destruct (all_chars is_slash (d ++ "/")) eqn:Hall; [|done].
  exfalso. apply Hd. rewrite <-Hs. clear -Hall. generalize dependent (d ++ "/"). intros s.
  induction s as [|a s IH]; [done|]. simpl. intros [Ha Hs]%andb_true_iff. by rewrite (IH Hs), Ha.
Qed.

(** White space after a text without any is stripped. *)
Lemma strip_by_app P s t :
  s ≠ "" → all_chars (λ a, negb (P a)) s = true → all_chars P t = true →
  strip_by P (s ++ t) = s.
Proof.
  intros Hne Hs Ht. unfold strip_by. destruct s as [|a s]; [done|].
  pose proof Hs as Hs'. simpl in Hs'. apply andb_true_iff in Hs' as [Ha%negb_true_iff _].
  simpl lstrip_by. rewrite Ha. by apply (rstrip_by_app P (String a s)).
Qed.

(** ** Lines *)
Lemma has_char_app c s t : has_char c (s ++ t) = has_char c s || has_char c t.
Proof. induction s as [|a s IH]; simpl; [done|]. by rewrite IH, orb_assoc. Qed.

Lemma contains_app_r p s t : contains p s = true → contains p (t ++ s) = true.
Proof.
  intros H. induction t as [|a t IH]; simpl; [done|]. by rewrite IH, orb_true_r.
Qed.

Lemma contains_skip c p w s :
  has_char c w = false → contains (String c p) (w ++ s) = contains (String c p) s.
Proof.
  induction w as [|a w IH]; simpl; [done|]. intros [Ha Hw]%orb_false_iff.
  unfold starts_with. simpl. rewrite (IH Hw).
  destruct (ascii_dec c a) as [->|]; [by rewrite Ascii.eqb_refl in Ha|done].
Qed.

Lemma contains_none c p s : has_char c s = false → contains (String c p) s = false.
Proof. intros H. by rewrite <-(app_nil_r_s s), contains_skip. Qed.

(** A text of complete lines. *)
Definition unlines (ls : list string) : string :=
  foldr (λ l s, l ++ String newline s) "" ls.

Lemma split_on_unlines ls :
  Forall (λ l, has_char newline l = false) ls →
  split_on newline (unlines ls) = (ls ++ [""])%list.
Proof. induction 1 as [|l ls Hl _ IH]; simpl; [done|]. by rewrite split_on_app, IH. Qed.

Lemma read_lines_unlines ls :
  Forall (λ l, has_char newline l = false) ls → read_lines (unlines ls) = ls.
Proof.
  intros H. unfold read_lines. rewrite split_on_unlines by done. clear H.
  induction ls as [|l ls IH]; [done|]. change ((l :: ls) ++ [""])%list with (l :: (ls ++ [""]))%list.
  destruct (ls ++ [""])%list as [|x y] eqn:E; [by destruct ls|].
  transitivity (l :: drop_last_empty (x :: y)); [by destruct l|]. by rewrite IH.
Qed.

(** ** Words *)
Definition nonspace (a : ascii) : bool := negb (is_space a).

Lemma words_acc_app cur w s :
  all_chars nonspace w = true → words_acc cur (w ++ s) = words_acc (cur ++ w) s.
Proof.
  revert cur. induction w as [|a w IH]; intros cur H; simpl.
  - by rewrite app_nil_r_s.
  - simpl in H. apply andb_true_iff in H as [Ha%negb_true_iff Hw]. rewrite Ha.
    rewrite IH by done. by rewrite app_assoc_s.
Qed.

Lemma words_acc_space w s : w ≠ "" → words_acc w (String " " s) = w :: words_acc "" s.
Proof. by destruct w. Qed.

(** [' '.join(ws).split() == ws] for non-empty words. *)
Lemma py_words_join ws :
  Forall (λ w, w ≠ "" ∧ all_chars nonspace w = true) ws → py_words (py_join " " ws) = ws.
Proof.
  unfold py_words. induction 1 as [|w ws [Hne Hw] HF IH]; [done|].
  destruct ws as [|w' ws].
  - simpl py_join. rewrite <-(app_nil_r_s w) at 1. rewrite words_acc_app by done.
    simpl. by destruct w.
  - change (py_join " " (w :: w' :: ws)) with (w ++ String " " (py_join " " (w' :: ws))).
    rewrite words_acc_app by done. simpl ("" ++ w). rewrite words_acc_space by done.
    by rewrite IH.
Qed.

(** ** Digits *)
Lemma is_digit_not_space a : is_digit a = true → is_space a = false.
Proof. destruct a as [[] [] [] [] [] [] [] []]; cbv; done. Qed.
Lemma is_digit_not_cspace a : is_digit a = true → is_cspace a = false.
Proof. destruct a as [[] [] [] [] [] [] [] []]; cbv; done. Qed.
Lemma is_cspace_space a : is_cspace a = true → is_space a = true.
Proof. destruct a as [[] [] [] [] [] [] [] []]; cbv; done. Qed.
Lemma is_digit_not (c a : ascii) : is_digit c = false → is_digit a = true → Ascii.eqb a c = false.
Proof. intros Hc Ha. destruct (Ascii.eqb_spec a c); congruence. Qed.

Lemma digit_char_spec d : 0 <= d < 10 →
  is_digit (digit_char d) = true ∧ digit_val (digit_char d) = d.
Proof.
  intros Hd. assert (d = 0 ∨ d = 1 ∨ d = 2 ∨ d = 3 ∨ d = 4 ∨ d = 5 ∨ d = 6 ∨ d = 7 ∨ d = 8 ∨ d = 9)
    as H by lia.
  repeat (destruct H as [->|H]; [split; reflexivity|]). subst; split; reflexivity.
Qed.

Lemma digits_acc_digits f n acc : 0 <= n →
  all_chars is_digit acc = true → all_chars is_digit (digits_acc f n acc) = true.
Proof.
  revert n acc. induction f as [|f IH]; intros n acc Hn Hacc; simpl; [done|].
  assert (is_digit (digit_char (n mod 10)) = true) as Hd.
  { apply digit_char_spec. apply Z.mod_pos_bound; lia. }
  destruct (n <? 10)%Z; [|apply IH; [apply Z.div_pos; lia|]]; simpl; by rewrite Hd, Hacc.
Qed.
Lemma digits_acc_parse f n acc a b : 0 <= n < 2 ^ Z.of_nat f → f ≠ O →
  ∃ k, parse_digits a b (digits_acc f n acc) = parse_digits (k * a + n) true acc.
Proof.
  revert n acc. induction f as [|f IH]; intros n acc Hn Hf; [done|]. simpl digits_acc.
  destruct (digit_char_spec (n mod 10)) as [Hd Hv]; [apply Z.mod_pos_bound; lia|].
  destruct (Z.ltb_spec n 10).
  - exists 10. simpl. rewrite Hd, Hv. f_equal. rewrite Z.mod_small; lia.
  - destruct (IH (n / 10) (String (digit_char (n mod 10)) acc)) as [k Hk].
    + split; [apply Z.div_pos; lia|].
      apply Z.div_lt_upper_bound; [lia|].
      rewrite Nat2Z.inj_succ, Z.pow_succ_r in Hn by lia. lia.
    + intros ->. simpl in Hn. lia.
    + exists (10 * k). rewrite Hk. simpl. rewrite Hd, Hv. f_equal.
      pose proof (Z.div_mod n 10). lia.
Qed.

Definition nat_digits (n : Z) : string := digits_acc (S (Z.to_nat (Z.log2 n))) n "".

Lemma py_str_nonneg n : 0 <= n → py_str n = nat_digits n.
Proof. intros. unfold py_str. destruct (Z.ltb_spec n 0); [lia|done]. Qed.

Lemma nat_digits_digits n : 0 <= n → all_chars is_digit (nat_digits n) = true.
Proof. intros. by apply digits_acc_digits. Qed.

Lemma nat_digits_parse n : 0 <= n → parse_digits 0 false (nat_digits n) = Some n.
Proof.
  intros Hn. destruct (digits_acc_parse (S (Z.to_nat (Z.log2 n))) n "" 0 false) as [k Hk];
    [|done|].
  - split; [done|]. rewrite Nat2Z.inj_succ, Z2Nat.id by apply Z.log2_nonneg.
    destruct (Z.eq_dec n 0) as [->|]; [done|]. apply Z.log2_spec. lia.
  - unfold nat_digits. rewrite Hk. simpl. f_equal. lia.
Qed.

Lemma nat_digits_nonempty n : 0 <= n → nat_digits n ≠ "".
Proof. intros Hn E. pose proof (nat_digits_parse n Hn) as H. by rewrite E in H. Qed.

Lemma py_str_digits n : 0 <= n → all_chars is_digit (py_str n) = true.
Proof. intros. rewrite py_str_nonneg by done. by apply nat_digits_digits. Qed.

Lemma py_int_digits s : all_chars is_digit s = true → py_int s = parse_digits 0 false s.
Proof.
  intros Hs. unfold py_int. rewrite strip_by_none.
  2: { eapply all_chars_impl, Hs. intros a Ha. by rewrite is_digit_not_cspace. }
  destruct s as [|a s]; [done|]. simpl in Hs. apply andb_true_iff in Hs as [Ha _].
  by rewrite (is_digit_not "+" a), (is_digit_not "-" a).
Qed.

(** [int(str(n)) == n], for the non-negative numbers CPU ids are. *)
Lemma py_int_str n : 0 <= n → py_int (py_str n) = Some n.
Proof.
  intros Hn. rewrite py_int_digits by by apply py_str_digits.
  rewrite py_str_nonneg by done. by apply nat_digits_parse.
Qed.

Lemma py_str_no_char c n : 0 <= n → is_digit c = false → has_char c (py_str n) = false.
Proof.
  intros Hn Hc. apply negb_true_iff. rewrite <-has_char_false.
  eapply all_chars_impl, py_str_digits; [|done]. intros a Ha. by rewrite (is_digit_not c a).
Qed.

Lemma py_strip_digits s : all_chars is_digit s = true → py_strip s = s.
Proof.
  intros Hs. apply strip_by_none. eapply all_chars_impl, Hs.
  intros a Ha. by rewrite is_digit_not_space.
Qed.

(** A literal without a minus sign denotes a non-negative integer. *)
Lemma parse_digits_nonneg a b s n : 0 <= a → parse_digits a b s = Some n → 0 <= n.
Proof.
  revert a b. induction s as [|c s IH]; simpl; intros a b Ha H.
  - destruct b; naive_solver.
  - destruct (is_digit c) eqn:Hc; [|case_match; naive_solver].
    eapply IH, H. unfold digit_val, is_digit in *.
    rewrite andb_true_iff, !N.leb_le in Hc. lia.
Qed.

Lemma py_int_nonneg s n : has_char "-" s = false → py_int s = Some n → 0 <= n.
Proof.
  intros Hs. unfold py_int.
  pose proof (has_char_strip "-" is_cspace s Hs) as Hs'.
  destruct (strip_by is_cspace s) as [|a r]; [done|]. simpl in Hs'.
  apply orb_false_iff in Hs' as [-> _].
  case_match; intros; eapply parse_digits_nonneg; (done || lia).
Qed.


#[export] Hint Resolve split_on_nonempty py_str_digits nat_digits_digits : whitebox.
