(* ===== verification/Hardware.v ===== *)
(** hardware.py: CPU-set specifications, the flattening of the configured CPU
    topology, and PCI addresses. The abstract specification of a CPU set is a
    list of [cpu_rule]s; [parse_cpu_spec] is proved to compute its meaning. *)
From S2P Require Import Prelude PyString.
From Stdlib Require Import Ascii String.
#[local] Open Scope string_scope.

(** * Operations *)

(** [get_all_cpus]: the lists of [cpu_topology] one after the other. *)
Definition get_all_cpus (cpu_topology : list (string * list Z)) : list Z :=
  foldl (λ cpus c, (cpus ++ c)%list) [] (cpu_topology.*2).

(** [set(range(start, end + 1))] *)
Definition range_ids (start stop : Z) : gset Z :=
  list_to_set (seqZ start (stop + 1 - start)).

(** The body of the loop of [parse_cpu_spec] over the comma-separated rules. *)
Definition parse_rule (spec : string) (acc : gset Z * gset Z) (rule : string)
    : outcome (gset Z * gset Z) :=
  let '(cpuset_ids, cpuset_reject_ids) := acc in
  let rule := py_strip rule in
  if (String.length rule <? 1)%nat then Ret acc
  else
    match split_once "-" rule with
    | (part0, Some part1) =>
        let '(reject, part0) :=
          match part0 with
          | String c p => if Ascii.eqb c "^" then (true, p) else (false, part0)
          | EmptyString => (false, part0)
          end in
        match py_int (py_strip part0), py_int (py_strip part1) with
        | Some start, Some stop =>
            if (start >? stop)%Z then Exn (InvalidCPUSpec spec)
            else if negb reject
            then Ret (cpuset_ids ∪ range_ids start stop, cpuset_reject_ids)
            else Ret (cpuset_ids, cpuset_reject_ids ∪ range_ids start stop)
        | _, _ => Exn (InvalidCPUSpec spec)
        end
    | (_, None) =>
        match rule with
        | String c p =>
            if Ascii.eqb c "^" then
              match py_int (py_strip p) with
              | Some n => Ret (cpuset_ids, cpuset_reject_ids ∪ {[n]})
              | None => Exn (InvalidCPUSpec spec)
              end
            else
              match py_int rule with
              | Some n => Ret (cpuset_ids ∪ {[n]}, cpuset_reject_ids)
              | None => Exn (InvalidCPUSpec spec)
              end
        | EmptyString => Ret acc
        end
    end.

Definition parse_cpu_spec (spec : string) : outcome (gset Z) :=
  '(cpuset_ids, cpuset_reject_ids) ← ofold (parse_rule spec) (∅, ∅) (split_on "," spec);
  mret (cpuset_ids ∖ cpuset_reject_ids).

Definition format_cpu_spec (cpu_list : list Z) : string :=
  py_join "," (map py_str cpu_list).

Definition get_pci_address (domain bus slot func : string) : string :=
  domain ++ ":" ++ bus ++ ":" ++ slot ++ "." ++ func.

(** [get_pci_address_from_xml_device]: [get] is the element's attribute lookup;
    [None.replace] raises AttributeError. *)
Definition get_pci_address_from_xml_device (get : string → option string) : outcome string :=
  domain ← remove_pair "0" "x" <$> or_raise AttributeError (get "domain");
  bus ← remove_pair "0" "x" <$> or_raise AttributeError (get "bus");
  slot ← remove_pair "0" "x" <$> or_raise AttributeError (get "slot");
  func ← remove_pair "0" "x" <$> or_raise AttributeError (get "function");
  mret (get_pci_address domain bus slot func).

Example parse_cpu_spec_ex :
  parse_cpu_spec "1-4,^3, 6" = Ret ({[1; 2; 4; 6]} : gset Z) ∧
  parse_cpu_spec "^2,0-3" = Ret ({[0; 1; 3]} : gset Z) ∧
  parse_cpu_spec "0-7,^2-5" = Ret ({[0; 1; 6; 7]} : gset Z) ∧
  parse_cpu_spec "4-1" = Exn (InvalidCPUSpec "4-1") ∧
  parse_cpu_spec "-1" = Exn (InvalidCPUSpec "-1") ∧
  parse_cpu_spec "," = Ret (∅ : gset Z).
Proof. repeat split; vm_compute; reflexivity. Qed.

(** * Abstract specification of a CPU set *)

(** What one rule of a specification says. *)
Inductive cpu_rule :=
| Blank
| Include (lo hi : Z)
| Exclude (lo hi : Z).

(** A number, or a range of numbers with [lo <= hi]. *)
Definition read_interval (s : string) : option (Z * Z) :=
  match split_once "-" s with
  | (a, Some b) =>
      match py_int (py_strip a), py_int (py_strip b) with
      | Some lo, Some hi => if (lo <=? hi)%Z then Some (lo, hi) else None
      | _, _ => None
      end
  | (_, None) => (λ n, (n, n)) <$> py_int (py_strip s)
  end.

(** A rule is blank, an interval, or a caret and an interval. *)
Definition read_rule (rule : string) : option cpu_rule :=
  match py_strip rule with
  | EmptyString => Some Blank
  | String c p =>
      if Ascii.eqb c "^" then (λ '(lo, hi), Exclude lo hi) <$> read_interval p
      else (λ '(lo, hi), Include lo hi) <$> read_interval (String c p)
  end.

Definition includes (x : Z) (r : cpu_rule) : Prop :=
  match r with Include lo hi => lo <= x <= hi | _ => False end.
Definition excludes (x : Z) (r : cpu_rule) : Prop :=
  match r with Exclude lo hi => lo <= x <= hi | _ => False end.

(** [x] belongs to the CPU set of [rules]. *)
Definition denotes (rules : list cpu_rule) (x : Z) : Prop :=
  Exists (includes x) rules ∧ ¬ Exists (excludes x) rules.

(** The reading of a whole specification. *)
Definition read_spec (spec : string) : option (list cpu_rule) :=
  mapM read_rule (split_on "," spec).

(** * Lemmas *)
Lemma elem_of_range_ids x lo hi : x ∈ range_ids lo hi ↔ lo <= x <= hi.
Proof. unfold range_ids. rewrite elem_of_list_to_set, elem_of_seqZ. lia. Qed.

Lemma range_ids_single n : range_ids n n = {[n]}.
Proof. apply set_eq. intros x. rewrite elem_of_range_ids, elem_of_singleton. lia. Qed.

(** What a rule adds to the included and to the rejected ids. *)
Definition rule_step (acc : gset Z * gset Z) (r : cpu_rule) : gset Z * gset Z :=
  match r with
  | Blank => acc
  | Include lo hi => (acc.1 ∪ range_ids lo hi, acc.2)
  | Exclude lo hi => (acc.1, acc.2 ∪ range_ids lo hi)
  end.

Lemma parse_rule_read spec acc rule :
  parse_rule spec acc rule =
  match read_rule rule with
  | Some r => Ret (rule_step acc r)
  | None => Exn (InvalidCPUSpec spec)
  end.
Proof.
  destruct acc as [ids rej]. unfold parse_rule, read_rule, read_interval.
  destruct (py_strip rule) as [|c p] eqn:Hrule; [done|].
  assert (py_strip (String c p) = String c p) as Hidem.
  { rewrite <-Hrule. apply strip_by_idem. }
  change (String.length (String c p) <? 1)%nat with false. cbv iota.
  destruct (Ascii.eqb_spec c "^") as [->|Hc].
  - cbn [split_once]. change (Ascii.eqb "^" "-") with false. cbv iota.
    destruct (split_once "-" p) as [a [b|]]; simpl.
    + destruct (py_int (py_strip a)) as [lo|]; [|done].
      destruct (py_int (py_strip b)) as [hi|]; [|done].
      rewrite Z.gtb_ltb, Z.leb_antisym. by destruct (hi <? lo)%Z.
    + destruct (py_int (py_strip p)); simpl; [|done]. by rewrite range_ids_single.
  - destruct (split_once "-" (String c p)) as [a [b|]] eqn:Hs.
    + assert ((match a with
               | String c' p' => if Ascii.eqb c' "^" then (true, p') else (false, a)
               | EmptyString => (false, a) end) = (false, a)) as ->.
      { cbn [split_once] in Hs. destruct (Ascii.eqb c "-"); [by simplify_eq|].
        destruct (split_once "-" p) as [w r]. simplify_eq.
        by destruct (Ascii.eqb_spec c "^"). }
      destruct (py_int (py_strip a)) as [lo|]; [|done].
      destruct (py_int (py_strip b)) as [hi|]; [|done].
      rewrite Z.gtb_ltb, Z.leb_antisym. by destruct (hi <? lo)%Z.
    + rewrite Hidem. destruct (py_int (String c p)); simpl; [|done].
      by rewrite range_ids_single.
Qed.

Lemma parse_rules_read spec acc rules :
  ofold (parse_rule spec) acc rules =
  match mapM read_rule rules with
  | Some rs => Ret (foldl rule_step acc rs)
  | None => Exn (InvalidCPUSpec spec)
  end.
Proof.
  revert acc. induction rules as [|r rules IH]; intros acc; simpl; [done|].
  rewrite parse_rule_read. destruct (read_rule r) as [r'|]; simpl; [|done].
  rewrite IH. by destruct (mapM read_rule rules).
Qed.

Lemma foldl_rule_step acc rs x :
  (x ∈ (foldl rule_step acc rs).1 ↔ x ∈ acc.1 ∨ Exists (includes x) rs) ∧
  (x ∈ (foldl rule_step acc rs).2 ↔ x ∈ acc.2 ∨ Exists (excludes x) rs).
Proof.
  revert acc. induction rs as [|r rs IH]; intros [i e]; simpl.
  - rewrite !Exists_nil. naive_solver.
  - destruct (IH (rule_step (i, e) r)) as [-> ->]. rewrite !Exists_cons.
    destruct r; simpl; rewrite ?elem_of_union, ?elem_of_range_ids; naive_solver.
Qed.

(** [parse_cpu_spec] in one equation. *)
Lemma parse_cpu_spec_read spec :
  parse_cpu_spec spec =
  match read_spec spec with
  | Some rs => let '(i, e) := foldl rule_step (∅, ∅) rs in Ret (i ∖ e)
  | None => Exn (InvalidCPUSpec spec)
  end.
Proof.
  unfold parse_cpu_spec, read_spec. rewrite parse_rules_read.
  destruct (mapM read_rule _); simpl; [|done]. by destruct (foldl _ _ _).
Qed.

Lemma elem_of_denotes rs x :
  x ∈ (foldl rule_step (∅, ∅) rs).1 ∖ (foldl rule_step (∅, ∅) rs).2 ↔ denotes rs x.
Proof.
  destruct (foldl_rule_step (∅, ∅) rs x) as [Hi He]. simpl in *.
  rewrite elem_of_difference, Hi, He. unfold denotes. set_solver.
Qed.

Lemma parse_cpu_spec_Ret spec ids :
  parse_cpu_spec spec = Ret ids ↔
  ∃ rs, read_spec spec = Some rs ∧ ∀ x, x ∈ ids ↔ denotes rs x.
Proof.
  rewrite parse_cpu_spec_read. destruct (read_spec spec) as [rs|]; [|naive_solver].
  pose proof (elem_of_denotes rs) as H. destruct (foldl _ _ _) as [i e]. simpl in H.
  split; [intros; simplify_eq; eauto|]. intros (rs' & ? & Hids). simplify_eq.
  f_equal. apply set_eq. intros x. by rewrite Hids, H.
Qed.

Lemma read_interval_nonneg s lo hi : read_interval s = Some (lo, hi) → 0 <= lo.
Proof.
  unfold read_interval. destruct (split_once "-" s) as [a [b|]] eqn:E; intros H.
  - pose proof (split_once_fst "-" s) as Ha. rewrite E in Ha. simpl in Ha.
    repeat case_match; simplify_eq. eapply py_int_nonneg; [|done].
    by apply has_char_strip.
  - assert (has_char "-" s = false) as Hs.
    { pose proof (split_once_fst "-" s) as Ha. rewrite E in Ha. simpl in Ha.
      by rewrite <-(split_once_whole _ _ _ E). }
    apply fmap_Some in H as (n & Hn & ?). simplify_eq. eapply py_int_nonneg; [|done].
    by apply has_char_strip.
Qed.

Lemma includes_nonneg rule r x : read_rule rule = Some r → includes x r → 0 <= x.
Proof.
  unfold read_rule. destruct (py_strip rule) as [|c p]; [by intros; simplify_eq|].
  case_match; intros ([lo hi] & Hi & ->)%fmap_Some; simpl; [done|].
  apply read_interval_nonneg in Hi. lia.
Qed.

Lemma read_rule_number n : 0 <= n → read_rule (py_str n) = Some (Include n n).
Proof.
  intros Hn. unfold read_rule.
  rewrite (py_strip_digits (py_str n)) by by apply py_str_digits.
  destruct (py_str n) as [|c p] eqn:E.
  { pose proof (nat_digits_nonempty n Hn). rewrite <-py_str_nonneg in H by done. done. }
  pose proof (py_str_digits n Hn) as Hd. rewrite E in Hd. simpl in Hd.
  apply andb_true_iff in Hd as [Hc _]. rewrite (is_digit_not "^") by done.
  unfold read_interval. rewrite <-E, split_once_none by by apply py_str_no_char.
  rewrite py_strip_digits by by apply py_str_digits. by rewrite py_int_str.
Qed.

Lemma mapM_read_rule_numbers l :
  Forall (λ n, 0 <= n) l →
  mapM read_rule (map py_str l) = Some (map (λ n, Include n n) l).
Proof.
  induction 1 as [|n l Hn _ IH]; [done|]. simpl.
  by rewrite read_rule_number, IH.
Qed.

Lemma read_spec_join rules :
  rules ≠ [] → Forall (λ r, has_char "," r = false) rules →
  read_spec (py_join "," rules) = mapM read_rule rules.
Proof. intros. unfold read_spec. by rewrite split_on_join. Qed.

Lemma denotes_perm rs rs' x : rs ≡ₚ rs' → denotes rs x ↔ denotes rs' x.
Proof. intros H. unfold denotes. by rewrite H. Qed.

Lemma remove_pair_none c1 c2 s : has_char c2 s = false → remove_pair c1 c2 s = s.
Proof.
  induction s as [|a [|b s] IH]; intros H; [done|done|].
  change (has_char c2 (String a (String b s))) with
    (Ascii.eqb a c2 || has_char c2 (String b s)) in H.
  apply orb_false_iff in H as [Ha Hs].
  change (remove_pair c1 c2 (String a (String b s))) with
    (if Ascii.eqb a c1 && Ascii.eqb b c2 then remove_pair c1 c2 s
     else String a (remove_pair c1 c2 (String b s))).
  rewrite (IH Hs). simpl in Hs. apply orb_false_iff in Hs as [-> _].
  by rewrite andb_false_r.
Qed.

Lemma remove_0x s : has_char "x" s = false → remove_pair "0" "x" ("0x" ++ s) = s.
Proof. intros. simpl. by apply remove_pair_none. Qed.

(** * Theorems *)

(** C1: [parse_cpu_spec] implements the abstract reading of a specification: it
    returns exactly the CPUs some rule includes and no rule excludes, wherever
    the excluding rule stands, and it raises InvalidCPUSpec (and nothing else)
    exactly when some rule cannot be read. *)
Theorem parse_cpu_spec_correct (spec : string) :
  match parse_cpu_spec spec with
  | Ret ids => ∃ rs, read_spec spec = Some rs ∧ ∀ x, x ∈ ids ↔ denotes rs x
  | Exn e => e = InvalidCPUSpec spec ∧ read_spec spec = None
  | NoFuel => False
  end.
Proof.
  destruct (parse_cpu_spec spec) as [ids|e|] eqn:E.
  - by apply parse_cpu_spec_Ret.
  - rewrite parse_cpu_spec_read in E. destruct (read_spec spec); [|naive_solver].
    by destruct (foldl _ _ _).
  - rewrite parse_cpu_spec_read in E. destruct (read_spec spec); [|done].
    by destruct (foldl _ _ _).
Qed.

(** No specification, however written, yields a negative CPU id: a leading
    minus sign is read as a range separator. *)
Theorem parse_cpu_spec_nonneg (spec : string) (ids : gset Z) (x : Z) :
  parse_cpu_spec spec = Ret ids → x ∈ ids → 0 <= x.
Proof.
  intros (rs & Hrs & Hids)%parse_cpu_spec_Ret [Hx _]%Hids.
  eapply Exists_mapM in Hx as (rule & r & _ & Hr & Hx); [|exact Hrs].
  by eapply includes_nonneg.
Qed.

(** C37: [parse_cpu_spec(format_cpu_spec(l)) == set(l)] for every list of CPU ids. *)
Theorem parse_format_cpu_spec (l : list Z) :
  Forall (λ n, 0 <= n) l →
  parse_cpu_spec (format_cpu_spec l) = Ret (list_to_set l).
Proof.
  intros Hl. destruct l as [|n l]; [by vm_compute|].
  apply parse_cpu_spec_Ret. exists (map (λ n, Include n n) (n :: l)). split.
  - unfold format_cpu_spec. rewrite read_spec_join; [by apply mapM_read_rule_numbers|done|].
    apply Forall_map. eapply Forall_impl; [exact Hl|]. intros m Hm. by apply py_str_no_char.
  - intros x. rewrite elem_of_list_to_set. unfold denotes. rewrite !Exists_exists.
    setoid_rewrite list_elem_of_fmap. split; [intros Hx|].
    + split; [|by intros (? & (? & -> & _) & [])].
      exists (Include x x). simpl. split; [eauto|lia].
    + intros [(? & (m & -> & Hm) & Hx) _]. simpl in Hx. by replace x with m by lia.
Qed.

(** The order of the rules of a specification is irrelevant, exclusions
    included: reordering them gives the same set, and fails when it fails. *)
Theorem parse_cpu_spec_order (rules rules' : list string) (ids : gset Z) :
  rules ≡ₚ rules' → Forall (λ r, has_char "," r = false) rules →
  parse_cpu_spec (py_join "," rules) = Ret ids →
  parse_cpu_spec (py_join "," rules') = Ret ids.
Proof.
  intros Hp HF. destruct rules as [|r rules]; [by apply Permutation_nil_l in Hp as ->|].
  assert (rules' ≠ []) by (intros ->; by apply Permutation_nil_r in Hp).
  rewrite !parse_cpu_spec_Ret, !read_spec_join; [|done|by rewrite <-Hp|done|done].
  intros (rs & Hrs & Hids). destruct (mapM_perm _ _ _ _ Hp Hrs) as (rs' & ? & Hrs').
  exists rs'. split; [done|]. intros x. by rewrite Hids, (denotes_perm rs rs').
Qed.

(** A libvirt [<address>] element whose hexadecimal attributes carry the
    [0x] prefix becomes the [domain:bus:slot.function] form Nova stores; an
    element without one of the four attributes raises AttributeError. *)
Theorem pci_address_from_xml (get : string → option string) (d b s f : string) :
  Forall (λ v, has_char "x" v = false) [d; b; s; f] →
  get "domain" = Some ("0x" ++ d) → get "bus" = Some ("0x" ++ b) →
  get "slot" = Some ("0x" ++ s) → get "function" = Some ("0x" ++ f) →
  get_pci_address_from_xml_device get = Ret (d ++ ":" ++ b ++ ":" ++ s ++ "." ++ f).
Proof.
  rewrite !Forall_cons. intros (? & ? & ? & ? & _) Hd Hb Hs Hf.
  unfold get_pci_address_from_xml_device. rewrite Hd, Hb, Hs, Hf.
  unfold fmap, mbind, outcome_fmap, outcome_bind, or_raise. cbv beta iota.
  by rewrite !remove_0x.
Qed.

(** * Witnesses *)
Lemma parse_cpu_spec_nonneg_witness :
  parse_cpu_spec "3-5,^4" = Ret ({[3; 5]} : gset Z) ∧ 0 <= 5.
Proof.
  split; [vm_compute; reflexivity|].
  apply (parse_cpu_spec_nonneg "3-5,^4" {[3; 5]} 5); [vm_compute; reflexivity|set_solver].
Defined.

Lemma parse_format_cpu_spec_witness :
  parse_cpu_spec (format_cpu_spec [0; 2; 31]) = Ret (list_to_set [0; 2; 31]).
Proof. apply (parse_format_cpu_spec [0; 2; 31]). repeat constructor; lia. Defined.

Lemma parse_cpu_spec_order_witness :
  parse_cpu_spec (py_join "," ["^1"; "0-2"]) = Ret ({[0; 2]} : gset Z).
Proof.
  apply (parse_cpu_spec_order ["0-2"; "^1"] ["^1"; "0-2"] {[0; 2]});
    [constructor|repeat constructor|vm_compute; reflexivity].
Defined.

Lemma pci_address_from_xml_witness :
  get_pci_address_from_xml_device
    (dict_get [("domain", "0x0000"); ("bus", "0x3b"); ("slot", "0x02"); ("function", "0x1")])
  = Ret "0000:3b:02.1".
Proof.
  apply (pci_address_from_xml
    (dict_get [("domain", "0x0000"); ("bus", "0x3b"); ("slot", "0x02"); ("function", "0x1")])
    "0000" "3b" "02" "1"); repeat constructor.
Defined.
