(* ===== verification/PyVal.v ===== *)
(** Dynamic Python values: the JSON and YAML bodies the plugin receives from
    Nova, Neutron, Placement, the database and nodes.yaml, with subscripting,
    [.get], truth, equality, ordering and [list.sort()]. *)
From Stdlib Require Import Ascii String.
From S2P Require Import Prelude PyString.

(** Dictionary keys are strings, as in JSON; floats do not occur. *)
Inductive val :=
| VNone
| VBool (b : bool)
| VInt (z : Z)
| VStr (s : string)
| VList (l : list val)
| VDict (d : list (string * val)).

(** * Access *)

(** [v[k]] with a string key *)
Definition vget (v : val) (k : string) : outcome val :=
  match v with
  | VDict d => or_raise KeyError (dict_get d k)
  | _ => Exn TypeError
  end.

(** [v.get(k, dflt)] *)
Definition vget_or (v : val) (k : string) (dflt : val) : outcome val :=
  match v with
  | VDict d => Ret (default dflt (dict_get d k))
  | _ => Exn AttributeError
  end.

(** [v[i]] and [v[-1]] on a list *)
Definition vnth (v : val) (i : nat) : outcome val :=
  match v with VList l => or_raise IndexError (l !! i) | _ => Exn TypeError end.
Definition vlast (v : val) : outcome val :=
  match v with VList l => or_raise IndexError (last l) | _ => Exn TypeError end.

(** A value used where the API documents a string, an integer, a list. *)
Definition as_str (v : val) : outcome string :=
  match v with VStr s => Ret s | _ => Exn TypeError end.
Definition as_int (v : val) : outcome Z :=
  match v with VInt z => Ret z | _ => Exn TypeError end.
Definition as_list (v : val) : outcome (list val) :=
  match v with VList l => Ret l | _ => Exn TypeError end.
Definition as_dict (v : val) : outcome (list (string * val)) :=
  match v with VDict d => Ret d | _ => Exn AttributeError end.

(** [bool(v)] *)
Definition truthy (v : val) : bool :=
  match v with
  | VNone => false
  | VBool b => b
  | VInt z => negb (z =? 0)%Z
  | VStr s => negb (String.eqb s EmptyString)
  | VList l => negb (bool_decide (l = []))
  | VDict d => negb (bool_decide (d = []))
  end.

Definition truthy_str (s : string) : bool := negb (String.eqb s EmptyString).
Definition vopt_str (o : option string) : val :=
  match o with Some s => VStr s | None => VNone end.

(** ['%s' % v]; the quoting of special characters inside containers is not
    modelled. *)
Fixpoint py_repr (v : val) : string :=
  match v with
  | VNone => "None"
  | VBool b => if b then "True" else "False"
  | VInt z => py_str z
  | VStr s => "'" ++ s ++ "'"
  | VList l => "[" ++ py_join ", " (map py_repr l) ++ "]"
  | VDict d => "{" ++ py_join ", " (map (λ kx, "'" ++ kx.1 ++ "': " ++ py_repr kx.2) d) ++ "}"
  end%string.
Definition fmt (v : val) : string :=
  match v with VStr s => s | _ => py_repr v end.

(** * Equality and order *)
Definition num (v : val) : option Z :=
  match v with VBool b => Some (Z.b2z b) | VInt z => Some z | _ => None end.

(** [v == w]: [True == 1], dictionaries compare without regard to order. *)
Fixpoint py_eq (v w : val) {struct v} : bool :=
  match v, w with
  | VNone, VNone => true
  | VStr s, VStr t => String.eqb s t
  | VList l, VList k =>
      (fix go (l k : list val) {struct l} : bool :=
         match l, k with
         | [], [] => true
         | x :: l', y :: k' => py_eq x y && go l' k'
         | _, _ => false
         end) l k
  | VDict d, VDict e =>
      (length d =? length e)%nat &&
      forallb (λ '(k, x), match dict_get e k with Some y => py_eq x y | None => false end) d
  | _, _ => match num v, num w with Some a, Some b => (a =? b)%Z | _, _ => false end
  end.

(** [v < w]; [None] is TypeError. *)
Fixpoint py_lt (v w : val) {struct v} : option bool :=
  match v, w with
  | VStr s, VStr t => Some (String.ltb s t)
  | VList l, VList k =>
      (fix go (l k : list val) {struct l} : option bool :=
         match l, k with
         | x :: l', y :: k' => if py_eq x y then go l' k' else py_lt x y
         | [], _ :: _ => Some true
         | _, [] => Some false
         end) l k
  | _, _ => match num v, num w with Some a, Some b => Some (a <? b)%Z | _, _ => None end
  end.

(** Stable insertion, moving past the strictly smaller elements. *)
Fixpoint py_insert (x : val) (l : list val) : list val :=
  match l with
  | [] => [x]
  | y :: l' =>
      if default false (py_lt y x) then y :: py_insert x l' else x :: l
  end.

(** [l.sort()]: TypeError as soon as two elements cannot be ordered. Any
    comparison sort compares elements that end up adjacent, so it meets an
    unorderable pair exactly when there is one. *)
Definition py_sort (l : list val) : outcome (list val) :=
  if (length l <=? 1)%nat then Ret l
  else if forallb (λ x, forallb (λ y, bool_decide (is_Some (py_lt x y))) l) l
  then Ret (foldr py_insert [] l)
  else Exn TypeError.

Fixpoint vdepth (v : val) : nat :=
  match v with
  | VList l => S (foldr (λ x n, Nat.max (vdepth x) n) 0%nat l)
  | VDict d => S (foldr (λ kx n, Nat.max (vdepth kx.2) n) 0%nat d)
  | _ => 0%nat
  end.

(** Structural induction that reaches into lists and dictionaries. *)
Lemma val_ind' (P : val → Prop) :
  P VNone → (∀ b, P (VBool b)) → (∀ z, P (VInt z)) → (∀ s, P (VStr s)) →
  (∀ l, Forall P l → P (VList l)) →
  (∀ d, Forall (λ kx, P kx.2) d → P (VDict d)) → ∀ v, P v.
Proof.
  intros Hn Hb Hz Hs Hl Hd. fix IH 1. intros [|b|z|s|l|d].
  - exact Hn.
  - exact (Hb b).
  - exact (Hz z).
  - exact (Hs s).
  - apply Hl. induction l as [|x l IHl]; constructor; [apply IH|apply IHl].
  - apply Hd. induction d as [|[k x] d IHd]; constructor; [apply IH|apply IHd].
Qed.
