(* ===== verification/Xml.v ===== *)
(** The part of xml.etree.ElementTree the plugin uses: elements, [get],
    [find]/[findall] with child and descendant steps, [@attr='value'] and [@attr]
    predicates and [..], [iter], and the truth value of an element.
    Nodes are addressed by their position below the element the search starts
    from, which gives [..] its element identity. *)
From Stdlib Require Import Ascii String.
From S2P Require Import Prelude PyString.

Inductive elem :=
| Elem (tag : string) (attrib : list (string * string)) (text : option string)
       (children : list elem).

Definition elem_tag (e : elem) : string := let '(Elem t _ _ _) := e in t.
Definition elem_attrib (e : elem) : list (string * string) := let '(Elem _ a _ _) := e in a.
Definition elem_text (e : elem) : option string := let '(Elem _ _ t _) := e in t.
Definition elem_children (e : elem) : list elem := let '(Elem _ _ _ c) := e in c.

(** [e.get(k)], which is also [e.attrib.get(k)] *)
Definition elem_get (e : elem) (k : string) : option string := dict_get (elem_attrib e) k.

(** Steps of a path; the initial [.] and the slashes are implicit. *)
Inductive xstep :=
| Child (tag : string)
| Descendant (tag : string)          (* [//tag] *)
| AttrIs (k v : string)
| HasAttr (k : string)
| Parent.

Abbreviation pos := (list nat).

Fixpoint elem_at (e : elem) (p : pos) : option elem :=
  match p with
  | [] => Some e
  | i :: p' => c ← elem_children e !! i; elem_at c p'
  end.

Definition child_positions (root : elem) (tag : string) (p : pos) : list pos :=
  match elem_at root p with
  | Some e =>
      omap (λ ic, if String.eqb (elem_tag ic.2) tag then Some (p ++ [ic.1]) else None)
           (imap pair (elem_children e))
  | None => []
  end.

(** The positions below an element, in document order *)
Fixpoint below (e : elem) : list pos :=
  let '(Elem _ _ _ cs) := e in
  (fix go (i : nat) (cs : list elem) : list pos :=
     match cs with
     | [] => []
     | c :: cs' => [i] :: map (cons i) (below c) ++ go (S i) cs'
     end) 0%nat cs.

Definition descendant_positions (root : elem) (tag : string) (p : pos) : list pos :=
  match elem_at root p with
  | Some e => filter (λ q, elem_tag <$> elem_at root q = Some tag) (map (app p) (below e))
  | None => []
  end.

Fixpoint dedup (seen ps : list pos) : list pos :=
  match ps with
  | [] => []
  | p :: ps' => if decide (p ∈ seen) then dedup seen ps' else p :: dedup (p :: seen) ps'
  end.

Definition select (root : elem) (ps : list pos) (st : xstep) : list pos :=
  match st with
  | Child tag => ps ≫= child_positions root tag
  | Descendant tag => ps ≫= descendant_positions root tag
  | HasAttr k => filter (λ p, is_Some (elem_at root p ≫= λ e, elem_get e k)) ps
  | AttrIs k v =>
      filter (λ p, (elem_at root p ≫= λ e, elem_get e k) = Some v) ps
  | Parent => dedup [] (omap (λ p, if bool_decide (p = []) then None else Some (removelast p)) ps)
  end.

Definition findall (root : elem) (path : list xstep) : list elem :=
  omap (elem_at root) (foldl (select root) [[]] path).

Definition find (root : elem) (path : list xstep) : option elem := head (findall root path).

(** [e.iter()]: the element and everything below it, in document order *)
Definition elem_iter (e : elem) : list elem := e :: omap (elem_at e) (below e).

(** [bool(e)]: whether the element has children *)
Definition elem_truthy (e : elem) : bool := negb (bool_decide (elem_children e = [])).

(** [e.items()] *)
Definition elem_items (e : elem) : list (string * string) := elem_attrib e.

(** Elements reached by a path of child steps only, by recursion on the path. *)
Fixpoint descend (e : elem) (tags : list string) : list elem :=
  match tags with
  | [] => [e]
  | t :: tags' => filter (λ c, elem_tag c = t) (elem_children e) ≫= λ c, descend c tags'
  end.

(** * Lemmas *)
Lemma elem_at_app root p q :
  elem_at root (p ++ q) = (elem_at root p ≫= λ e, elem_at e q).
Proof.
  revert root. induction p as [|i p IH]; intros root; simpl; [done|].
  destruct (elem_children root !! i); simpl; [apply IH|done].
Qed.

Lemma elem_at_child root p e i :
  elem_at root p = Some e → elem_at root (p ++ [i]) = elem_children e !! i.
Proof.
  intros H. rewrite elem_at_app, H. simpl. by destruct (elem_children e !! i).
Qed.

Lemma list_omap_step {A B} (f : A → option B) x l :
  omap f (x :: l) = match f x with Some y => y :: omap f l | None => omap f l end.
Proof. done. Qed.

Lemma child_positions_elems root tag p e :
  elem_at root p = Some e →
  omap (elem_at root) (child_positions root tag p) =
  filter (λ c, elem_tag c = tag) (elem_children e).
Proof.
  intros He. unfold child_positions. rewrite He.
  assert (∀ n cs, (∀ i c, cs !! i = Some c → elem_children e !! (n + i)%nat = Some c) →
    omap (elem_at root)
      (omap (λ ic, if String.eqb (elem_tag ic.2) tag then Some (p ++ [ic.1]) else None)
         (imap (λ i c, ((n + i)%nat, c)) cs)) =
    filter (λ c, elem_tag c = tag) cs) as Hgen.
  { intros n cs. revert n. induction cs as [|c cs IH]; intros n Hcs; [done|].
    assert (omap (elem_at root)
      (omap (λ ic, if String.eqb (elem_tag ic.2) tag then Some (p ++ [ic.1]) else None)
         (imap ((λ i c, ((n + i)%nat, c)) ∘ S) cs)) = filter (λ c, elem_tag c = tag) cs) as IH'.
    { rewrite <-(IH (S n)).
      - do 2 f_equal. apply imap_ext. intros i x _. simpl. f_equal. lia.
      - intros i x Hx. replace (S n + i)%nat with (n + S i)%nat by lia. by apply Hcs. }
    rewrite imap_cons. generalize dependent (imap ((λ i c, ((n + i)%nat, c)) ∘ S) cs).
    intros tl IH'. rewrite list_omap_step, filter_cons. cbn [fst snd]. destruct (String.eqb_spec (elem_tag c) tag) as [Heq|Hne].
    - rewrite decide_True by done. rewrite list_omap_step, (elem_at_child root p e) by done.
      by rewrite (Hcs 0%nat c eq_refl), IH'.
    - rewrite decide_False by done. apply IH'. }
  rewrite <-(Hgen 0%nat (elem_children e)); [|done]. done.
Qed.

Lemma omap_elem_at_bind root tag ps :
  omap (elem_at root) (ps ≫= child_positions root tag) =
  (omap (elem_at root) ps ≫= λ e, filter (λ c, elem_tag c = tag) (elem_children e)).
Proof.
  induction ps as [|p ps IH]; [done|].
  change ((p :: ps) ≫= child_positions root tag)
    with (child_positions root tag p ++ (ps ≫= child_positions root tag)).
  rewrite omap_app, IH, list_omap_step.
  destruct (elem_at root p) as [e|] eqn:He.
  - by rewrite (child_positions_elems root tag p e).
  - unfold child_positions. by rewrite He.
Qed.

Lemma bind_bind {A B D} (f : A → list B) (g : B → list D) l :
  ((l ≫= f) ≫= g) = (l ≫= λ x, f x ≫= g).
Proof. induction l as [|x l IH]; [done|]. by rewrite !bind_cons, bind_app, IH. Qed.

Lemma findall_steps root ps tags :
  omap (elem_at root) (foldl (select root) ps (map Child tags)) =
  (omap (elem_at root) ps ≫= λ e, descend e tags).
Proof.
  revert ps. induction tags as [|t tags IH]; intros ps; simpl.
  - generalize (omap (elem_at root) ps). intros l.
    induction l as [|x l IHl]; [done|]. exact (f_equal (cons x) IHl).
  - rewrite IH, omap_elem_at_bind. apply bind_bind.
Qed.

(** A path of child steps finds what recursive descent finds, in document order. *)
Lemma findall_children root tags : findall root (map Child tags) = descend root tags.
Proof.
  unfold findall. rewrite findall_steps. simpl. by rewrite app_nil_r.
Qed.

(** * Selecting an element by one of its children *)
Lemma child_positions_shape root tag p q :
  q ∈ child_positions root tag p → ∃ i, q = p ++ [i].
Proof.
  unfold child_positions. destruct (elem_at root p); [|by intros ?%elem_of_nil].
  intros ([i c] & _ & H)%list_elem_of_omap. simpl in H.
  destruct (String.eqb _ _); [|done]. injection H as <-. by exists i.
Qed.

Lemma omap_NoDup {A B} (f : A → option B) l :
  NoDup l → (∀ x y z, f x = Some z → f y = Some z → x = y) → NoDup (omap f l).
Proof.
  intros Hl Hf. induction Hl as [|x l Hx _ IH]; [constructor|].
  rewrite list_omap_step. destruct (f x) as [z|] eqn:Hz; [|done]. constructor; [|done].
  intros (y & Hy & Hyz)%list_elem_of_omap. by rewrite (Hf x y z) in Hx.
Qed.

Lemma imap_pair_NoDup {A} (l : list A) : NoDup (imap pair l).
Proof.
  apply NoDup_alt. intros i j x. rewrite !list_lookup_imap.
  destruct (l !! i), (l !! j); simpl; congruence.
Qed.

Lemma child_positions_NoDup root tag p : NoDup (child_positions root tag p).
Proof.
  unfold child_positions. destruct (elem_at root p) as [e|]; [|constructor].
  (* positions determine the pair, as both come from the same list *)
  induction (elem_children e) as [|c cs IH] using rev_ind; [constructor|].
  rewrite imap_app, omap_app. apply NoDup_app. split; [done|]. split; [|].
  - intros q ([i x] & Hi & Hq)%list_elem_of_omap ([j y] & Hj & Hq')%list_elem_of_omap.
    apply elem_of_lookup_imap in Hi as (i' & x' & [= <- <-] & Hi).
    apply elem_of_lookup_imap in Hj as (j' & y' & [= -> <-] & _).
    simpl in *. destruct (String.eqb _ _), (String.eqb _ _); try done.
    injection Hq as <-. injection Hq' as Hij%app_inj_tail%proj2.
    apply lookup_lt_Some in Hi. lia.
  - simpl. destruct (String.eqb _ _); repeat constructor. by intros ?%elem_of_nil.
Qed.

Lemma bind_positions_NoDup root tag ps :
  NoDup ps → NoDup (ps ≫= child_positions root tag).
Proof.
  induction 1 as [|p ps Hp _ IH]; [constructor|]. rewrite bind_cons. apply NoDup_app.
  split; [apply child_positions_NoDup|]. split; [|done].
  intros q (i & ->)%child_positions_shape (p' & (j & Hq)%child_positions_shape & Hp')%list_elem_of_bind.
  by apply app_inj_tail in Hq as [-> ->].
Qed.

Lemma steps_NoDup root tags ps :
  NoDup ps → NoDup (foldl (select root) ps (map Child tags)).
Proof.
  revert ps. induction tags as [|t tags IH]; intros ps Hps; [done|].
  simpl. apply IH, bind_positions_NoDup, Hps.
Qed.

(** Removing repetitions from runs of one value each keeps the values whose
    run is not empty. *)
Lemma dedup_runs {A} (run : pos → list A) ps seen :
  NoDup ps → (∀ p, p ∈ ps → p ∉ seen) →
  dedup seen (ps ≫= λ p, map (λ _, p) (run p)) = filter (λ p, run p ≠ []) ps.
Proof.
  intros Hps. revert seen. induction Hps as [|p ps Hp _ IH]; intros seen Hseen; [done|].
  rewrite bind_cons.
  assert (∀ n l r, p ∈ n → dedup n (map (λ _ : A, p) l ++ r) = dedup n r) as Hskip.
  { intros n l r Hn. induction l as [|x l IHl]; simpl; [done|]. by rewrite decide_True. }
  destruct (run p) as [|x l] eqn:Hr.
  - rewrite filter_cons_False by (by intros []). apply IH. set_solver.
  - rewrite filter_cons_True by (by rewrite Hr). simpl.
    rewrite decide_False by set_solver. f_equal.
    rewrite Hskip by set_solver. apply IH. set_solver.
Qed.

Section by_child.
Context (root : elem) (k v t k' v' : string).

Definition attr_at (a x : string) (p : pos) : Prop :=
  (elem_at root p ≫= λ e, elem_get e a) = Some x.

Definition has_child (e : elem) : Prop :=
  Exists (λ c, elem_tag c = t ∧ elem_get c k' = Some v') (elem_children e).

#[global] Instance attr_at_dec a x p : Decision (attr_at a x p).
Proof. unfold attr_at. apply _. Defined.
#[global] Instance has_child_dec e : Decision (has_child e).
Proof. unfold has_child. apply _. Defined.

Definition picked (p : pos) : list pos :=
  filter (attr_at k' v') (child_positions root t p).

Lemma omap_parent_picked p :
  omap (λ q, if bool_decide (q = []) then None else Some (removelast q)) (picked p)
  = map (λ _, p) (picked p).
Proof.
  assert (∀ q, q ∈ picked p → ∃ i, q = p ++ [i]) as H.
  { intros q [_ Hq]%list_elem_of_filter. by eapply child_positions_shape. }
  induction (picked p) as [|q l IH]; [done|]. rewrite list_omap_step.
  destruct (H q) as (i & ->); [set_solver|].
  rewrite bool_decide_eq_false_2 by (by destruct p). rewrite removelast_last. simpl.
  f_equal. apply IH. set_solver.
Qed.

Lemma filter_bind {A B} (P : B → Prop) `{∀ x, Decision (P x)} (f : A → list B) l :
  filter P (l ≫= f) = (l ≫= λ x, filter P (f x)).
Proof. induction l as [|x l IH]; [done|]. by rewrite !bind_cons, filter_app, IH. Qed.

Lemma omap_bind_parent ps :
  omap (λ q, if bool_decide (q = []) then None else Some (removelast q)) (ps ≫= picked)
  = (ps ≫= λ p, map (λ _, p) (picked p)).
Proof.
  induction ps as [|p ps IH]; [done|].
  by rewrite !bind_cons, omap_app, omap_parent_picked, IH.
Qed.

Lemma picked_has_child p e :
  elem_at root p = Some e → picked p ≠ [] ↔ has_child e.
Proof.
  intros He. unfold has_child. rewrite Exists_exists. split.
  - intros Hne. destruct (picked p) as [|q l] eqn:Hp; [done|].
    assert (q ∈ picked p) as Hq by (rewrite Hp; set_solver).
    apply list_elem_of_filter in Hq as [Hattr Hq].
    unfold attr_at in Hattr. destruct (elem_at root q) as [c|] eqn:Hc; [|done].
    exists c. pose proof (child_positions_elems root t p e He) as Helems.
    assert (c ∈ omap (elem_at root) (child_positions root t p)) as Hin
      by (apply list_elem_of_omap; eauto).
    rewrite Helems in Hin. apply list_elem_of_filter in Hin as [??]. done.
  - intros (c & Hc & Htag & Hattr) Hnil.
    assert (c ∈ omap (elem_at root) (child_positions root t p)) as Hin.
    { rewrite (child_positions_elems root t p e He). by apply list_elem_of_filter. }
    apply list_elem_of_omap in Hin as (q & Hq & Hqc).
    assert (q ∈ picked p) as Hp; [|rewrite Hnil in Hp; by apply elem_of_nil in Hp].
    apply list_elem_of_filter. split; [|done]. unfold attr_at. by rewrite Hqc.
Qed.

Lemma omap_elem_filter (P : pos → Prop) (Q : elem → Prop) `{∀ p, Decision (P p)}
    `{∀ e, Decision (Q e)} (ps : list pos) :
  (∀ p e, elem_at root p = Some e → P p ↔ Q e) →
  omap (elem_at root) (filter P ps) = filter Q (omap (elem_at root) ps).
Proof.
  intros HPQ. induction ps as [|p ps IH]; [done|].
  rewrite filter_cons, !list_omap_step. destruct (elem_at root p) as [e|] eqn:He.
  - rewrite filter_cons. destruct (decide (P p)) as [Hp|Hp].
    + rewrite list_omap_step, He, decide_True by (by apply (HPQ p e)). by rewrite IH.
    + rewrite decide_False by (by rewrite <-(HPQ p e)). apply IH.
  - destruct (decide (P p)); [|apply IH]. by rewrite list_omap_step, He, IH.
Qed.

(** [./tags[@k='v']/t[@k'='v']/..] finds, in document order and once each, the
    elements below [tags] with that attribute and at least one such child. *)
Lemma findall_by_child tags :
  findall root (map Child tags ++ [AttrIs k v; Child t; AttrIs k' v'; Parent]) =
  filter (λ e, elem_get e k = Some v ∧ has_child e) (descend root tags).
Proof.
  rewrite <-findall_children. unfold findall. rewrite foldl_app.
  pose proof (steps_NoDup root tags [[]] (NoDup_singleton _)) as Hnd.
  generalize dependent (foldl (select root) [[]] (map Child tags)). intros ps Hnd.
  simpl. change (filter (λ p, (elem_at root p ≫= λ e, elem_get e k) = Some v) ps)
    with (filter (attr_at k v) ps).
  rewrite filter_bind. change (λ x, filter _ (child_positions root t x)) with picked.
  rewrite omap_bind_parent, dedup_runs;
    [|by apply NoDup_filter|by intros ? _ ?%elem_of_nil].
  rewrite list_filter_filter. apply omap_elem_filter. intros p e He.
  rewrite (picked_has_child p e He). unfold attr_at. rewrite He. simpl. tauto.
Qed.
End by_child.

(** [./tags[@k='v']] finds the elements below [tags] with that attribute. *)
Lemma findall_by_attr root tags k v :
  findall root (map Child tags ++ [AttrIs k v]) =
  filter (λ e, elem_get e k = Some v) (descend root tags).
Proof.
  rewrite <-findall_children. unfold findall. rewrite foldl_app. simpl.
  apply omap_elem_filter. intros p e He. by rewrite He.
Qed.

(** * Descendants *)

(** Everything below an element, by recursion on the tree *)
Fixpoint offspring (e : elem) : list elem :=
  let '(Elem _ _ _ cs) := e in
  (fix go (cs : list elem) : list elem :=
     match cs with [] => [] | c :: cs' => c :: offspring c ++ go cs' end) cs.

Lemma elem_ind' (P : elem → Prop) :
  (∀ t a x cs, Forall P cs → P (Elem t a x cs)) → ∀ e, P e.
Proof.
  intros H. fix IH 1. intros [t a x cs]. apply H.
  induction cs as [|c cs IHcs]; constructor; [apply IH|apply IHcs].
Qed.

Lemma omap_map_cons e i c (ps : list pos) :
  elem_children e !! i = Some c → omap (elem_at e) (map (cons i) ps) = omap (elem_at c) ps.
Proof.
  intros Hc. induction ps as [|p ps IH]; [done|]. simpl map. rewrite !list_omap_step, IH.
  simpl. by rewrite Hc.
Qed.

Lemma below_offspring e : omap (elem_at e) (below e) = offspring e.
Proof.
  induction e as [t a x cs IH] using elem_ind'. cbn [below offspring].
  assert (∀ n l, (∀ i c, l !! i = Some c → cs !! (n + i)%nat = Some c) → Forall (λ c, c ∈ cs) l →
    omap (elem_at (Elem t a x cs))
      ((fix go (i : nat) (cs : list elem) : list pos :=
          match cs with [] => [] | c :: cs' => [i] :: map (cons i) (below c) ++ go (S i) cs' end) n l) =
    (fix go (cs : list elem) : list elem :=
       match cs with [] => [] | c :: cs' => c :: offspring c ++ go cs' end) l) as Hgo;
    [|apply (Hgo 0%nat cs); [done|by apply Forall_forall]].
  intros n l. revert n. induction l as [|c l IHl]; intros n Hl Hin; [done|].
  apply Forall_cons in Hin as [Hc Hin].
  assert (cs !! n = Some c) as Hn by (rewrite <-(Nat.add_0_r n); by apply Hl).
  rewrite list_omap_step, omap_app. cbn [elem_at elem_children]. rewrite Hn. simpl. f_equal.
  rewrite (omap_map_cons _ n c) by done. rewrite Forall_forall in IH. rewrite (IH c) by done.
  f_equal. apply IHl; [|done]. intros i d Hd. replace (S n + i)%nat with (n + S i)%nat by lia. by apply Hl.
Qed.

(** [.//tag] finds the elements of that tag below the root, in document order. *)
Lemma findall_descendants root tag :
  findall root [Descendant tag] = filter (λ e, elem_tag e = tag) (offspring root).
Proof.
  rewrite <-below_offspring. unfold findall. cbn [foldl select].
  rewrite bind_cons. change ([] ≫= descendant_positions root tag) with (@nil pos). rewrite app_nil_r.
  unfold descendant_positions. cbn [elem_at].
  assert (∀ l : list pos, map (app []) l = l) as Hid by (intros l; apply map_id).
  rewrite Hid. apply omap_elem_filter. intros p e He. rewrite He. simpl. naive_solver.
Qed.
