(* ===== verification/Env.v ===== *)
(** The environment of the plugin: the CONF object, the services it calls, the
    state a test run threads through, and context managers.

    Everything outside the repository is a field of the class [cloud]: the SSH
    transport, the REST clients, tempest's own base-class methods and local files
    (one operation [api], named by client and method), the clock, YAML and XML
    parsing. Nothing is assumed of them here; theorems that need the documented
    behaviour of one of them take it as a named hypothesis. *)
From Stdlib Require Import Ascii String.
From S2P Require Import Prelude PyString PyVal Xml.

(** * CONF *)
Class conf := {
  (* [whitebox] *)
  nodes_yaml : string;
  ctlplane_ssh_username : string;
  ctlplane_ssh_private_key_path : string;
  containers : bool;
  ctlplane_addresses : list (string * string);   (* unset is empty *)
  max_compute_nodes : Z;
  container_runtime : string;
  flavor_volume_size : Z;
  flavor_ram_size : Z;
  file_backed_memory_size : Z;
  hugepage_guest_ram_size : Z;
  rx_queue_size : option Z;
  available_cinder_storage : Z;
  max_disk_devices_to_attach : option Z;
  provider_config_location : string;
  http_iso_image : string;
  selinux_label : option string;
  selinux_imagelabel : option string;
  cpu_model : option string;
  cpu_model_extra_flags : option (list string);
  pmem_flavor_size : option string;
  pmem_expected_size : option string;
  default_video_model : option string;
  (* [whitebox-nova-compute] *)
  log_query_command : string;
  journalctl_unit : string;
  state_path : string;
  (* [whitebox-database] *)
  db_host : string;
  db_internal_ip : option string;
  db_user : string;
  db_password : string;
  nova_cell1_db_name : string;
  ssh_gateway_port : Z;
  (* [whitebox-hardware] *)
  smt_hosts : list string;
  cpu_topology : option (list (string * list Z));
  dedicated_cpus_per_numa : Z;
  shared_cpus_per_numa : Z;
  realtime_mask : option string;
  configured_hugepage_sizes : list Z;
  vdpa_physnet : option string;
  vdpa_vlan_id : option Z;
  vgpu_vendor_id : option string;
  sriov_nic_vendor_id : option string;
  sriov_vf_product_id : option string;
  sriov_pf_product_id : option string;
  macvtap_virtio_vendor_id : option string;
  macvtap_virtio_product_id : option string;
  sriov_physnet : option string;
  sriov_vnic_type : option string;
  sriov_vlan_id : option Z;
  physnet_numa_affinity : option Z;
  vgpu_type_mapping : option (list (string * string));
  socket_affinity : option Z;
  socket_topology : option (list (string * list Z));
  pci_passthrough_alias : option string;
  pci_passthrough_addresses : option (list string);
  pci_passthrough_resource_class : option string;
  (* [compute], [network] and the top level, registered by tempest *)
  build_timeout : Z;
  build_interval : Z;
  image_ref : string;
  image_ref_alt : string;
  max_microversion : string;
  min_compute_nodes : Z;
  project_network_cidr : string;
  resource_name_prefix : string;
  (* [compute-feature-enabled] *)
  iothreads_enabled : bool;
  vdpa_cold_migration_supported : bool;
  cpu_power_management : bool;
  virtio_rng : bool;
  rbd_download : bool;
  sriov_hotplug : bool;
  supports_image_level_numa_affinity : bool;
  supports_port_level_numa_affinity : bool;
  uefi_boot : bool;
  uefi_secure_boot : bool;
  vtpm_device_supported : bool;
  vtpm_live_migration_supported : bool;
  vgpu_cold_migration_supported : bool;
  stable_compute_uuid_supported : bool;
  bochs_display_support : bool;
  vencrypt : bool;
  live_migration_enabled : bool;                 (* tempest's own, as the rest *)
  volume_backed_live_migration : bool;
  resize_enabled : bool;
  live_migrate_back_and_forth : bool;
  console_output : bool;
  unified_limits : bool;
  attach_encrypted_volume : bool;
  (* [image], [service_available] and [validation] *)
  image_disk_formats : list string;
  image_container_formats : list string;
  cinder_available : bool;
  run_validation : bool;
}.

(** * Outside services *)

(** Keyword arguments of a call. *)
Abbreviation kwargs := (list (string * val)).

Class cloud (W : Type) := {
  (** [tempest.lib.common.ssh.Client(host, user, key_filename=key).exec_command(cmd)] *)
  ssh_exec_command : string → string → string → string → W → outcome string * W;
  (** [<client>.<method>] with keyword arguments, of a REST client, of tempest's base test
      class, of pymysql or sshtunnel *)
  api_call : string → kwargs → W → outcome val * W;
  (** [int(time.time())] and [time.sleep(n)] *)
  time_time : W → Z * W;
  time_sleep : Z → W → W;
  (** [yaml.safe_load(open(path))] *)
  yaml_load_file : string → W → outcome val * W;
  (** [ET.fromstring], [json.loads] *)
  et_fromstring : string → outcome elem;
  json_loads : string → outcome val;
}.

(** * State *)

(** Actions registered with [addCleanup], run after the test, and with
    [addClassResourceCleanup], run after the tests of the class; last one first. *)
Inductive cleanup :=
| CleanupCall (method : string) (args : kwargs)
| AdminDeleteServer (server_id : string)
| CleanupVolumeType (volume_type : val)
| ClassCleanup (method : string) (args : kwargs).

(** The module global [utils._nodes], the cleanups of the running test, and
    the outside world. *)
Record pystate (W : Type) := mkState {
  st_nodes : option val;
  st_cleanups : list cleanup;
  st_world : W;
}.
Arguments mkState {W}.
Arguments st_nodes {W}.
Arguments st_cleanups {W}.
Arguments st_world {W}.

Section primitives.
Context {W : Type} `{C : cloud W}.
Abbreviation P := (M (pystate W)).

Definition in_world {A} (f : W → outcome A * W) : P A := λ s,
  let '(o, w) := f (st_world s) in (o, mkState (st_nodes s) (st_cleanups s) w).

Definition ssh_exec (addr user key cmd : string) : P string :=
  in_world (ssh_exec_command addr user key cmd).
Definition api (method : string) (args : kwargs) : P val := in_world (api_call method args).
Definition now : P Z := in_world (λ w, let '(t, w') := time_time w in (Ret t, w')).
Definition sleep (n : Z) : P unit := in_world (λ w, (Ret tt, time_sleep n w)).
Definition load_yaml (path : string) : P val := in_world (yaml_load_file path).
Definition fromstring (xml : string) : P elem := lift (et_fromstring xml).

Definition get_nodes : P (option val) := gets st_nodes.
Definition set_nodes (v : val) : P unit :=
  modify (λ s, mkState (Some v) (st_cleanups s) (st_world s)).

(** [self.addCleanup(...)] *)
Definition add_cleanup (c : cleanup) : P unit :=
  modify (λ s, mkState (st_nodes s) (c :: st_cleanups s) (st_world s)).
End primitives.

(** * Context managers

    A [@contextmanager] generator of the shape [setup; try: yield finally:
    teardown]: [cm_enter] is the code before the [yield], [cm_exit] the code
    after it, which sees the locals of the first part. *)
Record context_manager (S : Type) := mkCM {
  cm_locals : Type;
  cm_enter : M S cm_locals;
  cm_exit : cm_locals → M S unit;
}.
Arguments mkCM {S cm_locals}.
Arguments cm_locals {S}.
Arguments cm_enter {S}.
Arguments cm_exit {S}.

(** [with cm as x: body] and [with cm: body] *)
Definition with_as {S A} (cm : context_manager S) (body : cm_locals cm → M S A) : M S A :=
  x ← cm_enter cm; try_finally (body x) (cm_exit cm x).
Definition with_cm {S A} (cm : context_manager S) (body : M S A) : M S A :=
  with_as cm (λ _, body).

(** [contextlib.ExitStack]: a stack of pending exits. Leaving it runs them last
    one first; each runs whatever the ones before it did, and the last
    exception raised wins. *)
Fixpoint unwind {S A} (exits : list (M S unit)) (r : outcome A * S) : outcome A * S :=
  match exits with
  | [] => r
  | e :: exits' => unwind exits' (try_finally (λ _, r) e r.2)
  end.

Fixpoint enter_all {S A} (cms : list (context_manager S)) (exits : list (M S unit))
    (body : M S A) : M S A := λ s,
  match cms with
  | [] => unwind exits (body s)
  | cm :: cms' =>
      match cm_enter cm s with
      | (Ret x, s') => enter_all cms' (cm_exit cm x :: exits) body s'
      | (Exn e, s') => unwind exits (Exn e, s')
      | (NoFuel, s') => unwind exits (NoFuel, s')
      end
  end.

(** [with ExitStack() as stack: [stack.enter_context(m) for m in cms]; body] *)
Definition exit_stack {S A} (cms : list (context_manager S)) (body : M S A) : M S A :=
  enter_all cms [] body.

(** The nest of [with] statements it stands for. *)
Definition nested {S A} (cms : list (context_manager S)) (body : M S A) : M S A :=
  foldr (λ cm b, with_cm cm b) body cms.

(** * Lemmas *)
Lemma enter_all_unwind {S A} (cms : list (context_manager S)) exits (body : M S A) s :
  enter_all cms exits body s = unwind exits (nested cms body s).
Proof.
  revert exits s. induction cms as [|cm cms IH]; intros exits s; simpl; [done|].
  unfold with_cm, with_as. rewrite bind_run. destruct (cm_enter cm s) as [[x|e|] s']; [|done|done].
  rewrite IH. simpl. unfold try_finally.
  by destruct (nested cms body s') as [[]].
Qed.

(** A [with] statement that returned: both halves of the context manager and the body did. *)
Lemma with_cm_Ret {S A} (cm : context_manager S) (body : M S A) s a s' :
  with_cm cm body s = (Ret a, s') →
  ∃ x s1 s2, cm_enter cm s = (Ret x, s1) ∧ body s1 = (Ret a, s2) ∧ cm_exit cm x s2 = (Ret tt, s').
Proof.
  unfold with_cm, with_as. intros (x & s1 & E & H)%bind_Ret_inv. unfold try_finally in H.
  destruct (body s1) as [[b|e|] s2] eqn:Eb; destruct (cm_exit cm x s2) as [[[]|e'|] s3] eqn:Ex;
    simplify_eq. by exists x, s1, s2.
Qed.

(** * Documented behaviour of the outside, as named laws *)

(** The clock: reading it and calling a service never move it back, sleeping
    [n] seconds moves it by at least [n]; and a call of a service either
    returns or raises. [clk] is a lower bound of what [time.time] reports next. *)
Class lawful_clock (W : Type) `{C : cloud W} := {
  clk : W → Z;
  time_law : ∀ w, clk w <= (time_time w).1 <= clk (time_time w).2;
  sleep_law : ∀ n w, 0 <= n → clk w + n <= clk (time_sleep n w);
  api_clk : ∀ m a w, clk w <= clk (api_call m a w).2;
  api_total : ∀ m a w, (api_call m a w).1 ≠ NoFuel;
  ssh_clk : ∀ h u k c w, clk w <= clk (ssh_exec_command h u k c w).2;
  ssh_total : ∀ h u k c w, (ssh_exec_command h u k c w).1 ≠ NoFuel;
}.

Section primitive_lemmas.
Context {W : Type} `{C : cloud W} `{L : !lawful_clock W}.
Implicit Types s : pystate W.

Definition sclk s : Z := clk (st_world s).

Lemma in_world_run {A} (f : W → outcome A * W) s o s' :
  in_world f s = (o, s') →
  f (st_world s) = (o, st_world s') ∧
  st_nodes s' = st_nodes s ∧ st_cleanups s' = st_cleanups s.
Proof. unfold in_world. destruct (f (st_world s)). naive_solver. Qed.

Lemma now_run s o s' :
  now s = (o, s') → ∃ t, o = Ret t ∧ sclk s <= t <= sclk s'.
Proof.
  unfold now. intros [H _]%in_world_run. pose proof (time_law (st_world s)) as Ht.
  destruct (time_time (st_world s)) as [t w]. injection H as <- ->. by exists t.
Qed.

Lemma sleep_run n s o s' :
  0 <= n → sleep n s = (o, s') → o = Ret tt ∧ sclk s + n <= sclk s'.
Proof.
  unfold sleep. intros Hn [H _]%in_world_run. injection H as <- H. split; [done|].
  unfold sclk. rewrite <-H. by apply sleep_law.
Qed.

Lemma api_run m a s o s' : api m a s = (o, s') → o ≠ NoFuel ∧ sclk s <= sclk s'.
Proof.
  unfold api. intros [H _]%in_world_run. unfold sclk.
  pose proof (api_total m a (st_world s)) as H1. pose proof (api_clk m a (st_world s)) as H2.
  by rewrite H in H1, H2.
Qed.

Lemma ssh_run h u k c s o s' : ssh_exec h u k c s = (o, s') → o ≠ NoFuel ∧ sclk s <= sclk s'.
Proof.
  unfold ssh_exec. intros [H _]%in_world_run. unfold sclk.
  pose proof (ssh_total h u k c (st_world s)) as H1.
  pose proof (ssh_clk h u k c (st_world s)) as H2. by rewrite H in H1, H2.
Qed.
End primitive_lemmas.

(** A statement that always returns or raises and never moves the clock back. *)
Class Steady {W A : Type} `{C : cloud W} `{L : !lawful_clock W} (m : M (pystate W) A) : Prop :=
  steady : ∀ s o s', m s = (o, s') → o ≠ NoFuel ∧ sclk s <= sclk s'.

(** A pure expression that returns or raises. *)
Class Total {A} (o : outcome A) : Prop := total : o ≠ NoFuel.

#[export] Instance total_ret {A} (a : A) : Total (Ret a).
Proof. done. Qed.
#[export] Instance total_exn {A} e : Total (@Exn A e).
Proof. done. Qed.
#[export] Instance total_or_raise {A} e (o : option A) : Total (or_raise e o).
Proof. by destruct o. Qed.
#[export] Instance total_bind {A B} (o : outcome A) (f : A → outcome B) :
  Total o → (∀ a, Total (f a)) → Total (o ≫= f).
Proof. intros Ho Hf. destruct o; [apply Hf|done|by destruct Ho]. Qed.
#[export] Instance total_fmap {A B} (f : A → B) (o : outcome A) : Total o → Total (f <$> o).
Proof. intros Ho. destruct o; [done|done|by destruct Ho]. Qed.
#[export] Instance total_vget v k : Total (vget v k).
Proof. destruct v; try done. apply total_or_raise. Qed.
#[export] Instance total_vget_or v k d : Total (vget_or v k d).
Proof. by destruct v. Qed.
#[export] Instance total_vnth v i : Total (vnth v i).
Proof. destruct v; try done. apply total_or_raise. Qed.
#[export] Instance total_vlast v : Total (vlast v).
Proof. destruct v; try done. apply total_or_raise. Qed.
#[export] Instance total_as_list v : Total (as_list v).
Proof. by destruct v. Qed.
#[export] Instance total_as_str v : Total (as_str v).
Proof. by destruct v. Qed.
#[export] Instance total_as_int v : Total (as_int v).
Proof. by destruct v. Qed.
#[export] Instance total_as_dict v : Total (as_dict v).
Proof. by destruct v. Qed.

Section steady.
Context {W : Type} `{C : cloud W} `{L : !lawful_clock W}.

#[export] Instance steady_ret {A} (a : A) : Steady (mret a).
Proof. intros s o s' [= <- <-]. split; [done|lia]. Qed.
#[export] Instance steady_raise {A} e : Steady (raise (A:=A) e).
Proof. intros s o s' [= <- <-]. split; [done|lia]. Qed.
#[export] Instance steady_lift {A} (o : outcome A) : Total o → Steady (lift o).
Proof. intros Ho s o' s' [= <- <-]. split; [done|lia]. Qed.
#[export] Instance steady_api m a : Steady (api m a).
Proof. intros s o s'. apply api_run. Qed.
#[export] Instance steady_ssh h u k c : Steady (ssh_exec h u k c).
Proof. intros s o s'. apply ssh_run. Qed.
#[export] Instance steady_now : Steady now.
Proof. intros s o s' (t & -> & ?)%now_run. split; [done|lia]. Qed.
#[export] Instance steady_bind {A B} (m : M (pystate W) A) (f : A → M (pystate W) B) :
  Steady m → (∀ a, Steady (f a)) → Steady (m ≫= f).
Proof.
  intros Hm Hf s o s' H. run_step H; apply Hm in E as [??]; [|naive_solver..].
  apply Hf in H as [??]. split; [done|lia].
Qed.
#[export] Instance steady_assert b : Steady (assert_that b).
Proof. destruct b; apply _. Qed.
#[export] Instance steady_skip b : Steady (skip_unless b).
Proof. destruct b; apply _. Qed.
End steady.

(** Step over a steady statement: only its normal and its raising outcome remain. *)
Ltac run_steady H :=
  run_step H; (match goal with
  | E : ?m ?s = (_, ?s') |- _ =>
      let Hc := fresh "Hclk" in let Hn := fresh "Hnf" in
      destruct (steady (m:=m) s _ s' E) as [Hn Hc]; clear E; try done
  end).

Lemma lift_run {S A} (o : outcome A) (s : S) o' s' :
  lift o s = (o', s') → o' = o ∧ s' = s.
Proof. by intros [=]. Qed.
