(* ===== verification/Sim.v ===== *)
(** A small simulated deployment: one configuration file edited by crudini, one
    service switched by systemctl, tables of canned answers for every other
    command, call and XML document, and a clock. It instantiates the class
    [cloud], so that the hypotheses of the theorems can be seen to hold. *)
From Stdlib Require Import Ascii String.
From S2P Require Import Prelude PyString PyVal Xml Env.
#[local] Open Scope string_scope.

Record sim := mkSim {
  sim_clock : Z;
  sim_conf : gmap (string * string) string;
  sim_up : bool;
  sim_answers : list (string * string);      (* command line -> output *)
  sim_bodies : list (string * val);          (* method -> responses, in order *)
  sim_log : list string;                     (* command lines, last one first *)
}.

Definition sim_with_conf (w : sim) m : sim :=
  mkSim (sim_clock w) m (sim_up w) (sim_answers w) (sim_bodies w) (sim_log w).
Definition sim_with_up (w : sim) b : sim :=
  mkSim (sim_clock w) (sim_conf w) b (sim_answers w) (sim_bodies w) (sim_log w).
Definition sim_logged (w : sim) (cmd : string) : sim :=
  mkSim (sim_clock w) (sim_conf w) (sim_up w) (sim_answers w) (sim_bodies w) (cmd :: sim_log w).
Definition sim_tick (n : Z) (w : sim) : sim :=
  mkSim (sim_clock w + Z.max n 0) (sim_conf w) (sim_up w) (sim_answers w) (sim_bodies w) (sim_log w).

(** crudini on the simulated file *)
Definition sim_crudini (args : list string) (w : sim) : outcome string * sim :=
  match args with
  | op :: _ :: s :: o :: rest =>
      if String.eqb op "--get" then
        match sim_conf w !! (s, o) with
        | Some v => (Ret (v ++ String newline ""), w)
        | None => (Exn (SSHExecCommandFailed ("Parameter not found: " ++ o)), w)
        end
      else if String.eqb op "--set" then
        match rest with
        | [v] => (Ret "", sim_with_conf w (<[(s, o) := v]> (sim_conf w)))
        | _ => (Exn (SSHExecCommandFailed "usage"), w)
        end
      else (Ret "", sim_with_conf w (delete (s, o) (sim_conf w)))
  | _ => (Exn (SSHExecCommandFailed "usage"), w)
  end.

Definition sim_ssh (reject : string → bool) (cmd : string) (w : sim) : outcome string * sim :=
  let w := sim_logged w cmd in
  if reject cmd then (Exn (SSHExecCommandFailed "connection lost"), w)
  else match py_words cmd with
       | _ :: prog :: args =>
           if String.eqb prog "crudini" then sim_crudini args w
           else if String.eqb prog "systemctl" then
             (Ret "", sim_with_up w (bool_decide (head args = Some "start")))
           else (or_raise (SSHExecCommandFailed "no such command") (dict_get (sim_answers w) cmd), w)
       | _ => (or_raise (SSHExecCommandFailed "no such command") (dict_get (sim_answers w) cmd), w)
       end.

Definition sim_services (w : sim) : val :=
  VDict [("services", VList [VDict
    [("host", VStr "compute-0");
     ("state", VStr (if sim_up w then "up" else "down"));
     ("status", VStr (if sim_up w then "enabled" else "disabled"))]])].

Definition sim_with_bodies (w : sim) l : sim :=
  mkSim (sim_clock w) (sim_conf w) (sim_up w) (sim_answers w) l (sim_log w).

(** The next response to a method; its last one is repeated. *)
Fixpoint sim_next (method : string) (bodies : list (string * val))
    : option val * list (string * val) :=
  match bodies with
  | [] => (None, [])
  | (m, v) :: rest =>
      if String.eqb m method then
        (Some v, if existsb (λ mv, String.eqb mv.1 method) rest then rest else bodies)
      else let '(o, rest') := sim_next method rest in (o, (m, v) :: rest')
  end.

Definition sim_api (method : string) (w : sim) : outcome val * sim :=
  if String.eqb method "services_client.list_services" then (Ret (sim_services w), w)
  else
    let '(o, bodies) := sim_next method (sim_bodies w) in
    (or_raise (GenericException method) o, sim_with_bodies w bodies).

(** [reject] marks command lines whose transport fails, [xmls] the documents. *)
Definition sim_cloud (reject : string → bool) (xmls : list (string * elem)) (nodes : val) : cloud sim := {|
  ssh_exec_command := λ _ _ _ cmd w, sim_ssh reject cmd w;
  api_call := λ m _ w, sim_api m w;
  time_time := λ w, (sim_clock w, w);
  time_sleep := sim_tick;
  yaml_load_file := λ _ w, (Ret nodes, w);
  et_fromstring := λ x, or_raise (GenericException "ParseError") (dict_get xmls x);
  json_loads := λ s, Ret (VStr s);
|}.

Lemma sim_ssh_clock reject cmd w :
  sim_clock (sim_ssh reject cmd w).2 = sim_clock w ∧ (sim_ssh reject cmd w).1 ≠ NoFuel.
Proof.
  unfold sim_ssh, sim_crudini, or_raise. repeat (case_match; simplify_eq/=; try done).
Qed.

Lemma sim_api_clock method w :
  sim_clock (sim_api method w).2 = sim_clock w ∧ (sim_api method w).1 ≠ NoFuel.
Proof.
  unfold sim_api, or_raise. case_match; [done|].
  destruct (sim_next _ _) as [[] ?]; done.
Qed.

Lemma sim_api_conf method w : sim_conf (sim_api method w).2 = sim_conf w.
Proof. unfold sim_api. case_match; [done|]. by destruct (sim_next _ _). Qed.

Definition sim_lawful_clock reject xmls nodes :
  @lawful_clock sim (sim_cloud reject xmls nodes).
Proof.
  unshelve refine {| clk := sim_clock |}; simpl.
  - intros w. lia.
  - intros n w Hn. lia.
  - intros m _ w. by destruct (sim_api_clock m w) as [-> _].
  - intros m _ w. apply sim_api_clock.
  - intros _ _ _ c w. by destruct (sim_ssh_clock reject c w) as [-> _].
  - intros _ _ _ c w. apply sim_ssh_clock.
Defined.

(** The same deployment with a link on which every command takes a second. *)
Definition slow_cloud (base : cloud sim) : cloud sim := {|
  ssh_exec_command := λ h u k cmd w,
    let r := @ssh_exec_command sim base h u k cmd w in (r.1, sim_tick 1 r.2);
  api_call := @api_call sim base;
  time_time := @time_time sim base;
  time_sleep := @time_sleep sim base;
  yaml_load_file := @yaml_load_file sim base;
  et_fromstring := @et_fromstring sim base;
  json_loads := @json_loads sim base;
|}.

Definition slow_lawful_clock reject xmls nodes :
  @lawful_clock sim (slow_cloud (sim_cloud reject xmls nodes)).
Proof.
  unshelve refine {| clk := sim_clock |}; simpl.
  - intros w. lia.
  - intros n w Hn. lia.
  - intros m _ w. by destruct (sim_api_clock m w) as [-> _].
  - intros m _ w. apply sim_api_clock.
  - intros _ _ _ c w. pose proof (sim_ssh_clock reject c w) as [-> _]. lia.
  - intros _ _ _ c w. apply sim_ssh_clock.
Defined.

(** A configuration for the simulated deployment. *)
Definition mk_sim_CONF_full (hotplug : bool) (sizes : list Z) (query_command : string)
    (in_containers iothreads : bool) : conf := {|
  nodes_yaml := "/etc/nodes.yaml";
  ctlplane_ssh_username := "stack";
  ctlplane_ssh_private_key_path := "/home/stack/.ssh/id_rsa";
  containers := in_containers;
  ctlplane_addresses := [];
  max_compute_nodes := 2;
  container_runtime := "podman";
  flavor_volume_size := 1;
  flavor_ram_size := 64;
  file_backed_memory_size := 1024;
  hugepage_guest_ram_size := 64;
  rx_queue_size := Some 1024;
  log_query_command := query_command;
  journalctl_unit := "devstack@n-cpu";
  db_host := "controller";
  db_internal_ip := None;
  db_user := "root";
  db_password := "secret";
  nova_cell1_db_name := "nova_cell1";
  ssh_gateway_port := 3306;
  smt_hosts := [];
  cpu_topology := Some [("0", [0; 1; 2; 3]); ("1", [4; 5; 6; 7])];
  dedicated_cpus_per_numa := 2;
  shared_cpus_per_numa := 2;
  realtime_mask := None;
  configured_hugepage_sizes := sizes;
  vdpa_physnet := Some "vdpa";
  vdpa_vlan_id := Some 100;
  build_timeout := 60;
  build_interval := 5;
  image_ref := "cirros";
  image_ref_alt := "cirros-alt";
  max_microversion := "2.96";
  min_compute_nodes := 2;
  project_network_cidr := "10.0.0.0/24";
  resource_name_prefix := "tempest";
  iothreads_enabled := iothreads;
  vdpa_cold_migration_supported := true;
  cpu_power_management := true;
  live_migration_enabled := true;
  volume_backed_live_migration := true;
  resize_enabled := true;
  available_cinder_storage := 100;
  max_disk_devices_to_attach := Some 3;
  provider_config_location := "/etc/nova/provider_config";
  http_iso_image := "/opt/stack/devstack/files/Core-14.0.iso";
  selinux_label := None;
  selinux_imagelabel := Some "svirt_image_t";
  cpu_model := Some "Haswell";
  cpu_model_extra_flags := Some ["pcid"];
  pmem_flavor_size := Some "4GB";
  pmem_expected_size := Some "4094";
  default_video_model := Some "virtio";
  state_path := "/var/lib/nova";
  vgpu_vendor_id := Some "10de";
  sriov_nic_vendor_id := Some "8086";
  sriov_vf_product_id := Some "10ed";
  sriov_pf_product_id := Some "10fb";
  macvtap_virtio_vendor_id := Some "1af4";
  macvtap_virtio_product_id := Some "1000";
  sriov_physnet := Some "sriov";
  sriov_vnic_type := Some "direct";
  sriov_vlan_id := Some 200;
  physnet_numa_affinity := Some 0;
  vgpu_type_mapping := Some [("CUSTOM_NVIDIA_11", "nvidia-11")];
  socket_affinity := Some 0;
  socket_topology := Some [("0", [0; 1])];
  pci_passthrough_alias := Some "nic";
  pci_passthrough_addresses := Some ["0000:81:00.0"];
  pci_passthrough_resource_class := Some "CUSTOM_NIC";
  virtio_rng := true;
  rbd_download := true;
  sriov_hotplug := hotplug;
  supports_image_level_numa_affinity := true;
  supports_port_level_numa_affinity := true;
  uefi_boot := true;
  uefi_secure_boot := true;
  vtpm_device_supported := true;
  vtpm_live_migration_supported := true;
  vgpu_cold_migration_supported := true;
  stable_compute_uuid_supported := true;
  bochs_display_support := true;
  vencrypt := true;
  live_migrate_back_and_forth := true;
  console_output := true;
  unified_limits := false;
  attach_encrypted_volume := true;
  image_disk_formats := ["qcow2"; "iso"];
  image_container_formats := ["bare"];
  cinder_available := true;
  run_validation := true;
|}.
Definition mk_sim_CONF_with := mk_sim_CONF_full true.
Definition mk_sim_CONF := mk_sim_CONF_with [2048; 1048576].
Definition sim_CONF : conf := mk_sim_CONF "journalctl" false false.
