(* ===== verification/Utils.v ===== *)
(** utils.py: JSON normalisation, context-manager composition, control-plane
    address resolution, and the cached description of the compute hosts. *)
From Stdlib Require Import Ascii String.
From S2P Require Import Prelude PyString PyVal Xml Env Sim.
#[local] Open Scope string_scope.

(** * normalize_json *)

(** Insertion of an entry in a dictionary ordered by key. *)
Fixpoint insert_entry (kx : string * val) (d : list (string * val)) : list (string * val) :=
  match d with
  | [] => [kx]
  | ky :: d' => if String.ltb ky.1 kx.1 then ky :: insert_entry kx d' else kx :: d
  end.

(** [jsonutils.loads(jsonutils.dumps(v, sort_keys=True))]: a fresh copy of [v]
    whose dictionaries are in key order. *)
Fixpoint sort_keys (v : val) : val :=
  match v with
  | VList l => VList (map sort_keys l)
  | VDict d => VDict (foldr insert_entry [] (map (λ kx, (kx.1, sort_keys kx.2)) d))
  | _ => v
  end.

(** The body of the loop over [json.items()] in [sort_list_values], which
    updates its (fresh) argument in place; [rec] is the recursive call. *)
Definition sort_entry (rec : val → outcome val) (kv : string * val) : outcome (string * val) :=
  let '(k, v) := kv in
  match v with
  | VList l =>
      l' ← py_sort l;
      l'' ← omap_l (λ x, match x with VDict _ => rec x | _ => Ret x end) l';
      mret (k, VList l'')
  | VDict _ => v' ← rec v; mret (k, v')
  | _ => Ret (k, v)
  end.

(** The inner function [sort_list_values]; [fuel] bounds the nesting depth. *)
Fixpoint sort_list_values (fuel : nat) (json : val) : outcome val :=
  match fuel with
  | O => NoFuel
  | S f =>
      match json with
      | VDict d => VDict <$> omap_l (sort_entry (sort_list_values f)) d
      | _ => Exn AttributeError
      end
  end.

Definition normalize_json (json : val) : outcome val :=
  let json := sort_keys json in
  sort_list_values (S (vdepth json)) json.

Example normalize_json_ex :
  normalize_json (VDict [("b", VList [VInt 3; VInt 1; VInt 2]); ("a", VStr "x")])
  = Ret (VDict [("a", VStr "x"); ("b", VList [VInt 1; VInt 2; VInt 3])]).
Proof. reflexivity. Qed.

(** * multicontext *)

(** A context manager with the value its [yield] gives to [enter_context] *)
Record yielding (S V : Type) := mkYielding {
  y_manager : context_manager S;
  y_value : cm_locals y_manager → V;
}.
Arguments y_manager {S V}.
Arguments y_value {S V}.

(** [[stack.enter_context(mgr) for mgr in context_managers]], from the values and
    the exits there are so far, and the block that is given the list *)
Fixpoint enter_contexts {S V A} (context_managers : list (yielding S V)) (values : list V)
    (exits : list (M S unit)) (body : list V → M S A) : M S A := λ s,
  match context_managers with
  | [] => unwind exits (body values s)
  | mgr :: mgrs =>
      match cm_enter (y_manager mgr) s with
      | (Ret x, s') =>
          enter_contexts mgrs (values ++ [y_value mgr x])%list (cm_exit (y_manager mgr) x :: exits) body s'
      | (Exn e, s') => unwind exits (Exn e, s')
      | (NoFuel, s') => unwind exits (NoFuel, s')
      end
  end.

(** [with multicontext(m1, ..., mn) as values: body] *)
Definition multicontext {S V A} (context_managers : list (yielding S V)) (body : list V → M S A) : M S A :=
  enter_contexts context_managers [] [] body.

(** [with m1 as v1: ... with mn as vn: body] with the list of the values *)
Fixpoint nested_as {S V A} (context_managers : list (yielding S V)) (values : list V)
    (body : list V → M S A) : M S A :=
  match context_managers with
  | [] => body values
  | mgr :: mgrs => with_as (y_manager mgr) (λ x, nested_as mgrs (values ++ [y_value mgr x])%list body)
  end.

(** * Hosts *)
Section hosts.
Context {CONF : conf} {W : Type} `{C : cloud W}.
Abbreviation P := (M (pystate W)).

Definition get_ctlplane_address (compute_hostname : string) : outcome string :=
  if bool_decide (ctlplane_addresses = []) then Ret compute_hostname
  else match dict_get ctlplane_addresses compute_hostname with
       | Some addr => Ret addr
       | None => Exn (CtrlplaneAddressResolutionError compute_hostname)
       end.

(** [global _nodes], read from nodes.yaml the first time it is needed *)
Definition load_nodes : P val :=
  nodes ← get_nodes;
  match nodes with
  | Some v => mret v
  | None => v ← load_yaml nodes_yaml; set_nodes v;; mret v
  end.

Definition get_host_details (host : string) : P val :=
  nodes ← load_nodes;
  lift (vget_or nodes host VNone).

Definition get_all_hosts_details : P val := load_nodes.
End hosts.

(** * Lemmas on normalisation *)
Lemma insert_entry_perm kx d : insert_entry kx d ≡ₚ kx :: d.
Proof.
  induction d as [|ky d IH]; simpl; [done|]. case_match; [|done].
  rewrite IH. apply Permutation_swap.
Qed.

Lemma foldr_insert_entry_perm d : foldr insert_entry [] d ≡ₚ d.
Proof. induction d as [|kx d IH]; simpl; [done|]. by rewrite insert_entry_perm, IH. Qed.

Lemma py_insert_perm x l : py_insert x l ≡ₚ x :: l.
Proof.
  induction l as [|y l IH]; simpl; [done|]. case_match; [|done].
  rewrite IH. apply Permutation_swap.
Qed.

Lemma py_sort_perm l l' : py_sort l = Ret l' → l' ≡ₚ l.
Proof.
  unfold py_sort. repeat case_match; intros [= <-]; [done|]. clear.
  induction l as [|x l IH]; simpl; [done|]. by rewrite py_insert_perm, IH.
Qed.

(** The computation returns, or raises [e]. *)
Definition only_raises {A} (e : exn) (o : outcome A) : Prop :=
  match o with Ret _ => True | Exn e' => e' = e | NoFuel => False end.

Lemma only_raises_bind {A B} e (o : outcome A) (f : A → outcome B) :
  only_raises e o → (∀ a, o = Ret a → only_raises e (f a)) → only_raises e (o ≫= f).
Proof. destruct o; naive_solver. Qed.

Lemma only_raises_omap_l {A B} e (f : A → outcome B) l :
  (∀ x, x ∈ l → only_raises e (f x)) → only_raises e (omap_l f l).
Proof.
  induction l as [|x l IH]; intros H; [done|]. simpl.
  apply only_raises_bind; [apply H; set_solver|intros y _].
  apply only_raises_bind; [apply IH; set_solver|done].
Qed.

Lemma py_sort_raises l : only_raises TypeError (py_sort l).
Proof. unfold py_sort. by repeat case_match. Qed.

Lemma vdepth_list x l : x ∈ l → (vdepth x < vdepth (VList l))%nat.
Proof. induction l as [|y l IH]; [set_solver|]. intros [->|H]%elem_of_cons; simpl in *; [lia|]. specialize (IH H). lia. Qed.

Lemma vdepth_dict k x d : (k, x) ∈ d → (vdepth x < vdepth (VDict d))%nat.
Proof.
  induction d as [|[k' y] d IH]; [set_solver|].
  intros [[= <- <-]|H]%elem_of_cons; simpl in *; [lia|]. specialize (IH H). lia.
Qed.

Lemma sort_entry_raises (rec : val → outcome val) k v :
  (∀ d, (vdepth (VDict d) <= vdepth v)%nat → only_raises TypeError (rec (VDict d))) →
  only_raises TypeError (sort_entry rec (k, v)).
Proof.
  intros Hrec. destruct v as [| | | |l|e]; try done; simpl.
  - apply only_raises_bind; [apply py_sort_raises|intros l' Es%py_sort_perm].
    apply only_raises_bind; [|done]. apply only_raises_omap_l. intros x Hx. rewrite Es in Hx.
    pose proof (vdepth_list _ _ Hx). destruct x; try done. apply Hrec. lia.
  - apply only_raises_bind; [by apply Hrec|done].
Qed.

(** With fuel above its depth, [sort_list_values] on a dictionary returns or
    raises TypeError; so does the treatment of each of its entries. *)
Lemma sort_list_values_raises f d :
  (vdepth (VDict d) < f)%nat → only_raises TypeError (sort_list_values f (VDict d)).
Proof.
  revert d. induction f as [|f IH]; intros d Hd; [lia|]. simpl.
  assert (∀ A B (g : A → B) o, only_raises TypeError o → only_raises TypeError (g <$> o))
    as Hfm by (intros ???[]; done).
  apply Hfm, only_raises_omap_l. intros [k v] Hin. pose proof (vdepth_dict _ _ _ Hin).
  apply sort_entry_raises. intros e He. apply IH. lia.
Qed.

(** ** Values equal up to order

    [jeq v w]: the values differ at most in the order of the keys of dictionaries
    and in the order of lists of integers, of strings or of booleans, where these
    are reached through dictionaries and lists of a single dictionary. Any other
    list is the same on both sides: [list.sort()] raises TypeError on two
    dictionaries, and does not sort inside the elements of a list of lists. *)
Inductive jeq : val → val → Prop :=
| jeq_refl v : jeq v v
| jeq_ints zs zs' : zs ≡ₚ zs' → jeq (VList (map VInt zs)) (VList (map VInt zs'))
| jeq_strs ss ss' : ss ≡ₚ ss' → jeq (VList (map VStr ss)) (VList (map VStr ss'))
| jeq_bools bs bs' : bs ≡ₚ bs' → jeq (VList (map VBool bs)) (VList (map VBool bs'))
| jeq_single d e : jeq (VDict d) (VDict e) → jeq (VList [VDict d]) (VList [VDict e])
| jeq_dict d d' e :
    NoDup (d.*1) → jeq_entries d d' → d' ≡ₚ e → jeq (VDict d) (VDict e)
with jeq_entries : list (string * val) → list (string * val) → Prop :=
| jeq_nil : jeq_entries [] []
| jeq_cons k x y d e : jeq x y → jeq_entries d e → jeq_entries ((k, x) :: d) ((k, y) :: e).

Scheme jeq_mut := Induction for jeq Sort Prop
  with jeq_entries_mut := Induction for jeq_entries Sort Prop.
Combined Scheme jeq_both from jeq_mut, jeq_entries_mut.

(** The same, without reordering keys. *)
Inductive jeqp : val → val → Prop :=
| jeqp_refl v : jeqp v v
| jeqp_ints zs zs' : zs ≡ₚ zs' → jeqp (VList (map VInt zs)) (VList (map VInt zs'))
| jeqp_strs ss ss' : ss ≡ₚ ss' → jeqp (VList (map VStr ss)) (VList (map VStr ss'))
| jeqp_bools bs bs' : bs ≡ₚ bs' → jeqp (VList (map VBool bs)) (VList (map VBool bs'))
| jeqp_single d e : jeqp (VDict d) (VDict e) → jeqp (VList [VDict d]) (VList [VDict e])
| jeqp_dict d e : Forall2 (λ kx ky, kx.1 = ky.1 ∧ jeqp kx.2 ky.2) d e → jeqp (VDict d) (VDict e).

Lemma string_ltb_total (a b : string) : a ≠ b → String.ltb a b = negb (String.ltb b a).
Proof.
  intros Hne. unfold String.ltb. rewrite (String.compare_antisym b a).
  destruct (String.compare a b) eqn:E; simpl; [|done|done].
  by apply String.compare_eq_iff in E.
Qed.

Lemma string_ltb_irrefl (a : string) : String.ltb a a = false.
Proof.
  unfold String.ltb. pose proof (String.compare_antisym a a) as H.
  by destruct (String.compare a a).
Qed.

Lemma string_ltb_cons a b s t :
  String.ltb (String a s) (String b t) = true ↔
  (code a < code b)%N ∨ a = b ∧ String.ltb s t = true.
Proof.
  unfold String.ltb, code. cbn [String.compare]. unfold Ascii.compare.
  destruct (N.compare_spec (N_of_ascii a) (N_of_ascii b)) as [E|E|E].
  - assert (a = b) as -> by (rewrite <-(ascii_N_embedding a), E; apply ascii_N_embedding).
    split; [by right|]. intros [?|[_ ?]]; [lia|done].
  - split; auto.
  - split; [done|]. intros [?|[-> _]]; lia.
Qed.

Lemma string_ltb_trans (a b c : string) :
  String.ltb a b = true → String.ltb b c = true → String.ltb a c = true.
Proof.
  revert b c. induction a as [|x a IH]; intros [|y b] [|z c]; try done.
  rewrite !string_ltb_cons. intros [?|[-> ?]] [?|[-> ?]]; [left; lia|by left..|].
  right. eauto.
Qed.

Lemma insert_entry_comm a b d :
  a.1 ≠ b.1 → insert_entry a (insert_entry b d) = insert_entry b (insert_entry a d).
Proof.
  intros Hne. assert (∀ c e : string * val, String.ltb c.1 e.1 = true →
    ∀ d, insert_entry c (insert_entry e d) = insert_entry e (insert_entry c d)) as Hlt.
  { clear. intros c e Hce d. assert (String.ltb e.1 c.1 = false) as Hec.
    { destruct (String.ltb e.1 c.1) eqn:E; [|done].
      pose proof (string_ltb_trans _ _ _ Hce E) as H. by rewrite string_ltb_irrefl in H. }
    induction d as [|y d IH]; simpl; [by rewrite Hce, Hec|].
    destruct (String.ltb y.1 e.1) eqn:Eye, (String.ltb y.1 c.1) eqn:Eyc; simpl;
      rewrite ?Eye, ?Eyc, ?Hce, ?Hec; try done.
    - by rewrite IH.
    - pose proof (string_ltb_trans _ _ _ Eyc Hce). congruence. }
  destruct (String.ltb a.1 b.1) eqn:E; [by apply Hlt|].
  symmetry. apply Hlt. by rewrite string_ltb_total, E by done.
Qed.

Lemma foldr_insert_entry_NoDup d e :
  NoDup (d.*1) → d ≡ₚ e → foldr insert_entry [] d = foldr insert_entry [] e.
Proof.
  intros Hnd Hp. induction Hp as [|kx d e _ IH|kx ky d|d e f Hde IH1 _ IH2]; simpl in *.
  - done.
  - apply NoDup_cons in Hnd as [_ Hnd]. by rewrite IH.
  - apply insert_entry_comm. intros Heq. rewrite !NoDup_cons in Hnd. set_solver.
  - rewrite IH1 by done. apply IH2. by rewrite <-Hde.
Qed.

Lemma insert_entry_rel (R : val → val → Prop) kx ky d e :
  kx.1 = ky.1 → R kx.2 ky.2 → Forall2 (λ a b, a.1 = b.1 ∧ R a.2 b.2) d e →
  Forall2 (λ a b, a.1 = b.1 ∧ R a.2 b.2) (insert_entry kx d) (insert_entry ky e).
Proof.
  intros Hk HR HF. induction HF as [|a b d e [Hab ?] HF IH]; simpl.
  - by repeat constructor.
  - rewrite Hab, Hk. case_match; repeat (constructor; try done).
Qed.

Lemma jeq_sort_keys :
  (∀ v w, jeq v w → jeqp (sort_keys v) (sort_keys w)) ∧
  (∀ d e, jeq_entries d e →
     Forall2 (λ kx ky, kx.1 = ky.1 ∧ jeqp kx.2 ky.2)
       (map (λ kx, (kx.1, sort_keys kx.2)) d) (map (λ kx, (kx.1, sort_keys kx.2)) e)).
Proof.
  apply jeq_both; intros; simpl; try by constructor.
  - rewrite !map_map. by apply jeqp_ints.
  - rewrite !map_map. by apply jeqp_strs.
  - rewrite !map_map. by apply jeqp_bools.
  - constructor.
    rewrite <-(foldr_insert_entry_NoDup (map (λ kx, (kx.1, sort_keys kx.2)) d')
                 (map (λ kx, (kx.1, sort_keys kx.2)) e)).
    + induction H as [|a b l k [Hab ?] HF IH]; simpl; [constructor|]. by apply insert_entry_rel.
    + assert ((map (λ kx, (kx.1, sort_keys kx.2)) d').*1 = d.*1) as ->; [|done].
      clear -j. induction j as [|k x y d e _ _ IHj]; [done|]. simpl. f_equal. apply IHj.
    + by apply Permutation_map.
Qed.

(** ** Sorting scalars *)

(** A comparison that orders any two different keys, transitively. *)
Section scalar_sort.
Context {A : Type} (inj : A → val) (lt : A → A → bool).
Hypothesis lt_spec : ∀ a b, py_lt (inj a) (inj b) = Some (lt a b).
Hypothesis lt_total : ∀ a b, a ≠ b → lt a b = negb (lt b a).
Hypothesis lt_trans : ∀ a b c, lt a b = true → lt b c = true → lt a c = true.
Hypothesis lt_irrefl : ∀ a, lt a a = false.
Context `{EqDecision A}.

Fixpoint ins (x : A) (l : list A) : list A :=
  match l with
  | [] => [x]
  | y :: l' => if lt y x then y :: ins x l' else x :: l
  end.

Lemma py_insert_map x l : py_insert (inj x) (map inj l) = map inj (ins x l).
Proof.
  induction l as [|y l IH]; simpl; [done|]. rewrite lt_spec. simpl.
  case_match; simpl; [by rewrite IH|done].
Qed.

Lemma ins_comm a b l : ins a (ins b l) = ins b (ins a l).
Proof.
  assert (∀ c e, lt c e = true → ∀ l, ins c (ins e l) = ins e (ins c l)) as Hlt.
  { clear a b l. intros c e Hce l. assert (lt e c = false) as Hec.
    { destruct (lt e c) eqn:E; [|done]. pose proof (lt_trans _ _ _ Hce E) as H.
      by rewrite lt_irrefl in H. }
    induction l as [|y l IH]; simpl; [by rewrite Hce, Hec|].
    destruct (lt y e) eqn:Eye, (lt y c) eqn:Eyc; simpl; rewrite ?Eye, ?Eyc, ?Hce, ?Hec; try done.
    - by rewrite IH.
    - pose proof (lt_trans _ _ _ Eyc Hce). congruence. }
  destruct (decide (a = b)) as [->|Hne]; [done|].
  destruct (lt a b) eqn:E; [by apply Hlt|]. symmetry. apply Hlt. by rewrite lt_total, E.
Qed.

Lemma py_sort_scalars l :
  py_sort (map inj l) = Ret (map inj (foldr ins [] l)).
Proof.
  unfold py_sort. assert (foldr py_insert [] (map inj l) = map inj (foldr ins [] l)) as Hf.
  { induction l as [|x l IH]; simpl; [done|]. by rewrite IH, py_insert_map. }
  destruct (length (map inj l) <=? 1)%nat eqn:E.
  - destruct l as [|x [|]]; done.
  - rewrite Hf. case_match eqn:Hb; [done|].
    assert (forallb (λ x, forallb (λ y, bool_decide (is_Some (py_lt x y))) (map inj l)) (map inj l)
            = true); [|congruence].
    apply forallb_forall. intros x (a & <- & _)%in_map_iff.
    apply forallb_forall. intros y (b & <- & _)%in_map_iff.
    apply bool_decide_eq_true. rewrite lt_spec. eauto.
Qed.

Lemma py_sort_scalars_perm l k :
  l ≡ₚ k → py_sort (map inj l) = py_sort (map inj k).
Proof.
  intros Hp. rewrite !py_sort_scalars. do 2 f_equal.
  induction Hp as [|x l k _ IH|x y l|l1 l2 l3 _ IH1 _ IH2]; simpl; [done|by rewrite IH| |congruence].
  apply ins_comm.
Qed.
End scalar_sort.

Lemma py_sort_ints l k : l ≡ₚ k → py_sort (map VInt l) = py_sort (map VInt k).
Proof.
  apply (py_sort_scalars_perm VInt Z.ltb).
  - done.
  - intros a b Hne. destruct (Z.ltb_spec a b), (Z.ltb_spec b a); simpl; (done || lia).
  - intros a b c. rewrite !Z.ltb_lt. lia.
  - apply Z.ltb_irrefl.
  - apply _.
Qed.

Lemma py_sort_strs l k : l ≡ₚ k → py_sort (map VStr l) = py_sort (map VStr k).
Proof.
  apply (py_sort_scalars_perm VStr String.ltb).
  - done.
  - apply string_ltb_total.
  - apply string_ltb_trans.
  - apply string_ltb_irrefl.
  - apply _.
Qed.

Lemma py_sort_bools l k : l ≡ₚ k → py_sort (map VBool l) = py_sort (map VBool k).
Proof.
  apply (py_sort_scalars_perm VBool (λ a b, negb a && b)); [..|apply _].
  - by intros [] [].
  - by intros [] [] ?.
  - by intros [] [] [].
  - by intros [].
Qed.

Lemma sort_list_values_jeqp f v w :
  jeqp v w → sort_list_values f v = sort_list_values f w.
Proof.
  revert v w. induction f as [|f IH]; intros v w H; [done|].
  inversion H as [| | | | |d e HF]; subst; try done. simpl. f_equal.
  clear H. induction HF as [|[k x] [k' y] d e [Hk Hxy] _ IHF]; [done|]. simpl in *. subst k'.
  rewrite IHF. f_equal. inversion Hxy as [|zs zs' Hp|ss ss' Hp|bs bs' Hp|d1 d2 Hd|d1 d2 Hd]; subst; try done.
  - by rewrite (py_sort_ints zs zs').
  - by rewrite (py_sort_strs ss ss').
  - by rewrite (py_sort_bools bs bs').
  - simpl. by rewrite (IH _ _ Hd).
  - by rewrite (IH _ _ Hxy).
Qed.

(** A list of two or more elements with a dictionary among them, under some
    nest of dictionaries. *)
Inductive unsortable : val → Prop :=
| unsortable_list d k l x :
    (k, VList l) ∈ d → (2 <= length l)%nat → VDict x ∈ l → unsortable (VDict d)
| unsortable_dict d k v : (k, v) ∈ d → unsortable v → unsortable (VDict d).

Lemma py_sort_dict_TypeError l x :
  (2 <= length l)%nat → VDict x ∈ l → py_sort l = Exn TypeError.
Proof.
  intros Hl Hx. unfold py_sort. destruct (Nat.leb_spec (length l) 1); [lia|].
  case_match eqn:Hb; [|done]. exfalso.
  rewrite forallb_forall in Hb. apply list_elem_of_In in Hx. specialize (Hb _ Hx).
  rewrite forallb_forall in Hb. specialize (Hb _ Hx). apply bool_decide_eq_true in Hb.
  by destruct Hb.
Qed.

Lemma omap_l_Exn {A B} (f : A → outcome B) e l x :
  (∀ y, y ∈ l → only_raises e (f y)) → x ∈ l → f x = Exn e → omap_l f l = Exn e.
Proof.
  induction l as [|y l IH]; intros Hall Hx Hfx; [set_solver|]. simpl.
  assert (only_raises e (f y)) as Hy by (apply Hall; set_solver).
  destruct (f y) eqn:E; simpl; [|by rewrite <-Hy|done].
  apply elem_of_cons in Hx as [->|Hx]; [congruence|]. rewrite IH; [done| |done|done].
  intros; apply Hall; set_solver.
Qed.

Lemma sort_list_values_unsortable f v :
  unsortable v → (vdepth v < f)%nat → sort_list_values f v = Exn TypeError.
Proof.
  intros Hv. revert f. induction Hv as [d k l x Hin Hl Hx|d k v Hin Hv IH];
    intros [|f] Hf; try lia; cbn [sort_list_values].
  all: erewrite (omap_l_Exn _ TypeError); [done| |exact Hin|].
  1, 3: intros [k' v'] Hin'; apply vdepth_dict in Hin'; apply sort_entry_raises;
    intros e He; apply sort_list_values_raises; lia.
  - simpl. by rewrite (py_sort_dict_TypeError l x).
  - apply vdepth_dict in Hin. inversion Hv; subst; simpl; rewrite IH by lia; done.
Qed.

Lemma elem_of_sort_keys k v d :
  (k, v) ∈ d →
  (k, sort_keys v) ∈ foldr insert_entry [] (map (λ kx, (kx.1, sort_keys kx.2)) d).
Proof.
  intros H. rewrite foldr_insert_entry_perm.
  by apply (list_elem_of_fmap_2 (λ kx : string * val, (kx.1, sort_keys kx.2))) in H.
Qed.

Lemma unsortable_sort_keys v : unsortable v → unsortable (sort_keys v).
Proof.
  induction 1 as [d k l x Hin Hl Hx|d k v Hin Hv IH]; simpl.
  - eapply (unsortable_list _ k (map sort_keys l)).
    + by apply elem_of_sort_keys in Hin.
    + by rewrite length_map.
    + by apply (list_elem_of_fmap_2 sort_keys) in Hx.
  - eapply (unsortable_dict _ k (sort_keys v)); [by apply elem_of_sort_keys|done].
Qed.

Lemma jeqp_vdepth n v w : (vdepth v < n)%nat → jeqp v w → vdepth v = vdepth w.
Proof.
  revert v w. induction n as [|n IH]; intros v w Hn H; [lia|].
  assert (∀ A (f : A → val) (l k : list A), (∀ a, vdepth (f a) = 0%nat) →
    vdepth (VList (map f l)) = vdepth (VList (map f k))) as Hflat.
  { intros A f l k Hf. assert (∀ l, vdepth (VList (map f l)) = 1%nat) as Hl; [|by rewrite !Hl].
    clear -Hf. intros l. simpl. f_equal. induction l; simpl; [done|]. rewrite Hf. lia. }
  inversion H as [| | | |d e Hde|d e HF]; subst; try done; [by apply Hflat..| |].
  { change (S (Nat.max (vdepth (VDict d)) 0) = S (Nat.max (vdepth (VDict e)) 0)).
    rewrite (IH _ _) by (done || (simpl in Hn |- *; lia)). done. }
  simpl in *. f_equal. clear H.
  assert (foldr (λ kx n, Nat.max (vdepth kx.2) n) 0 d < n)%nat as Hd by lia. clear Hn.
  induction HF as [|[k x] [k' y] d e [_ Hxy] _ IHF]; [done|]. simpl in *.
  rewrite (IH x y) by (done || lia). rewrite IHF by lia. done.
Qed.

(** * Theorems *)

Lemma enter_contexts_unwind {S V A} (mgrs : list (yielding S V)) values exits (body : list V → M S A) s :
  enter_contexts mgrs values exits body s = unwind exits (nested_as mgrs values body s).
Proof.
  revert values exits s. induction mgrs as [|mgr mgrs IH]; intros values exits s; simpl; [done|].
  unfold with_as. rewrite bind_run. destruct (cm_enter (y_manager mgr) s) as [[x|e|] s']; [|done|done].
  rewrite IH. simpl. unfold try_finally. by destruct (nested_as mgrs _ body s') as [[]].
Qed.

(** A block under [multicontext(m1, ..., mn)] behaves exactly as the nest of [with]
    statements around it, and is given the values the managers yield, in order. *)
Theorem multicontext_nested {S V A} (mgrs : list (yielding S V)) (body : list V → M S A) s :
  multicontext mgrs body s = nested_as mgrs [] body s.
Proof. apply (enter_contexts_unwind mgrs [] [] body s). Qed.

(** C8: [normalize_json] does what it is for: two objects that differ only in the
    order of keys and in the order of lists of integers, strings or booleans,
    through dictionaries and lists of one dictionary to any depth, have the same
    normal form, or both raise the same exception. *)
Theorem normalize_json_canonical (v w : val) :
  jeq v w → normalize_json v = normalize_json w.
Proof.
  intros Hj. apply (proj1 jeq_sort_keys) in Hj. unfold normalize_json.
  rewrite <-(jeqp_vdepth (S (vdepth (sort_keys v))) (sort_keys v) (sort_keys w)) by (done || lia).
  by apply sort_list_values_jeqp.
Qed.

(** On an object, [normalize_json] ends, and TypeError is the only exception
    it can raise. *)
Theorem normalize_json_total (d : list (string * val)) :
  match normalize_json (VDict d) with
  | Ret _ => True | Exn e => e = TypeError | NoFuel => False
  end.
Proof. apply sort_list_values_raises, Nat.lt_succ_diag_r. Qed.

(** A list of two or more dictionaries anywhere in the object makes
    [normalize_json] raise TypeError, since [list.sort()] cannot order
    dictionaries: a NUMA topology of two cells cannot be normalised. *)
Theorem normalize_json_dict_list (v : val) :
  unsortable v → normalize_json v = Exn TypeError.
Proof.
  intros Hv. apply sort_list_values_unsortable; [by apply unsortable_sort_keys|apply Nat.lt_succ_diag_r].
Qed.

Section host_theorems.
Context {CONF : conf} {W : Type} `{C : cloud W}.

(** Nodes.yaml is read at most once: after a successful lookup every further
    lookup answers from the cache, for any host, and touches nothing. *)
Theorem get_host_details_cached (host host' : string) (v : val) (s s1 : pystate W) :
  get_host_details host s = (Ret v, s1) →
  ∃ nodes, st_nodes s1 = Some nodes ∧ vget_or nodes host VNone = Ret v ∧
           get_host_details host' s1 = (vget_or nodes host' VNone, s1).
Proof.
  unfold get_host_details, load_nodes. intros H. run_ret H. apply lift_run in H as [Hv ->].
  rewrite bind_run in E. simpl in E.
  assert (st_nodes s0 = Some a) as Hn.
  { destruct (st_nodes s) as [n|] eqn:En; [by injection E as <- <-|].
    run_ret E. injection E as <- <-. by injection E1 as _ <-. }
  exists a. split_and!; [done|done|]. rewrite bind_run, bind_run. simpl. by rewrite Hn.
Qed.

(** With no address map configured a host is reached under its own name; with
    one, exactly the hosts in the map can be reached, at the mapped address. *)
Theorem get_ctlplane_address_spec (host : string) :
  get_ctlplane_address host =
  match ctlplane_addresses with
  | [] => Ret host
  | _ => or_raise (CtrlplaneAddressResolutionError host) (dict_get ctlplane_addresses host)
  end.
Proof.
  unfold get_ctlplane_address. destruct ctlplane_addresses as [|e l] eqn:E; [done|].
  case_bool_decide; [done|]. by destruct (dict_get _ host).
Qed.
End host_theorems.

(** * Witnesses *)
Lemma normalize_json_canonical_witness :
  normalize_json (VDict [("cells", VList [VDict [("cpuset", VList [VInt 2; VInt 1])]]); ("a", VNone)]) =
  normalize_json (VDict [("a", VNone); ("cells", VList [VDict [("cpuset", VList [VInt 1; VInt 2])]])]).
Proof.
  apply (normalize_json_canonical
    (VDict [("cells", VList [VDict [("cpuset", VList [VInt 2; VInt 1])]]); ("a", VNone)])
    (VDict [("a", VNone); ("cells", VList [VDict [("cpuset", VList [VInt 1; VInt 2])]])])).
  eapply (jeq_dict _ [("cells", VList [VDict [("cpuset", VList [VInt 1; VInt 2])]]); ("a", VNone)]).
  - repeat constructor; set_solver.
  - constructor; [|repeat constructor]. apply jeq_single. eapply jeq_dict; [|constructor|done].
    + repeat constructor; set_solver.
    + apply (jeq_ints [2; 1] [1; 2]). constructor.
    + constructor.
  - constructor.
Defined.

(** The shape Nova stores for a guest with two NUMA cells. *)
Lemma normalize_json_dict_list_witness :
  normalize_json (VDict [("nova_object.data", VDict [("cells",
    VList [VDict [("id", VInt 0)]; VDict [("id", VInt 1)]])])]) = Exn TypeError.
Proof.
  apply (normalize_json_dict_list (VDict [("nova_object.data", VDict [("cells",
    VList [VDict [("id", VInt 0)]; VDict [("id", VInt 1)]])])])).
  eapply (unsortable_dict _ "nova_object.data"); [by left|].
  eapply (unsortable_list _ "cells" _ [("id", VInt 0)]); [by left|simpl; lia|by left].
Defined.

Lemma get_host_details_cached_witness :
  ∃ nodes, vget_or nodes "compute-0" VNone = Ret (VStr "x").
Proof.
  pose (C := sim_cloud (λ _, false) [] (VDict [("compute-0", VStr "x")])).
  destruct (get_host_details_cached (CONF:=sim_CONF) (C:=C) "compute-0" "compute-1" (VStr "x")
    (mkState None [] (mkSim 0 ∅ true [] [] []))
    (mkState (Some (VDict [("compute-0", VStr "x")])) [] (mkSim 0 ∅ true [] [] [])))
    as (nodes & _ & H & _); [reflexivity|]. by exists nodes.
Defined.
