(* ===== verification/Waiters.v ===== *)
(** common/waiters.py: polling loops with a timeout. Each loop takes the number
    of iterations the model may run it for; the theorems show how many are
    enough, given a clock that [time.sleep] moves forward. *)
From Stdlib Require Import Ascii String.
From S2P Require Import Prelude PyString PyVal Xml Env Sim.
#[local] Open Scope string_scope.

Section waiters.
Context {CONF : conf} {W : Type} `{C : cloud W}.
Abbreviation P := (M (pystate W)).

(** [client.list_services(host=host, binary=binary)['services'][0]] *)
Definition first_service (host binary : string) : P val :=
  body ← api "services_client.list_services" [("host", VStr host); ("binary", VStr binary)];
  services ← lift (vget body "services");
  lift (vnth services 0).

(** The [while] loop of [wait_for_nova_service_state]. *)
Fixpoint service_state_loop (fuel : nat) (timeout interval start_time : Z)
    (host binary status_field state : string) (service : val) : P unit :=
  field ← lift (vget service status_field);
  if py_eq field (VStr state) then mret tt
  else match fuel with
       | O => out_of_fuel
       | S f =>
           sleep interval;;
           t ← now;
           if (timeout <=? t - start_time)%Z then raise TimeoutException
           else service' ← first_service host binary;
                service_state_loop f timeout interval start_time host binary
                  status_field state service'
       end.

Definition wait_for_nova_service_state (fuel : nat) (timeout interval : Z)
    (host binary status_field state : string) : P unit :=
  start_time ← now;
  service ← first_service host binary;
  service_state_loop fuel timeout interval start_time host binary status_field state service.

(** The [while ... else] loop of [wait_for_server_migration_complete]; it looks
    at the last migration listed, whichever server it belongs to. *)
Fixpoint migration_loop (fuel : nat) (timeout interval start_time : Z) : P unit :=
  t ← now;
  if (t - start_time <=? timeout)%Z then
    match fuel with
    | O => out_of_fuel
    | S f =>
        s_migs ← api "migrations_client.list_migrations" [];
        migrations ← lift (vget s_migs "migrations");
        lastm ← lift (vlast migrations);
        status ← lift (vget lastm "status");
        if py_eq status (VStr "done") || py_eq status (VStr "completed") then mret tt
        else if py_eq status (VStr "error") || py_eq status (VStr "failed") then
          raise (MigrationException "Evacuation failed, because server migration failed.")
        else sleep interval;; migration_loop f timeout interval start_time
    end
  else raise TimeoutException.

Definition wait_for_server_migration_complete (fuel : nat) (timeout interval : Z)
    (server_id : string) : P unit :=
  start_time ← now;
  migration_loop fuel timeout (interval + 1) start_time.

(** The loop of [wait_for_trait_add_in_rp]. *)
Fixpoint trait_loop (fuel : nat) (timeout interval start_time : Z)
    (trait provider : string) : P bool :=
  t ← now;
  if (t - start_time <=? timeout)%Z then
    match fuel with
    | O => out_of_fuel
    | S f =>
        body ← api "resource_providers_client.list_resource_provider_traits"
                   [("rp_uuid", VStr provider)];
        traits ← lift (vget body "traits");
        l ← lift (as_list traits);
        if existsb (λ x, py_eq x (VStr trait)) l then mret true
        else sleep interval;; trait_loop f timeout interval start_time trait provider
    end
  else raise TimeoutException.

Definition wait_for_trait_add_in_rp (fuel : nat) (trait provider : string) : P bool :=
  start_time ← now;
  trait_loop fuel build_timeout build_interval start_time trait provider.
End waiters.

(** * Lemmas *)
Section waiter_lemmas.
Context {CONF : conf} {W : Type} `{C : cloud W} `{L : !lawful_clock W}.
Implicit Types s : pystate W.

#[export] Instance steady_first_service host binary : Steady (first_service host binary).
Proof. apply _. Qed.

Lemma service_state_loop_total fuel timeout interval start host binary field state service s o s' :
  0 < interval → (1 <= fuel)%nat →
  timeout <= sclk s - start + Z.of_nat fuel * interval →
  service_state_loop fuel timeout interval start host binary field state service s = (o, s') →
  o ≠ NoFuel.
Proof.
  intros Hi. revert service s. induction fuel as [|f IH]; intros service s Hf Ht H; [lia|].
  cbn [service_state_loop] in H. run_steady H; [|naive_solver].
  destruct (py_eq _ _); [naive_solver|].
  run_step H; apply sleep_run in E as [? ?]; try lia; [|naive_solver..].
  run_step H; apply now_run in E as (t & ? & ?); simplify_eq.
  run_leb H; [naive_solver|]. run_steady H; [|naive_solver].
  eapply IH; [| |exact H]; lia.
Qed.

Lemma migration_loop_total fuel timeout interval start s o s' :
  0 < interval → timeout < sclk s - start + Z.of_nat fuel * interval →
  migration_loop fuel timeout interval start s = (o, s') → o ≠ NoFuel.
Proof.
  intros Hi. revert s. induction fuel as [|f IH]; intros s Ht H;
    cbn [migration_loop] in H; run_step H; apply now_run in E as (t & ? & ?); simplify_eq;
    run_leb H; try (lia || naive_solver).
  do 4 (run_steady H; [|naive_solver]).
  destruct (_ || _)%bool; [naive_solver|]. destruct (_ || _)%bool; [naive_solver|].
  run_step H; apply sleep_run in E as [? ?]; try lia; [|naive_solver..].
  eapply IH, H. lia.
Qed.

Lemma trait_loop_total fuel timeout interval start trait provider s o s' :
  0 < interval → timeout < sclk s - start + Z.of_nat fuel * interval →
  trait_loop fuel timeout interval start trait provider s = (o, s') → o ≠ NoFuel.
Proof.
  intros Hi. revert s. induction fuel as [|f IH]; intros s Ht H;
    cbn [trait_loop] in H; run_step H; apply now_run in E as (t & ? & ?); simplify_eq;
    run_leb H; try (lia || naive_solver).
  do 3 (run_steady H; [|naive_solver]).
  destruct (existsb _ _); [naive_solver|].
  run_step H; apply sleep_run in E as [? ?]; try lia; [|naive_solver..].
  eapply IH, H. lia.
Qed.
End waiter_lemmas.

(** * Theorems *)
Section waiter_theorems.
Context {CONF : conf} {W : Type} `{C : cloud W}.
Implicit Types s : pystate W.

(** The state [s] was reached by a query of the service that showed [state]. *)
Definition reports (host binary field state : string) s : Prop :=
  ∃ s0 service v, first_service host binary s0 = (Ret service, s) ∧
                  vget service field = Ret v ∧ py_eq v (VStr state) = true.

Lemma service_state_loop_Ret fuel timeout interval start host binary field state s0 service s s' :
  first_service host binary s0 = (Ret service, s) →
  service_state_loop fuel timeout interval start host binary field state service s = (Ret tt, s') →
  reports host binary field state s'.
Proof.
  revert s0 service s. induction fuel as [|f IH]; intros s0 service s Hs H;
    cbn [service_state_loop] in H; apply bind_Ret_inv in H as (v & s1 & E & H);
    apply lift_run in E as [Hv ->]; destruct (py_eq v (VStr state)) eqn:Heq;
    try (injection H as <-; by exists s0, service, v); try done.
  run_ret H. destruct (timeout <=? _)%Z; [done|]. run_ret H. eapply IH; eassumption.
Qed.

(** The state [s] was reached by a listing whose last migration shows [status]. *)
Definition last_migration (status : val) s : Prop :=
  ∃ s0 body migrations m,
    api "migrations_client.list_migrations" [] s0 = (Ret body, s) ∧
    vget body "migrations" = Ret migrations ∧ vlast migrations = Ret m ∧
    vget m "status" = Ret status.

Lemma migration_loop_Ret fuel timeout interval start s s' :
  migration_loop fuel timeout interval start s = (Ret tt, s') →
  ∃ status, last_migration status s' ∧
            (py_eq status (VStr "done") || py_eq status (VStr "completed"))%bool = true.
Proof.
  revert s. induction fuel as [|f IH]; intros s H; cbn [migration_loop] in H; run_ret H;
    destruct (_ <=? timeout)%Z; try done.
  apply bind_Ret_inv in H as (body & s2 & Hb & H).
  apply bind_Ret_inv in H as (ms & s3 & E1 & H). apply lift_run in E1 as [? ->].
  apply bind_Ret_inv in H as (m & s4 & E2 & H). apply lift_run in E2 as [? ->].
  apply bind_Ret_inv in H as (st & s5 & E3 & H). apply lift_run in E3 as [? ->].
  destruct (_ || _)%bool eqn:Hd; [injection H as <-; exists st; split; [|done];
    by exists s0, body, ms, m|].
  clear Hd. destruct (_ || _)%bool; [done|]. run_ret H. by eapply IH.
Qed.

(** The state [s] was reached by a listing of [provider]'s traits with [trait] in it. *)
Definition lists_trait (trait provider : string) s : Prop :=
  ∃ s0 body l,
    api "resource_providers_client.list_resource_provider_traits" [("rp_uuid", VStr provider)] s0
      = (Ret body, s) ∧
    vget body "traits" = Ret (VList l) ∧ existsb (λ x, py_eq x (VStr trait)) l = true.

Lemma trait_loop_Ret fuel timeout interval start trait provider s b s' :
  trait_loop fuel timeout interval start trait provider s = (Ret b, s') →
  b = true ∧ lists_trait trait provider s'.
Proof.
  revert s. induction fuel as [|f IH]; intros s H; cbn [trait_loop] in H; run_ret H;
    destruct (_ <=? timeout)%Z; try done.
  apply bind_Ret_inv in H as (body & s2 & Hb & H).
  apply bind_Ret_inv in H as (ts & s3 & E1 & H). apply lift_run in E1 as [Hts ->].
  apply bind_Ret_inv in H as (l & s4 & E2 & H). apply lift_run in E2 as [Hl ->].
  destruct (existsb _ _) eqn:Hd; [|run_ret H; by eapply IH].
  injection H as <- <-. split; [done|]. exists s0, body, l. destruct ts; try done.
  by injection Hl as ->.
Qed.

Lemma wait_for_nova_service_state_run `{L : !lawful_clock W}
    fuel timeout interval host binary field state s o s' :
  0 < interval → (1 <= fuel)%nat → timeout <= Z.of_nat fuel * interval →
  wait_for_nova_service_state fuel timeout interval host binary field state s = (o, s') →
  o ≠ NoFuel ∧ (o = Ret tt → reports host binary field state s').
Proof.
  intros Hi Hf Ht H. unfold wait_for_nova_service_state in H. split.
  - run_step H; apply now_run in E as (t & ? & ?); simplify_eq.
    run_steady H; [|naive_solver]. eapply service_state_loop_total; [..|exact H]; lia.
  - intros ->. apply bind_Ret_inv in H as (t & s1 & _ & H).
    apply bind_Ret_inv in H as (service & s2 & Hs & H). by eapply service_state_loop_Ret.
Qed.

(** C6: [wait_for_nova_service_state] ends: with one iteration per [interval]
    seconds of the timeout it returns or raises, and it returns only when the
    last answer of the services API shows the state waited for. *)
Theorem wait_for_nova_service_state_spec `{L : !lawful_clock W}
    fuel timeout interval host binary field state s o s' :
  0 < interval → (1 <= fuel)%nat → timeout <= Z.of_nat fuel * interval →
  wait_for_nova_service_state fuel timeout interval host binary field state s = (o, s') →
  o ≠ NoFuel ∧ (o = Ret tt → reports host binary field state s').
Proof. apply wait_for_nova_service_state_run. Qed.

(** C12: [wait_for_server_migration_complete] ends within its timeout, and it
    returns only when the last migration listed is [done] or [completed]. *)
Theorem wait_for_server_migration_complete_spec `{L : !lawful_clock W}
    fuel timeout interval server_id s o s' :
  0 <= interval → timeout < Z.of_nat fuel * (interval + 1) →
  wait_for_server_migration_complete fuel timeout interval server_id s = (o, s') →
  o ≠ NoFuel ∧
  (o = Ret tt → ∃ status, last_migration status s' ∧
     (py_eq status (VStr "done") || py_eq status (VStr "completed"))%bool = true).
Proof.
  intros Hi Hf H. unfold wait_for_server_migration_complete in H. split.
  - run_step H; apply now_run in E as (t & ? & ?); simplify_eq.
    eapply migration_loop_total; [..|exact H]; lia.
  - intros ->. run_ret H. by eapply migration_loop_Ret.
Qed.

(** [wait_for_trait_add_in_rp] ends within its timeout, and it returns (True)
    only when the last listing of the provider's traits contains the trait. *)
Theorem wait_for_trait_add_in_rp_spec `{L : !lawful_clock W} fuel trait provider s o s' :
  0 < build_interval → build_timeout < Z.of_nat fuel * build_interval →
  wait_for_trait_add_in_rp fuel trait provider s = (o, s') →
  o ≠ NoFuel ∧ (∀ b, o = Ret b → b = true ∧ lists_trait trait provider s').
Proof.
  intros Hi Hf H. unfold wait_for_trait_add_in_rp in H. split.
  - run_step H; apply now_run in E as (t & ? & ?); simplify_eq.
    eapply trait_loop_total; [..|exact H]; lia.
  - intros b ->. apply bind_Ret_inv in H as (t & s1 & _ & H). by eapply trait_loop_Ret.
Qed.
End waiter_theorems.

(** * Witnesses *)
Definition wait_sim : pystate sim :=
  mkState None [] (mkSim 100 ∅ true []
    [("migrations_client.list_migrations",
      VDict [("migrations", VList [VDict [("status", VStr "error")];
                                   VDict [("status", VStr "completed")]])]);
     ("resource_providers_client.list_resource_provider_traits",
      VDict [("traits", VList [VStr "HW_CPU"; VStr "CUSTOM_A"])])] []).
Definition wait_cloud : cloud sim := sim_cloud (λ _, false) [] VNone.
Definition wait_clock : lawful_clock sim := sim_lawful_clock (λ _, false) [] VNone.

Lemma wait_for_nova_service_state_witness :
  reports (C:=wait_cloud) "compute-0" "nova-compute" "state" "up" wait_sim.
Proof.
  apply (wait_for_nova_service_state_spec (C:=wait_cloud) (L:=wait_clock)
    12 60 5 "compute-0" "nova-compute" "state" "up" wait_sim (Ret tt) wait_sim);
    [lia|lia|lia|vm_compute; reflexivity|reflexivity].
Defined.

Lemma wait_for_server_migration_complete_witness :
  (wait_for_server_migration_complete (C:=wait_cloud) 12 60 5 "srv" wait_sim).1 ≠ NoFuel.
Proof.
  eapply (wait_for_server_migration_complete_spec (C:=wait_cloud) (L:=wait_clock)
    12 60 5 "srv" wait_sim); [lia|lia|apply surjective_pairing].
Defined.

Lemma wait_for_trait_add_in_rp_witness :
  (wait_for_trait_add_in_rp (CONF:=sim_CONF) (C:=wait_cloud) 13 "CUSTOM_B" "rp" wait_sim).1 ≠ NoFuel.
Proof.
  eapply (wait_for_trait_add_in_rp_spec (CONF:=sim_CONF) (C:=wait_cloud) (L:=wait_clock)
    13 "CUSTOM_B" "rp" wait_sim); [simpl; lia|simpl; lia|apply surjective_pairing].
Defined.
