(* ===== verification/Clients.v ===== *)
(** services/clients.py, the read-only clients: remote commands over SSH, virsh,
    log queries, qemu-img, NUMA topology, sysfs and database cursors. *)
From Stdlib Require Import Ascii String.
From S2P Require Import Prelude PyString PyVal Xml Env Sim Utils.
#[local] Open Scope string_scope.

Section clients.
Context {CONF : conf} {W : Type} `{C : cloud W}.
Abbreviation P := (M (pystate W)).

(** * SSHClient *)
Record SSHClient := mkSSHClient {
  ssh_key : string;
  ssh_user : string;
  host_parameters : val;
  ctlplane_address : string;
}.

Definition SSHClient_init (host : string) : P SSHClient :=
  host_parameters ← get_host_details host;
  ctlplane_address ← lift (get_ctlplane_address host);
  mret (mkSSHClient ctlplane_ssh_private_key_path ctlplane_ssh_username
          host_parameters ctlplane_address).

(** The command line [execute] sends. *)
Definition remote_command (command : string) (container_name : val) (sudo : bool) : string :=
  if containers && truthy container_name then
    "sudo " ++ container_runtime ++ " exec -u root " ++ fmt container_name ++ " " ++ command
  else if sudo then "sudo " ++ command
  else command.

Definition execute (self : SSHClient) (command : string) (container_name : val) (sudo : bool)
    : P string :=
  ssh_exec (ctlplane_address self) (ssh_user self) (ssh_key self)
    (remote_command command container_name sudo).

(** [self.host_parameters.get('services', {}).get(service)], or
    MissingServiceSectionException when there is none *)
Definition service_section (self : SSHClient) (service : string) : P val :=
  services ← lift (vget_or (host_parameters self) "services" (VDict []));
  service_dict ← lift (vget_or services service VNone);
  match service_dict with
  | VNone => raise (MissingServiceSectionException service)
  | _ => mret service_dict
  end.

(** * VirshXMLClient *)
Record VirshXMLClient := mkVirshXMLClient { virsh_ssh : SSHClient; virsh_container : val }.

Definition VirshXMLClient_init (host : string) : P VirshXMLClient :=
  self ← SSHClient_init host;
  service_dict ← service_section self "libvirt";
  container_name ← lift (vget_or service_dict "container_name" VNone);
  mret (mkVirshXMLClient self container_name).

Definition virsh (self : VirshXMLClient) (command : string) : P string :=
  execute (virsh_ssh self) command (virsh_container self) true.

Definition dumpxml (self : VirshXMLClient) (domain : string) : P string :=
  virsh self ("virsh dumpxml " ++ domain).
Definition capabilities (self : VirshXMLClient) : P string :=
  virsh self "virsh capabilities".
Definition domblklist (self : VirshXMLClient) (server_id : string) : P string :=
  virsh self ("virsh domblklist " ++ server_id).
Definition secret_dumpxml (self : VirshXMLClient) (secret_uuid : string) : P string :=
  virsh self ("virsh secret-dumpxml " ++ secret_uuid).

(** * LogParserClient

    [container_name] is a local that only the journalctl branch binds; reading
    it unbound raises UnboundLocalError. *)
Definition log_parse (self : SSHClient) (query_string : string) : P string :=
  '(command, container_name) ←
    (if String.eqb log_query_command "zgrep" then
       mret ("sh -c " ++ dq ++ "zgrep '" ++ query_string ++ "' /var/log/nova/*" ++ dq, None)
     else
       services_dict ← lift (vget_or (host_parameters self) "services" (VDict []));
       nova_compute_srvc ← lift (vget_or services_dict "nova-compute" VNone);
       container_name ← lift (vget_or nova_compute_srvc "container_name" VNone);
       mret ("journalctl -u " ++ journalctl_unit ++ " -g '" ++ query_string ++ "'",
             Some container_name));
  container_name ← lift (or_raise UnboundLocalError container_name);
  execute self command container_name true.

(** * QEMUImgClient *)
Definition QEMUImgClient_init (ctlplane_address : string) : P VirshXMLClient :=
  self ← SSHClient_init ctlplane_address;
  service_dict ← service_section self "libvirt";
  container_name ← lift (vget_or service_dict "container_name" VNone);
  mret (mkVirshXMLClient self container_name).

Definition qemu_img_info (self : VirshXMLClient) (path : string) : P val :=
  output ← virsh self ("qemu-img info --output=json --force-share " ++ path);
  lift (json_loads output).

(** * NUMAClient *)

(** The element at index 1 of a split, IndexError when there is none. *)
Definition second {A} (l : list A) : outcome A := or_raise IndexError (l !! 1%nat).
Definition int_of (s : string) : outcome Z := or_raise ValueError (py_int s).

(** One line of [numactl -H]. *)
Definition topology_line (nodes : list (Z * list Z)) (line : string)
    : outcome (list (Z * list Z)) :=
  if contains "node" line && contains "cpus" line then
    field ← second (split_on ":" line);
    cpus ← omap_l int_of (py_words field);
    node ← second (py_words line) ≫= int_of;
    mret (dict_set nodes node cpus)
  else Ret nodes.

Definition parse_topology (numactl : string) : outcome (list (Z * list Z)) :=
  ofold topology_line [] (read_lines numactl).

Definition get_host_topology (self : SSHClient) : P (list (Z * list Z)) :=
  numactl ← execute self "numactl -H" VNone true;
  lift (parse_topology numactl).

Definition get_num_cpus (self : SSHClient) : P Z :=
  nodes ← get_host_topology self;
  mret (foldr Z.add 0 (map (λ '(_, cpus), Z.of_nat (length cpus)) nodes)).

(** The value of the first [Hugepagesize] line; [None] when there is none. *)
Fixpoint parse_pagesize (lines : list string) : outcome (option Z) :=
  match lines with
  | [] => Ret None
  | line :: lines' =>
      if starts_with "Hugepagesize" line then
        field ← second (split_on ":" line);
        word ← or_raise IndexError (py_words field !! 0%nat);
        Some <$> int_of word
      else parse_pagesize lines'
  end.

Definition get_pagesize (self : SSHClient) : P (option Z) :=
  proc_meminfo ← execute self "cat /proc/meminfo" VNone false;
  lift (parse_pagesize (read_lines proc_meminfo)).

(** The locals [total] and [free] of [get_hugepages] outlive the iteration over
    the NUMA nodes that assigned them. *)
Record hugepage_locals := mkHL { hp_total : option Z; hp_free : option Z }.

Definition hugepage_line (l : hugepage_locals) (line : string) : outcome hugepage_locals :=
  l ← (if contains "HugePages_Total" line then
         v ← second (split_on ":" line) ≫= λ f, int_of (py_lstrip f);
         mret (mkHL (Some v) (hp_free l))
       else Ret l);
  if contains "HugePages_Free" line then
    v ← second (split_on ":" line) ≫= λ f, int_of (py_lstrip f);
    mret (mkHL (hp_total l) (Some v))
  else Ret l.

(** One node: [meminfo] parsed into the locals, then [pages[node]] assigned. *)
Definition hugepage_node (acc : list (Z * (Z * Z)) * hugepage_locals) (node : Z) (meminfo : string)
    : outcome (list (Z * (Z * Z)) * hugepage_locals) :=
  let '(pages, l) := acc in
  l ← ofold hugepage_line l (read_lines meminfo);
  total ← or_raise UnboundLocalError (hp_total l);
  free ← or_raise UnboundLocalError (hp_free l);
  mret (dict_set pages node (total, free), l).

(** [{node: {'total': t, 'free': f}}], the inner dict as the pair [(t, f)] *)
Definition get_hugepages (self : SSHClient) : P (list (Z * (Z * Z))) :=
  nodes ← get_host_topology self;
  '(pages, _) ← for_acc (λ acc node,
      meminfo ← execute self
        ("cat /sys/devices/system/node/node" ++ py_str node ++ "/meminfo") VNone false;
      lift (hugepage_node acc node meminfo))
    ([], mkHL None None) (nodes.*1);
  mret pages.

(** * SysFSClient *)

(** One line [path:value] of [grep -H]; [path in results] looks the full path
    up among the keys, which are relative to /sys. *)
Definition sysfs_line (paths : list string) (results : list (string * string)) (line : string)
    : outcome (list (string * string)) :=
  match split_once ":" line with
  | (path, Some value) =>
      if bool_decide (is_Some (dict_get results path)) || negb (bool_decide (path ∈ paths))
      then Exn (GenericException ("Extra or multi-line value found in " ++ path))
      else Ret (dict_set results (String.substring 5 (String.length path - 5) path)
                         (py_strip value))
  | (_, None) => Exn ValueError
  end.

(** [paths] is a set: its elements are listed here in the order of their first
    occurrence. *)
Definition sysfs_paths (paths : list string) : list string :=
  remove_dups (map (λ p, "/sys/" ++ p) paths).

Definition get_sysfs_values (self : SSHClient) (paths : list string)
    : P (list (string * string)) :=
  let paths := sysfs_paths paths in
  result ← execute self ("grep -H " ++ dq ++ dq ++ " " ++ py_join " " paths) VNone false;
  lift (ofold (sysfs_line paths) [] (split_on newline (py_strip result))).

Definition get_sysfs_value (self : SSHClient) (path : string) : P string :=
  results ← get_sysfs_values self [path];
  lift (or_raise KeyError (dict_get results path)).

Definition set_sysfs_value (self : SSHClient) (path value : string) : P unit :=
  execute self ("echo " ++ dq ++ value ++ dq ++ " | sudo tee /sys/" ++ path) VNone false;; mret tt.

(** * DatabaseClient *)
Record DatabaseClient := mkDatabaseClient { db_ssh_key : string; db_ssh_user : string }.

(** The attributes come from CONF, so that every instance is this one. *)
Definition DatabaseClient_init : DatabaseClient :=
  mkDatabaseClient ctlplane_ssh_private_key_path ctlplane_ssh_username.

Definition tunnel_local_bind_host : string := "127.42.42.42".
Definition tunnel_local_bind_port : Z := 4242.

(** [sshtunnel.SSHTunnelForwarder(...)] as a context manager *)
Definition tunnel (internal_ip : string) : context_manager (pystate W) :=
  mkCM
    (api "sshtunnel.SSHTunnelForwarder.__enter__"
       [("ssh_address_or_host", VList [VStr db_host; VInt ssh_gateway_port]);
        ("ssh_username", VStr (db_ssh_user DatabaseClient_init));
        ("ssh_pkey", VStr (db_ssh_key DatabaseClient_init));
        ("allow_agent", VBool false);
        ("remote_bind_address", VList [VStr internal_ip; VInt 3306]);
        ("local_bind_address",
          VList [VStr tunnel_local_bind_host; VInt tunnel_local_bind_port])])
    (λ t, api "sshtunnel.SSHTunnelForwarder.__exit__" [("self", t)];; mret tt).

Definition db_connect (host : string) (port : Z) (database : string) : P val :=
  api "pymysql.connect"
    [("host", VStr host); ("port", VInt port); ("user", VStr db_user);
     ("password", VStr db_password); ("database", VStr database);
     ("cursorclass", VStr "DictCursor")].

Definition conn_cursor (conn : val) : context_manager (pystate W) :=
  mkCM (api "conn.cursor" [("self", conn)])
       (λ c, api "cursor.__exit__" [("self", c)];; mret tt).

(** The two branches of [cursor] share this: connect, yield, and in the
    [finally] commit if asked to and close. *)
Definition cursor_on {A} (connect : P val) (commit : bool) (body : val → P A) : P A :=
  conn ← connect;
  with_as (conn_cursor conn) (λ c,
    try_finally (body c)
      ((if commit then api "conn.commit" [("self", conn)];; mret tt else mret tt);;
       api "conn.close" [("self", conn)];; mret tt)).

Definition cursor {A} (database_name : string) (commit : bool) (body : val → P A) : P A :=
  match db_internal_ip with
  | Some ip =>
      if truthy_str ip then
        with_cm (tunnel ip)
          (cursor_on (db_connect tunnel_local_bind_host tunnel_local_bind_port database_name)
             commit body)
      else cursor_on (db_connect db_host 3306 database_name) commit body
  | None => cursor_on (db_connect db_host 3306 database_name) commit body
  end.
End clients.

(** * numactl output *)

(** A line of [numactl -H]: the CPUs of a node, or anything else. *)
Inductive numactl_line :=
| CpusLine (node : Z) (cpus : list Z)
| OtherLine (text : string).

Definition print_line (l : numactl_line) : string :=
  match l with
  | CpusLine node cpus => "node " ++ py_str node ++ " cpus: " ++ py_join " " (map py_str cpus)
  | OtherLine text => text
  end.

Definition wf_line (l : numactl_line) : Prop :=
  match l with
  | CpusLine node cpus => 0 <= node ∧ Forall (λ c, 0 <= c) cpus
  | OtherLine text =>
      has_char newline text = false ∧ contains "node" text && contains "cpus" text = false
  end.

Definition line_cpus (l : numactl_line) : option (Z * list Z) :=
  match l with CpusLine node cpus => Some (node, cpus) | OtherLine _ => None end.

Lemma join_digits_no_char c l :
  Forall (λ n, 0 <= n) l → is_digit c = false → Ascii.eqb " " c = false →
  has_char c (py_join " " (map py_str l)) = false.
Proof.
  intros Hl Hc Hs. induction Hl as [|n l Hn Hl IH]; [done|].
  destruct l as [|m l]; [by apply py_str_no_char|].
  change (py_join _ _) with (py_str n ++ " " ++ py_join " " (map py_str (m :: l))).
  rewrite !has_char_app, IH, (py_str_no_char c n) by done. cbn [has_char]. by rewrite Hs.
Qed.

Lemma py_words_digits l :
  Forall (λ n, 0 <= n) l → py_words (String " " (py_join " " (map py_str l))) = map py_str l.
Proof.
  intros Hl. change (py_words _) with (py_words (py_join " " (map py_str l))).
  apply py_words_join, Forall_map. eapply Forall_impl; [exact Hl|]. intros n Hn. split.
  - rewrite py_str_nonneg by done. by apply nat_digits_nonempty.
  - eapply all_chars_impl, py_str_digits; [|done]. intros a Ha.
    unfold nonspace. by rewrite is_digit_not_space.
Qed.

Lemma int_of_str n : 0 <= n → int_of (py_str n) = Ret n.
Proof. intros. unfold int_of. by rewrite py_int_str. Qed.

Lemma topology_line_cpus nodes node cpus :
  0 <= node → Forall (λ c, 0 <= c) cpus →
  topology_line nodes (print_line (CpusLine node cpus)) = Ret (dict_set nodes node cpus).
Proof.
  intros Hn Hc. unfold topology_line. cbn [print_line].
  set (rest := py_join " " (map py_str cpus)).
  assert (contains "cpus" ("node " ++ py_str node ++ " cpus: " ++ rest) = true) as ->.
  { rewrite <-app_assoc_s. by apply contains_app_r. }
  change (contains "node" _) with true. cbv [andb].
  assert (second (split_on ":" ("node " ++ py_str node ++ " cpus: " ++ rest)) =
          Ret (String " " rest)) as ->.
  { replace ("node " ++ py_str node ++ " cpus: " ++ rest) with
      (("node " ++ py_str node ++ " cpus") ++ String ":" (String " " rest))
      by (by rewrite !app_assoc_s).
    rewrite split_on_app.
    - rewrite split_on_none; [done|]. simpl. by apply join_digits_no_char.
    - rewrite !has_char_app, py_str_no_char by done. done. }
  cbn [mbind outcome_bind]. unfold rest. rewrite py_words_digits by done.
  assert (omap_l int_of (map py_str cpus) = Ret cpus) as ->.
  { clear rest. induction Hc as [|c cpus Hc _ IH]; [done|]. simpl.
    rewrite int_of_str by done. simpl. by rewrite IH. }
  cbn [mbind outcome_bind].
  assert (second (py_words ("node " ++ py_str node ++ " cpus: " ++ py_join " " (map py_str cpus)))
          = Ret (py_str node)) as ->.
  { unfold py_words. change ("node " ++ ?s) with ("node" ++ String " " s).
    rewrite words_acc_app by done. rewrite words_acc_space by done.
    change (" cpus: " ++ ?s) with (String " " ("cpus: " ++ s)).
    rewrite words_acc_app.
    - rewrite words_acc_space; [done|]. simpl. rewrite py_str_nonneg by done.
      by apply nat_digits_nonempty.
    - eapply all_chars_impl, py_str_digits; [|done]. intros a Ha.
      unfold nonspace. by rewrite is_digit_not_space. }
  simpl. by rewrite int_of_str.
Qed.

Lemma topology_lines nodes ls :
  Forall wf_line ls → NoDup (nodes.*1 ++ (omap line_cpus ls).*1)%list →
  ofold topology_line nodes (map print_line ls) = Ret (nodes ++ omap line_cpus ls)%list.
Proof.
  intros Hwf. revert nodes. induction Hwf as [|l ls Hl Hwf IH]; intros nodes Hnd.
  - simpl. by rewrite app_nil_r.
  - cbn [map ofold]. destruct l as [node cpus|text].
    + destruct Hl as [Hn Hc]. rewrite (topology_line_cpus nodes) by done. simpl in *.
      rewrite dict_set_new; [|apply NoDup_app in Hnd as (_ & Hd & _); set_solver].
      rewrite IH; [by rewrite <-app_assoc|]. rewrite fmap_app, <-app_assoc. done.
    + destruct Hl as [_ Ht]. cbn [print_line].
      assert (topology_line nodes text = Ret nodes) as -> by (unfold topology_line; by rewrite Ht).
      by apply IH.
Qed.

Lemma print_line_no_newline l : wf_line l → has_char newline (print_line l) = false.
Proof.
  destruct l as [node cpus|text]; simpl; [|by intros []]. intros [Hn Hc].
  rewrite !has_char_app, py_str_no_char by done. simpl. by apply join_digits_no_char.
Qed.

(** * Theorems *)

(** C11: [get_host_topology] reads back exactly the nodes and CPUs that
    [numactl -H] printed, in order, whatever other lines stand between them. *)
Theorem parse_topology_print (ls : list numactl_line) :
  Forall wf_line ls → NoDup ((omap line_cpus ls).*1) →
  parse_topology (unlines (map print_line ls)) = Ret (omap line_cpus ls).
Proof.
  intros Hwf Hnd. unfold parse_topology. rewrite read_lines_unlines.
  - by apply (topology_lines []).
  - apply Forall_map. eapply Forall_impl; [exact Hwf|]. apply print_line_no_newline.
Qed.

(** ** Hugepages *)

(** A line of a node's meminfo, as far as the parser distinguishes them. *)
Inductive meminfo_line :=
| HugePagesTotal (node n : Z)
| HugePagesFree (node n : Z)
| MemOther (text : string).

Definition print_meminfo (l : meminfo_line) : string :=
  match l with
  | HugePagesTotal node n => "Node " ++ py_str node ++ " HugePages_Total:  " ++ py_str n
  | HugePagesFree node n => "Node " ++ py_str node ++ " HugePages_Free:   " ++ py_str n
  | MemOther text => text
  end.

Definition wf_meminfo (l : meminfo_line) : Prop :=
  match l with
  | HugePagesTotal node n | HugePagesFree node n => 0 <= node ∧ 0 <= n
  | MemOther text =>
      has_char newline text = false ∧ contains "HugePages_Total" text = false ∧
      contains "HugePages_Free" text = false
  end.

(** The values the locals hold after the lines [ls]. *)
Definition meminfo_step (l : hugepage_locals) (m : meminfo_line) : hugepage_locals :=
  match m with
  | HugePagesTotal _ n => mkHL (Some n) (hp_free l)
  | HugePagesFree _ n => mkHL (hp_total l) (Some n)
  | MemOther _ => l
  end.

(** The two kinds of lines of interest differ only in the word after the node. *)
Lemma meminfo_field node word sp n :
  0 <= node → 0 <= n → has_char ":" word = false → all_chars is_space sp = true →
  second (split_on ":" ("Node " ++ py_str node ++ " " ++ word ++ ":" ++ sp ++ py_str n))
    ≫= (λ f, int_of (py_lstrip f)) = Ret n.
Proof.
  intros Hnode Hn Hw Hsp.
  replace ("Node " ++ py_str node ++ " " ++ word ++ ":" ++ sp ++ py_str n) with
    (("Node " ++ py_str node ++ " " ++ word) ++ String ":" (sp ++ py_str n))
    by (by rewrite !app_assoc_s).
  rewrite split_on_app by (rewrite !has_char_app, Hw, py_str_no_char by done; done).
  assert (has_char ":" sp = false) as Hc.
  { apply negb_true_iff. rewrite <-has_char_false. eapply all_chars_impl, Hsp.
    intros a Ha. by destruct (Ascii.eqb_spec a ":") as [->|]. }
  rewrite split_on_none by (by rewrite has_char_app, Hc, py_str_no_char). cbn [second].
  unfold second. simpl.
  assert (py_lstrip (sp ++ py_str n) = py_str n) as ->; [|by apply int_of_str].
  clear Hc. induction sp as [|a sp IH]; simpl.
  - apply lstrip_by_none. eapply all_chars_impl, py_str_digits; [|done].
    intros a Ha. by rewrite is_digit_not_space.
  - simpl in Hsp. apply andb_true_iff in Hsp as [Ha Hsp]. unfold py_lstrip. simpl.
    rewrite Ha. by apply IH.
Qed.

Lemma hugepage_line_print l m :
  wf_meminfo m → hugepage_line l (print_meminfo m) = Ret (meminfo_step l m).
Proof.
  assert (∀ node p s, 0 <= node → contains (String "H" p) ("Node " ++ py_str node ++ s) =
    contains (String "H" p) s) as Hskip.
  { intros node p s Hn. rewrite <-app_assoc_s. apply contains_skip.
    rewrite has_char_app, py_str_no_char by done. done. }
  unfold hugepage_line. destruct m as [node n|node n|text]; simpl wf_meminfo.
  - intros [Hnode Hn]. cbn [print_meminfo]. rewrite !Hskip by done.
    change (contains "HugePages_Total" (" HugePages_Total:  " ++ py_str n)) with true.
    cbv iota. pose proof (meminfo_field node "HugePages_Total" "  " n Hnode Hn) as Hf.
    change (" " ++ "HugePages_Total" ++ ":" ++ "  " ++ py_str n) with
      (" HugePages_Total:  " ++ py_str n) in Hf.
    rewrite Hf by done. simpl.
    by rewrite (contains_none "H" "ugePages_Free" (py_str n)) by by apply py_str_no_char.
  - intros [Hnode Hn]. cbn [print_meminfo]. rewrite !Hskip by done.
    assert (contains "HugePages_Total" (" HugePages_Free:   " ++ py_str n) = false) as ->.
    { simpl. by apply (contains_none "H" "ugePages_Total"), py_str_no_char. }
    pose proof (meminfo_field node "HugePages_Free" "   " n Hnode Hn) as Hf.
    change (" " ++ "HugePages_Free" ++ ":" ++ "   " ++ py_str n) with
      (" HugePages_Free:   " ++ py_str n) in Hf. cbn [mbind outcome_bind].
    change (contains "HugePages_Free" (" HugePages_Free:   " ++ py_str n)) with true.
    cbv iota. by rewrite Hf.
  - intros (_ & Ht & Hf). cbn [print_meminfo]. by rewrite Ht; simpl; rewrite Hf.
Qed.

Lemma meminfo_lines l ls :
  Forall wf_meminfo ls →
  ofold hugepage_line l (map print_meminfo ls) = Ret (foldl meminfo_step l ls).
Proof.
  intros H. revert l. induction H as [|m ls Hm _ IH]; intros l; [done|].
  cbn [map ofold]. rewrite hugepage_line_print by done. simpl. apply IH.
Qed.

Lemma print_meminfo_no_newline m : wf_meminfo m → has_char newline (print_meminfo m) = false.
Proof.
  destruct m as [node n|node n|text]; cbn [wf_meminfo print_meminfo]; [| |by intros []];
    intros [Hnode Hn];
    by rewrite !has_char_app, (py_str_no_char newline node), (py_str_no_char newline n).
Qed.

Lemma meminfo_read ls :
  Forall wf_meminfo ls → read_lines (unlines (map print_meminfo ls)) = map print_meminfo ls.
Proof.
  intros H. apply read_lines_unlines, Forall_map. eapply Forall_impl; [exact H|].
  apply print_meminfo_no_newline.
Qed.

(** For one NUMA node, [get_hugepages] records the last HugePages_Total and
    HugePages_Free printed in the node's meminfo, falling back on the values of
    the nodes read before it, and raises UnboundLocalError when there is none. *)
Theorem hugepage_node_print pages l0 node (ls : list meminfo_line) :
  Forall wf_meminfo ls →
  hugepage_node (pages, l0) node (unlines (map print_meminfo ls)) =
  match foldl meminfo_step l0 ls with
  | mkHL (Some total) (Some free) as l => Ret (dict_set pages node (total, free), l)
  | _ => Exn UnboundLocalError
  end.
Proof.
  intros Hls. unfold hugepage_node. rewrite meminfo_read, meminfo_lines by done.
  simpl. by destruct (foldl meminfo_step l0 ls) as [[] []].
Qed.

(** A node whose meminfo shows no hugepage counters is reported with the
    counters of the node before it: [total] and [free] are not reset between
    iterations. *)
Theorem hugepage_node_stale pages total free node (ls : list meminfo_line) :
  Forall (λ m, wf_meminfo m ∧ ∃ text, m = MemOther text) ls →
  ∃ l, hugepage_node (pages, mkHL (Some total) (Some free)) node (unlines (map print_meminfo ls)) =
       Ret (dict_set pages node (total, free), l).
Proof.
  intros H. unfold hugepage_node.
  assert (Forall wf_meminfo ls) as Hwf by (eapply Forall_impl; [exact H|by intros ? []]).
  rewrite meminfo_read, meminfo_lines by done.
  assert (∀ l, foldl meminfo_step l ls = l) as Hst.
  { induction H as [|m ls [_ [t ->]] _ IH]; intros l; simpl; [done|]. apply IH.
    by inversion Hwf. }
  rewrite Hst. simpl. eauto.
Qed.

(** ** sysfs *)
Lemma substring_0_length s : String.substring 0 (String.length s) s = s.
Proof. induction s as [|a s IH]; simpl; [done|]. by rewrite IH. Qed.

Lemma sys_relative p :
  String.substring 5 (String.length ("/sys/" ++ p) - 5) ("/sys/" ++ p) = p.
Proof. simpl. rewrite Nat.sub_0_r. apply substring_0_length. Qed.

Definition print_sysfs (pv : string * string) : string := "/sys/" ++ pv.1 ++ ":" ++ pv.2.

Lemma sys_not_self p : "/sys/" ++ p ≠ p.
Proof. intros H. apply (f_equal String.length) in H. simpl in H. lia. Qed.

Lemma sysfs_line_print paths results p v :
  has_char ":" p = false → dict_get results ("/sys/" ++ p) = None → p ∈ paths →
  sysfs_line (sysfs_paths paths) results (print_sysfs (p, v)) =
  Ret (dict_set results p (py_strip v)).
Proof.
  intros Hp Hr Hin. unfold sysfs_line, print_sysfs. cbn [fst snd].
  change ("/sys/" ++ p ++ ":" ++ v) with ("/sys/" ++ p ++ String ":" v).
  rewrite <-app_assoc_s, split_once_app by (simpl; done). rewrite Hr.
  rewrite bool_decide_eq_false_2 by (by intros [? ?]).
  rewrite bool_decide_eq_true_2.
  - cbn [orb negb]. by rewrite sys_relative.
  - unfold sysfs_paths. apply elem_of_remove_dups.
    by apply (list_elem_of_fmap_2 (λ p, "/sys/" ++ p)).
Qed.

(** [get_sysfs_values] maps each requested path to its stripped value when
    [grep -H] prints one line per path. *)
Theorem sysfs_lines_print paths (pvs : list (string * string)) :
  Forall (λ pv, has_char ":" pv.1 = false ∧ pv.1 ∈ paths) pvs → NoDup (pvs.*1) →
  (∀ p, p ∈ pvs.*1 → "/sys/" ++ p ∉ pvs.*1) →
  ofold (sysfs_line (sysfs_paths paths)) [] (map print_sysfs pvs) =
  Ret (map (λ pv, (pv.1, py_strip pv.2)) pvs).
Proof.
  intros HF Hnd Hsys.
  assert (∀ acc, NoDup (acc.*1 ++ pvs.*1) → (∀ p, p ∈ pvs.*1 → "/sys/" ++ p ∉ acc.*1) →
    ofold (sysfs_line (sysfs_paths paths)) acc (map print_sysfs pvs) =
    Ret (acc ++ map (λ pv, (pv.1, py_strip pv.2)) pvs)%list) as Hgen.
  { induction HF as [|[p v] pvs [Hp Hin] _ IH]; intros acc Hnd' Hsys'; cbn [map ofold].
    - by rewrite app_nil_r.
    - simpl in *. rewrite (sysfs_line_print paths) by
        (first [done | apply dict_get_None, Hsys'; by apply elem_of_cons; left]).
      cbn [mbind outcome_bind].
      rewrite dict_set_new by (apply NoDup_app in Hnd' as (_ & Hd & _); set_solver).
      rewrite IH; [by rewrite <-app_assoc| | |rewrite fmap_app, <-app_assoc; done|].
      + by apply NoDup_cons in Hnd as [_ ?].
      + intros q Hq Hq'. apply (Hsys q); by apply elem_of_cons; right.
      + intros q Hq. rewrite fmap_app. simpl. intros [?|Heq%list_elem_of_singleton]%elem_of_app.
        * apply (Hsys' q); [by apply elem_of_cons; right|done].
        * apply (Hsys q); [by apply elem_of_cons; right|]. rewrite Heq. by apply elem_of_cons; left. }
  rewrite (Hgen []); [done|done|]. intros p _ []%elem_of_nil.
Qed.

(** A file with two lines is not rejected: the guard looks the full path up
    among keys that are relative to /sys, so the second line silently replaces
    the first. *)
Theorem sysfs_multiline_accepted paths p v1 v2 :
  has_char ":" p = false → p ∈ paths →
  ofold (sysfs_line (sysfs_paths paths)) [] (map print_sysfs [(p, v1); (p, v2)]) =
  Ret [(p, py_strip v2)].
Proof.
  intros Hp Hin. cbn [map ofold]. rewrite (sysfs_line_print paths) by done.
  cbn [mbind outcome_bind dict_set]. rewrite (sysfs_line_print paths); [| done| |done].
  - simpl. by rewrite decide_True.
  - simpl. rewrite decide_False; [done|]. intros E. by apply (sys_not_self p).
Qed.

(** ** Log queries *)

(** With [log_query_command = zgrep] a log query always raises
    UnboundLocalError, before any command is sent: [container_name] is assigned
    in the journalctl branch only. *)
Theorem log_parse_zgrep {CONF : conf} {W} `{C : cloud W} self q (s : pystate W) :
  log_query_command = "zgrep" → log_parse self q s = (Exn UnboundLocalError, s).
Proof. intros H. unfold log_parse. by rewrite H. Qed.

(** * Witnesses *)
Lemma parse_topology_print_witness :
  parse_topology (unlines (map print_line
    [OtherLine "available: 2 nodes (0-1)"; CpusLine 0 [0; 1]; OtherLine "node 0 size: 7976 MB";
     CpusLine 1 [2; 3]; OtherLine "node distances:"]))
  = Ret [(0, [0; 1]); (1, [2; 3])].
Proof.
  apply (parse_topology_print
    [OtherLine "available: 2 nodes (0-1)"; CpusLine 0 [0; 1]; OtherLine "node 0 size: 7976 MB";
     CpusLine 1 [2; 3]; OtherLine "node distances:"]).
  - repeat constructor; simpl; lia.
  - repeat constructor; set_solver.
Defined.

Lemma hugepage_node_print_witness :
  hugepage_node ([], mkHL None None) 0
    (unlines (map print_meminfo [MemOther "Node 0 MemTotal: 7976 kB"; HugePagesTotal 0 512;
                                 HugePagesFree 0 500]))
  = Ret ([(0, (512, 500))], mkHL (Some 512) (Some 500)).
Proof.
  apply (hugepage_node_print [] (mkHL None None) 0
    [MemOther "Node 0 MemTotal: 7976 kB"; HugePagesTotal 0 512; HugePagesFree 0 500]).
  repeat constructor; simpl; lia.
Defined.

Lemma hugepage_node_stale_witness :
  ∃ l, hugepage_node ([(0, (512, 500))], mkHL (Some 512) (Some 500)) 1
         (unlines (map print_meminfo [MemOther "Node 1 MemTotal: 7976 kB"]))
       = Ret ([(0, (512, 500)); (1, (512, 500))], l).
Proof.
  apply (hugepage_node_stale [(0, (512, 500))] 512 500 1 [MemOther "Node 1 MemTotal: 7976 kB"]).
  repeat constructor. eauto.
Defined.

Lemma sysfs_lines_print_witness :
  ofold (sysfs_line (sysfs_paths ["kernel/mm/ksm/run"; "class/a"])) []
    (map print_sysfs [("class/a", " 5 "); ("kernel/mm/ksm/run", "0")])
  = Ret [("class/a", "5"); ("kernel/mm/ksm/run", "0")].
Proof.
  apply (sysfs_lines_print ["kernel/mm/ksm/run"; "class/a"]
           [("class/a", " 5 "); ("kernel/mm/ksm/run", "0")]).
  - repeat constructor; set_solver.
  - repeat constructor; set_solver.
  - intros p Hp Hq. apply list_elem_of_In in Hp, Hq.
    repeat destruct Hp as [<-|Hp]; repeat destruct Hq as [Hq|Hq]; done.
Defined.

Lemma sysfs_multiline_accepted_witness :
  ofold (sysfs_line (sysfs_paths ["class/a"])) [] (map print_sysfs [("class/a", "1"); ("class/a", "2")])
  = Ret [("class/a", "2")].
Proof. apply (sysfs_multiline_accepted ["class/a"] "class/a" "1" "2"); [done|by left]. Defined.

Lemma log_parse_zgrep_witness :
  let s := mkState None [] (mkSim 0 ∅ true [] [] []) in
  log_parse (CONF:=mk_sim_CONF "zgrep" false false) (C:=sim_cloud (λ _, false) [] VNone)
    (mkSSHClient "k" "u" VNone "h") "error" s = (Exn UnboundLocalError, s).
Proof.
  cbv zeta. apply (log_parse_zgrep (CONF:=mk_sim_CONF "zgrep" false false)). reflexivity.
Defined.
