(* ===== verification/ServiceManager.v ===== *)
(** services/clients.py, the service managers: reading and changing options of
    a remote configuration file with crudini, starting and stopping services,
    and the context managers that put both back. *)
From Stdlib Require Import Ascii String.
From S2P Require Import Prelude PyString PyVal Xml Env Sim Hardware Utils Waiters Clients.
#[local] Open Scope string_scope.

(** Which class the manager is an instance of; it decides the [start] and
    [stop] that [restart], [config_options] and [stopped] reach. *)
Inductive manager_class :=
| BaseServiceManager
| NovaServiceManager (host : string)
| VirtQEMUdManager (host : string).

Record ServiceManager := mkServiceManager {
  sm_ssh : SSHClient;
  sm_service : string;
  sm_config_path : val;
  sm_start_command : val;
  sm_stop_command : val;
  sm_mask_command : val;
  sm_unmask_command : val;
  sm_class : manager_class;
}.

Section manager.
Context {CONF : conf} {W : Type} `{C : cloud W}.
(** Iterations the polling loops may run for. *)
Context (fuel : nat).
Abbreviation P := (M (pystate W)).

Definition ServiceManager_init (hostname service : string) (cls : manager_class)
    : P ServiceManager :=
  self ← SSHClient_init hostname;
  service_dict ← service_section self service;
  config_path ← lift (vget_or service_dict "config_path" VNone);
  start_command ← lift (vget_or service_dict "start_command" VNone);
  stop_command ← lift (vget_or service_dict "stop_command" VNone);
  mask_command ← lift (vget_or service_dict "mask_command" VNone);
  unmask_command ← lift (vget_or service_dict "unmask_command" VNone);
  mret (mkServiceManager self service config_path start_command stop_command
          mask_command unmask_command cls).

Definition NovaServiceManager_init (host service : string) : P ServiceManager :=
  ServiceManager_init host service (NovaServiceManager host).
Definition VirtQEMUdManager_init (host service : string) : P ServiceManager :=
  ServiceManager_init host service (VirtQEMUdManager host).

(** * Configuration options *)
Definition crudini (op : string) (self : ServiceManager) (section option : string) : string :=
  "crudini " ++ op ++ " " ++ fmt (sm_config_path self) ++ " " ++ section ++ " " ++ option.

(** [None] when crudini reports that the section or the option is not found. *)
Definition get_conf_opt (self : ServiceManager) (section option : string) : P (Datatypes.option string) :=
  try_except
    (value ← execute (sm_ssh self) (crudini "--get" self section option) VNone true;
     mret (Some (py_strip value)))
    (λ e, match e with
          | SSHExecCommandFailed msg =>
              Some (if contains "not found" msg then mret None else raise e)
          | _ => None
          end).

Definition del_conf_opt (self : ServiceManager) (section option : string) : P string :=
  execute (sm_ssh self) (crudini "--del" self section option) VNone true.

Definition set_conf_opt (self : ServiceManager) (section option : string) (value : val) : P string :=
  let command :=
    match value with
    | VNone => crudini "--del" self section option
    | _ => crudini "--set" self section option ++ " " ++ fmt value
    end in
  execute (sm_ssh self) command VNone true.

(** * Starting and stopping *)
Definition run_command (self : ServiceManager) (command : val) : P unit :=
  execute (sm_ssh self) (fmt command) VNone true;; mret tt.

Definition ServiceManager_start (self : ServiceManager) : P unit :=
  (if truthy (sm_unmask_command self)
   then run_command self (sm_unmask_command self) else mret tt);;
  run_command self (sm_start_command self).

Definition ServiceManager_stop (self : ServiceManager) : P unit :=
  run_command self (sm_stop_command self);;
  (if truthy (sm_unmask_command self)
   then run_command self (sm_mask_command self) else mret tt).

Definition NovaServiceManager_start (host : string) (self : ServiceManager) : P unit :=
  run_command self (sm_start_command self);;
  wait_for_nova_service_state fuel build_timeout build_interval host (sm_service self) "state" "up".

Definition NovaServiceManager_stop (host : string) (self : ServiceManager) : P unit :=
  run_command self (sm_stop_command self);;
  wait_for_nova_service_state fuel build_timeout build_interval host (sm_service self) "state" "down".

Definition VirtQEMUdManager_start (host : string) (self : ServiceManager) : P unit :=
  run_command self (sm_start_command self);;
  wait_for_nova_service_state fuel build_timeout build_interval host "nova-compute" "status" "enabled".

Definition VirtQEMUdManager_stop (host : string) (self : ServiceManager) : P unit :=
  run_command self (sm_stop_command self);;
  wait_for_nova_service_state fuel build_timeout build_interval host "nova-compute" "status" "disabled".

(** The method the class of the manager provides. *)
Definition start (self : ServiceManager) : P unit :=
  match sm_class self with
  | BaseServiceManager => ServiceManager_start self
  | NovaServiceManager host => NovaServiceManager_start host self
  | VirtQEMUdManager host => VirtQEMUdManager_start host self
  end.

Definition stop (self : ServiceManager) : P unit :=
  match sm_class self with
  | BaseServiceManager => ServiceManager_stop self
  | NovaServiceManager host => NovaServiceManager_stop host self
  | VirtQEMUdManager host => VirtQEMUdManager_stop host self
  end.

Definition restart (self : ServiceManager) : P unit := stop self;; start self.

(** * Context managers *)

(** One [(section, option, value)] argument: save the current value, set the new. *)
Definition save_and_set (self : ServiceManager)
    (initial_values : list (string * string * val)) (opt : string * string * val)
    : P (list (string * string * val)) :=
  let '(section, option, value) := opt in
  v ← get_conf_opt self section option;
  set_conf_opt self section option value;;
  mret (initial_values ++ [(section, option, vopt_str v)])%list.

Definition restore (self : ServiceManager) (initial_values : list (string * string * val)) : P unit :=
  for_each (λ '(section, option, value), set_conf_opt self section option value;; mret tt)
    initial_values.

Definition config_options (self : ServiceManager) (opts : list (string * string * val))
    : context_manager (pystate W) :=
  mkCM
    (initial_values ← for_acc (save_and_set self) [] opts;
     restart self;;
     mret initial_values)
    (λ initial_values, restore self initial_values;; restart self).

Definition stopped (self : ServiceManager) : context_manager (pystate W) :=
  mkCM (stop self) (λ _, start self).

(** * CPU sets of a compute host *)
Definition get_cpu_shared_set (self : ServiceManager) : P (gset Z) :=
  shared_set ← get_conf_opt self "compute" "cpu_shared_set";
  if truthy (vopt_str shared_set)
  then lift (parse_cpu_spec (default "" shared_set))
  else mret ∅.

Definition get_cpu_dedicated_set (self : ServiceManager) : P (gset Z) :=
  dedicated_set ← get_conf_opt self "compute" "cpu_dedicated_set";
  dedicated_set ← match dedicated_set with
                  | Some _ => mret dedicated_set
                  | None => get_conf_opt self "DEFAULT" "vcpu_pin_set"
                  end;
  if truthy (vopt_str dedicated_set)
  then lift (parse_cpu_spec (default "" dedicated_set))
  else mret ∅.
End manager.

(** * What crudini and the service commands do

    The documented behaviour of [crudini --get|--set|--del FILE SECTION PARAM],
    for arguments the remote shell passes on unchanged, and the fact that
    nothing else the manager does touches the file. *)

(** Characters a POSIX shell passes on as they are. *)
Definition shell_char (a : ascii) : bool :=
  let n := code a in
  is_digit a || ((65 <=? n) && (n <=? 90))%N || ((97 <=? n) && (n <=? 122))%N ||
  existsb (Ascii.eqb a) ["-"; "_"; "."; ","; ":"; "/"; "@"; "+"; "="; "^"]%char.
Definition shell_word (w : string) : Prop := w ≠ "" ∧ all_chars shell_char w = true.

Class lawful_crudini {W} `{C : cloud W} (self : ServiceManager) := {
  cfile : W → gmap (string * string) string;
  crudini_run (cmd : string) (w : W) : outcome string * W :=
    ssh_exec_command (ctlplane_address (sm_ssh self)) (ssh_user (sm_ssh self))
      (ssh_key (sm_ssh self)) ("sudo " ++ cmd) w;
  crudini_get_law : ∀ s o w, shell_word s → shell_word o →
    cfile (crudini_run (crudini "--get" self s o) w).2 = cfile w ∧
    match cfile w !! (s, o) with
    | Some v => (crudini_run (crudini "--get" self s o) w).1 = Ret (v ++ String newline "")
    | None => ∃ msg, (crudini_run (crudini "--get" self s o) w).1 =
                     Exn (SSHExecCommandFailed msg) ∧ contains "not found" msg = true
    end;
  crudini_set_law : ∀ s o v w, shell_word s → shell_word o → shell_word v →
    (∃ out, (crudini_run (crudini "--set" self s o ++ " " ++ v) w).1 = Ret out) ∧
    cfile (crudini_run (crudini "--set" self s o ++ " " ++ v) w).2 = <[(s, o) := v]> (cfile w);
  crudini_del_law : ∀ s o w, shell_word s → shell_word o →
    (∃ out, (crudini_run (crudini "--del" self s o) w).1 = Ret out) ∧
    cfile (crudini_run (crudini "--del" self s o) w).2 = delete (s, o) (cfile w);
  service_cmd_frame : ∀ c w,
    c ∈ [sm_start_command self; sm_stop_command self; sm_mask_command self;
         sm_unmask_command self] →
    cfile (crudini_run (fmt c) w).2 = cfile w;
  api_frame : ∀ m a w, cfile (api_call m a w).2 = cfile w;
  time_frame : ∀ w, cfile (time_time w).2 = cfile w;
  sleep_frame : ∀ n w, cfile (time_sleep n w) = cfile w;
}.

(** Unfold a start or stop down to its commands. *)
Ltac unfold_service :=
  unfold restart, stop, start, ServiceManager_start, ServiceManager_stop, NovaServiceManager_start,
    NovaServiceManager_stop, VirtQEMUdManager_start, VirtQEMUdManager_stop in *.

Section config_lemmas.
Context {CONF : conf} {W : Type} `{C : cloud W} (self : ServiceManager).
Context `{K : !lawful_crudini self} (fuel : nat).
Abbreviation P := (M (pystate W)).

Definition sfile (s : pystate W) : gmap (string * string) string := cfile (st_world s).

(** Statements that leave the configuration file alone. *)
Class Keeps {A} (m : P A) : Prop := keeps : ∀ s, sfile (m s).2 = sfile s.

#[export] Instance keeps_ret {A} (a : A) : Keeps (mret a).
Proof. done. Qed.
#[export] Instance keeps_raise {A} e : Keeps (raise (A:=A) e).
Proof. done. Qed.
#[export] Instance keeps_fuel {A} : Keeps (out_of_fuel (A:=A)).
Proof. done. Qed.
#[export] Instance keeps_lift {A} (o : outcome A) : Keeps (lift o).
Proof. done. Qed.
#[export] Instance keeps_bind {A B} (m : P A) (f : A → P B) :
  Keeps m → (∀ a, Keeps (f a)) → Keeps (m ≫= f).
Proof.
  intros Hm Hf s. rewrite bind_run. specialize (Hm s).
  destruct (m s) as [[a|e|] s']; simpl in *; [|done..]. by rewrite (Hf a s').
Qed.

Lemma keeps_in_world {A} (f : W → outcome A * W) :
  (∀ w, cfile (f w).2 = cfile w) → Keeps (in_world f).
Proof.
  intros Hf s. unfold in_world, sfile. specialize (Hf (st_world s)).
  by destruct (f (st_world s)).
Qed.
#[export] Instance keeps_api m a : Keeps (api m a).
Proof. apply keeps_in_world. intros. apply api_frame. Qed.
#[export] Instance keeps_now : Keeps now.
Proof.
  apply keeps_in_world. intros w. pose proof (time_frame w). by destruct (time_time w).
Qed.
#[export] Instance keeps_sleep n : Keeps (sleep n).
Proof. apply keeps_in_world. intros w. apply sleep_frame. Qed.

Lemma keeps_run_command c :
  c ∈ [sm_start_command self; sm_stop_command self; sm_mask_command self;
       sm_unmask_command self] → Keeps (run_command self c).
Proof.
  intros Hc. apply keeps_bind; [|apply _]. apply keeps_in_world. intros w.
  unfold remote_command. rewrite andb_false_r. by apply service_cmd_frame.
Qed.

#[export] Instance keeps_wait timeout interval host binary field state :
  Keeps (wait_for_nova_service_state fuel timeout interval host binary field state).
Proof.
  apply keeps_bind; [apply _|intros start]. apply keeps_bind; [apply _|].
  induction fuel as [|f IH]; intros service; cbn [service_state_loop];
    (apply keeps_bind; [apply _|intros v]); destruct (py_eq v (VStr state)); try apply _.
  apply keeps_bind; [apply _|intros _]. apply keeps_bind; [apply _|intros t].
  destruct (timeout <=? t - start)%Z; [apply _|]. apply keeps_bind; [apply _|apply IH].
Qed.

#[export] Instance keeps_restart : Keeps (restart fuel self).
Proof.
  unfold_service. apply keeps_bind; [|intros _]; destruct (sm_class self);
    repeat first
      [ apply keeps_run_command; set_solver
      | apply keeps_wait | apply keeps_ret
      | apply keeps_bind; [|intros _]
      | destruct (truthy _) ].
Qed.

(** ** The option operations as changes of the file *)
Definition opt_key (opt : string * string * val) : string * string := opt.1.

(** [set_conf_opt]'s effect on one option; [None] deletes it. *)
Definition set_entry (m : gmap (string * string) string) (opt : string * string * val)
    : gmap (string * string) string :=
  match opt.2 with
  | VNone => delete opt.1 m
  | v => <[opt.1 := fmt v]> m
  end.

(** Arguments that reach crudini as they are written. *)
Definition plain_opt (opt : string * string * val) : Prop :=
  shell_word opt.1.1 ∧ shell_word opt.1.2 ∧ (opt.2 = VNone ∨ shell_word (fmt opt.2)).

Lemma execute_run cmd s :
  execute (sm_ssh self) cmd VNone true s =
  (let r := crudini_run cmd (st_world s) in
   (r.1, mkState (st_nodes s) (st_cleanups s) r.2)).
Proof.
  unfold execute, remote_command. rewrite andb_false_r.
  unfold ssh_exec, in_world, crudini_run. by destruct (ssh_exec_command _ _ _ _ _).
Qed.

Lemma set_conf_opt_run sec opt v s :
  plain_opt (sec, opt, v) →
  ∃ out s', set_conf_opt self sec opt v s = (Ret out, s') ∧
            sfile s' = set_entry (sfile s) (sec, opt, v).
Proof.
  intros (Hs & Ho & Hv). simpl in *. unfold set_conf_opt, set_entry, sfile.
  assert (v = VNone ∨ v ≠ VNone ∧ shell_word (fmt v)) as [->|[Hne Hw]].
  { destruct v; [by left|right; split; [done|naive_solver]..]. }
  - rewrite execute_run. destruct (crudini_del_law sec opt (st_world s)) as [[out Hout] Hf]; [done..|].
    cbv zeta. rewrite Hout. do 2 eexists. split; [done|exact Hf].
  - destruct (crudini_set_law sec opt (fmt v) (st_world s)) as [[out Hout] Hf]; [done..|].
    destruct v; try done; rewrite execute_run; cbv zeta; rewrite Hout;
      do 2 eexists; (split; [done|exact Hf]).
Qed.

Lemma shell_char_nonspace a : shell_char a = true → is_space a = false.
Proof. destruct a as [[] [] [] [] [] [] [] []]; cbv; done. Qed.

Lemma get_conf_opt_run sec opt s :
  shell_word sec → shell_word opt →
  (∀ v, sfile s !! (sec, opt) = Some v → shell_word v) →
  ∃ s', get_conf_opt self sec opt s = (Ret (sfile s !! (sec, opt)), s') ∧ sfile s' = sfile s.
Proof.
  intros Hs Ho Hv. unfold get_conf_opt, try_except. rewrite bind_run, execute_run.
  destruct (crudini_get_law sec opt (st_world s) Hs Ho) as [Hf Hr]. unfold sfile in *.
  destruct (cfile (st_world s) !! (sec, opt)) as [v|] eqn:E; cbv zeta.
  - rewrite Hr. simpl.
    exists (mkState (st_nodes s) (st_cleanups s)
              (crudini_run (crudini "--get" self sec opt) (st_world s)).2).
    split; [|exact Hf]. do 3 f_equal. destruct (Hv v) as [Hne Hw]; [done|]. apply strip_by_app; [done| |done].
    eapply all_chars_impl, Hw. intros a Ha. by rewrite shell_char_nonspace.
  - destruct Hr as (msg & -> & Hm). simpl. rewrite Hm. eexists. split; [done|exact Hf].
Qed.

(** The value an option has after [set_entry]. *)
Definition entry_value (opt : string * string * val) : Datatypes.option string :=
  match opt.2 with VNone => None | v => Some (fmt v) end.

Lemma lookup_set_entry m opt k :
  set_entry m opt !! k = if decide (opt.1 = k) then entry_value opt else m !! k.
Proof.
  unfold set_entry, entry_value.
  destruct (opt.2); by rewrite ?lookup_delete, ?lookup_insert.
Qed.

Lemma lookup_set_entries m opts k :
  k ∉ opt_key <$> opts → foldl set_entry m opts !! k = m !! k.
Proof.
  revert m. induction opts as [|opt opts IH]; intros m Hk; simpl; [done|].
  rewrite IH, lookup_set_entry by set_solver. case_decide; [|done]. set_solver.
Qed.

Lemma lookup_set_entries_in m opts opt :
  NoDup (opt_key <$> opts) → opt ∈ opts → foldl set_entry m opts !! opt.1 = entry_value opt.
Proof.
  revert m. induction opts as [|opt' opts IH]; intros m Hnd Hin; [set_solver|].
  simpl in Hnd. apply NoDup_cons in Hnd as [Hni Hnd]. simpl.
  apply elem_of_cons in Hin as [->|Hin]; [|by apply IH].
  rewrite lookup_set_entries by done. rewrite lookup_set_entry. by case_decide.
Qed.

(** What [config_options] saves: the options with the values they have in [m]. *)
Definition saved (m : gmap (string * string) string) (opts : list (string * string * val))
    : list (string * string * val) :=
  map (λ opt, (opt.1, vopt_str (m !! opt.1))) opts.

Lemma saved_keys m opts : opt_key <$> saved m opts = opt_key <$> opts.
Proof. unfold saved. by rewrite <-list_fmap_compose. Qed.

Lemma saved_same m m' opts :
  (∀ opt, opt ∈ opts → m' !! opt.1 = m !! opt.1) → saved m' opts = saved m opts.
Proof.
  intros H. unfold saved. apply map_ext_in. intros opt Hin%list_elem_of_In. by rewrite H.
Qed.

Lemma entry_value_saved (o : Datatypes.option string) k : entry_value (k, vopt_str o) = o.
Proof. by destruct o. Qed.

(** The values the file holds for [opts] survive a round trip through the shell. *)
Definition plain_values (m : gmap (string * string) string) (opts : list (string * string * val))
    : Prop := ∀ k v, k ∈ opt_key <$> opts → m !! k = Some v → shell_word v.

Lemma save_loop_run opts iv s :
  Forall plain_opt opts → NoDup (opt_key <$> opts) → plain_values (sfile s) opts →
  ∃ s', for_acc (save_and_set self) iv opts s = (Ret (iv ++ saved (sfile s) opts)%list, s') ∧
        sfile s' = foldl set_entry (sfile s) opts.
Proof.
  intros Hp. revert iv s. induction Hp as [|[[sec opt] v] opts Hopt Hp IH];
    intros iv s Hnd Hv; simpl.
  - exists s. by rewrite app_nil_r.
  - simpl in Hnd. apply NoDup_cons in Hnd as [Hni Hnd]. destruct Hopt as (Hs & Ho & Hval).
    destruct (get_conf_opt_run sec opt s) as (s1 & Hg & Hs1); [done|done| |].
    { intros x. apply Hv. set_solver. }
    destruct (set_conf_opt_run sec opt v s1) as (out & s2 & Hset & Hs2); [done|].
    rewrite Hs1 in Hs2.
    assert (∀ o, o ∈ opts → sfile s2 !! o.1 = sfile s !! o.1) as Hsame.
    { intros o Hin. rewrite Hs2, lookup_set_entry. case_decide as Heq; [|done].
      destruct Hni. simpl in Heq. rewrite Heq. by apply (list_elem_of_fmap_2 opt_key). }
    destruct (IH (iv ++ [(sec, opt, vopt_str (sfile s !! (sec, opt)))])%list s2)
      as (s' & Hrun & Hs'); [done| |].
    { intros k x ([[]] & -> & Hin)%list_elem_of_fmap. rewrite Hsame by done. apply Hv.
      apply elem_of_cons. right. by apply (list_elem_of_fmap_2 opt_key). }
    exists s'. rewrite <-Hs2. split; [|done].
    erewrite bind_Ret; [rewrite Hrun|].
    + do 2 f_equal. rewrite (saved_same (sfile s) (sfile s2)) by done.
      by rewrite <-app_assoc.
    + unfold save_and_set. rewrite bind_run, Hg, bind_run, Hset. done.
Qed.

Lemma restore_run opts s :
  Forall plain_opt opts →
  ∃ s', restore self opts s = (Ret tt, s') ∧ sfile s' = foldl set_entry (sfile s) opts.
Proof.
  intros Hp. revert s. induction Hp as [|[[sec opt] v] opts Hopt Hp IH]; intros s; [by exists s|].
  destruct (set_conf_opt_run sec opt v s Hopt) as (out & s1 & Hset & Hs1).
  destruct (IH s1) as (s' & Hrun & Hs'). exists s'. simpl foldl. rewrite <-Hs1.
  split; [|done]. unfold restore. cbn [for_each].
  erewrite bind_Ret; [exact Hrun|]. rewrite bind_run, Hset. done.
Qed.

Lemma saved_plain m opts :
  Forall plain_opt opts → plain_values m opts → Forall plain_opt (saved m opts).
Proof.
  intros Hp Hv. apply Forall_map. rewrite Forall_forall in *. intros opt Hin.
  destruct (Hp opt Hin) as (Hs & Ho & _). unfold plain_opt. simpl. split_and!; [done..|].
  destruct (m !! opt.1) as [v|] eqn:E; [right|by left]. apply (Hv opt.1); [|done].
  by apply (list_elem_of_fmap_2 opt_key).
Qed.
End config_lemmas.

(** * Theorems *)
Section config_theorems.
Context {CONF : conf} {W : Type} `{C : cloud W} (self : ServiceManager).
Context `{K : !lawful_crudini self} (fuel : nat).

Lemma config_options_enter opts s iv s1 :
  Forall plain_opt opts → NoDup (opt_key <$> opts) → plain_values (sfile self s) opts →
  cm_enter (config_options fuel self opts) s = (Ret iv, s1) →
  iv = saved (sfile self s) opts ∧ sfile self s1 = foldl set_entry (sfile self s) opts.
Proof.
  intros Hp Hnd Hv H.
  destruct (save_loop_run self opts [] s Hp Hnd Hv) as (s0 & Hrun & Hs0).
  simpl in H. rewrite (bind_Ret _ _ _ _ _ Hrun) in H. run_ret H. injection H as <- <-.
  split; [done|]. rewrite <-Hs0. pose proof (keeps_restart self fuel s0) as Hk.
  by rewrite E in Hk.
Qed.

Lemma config_options_run {A} opts (body : M (pystate W) A) s iv s1 ob s2 o s' :
  Forall plain_opt opts → NoDup (opt_key <$> opts) → plain_values (sfile self s) opts →
  cm_enter (config_options fuel self opts) s = (Ret iv, s1) →
  body s1 = (ob, s2) → ob ≠ NoFuel →
  with_cm (config_options fuel self opts) body s = (o, s') →
  (∀ opt, opt ∈ opts → sfile self s1 !! opt.1 = entry_value opt) ∧
  (∀ k, k ∈ opt_key <$> opts → sfile self s' !! k = sfile self s !! k) ∧
  (∀ k, k ∉ opt_key <$> opts → sfile self s' !! k = sfile self s2 !! k).
Proof.
  intros Hp Hnd Hv Henter Hbody Hob H.
  destruct (config_options_enter opts s iv s1 Hp Hnd Hv Henter) as [-> Hs1].
  assert (sfile self s' = foldl set_entry (sfile self s2) (saved (sfile self s) opts)) as Hs'.
  { unfold with_cm, with_as in H. rewrite (bind_Ret _ _ _ _ _ Henter) in H.
    unfold try_finally in H. rewrite Hbody in H.
    destruct (restore_run self (saved (sfile self s) opts) s2) as (s3 & Hr & Hs3);
      [by apply saved_plain|].
    assert (cm_exit (config_options fuel self opts) (saved (sfile self s) opts) s2 =
            restart fuel self s3) as Hexit by (simpl; by rewrite (bind_Ret _ _ _ _ _ Hr)).
    rewrite Hexit in H. pose proof (keeps_restart self fuel s3) as Hk. rewrite <-Hs3, <-Hk.
    destruct (restart fuel self s3) as [[]], ob; by simplify_eq. }
  split_and!.
  - intros opt Hin. rewrite Hs1. by apply lookup_set_entries_in.
  - intros k (opt & -> & Hin)%list_elem_of_fmap. rewrite Hs'.
    rewrite (lookup_set_entries_in _ _ (opt.1, vopt_str (sfile self s !! opt.1))).
    + apply entry_value_saved.
    + by rewrite saved_keys.
    + by apply (list_elem_of_fmap_2 (λ opt, (opt.1, vopt_str (sfile self s !! opt.1)))).
  - intros k Hk. rewrite Hs'. apply lookup_set_entries. by rewrite saved_keys.
Qed.

(** C4: for options that are all different and whose names, new values and values
    in the file are words the shell passes on as they are, and when the entry of
    [with manager.config_options(opts)] succeeds: the body runs with every option
    set as asked (or deleted, for None); when it is left, whether the body
    returned or raised, and even if the body changed them itself or the final
    restart fails, each of those options is back at the value it had before, and
    every other option is as the body left it. *)
Theorem config_options_restores {A} opts (body : M (pystate W) A) s iv s1 ob s2 o s' :
  Forall plain_opt opts → NoDup (opt_key <$> opts) → plain_values (sfile self s) opts →
  cm_enter (config_options fuel self opts) s = (Ret iv, s1) →
  body s1 = (ob, s2) → ob ≠ NoFuel →
  with_cm (config_options fuel self opts) body s = (o, s') →
  (∀ opt, opt ∈ opts → sfile self s1 !! opt.1 = entry_value opt) ∧
  (∀ k, k ∈ opt_key <$> opts → sfile self s' !! k = sfile self s !! k) ∧
  (∀ k, k ∉ opt_key <$> opts → sfile self s' !! k = sfile self s2 !! k).
Proof. apply config_options_run. Qed.

(** C40: the options are set before the [try] is entered: when the restart that
    follows fails, for any options as above, any body and any exception, the
    exception propagates, the body is not run and every option keeps its new
    value. *)
Theorem config_options_setup_failure_not_restored {A} opts (body : M (pystate W) A) s iv s0 e s' :
  Forall plain_opt opts → NoDup (opt_key <$> opts) → plain_values (sfile self s) opts →
  for_acc (save_and_set self) [] opts s = (Ret iv, s0) → restart fuel self s0 = (Exn e, s') →
  with_cm (config_options fuel self opts) body s = (Exn e, s') ∧
  ∀ opt, opt ∈ opts → sfile self s' !! opt.1 = entry_value opt.
Proof.
  intros Hp Hnd Hv Hsave Hr. split.
  - unfold with_cm, with_as. rewrite bind_run. simpl.
    by rewrite (bind_Ret _ _ _ _ _ Hsave), bind_run, Hr.
  - intros opt Hin. pose proof (keeps_restart self fuel s0) as Hk. rewrite Hr in Hk. simpl in Hk.
    destruct (save_loop_run self opts [] s Hp Hnd Hv) as (s1 & Hrun & Hs1).
    rewrite Hsave in Hrun. injection Hrun as _ <-. rewrite Hk, Hs1. by apply lookup_set_entries_in.
Qed.
End config_theorems.

(** The values are not quoted: setting an option to a text of two words is the same
    command as setting the option named after it with the first word appended. *)
Theorem set_conf_opt_unquoted {CONF : conf} {W} `{C : cloud W} self section option v1 v2 (s : pystate W) :
  set_conf_opt self section option (VStr (v1 ++ " " ++ v2)) s =
  set_conf_opt self section (option ++ " " ++ v1) (VStr v2) s.
Proof. unfold set_conf_opt, crudini, fmt. by rewrite !app_assoc_s. Qed.

(** * A simulated manager *)
Definition sim_manager_at (host : string) (params : val) : ServiceManager :=
  mkServiceManager (mkSSHClient "/home/stack/.ssh/id_rsa" "stack" params host) "nova-compute"
    (VStr "/etc/nova/nova-cpu.conf")
    (VStr "systemctl start devstack@n-cpu") (VStr "systemctl stop devstack@n-cpu")
    VNone VNone (NovaServiceManager host).
Definition sim_manager : ServiceManager := sim_manager_at "compute-0" VNone.

Definition sim_env : cloud sim := sim_cloud (λ _, false) [] VNone.
(** The same deployment, where the connection drops on one command line. *)
Definition sim_env_rejecting (cmd : string) : cloud sim := sim_cloud (String.eqb cmd) [] VNone.

Lemma shell_word_nonspace w : shell_word w → w ≠ "" ∧ all_chars nonspace w = true.
Proof.
  intros [? Hw]. split; [done|]. eapply all_chars_impl, Hw.
  intros a Ha. unfold nonspace. by rewrite shell_char_nonspace.
Qed.

Lemma sim_crudini_words op args :
  op ∈ ["--get"; "--set"; "--del"] → Forall shell_word args →
  py_words (py_join " " ("sudo" :: "crudini" :: op :: "/etc/nova/nova-cpu.conf" :: args)) =
  "sudo" :: "crudini" :: op :: "/etc/nova/nova-cpu.conf" :: args.
Proof.
  intros Hop Ha. apply py_words_join. repeat constructor; try done.
  - set_solver.
  - apply list_elem_of_In in Hop. by repeat destruct Hop as [<-|Hop].
  - eapply Forall_impl; [exact Ha|]. apply shell_word_nonspace.
Qed.

Definition sim_lawful_crudini_in reject host params :
  (∀ args, reject ("sudo crudini " ++ args) = false) →
  @lawful_crudini sim (sim_cloud reject [] VNone) (sim_manager_at host params).
Proof.
  intros Hr.
  assert (∀ op args w, op ∈ ["--get"; "--set"; "--del"] → Forall shell_word args →
    sim_ssh reject (py_join " " ("sudo" :: "crudini" :: op :: "/etc/nova/nova-cpu.conf" :: args)) w =
    sim_crudini (op :: "/etc/nova/nova-cpu.conf" :: args)
      (sim_logged w (py_join " " ("sudo" :: "crudini" :: op :: "/etc/nova/nova-cpu.conf" :: args))))
    as Hrun.
  { intros op args w Hop Ha. unfold sim_ssh. cbv zeta. rewrite (sim_crudini_words op args Hop Ha).
    change (reject _) with
      (reject ("sudo crudini " ++ py_join " " (op :: "/etc/nova/nova-cpu.conf" :: args))).
    by rewrite Hr. }
  unshelve refine {| cfile := sim_conf |}.
  - intros s o w Hs Ho. unfold crudini_run. cbn [ssh_exec_command sim_cloud].
    pose proof (Hrun "--get" [s; o] w ltac:(set_solver) ltac:(by rewrite ?Forall_cons)) as Hw.
    change (py_join _ _) with ("sudo " ++ crudini "--get" (sim_manager_at host params) s o) in Hw.
    rewrite Hw. simpl. destruct (sim_conf w !! (s, o)); simpl; [done|]. split; [done|].
    eexists. split; [done|]. reflexivity.
  - intros s o v w Hs Ho Hv. unfold crudini_run. cbn [ssh_exec_command sim_cloud].
    pose proof (Hrun "--set" [s; o; v] w ltac:(set_solver) ltac:(by rewrite ?Forall_cons)) as Hw.
    change (py_join _ _) with ("sudo " ++ crudini "--set" (sim_manager_at host params) s (o ++ " " ++ v)) in Hw.
    replace (crudini "--set" (sim_manager_at host params) s (o ++ " " ++ v)) with
      (crudini "--set" (sim_manager_at host params) s o ++ " " ++ v) in Hw
      by (unfold crudini; by rewrite !app_assoc_s).
    rewrite Hw. simpl. eauto.
  - intros s o w Hs Ho. unfold crudini_run. cbn [ssh_exec_command sim_cloud].
    pose proof (Hrun "--del" [s; o] w ltac:(set_solver) ltac:(by rewrite ?Forall_cons)) as Hw.
    change (py_join _ _) with ("sudo " ++ crudini "--del" (sim_manager_at host params) s o) in Hw.
    rewrite Hw. simpl. eauto.
  - intros c w Hc. apply list_elem_of_In in Hc. unfold crudini_run. cbn [ssh_exec_command sim_cloud].
    unfold sim_ssh. cbv zeta. by repeat destruct Hc as [<-|Hc]; destruct (reject _).
  - intros m a w. apply sim_api_conf.
  - done.
  - done.
Defined.
Definition sim_lawful_crudini_at host params :
  @lawful_crudini sim sim_env (sim_manager_at host params) :=
  sim_lawful_crudini_in (λ _, false) host params (λ _, eq_refl).
Definition sim_lawful_crudini : @lawful_crudini sim sim_env sim_manager :=
  sim_lawful_crudini_at "compute-0" VNone.

Definition sim_start : pystate sim :=
  mkState None [] (mkSim 0 {[("compute", "cpu_shared_set") := "0,1"]} true [] [] []).

(** Two options: one that is set in the file, one that is not. *)
Definition sim_opts : list (string * string * val) :=
  [("compute", "cpu_shared_set", VNone); ("compute", "cpu_dedicated_set", VStr "2-3")].

Lemma config_options_restores_witness :
  let body := raise (A:=unit) AssertionFailure in
  sfile (K:=sim_lawful_crudini) sim_manager
    (with_cm (config_options (CONF:=sim_CONF) (C:=sim_env) 20 sim_manager sim_opts) body sim_start).2
    !! ("compute", "cpu_shared_set") = Some "0,1".
Proof.
  cbv zeta.
  destruct (config_options_restores (CONF:=sim_CONF) (C:=sim_env) (K:=sim_lawful_crudini)
    sim_manager 20 sim_opts (raise (A:=unit) AssertionFailure) sim_start
    [("compute", "cpu_shared_set", VStr "0,1"); ("compute", "cpu_dedicated_set", VNone)]
    (cm_enter (config_options (CONF:=sim_CONF) (C:=sim_env) 20 sim_manager sim_opts) sim_start).2
    (Exn AssertionFailure)
    (cm_enter (config_options (CONF:=sim_CONF) (C:=sim_env) 20 sim_manager sim_opts) sim_start).2
    (with_cm (config_options (CONF:=sim_CONF) (C:=sim_env) 20 sim_manager sim_opts)
       (raise (A:=unit) AssertionFailure) sim_start).1
    (with_cm (config_options (CONF:=sim_CONF) (C:=sim_env) 20 sim_manager sim_opts)
       (raise (A:=unit) AssertionFailure) sim_start).2) as (_ & Hback & _).
  - repeat constructor; simpl; (done || (right; done) || by left).
  - repeat constructor; set_solver.
  - intros k v _ Hv.
    change (({[("compute", "cpu_shared_set") := "0,1"]} : gmap (string * string) string) !! k = Some v) in Hv.
    by apply lookup_singleton_Some in Hv as [_ <-].
  - vm_compute. reflexivity.
  - reflexivity.
  - done.
  - apply surjective_pairing.
  - rewrite Hback; [reflexivity|set_solver].
Defined.

(** The service cannot be started again. *)
Definition no_start_env : cloud sim := sim_env_rejecting "sudo systemctl start devstack@n-cpu".
Definition no_start_crudini : @lawful_crudini sim no_start_env sim_manager :=
  sim_lawful_crudini_in (String.eqb "sudo systemctl start devstack@n-cpu") "compute-0" VNone
    (λ _, eq_refl).
Definition no_start_saved : outcome (list (string * string * val)) * pystate sim :=
  for_acc (save_and_set (CONF:=sim_CONF) (C:=no_start_env) sim_manager) [] sim_opts sim_start.

Lemma config_options_setup_failure_not_restored_witness :
  let r := with_cm (config_options (CONF:=sim_CONF) (C:=no_start_env) 20 sim_manager sim_opts)
             (mret tt) sim_start in
  r.1 = Exn (SSHExecCommandFailed "connection lost") ∧
  sim_conf (st_world sim_start) !! ("compute", "cpu_shared_set") = Some "0,1" ∧
  sim_conf (st_world r.2) !! ("compute", "cpu_shared_set") = None.
Proof.
  cbv zeta.
  destruct (config_options_setup_failure_not_restored (CONF:=sim_CONF) (C:=no_start_env)
    (K:=no_start_crudini) sim_manager 20 sim_opts (mret tt) sim_start
    [("compute", "cpu_shared_set", VStr "0,1"); ("compute", "cpu_dedicated_set", VNone)]
    no_start_saved.2 (SSHExecCommandFailed "connection lost")
    (restart (CONF:=sim_CONF) (C:=no_start_env) 20 sim_manager no_start_saved.2).2) as [Hr Hopt].
  - repeat constructor; simpl; (done || (right; done) || by left).
  - repeat constructor; set_solver.
  - intros k v _ Hv.
    change (({[("compute", "cpu_shared_set") := "0,1"]} : gmap (string * string) string) !! k = Some v) in Hv.
    by apply lookup_singleton_Some in Hv as [_ <-].
  - vm_compute. reflexivity.
  - vm_compute. reflexivity.
  - rewrite Hr. split; [done|]. split; [reflexivity|].
    exact (Hopt ("compute", "cpu_shared_set", VNone) ltac:(by left)).
Defined.

(** Two entries for the same option in one [config_options] call are not
    undone: the values are restored in the order they were saved, so the value
    set by the first entry stays in the file. *)
Theorem config_options_duplicate_not_restored :
  let opts := [("compute", "cpu_shared_set", VStr "4"); ("compute", "cpu_shared_set", VStr "5")] in
  let r := with_cm (config_options (CONF:=sim_CONF) (C:=sim_env) 20 sim_manager opts)
             (mret tt) sim_start in
  r.1 = Ret tt ∧
  sfile (K:=sim_lawful_crudini) sim_manager sim_start !! ("compute", "cpu_shared_set") = Some "0,1" ∧
  sfile (K:=sim_lawful_crudini) sim_manager r.2 !! ("compute", "cpu_shared_set") = Some "4".
Proof. vm_compute. auto. Qed.

(** * Service state *)
Section service_theorems.
Context {CONF : conf} {W : Type} `{C : cloud W} `{L : !lawful_clock W}.

(** The services API and the field that show the state of the managed service. *)
Definition monitored (self : ServiceManager) : option (string * string * string) :=
  match sm_class self with
  | BaseServiceManager => None
  | NovaServiceManager host => Some (host, sm_service self, "state")
  | VirtQEMUdManager host => Some (host, "nova-compute", "status")
  end.
Definition up_value (self : ServiceManager) : string :=
  match sm_class self with VirtQEMUdManager _ => "enabled" | _ => "up" end.

(** The iterations [fuel] cover the timeout of the services client. *)
Definition enough (fuel : nat) : Prop :=
  0 < build_interval ∧ (1 <= fuel)%nat ∧ build_timeout <= Z.of_nat fuel * build_interval.

Lemma start_reports fuel self host binary field s s' :
  enough fuel → monitored self = Some (host, binary, field) →
  start fuel self s = (Ret tt, s') → reports host binary field (up_value self) s'.
Proof.
  intros (Hi & Hf & Ht) Hm H. unfold_service. unfold monitored, up_value in *.
  destruct (sm_class self); simplify_eq; run_ret H;
    by eapply (wait_for_nova_service_state_run fuel) in H as [_ H]; [apply H| | |].
Qed.

(** C7: when the stop of [with manager.stopped()] has returned and the body has
    ended, the service is started again, whatever the body returned or raised: the
    outcome is the body's, or the exception of the start if that fails; and the
    start of a Nova or virtqemud manager returns only when the services API reports
    the service up. When the stop itself raises, the exception propagates and
    neither the body nor the start is run. *)
Theorem stopped_restarts fuel self {A} (body : M (pystate W) A) s :
  (∀ s1 ob s2, stop fuel self s = (Ret tt, s1) → body s1 = (ob, s2) → ob ≠ NoFuel →
     with_cm (stopped fuel self) body s =
       (match (start fuel self s2).1 with Ret _ => ob | Exn e => Exn e | NoFuel => NoFuel end,
        (start fuel self s2).2) ∧
     (∀ host binary field, enough fuel → monitored self = Some (host, binary, field) →
        (start fuel self s2).1 = Ret tt →
        reports host binary field (up_value self) (start fuel self s2).2)) ∧
  (∀ e s1, stop fuel self s = (Exn e, s1) → with_cm (stopped fuel self) body s = (Exn e, s1)).
Proof.
  unfold with_cm, with_as. rewrite bind_run. cbn [cm_enter cm_exit stopped]. split.
  - intros s1 ob s2 -> Hbody Hob. unfold try_finally. rewrite Hbody.
    destruct (start fuel self s2) as [o3 s3] eqn:Hs. split.
    + by destruct ob, o3 as [[]| |].
    + intros host binary field Hf Hm Ho. simpl in *. subst o3. by eapply start_reports.
  - by intros e s1 ->.
Qed.
End service_theorems.

Section cpu_sets.
Context {CONF : conf} {W : Type} `{C : cloud W} (self : ServiceManager).
Context `{K : !lawful_crudini self}.

(** The specification of the dedicated CPUs: [compute]/cpu_dedicated_set, else
    the older [DEFAULT]/vcpu_pin_set. *)
Definition dedicated_spec (m : gmap (string * string) string) : option string :=
  match m !! ("compute", "cpu_dedicated_set") with
  | Some v => Some v
  | None => m !! ("DEFAULT", "vcpu_pin_set")
  end.

(** [get_cpu_dedicated_set] reads [compute]/cpu_dedicated_set of the host's
    configuration file, falls back to [DEFAULT]/vcpu_pin_set only when the former
    is absent, yields the empty set when neither is there, changes nothing, and
    fails only on a value that is not a CPU specification. *)
Theorem get_cpu_dedicated_set_spec (s : pystate W) :
  (∀ k v, sfile self s !! k = Some v → shell_word v) →
  ∃ s', sfile self s' = sfile self s ∧
    get_cpu_dedicated_set self s =
    (match dedicated_spec (sfile self s) with
     | Some spec => parse_cpu_spec spec
     | None => Ret ∅
     end, s').
Proof.
  intros Hv. unfold get_cpu_dedicated_set, dedicated_spec.
  destruct (get_conf_opt_run self "compute" "cpu_dedicated_set" s) as (s1 & Hg & Hs1);
    [done|done|intros v; apply Hv|].
  rewrite (bind_Ret _ _ _ _ _ Hg).
  destruct (sfile self s !! ("compute", "cpu_dedicated_set")) as [v|] eqn:E.
  - exists s1. split; [done|]. rewrite (bind_Ret _ _ _ (Some v) s1) by done. simpl.
    destruct (Hv _ _ E) as [Hne _]. apply String.eqb_neq in Hne. by rewrite Hne.
  - destruct (get_conf_opt_run self "DEFAULT" "vcpu_pin_set" s1) as (s2 & Hg2 & Hs2);
      [done|done|rewrite Hs1; intros v; apply Hv|].
    exists s2. split; [congruence|]. rewrite (bind_Ret _ _ _ _ _ Hg2), Hs1.
    destruct (sfile self s !! ("DEFAULT", "vcpu_pin_set")) as [v|] eqn:E2; [|done]. simpl.
    destruct (Hv _ _ E2) as [Hne _]. apply String.eqb_neq in Hne. by rewrite Hne.
Qed.
End cpu_sets.

Lemma stopped_restarts_witness :
  let body := raise (A:=unit) AssertionFailure in
  let r := with_cm (stopped (CONF:=sim_CONF) (C:=sim_env) 12 sim_manager) body sim_start in
  r.1 = Exn AssertionFailure ∧
  reports (C:=sim_env) "compute-0" "nova-compute" "state" "up" r.2.
Proof.
  cbv zeta.
  destruct (stopped_restarts (CONF:=sim_CONF) (C:=sim_env)
    (L:=sim_lawful_clock (λ _, false) [] VNone) 12 sim_manager
    (raise (A:=unit) AssertionFailure) sim_start) as [Hrun _].
  destruct (Hrun (stop (CONF:=sim_CONF) (C:=sim_env) 12 sim_manager sim_start).2 (Exn AssertionFailure)
    (stop (CONF:=sim_CONF) (C:=sim_env) 12 sim_manager sim_start).2) as [Hr Hup];
    [vm_compute; reflexivity|reflexivity|done|].
  rewrite Hr. split; [vm_compute; reflexivity|].
  apply (Hup "compute-0" "nova-compute" "state"); [|reflexivity|vm_compute; reflexivity].
  repeat split; simpl; lia.
Defined.

Lemma get_cpu_dedicated_set_witness :
  ∃ s', sfile (K:=sim_lawful_crudini) sim_manager s' = sfile (K:=sim_lawful_crudini) sim_manager sim_start ∧
    get_cpu_dedicated_set (CONF:=sim_CONF) (C:=sim_env) sim_manager sim_start = (Ret ∅, s').
Proof.
  apply (get_cpu_dedicated_set_spec (CONF:=sim_CONF) (C:=sim_env) (K:=sim_lawful_crudini)
           sim_manager sim_start).
  intros k v Hv.
  change (({[("compute", "cpu_shared_set") := "0,1"]} : gmap (string * string) string) !! k = Some v) in Hv.
  by apply lookup_singleton_Some in Hv as [_ <-].
Defined.
