(* ===== verification/ComputeBase.v ===== *)
(** api/compute/base.py, BaseWhiteboxComputeTest: the helpers every test shares.
    Each resource a helper creates is registered for deletion; tempest's own
    methods are reached through [api]. *)
From Stdlib Require Import Ascii String.
From S2P Require Import Prelude PyString PyVal Xml Env Sim Hardware Utils Waiters Clients ServiceManager.
#[local] Open Scope string_scope.

(** [assertRaises(E, f)] returns the exception, when it is one of the class [E];
    any other exception propagates. *)
Definition assert_raises {S A} (expected : exn → bool) (m : M S A) : M S exn := λ s,
  match m s with
  | (Ret _, s') => (Exn AssertionFailure, s')
  | (Exn e, s') => if expected e then (Ret e, s') else (Exn e, s')
  | (NoFuel, s') => (NoFuel, s')
  end.

(** The classes of exceptions the tests expect *)
Definition is_BuildErrorException (e : exn) : bool :=
  match e with BuildErrorException => true | _ => false end.
Definition is_BadRequest (e : exn) : bool := match e with BadRequest _ => true | _ => false end.
Definition is_Forbidden (e : exn) : bool := match e with Forbidden => true | _ => false end.
Definition is_ServerFault (e : exn) : bool := match e with ServerFault => true | _ => false end.

Section base.
Context {CONF : conf} {W : Type} `{C : cloud W}.
Context (fuel : nat).
Abbreviation P := (M (pystate W)).

(** [resp['a']['b']...] *)
Fixpoint vpath (v : val) (ks : list string) : outcome val :=
  match ks with
  | [] => Ret v
  | k :: ks' => v' ← vget v k; vpath v' ks'
  end.

Definition id_of (v : val) : P string := lift (vget v "id" ≫= as_str).

(** [super().create_test_server], then deletion by the admin registered *)
Definition create_test_server (args : kwargs) : P val :=
  server ← api "BaseV2ComputeAdminTest.create_test_server" args;
  server_id ← id_of server;
  add_cleanup (AdminDeleteServer server_id);;
  mret server.

(** [create_flavor(ram, vcpus, disk, name, extra_specs)]; tempest's create_flavor
    registers the deletion of the flavor itself. *)
Definition create_named_flavor (ram : val) (vcpus disk : Z) (name : val) (extra_specs : option kwargs)
    : P val :=
  flavor ← api "BaseV2ComputeAdminTest.create_flavor"
             [("ram", ram); ("vcpus", VInt vcpus); ("disk", VInt disk);
              ("name", name); ("is_public", VStr "True")];
  match extra_specs with
  | Some ((_ :: _) as specs) =>
      flavor_id ← id_of flavor;
      api "os_admin.flavors_client.set_flavor_extra_spec" (("flavor_id", VStr flavor_id) :: specs);;
      mret flavor
  | _ => mret flavor
  end.

(** without a name, and with the defaults of the signature *)
Definition create_flavor (ram : val) (vcpus disk : Z) (extra_specs : option kwargs) : P val :=
  create_named_flavor ram vcpus disk VNone extra_specs.
Definition create_flavor_default (vcpus : Z) (extra_specs : option kwargs) : P val :=
  create_flavor (VInt flavor_ram_size) vcpus flavor_volume_size extra_specs.

Definition create_keypair (args : kwargs) (class_name : string) : P val :=
  name_arg ← lift (vget_or (VDict args) "name" VNone);
  args ← (if truthy name_arg then mret args
          else name ← api "data_utils.rand_name"
                        [("prefix", VStr resource_name_prefix); ("name", VStr class_name)];
               mret (dict_set args "name" name));
  body ← api "keypairs_client.create_keypair" args;
  name ← lift (vget (VDict args) "name");
  add_cleanup (CleanupCall "keypairs_client.delete_keypair" [("keypair_name", name)]);;
  lift (vget body "keypair").

Definition reboot_server (server_id type : string) : P unit :=
  api "servers_client.reboot_server" [("server_id", VStr server_id); ("type", VStr type)];;
  api "waiters.wait_for_server_status"
    [("client", VStr "servers_client"); ("server_id", VStr server_id); ("status", VStr "ACTIVE")];;
  mret tt.

Definition copy_default_image (args : kwargs) : P val :=
  image ← api "images_client.show_image" [("image_id", VStr image_ref)];
  image_data ← api "images_client.show_image_file" [("image_id", VStr image_ref)];
  container_format ← lift (vget image "container_format");
  disk_format ← lift (vget image "disk_format");
  min_disk ← lift (vget image "min_disk");
  min_ram ← lift (vget image "min_ram");
  let create_dict :=
    dict_update [("container_format", container_format); ("disk_format", disk_format);
                 ("min_disk", min_disk); ("min_ram", min_ram)] args in
  new_image ← api "images_client.create_image" create_dict;
  new_id ← lift (vget new_image "id");
  add_cleanup (CleanupCall "images_client.delete_image" [("image_id", new_id)]);;
  api "images_client.store_image_file" [("image_id", new_id); ("data", image_data)];;
  lift (vget new_image "id").

Definition list_compute_hosts : P (list string) :=
  body ← api "os_admin.services_client.list_services" [("binary", VStr "nova-compute")];
  services ← lift (vget body "services" ≫= as_list);
  map_m (λ service, lift (vget service "host" ≫= as_str)) services.

(** [with self.config_all_computes(opts): body] *)
Definition config_all_computes {A} (options : list (string * string * val)) (body : P A) : P A :=
  computes ← list_compute_hosts;
  svc_mgrs ← map_m (λ compute, NovaServiceManager_init compute "nova-compute") computes;
  let ctxt_mgrs := map (λ mgr, config_options fuel mgr options) svc_mgrs in
  exit_stack ctxt_mgrs body.

Definition get_server_xml (server_id : string) : P elem :=
  body ← api "os_admin.servers_client.show_server" [("server_id", VStr server_id)];
  server ← lift (vget body "server");
  host ← lift (vget server "OS-EXT-SRV-ATTR:host" ≫= as_str);
  server_instance_name ← lift (vget server "OS-EXT-SRV-ATTR:instance_name" ≫= as_str);
  virshxml ← VirshXMLClient_init host;
  xml ← dumpxml virshxml server_instance_name;
  fromstring xml.

Definition get_secret_xml (secret_uuid host : string) : P elem :=
  virshxml ← VirshXMLClient_init host;
  xml ← secret_dumpxml virshxml secret_uuid;
  fromstring xml.

(** How the statements before the end of a loop body leave it *)
Inductive flow := Continue | Break | Next.

(** The [if] of the loop body: [continue] or [break] *)
Definition domain_listed (ssh_client : SSHClient) (domain_name : string) : P flow :=
  domains ← execute ssh_client "virsh list --name" VNone true;
  if contains domain_name domains then mret Continue else mret Break.

(** The loop of [_wait_for_domain_shutdown] *)
Fixpoint domain_shutdown_loop (f : nat) (timeout start_time : Z) (ssh_client : SSHClient)
    (domain_name : string) : P unit :=
  t ← now;
  if (t - start_time <=? timeout)%Z then
    match f with
    | O => out_of_fuel
    | S f' =>
        next ← domain_listed ssh_client domain_name;
        match next with
        | Continue => domain_shutdown_loop f' timeout start_time ssh_client domain_name
        | Break => mret tt
        | Next => sleep build_interval;;
                  domain_shutdown_loop f' timeout start_time ssh_client domain_name
        end
    end
  else raise TimeoutException.

Definition wait_for_domain_shutdown (ssh_client : SSHClient) (domain_name : string) : P unit :=
  start_time ← now;
  domain_shutdown_loop fuel build_timeout start_time ssh_client domain_name.

Definition shutdown_server_domain (server : val) (host : string) : P unit :=
  server_id ← id_of server;
  body ← api "admin_servers_client.show_server" [("server_id", VStr server_id)];
  server_details ← lift (vget body "server");
  domain_name ← lift (vget server_details "OS-EXT-SRV-ATTR:instance_name" ≫= as_str);
  ssh_client ← SSHClient_init host;
  execute ssh_client ("virsh shutdown " ++ domain_name) VNone true;;
  wait_for_domain_shutdown ssh_client domain_name.

(** [self.get_host_for_server] and [self.get_host_other_than], methods of tempest's
    base class *)
Definition get_host_for_server (server_id : string) : P string :=
  host ← api "BaseV2ComputeAdminTest.get_host_for_server" [("server_id", VStr server_id)];
  lift (as_str host).

Definition get_host_other_than (server_id : string) : P string :=
  host ← api "BaseV2ComputeAdminTest.get_host_other_than" [("server_id", VStr server_id)];
  lift (as_str host).

(** [self.create_test_server(flavor=flavor['id'], ..., wait_until='ACTIVE')['id']] *)
Definition boot (flavor : val) (args : kwargs) : P string :=
  flavor_id ← lift (vget flavor "id");
  server ← create_test_server (("flavor", flavor_id) :: args ++ [("wait_until", VStr "ACTIVE")])%list;
  id_of server.

Definition scheduler_hints (hint server_id : string) : kwargs :=
  [("scheduler_hints", VDict [(hint, VStr server_id)])].

Definition resize_server (server_id : string) (flavor : val) : P unit :=
  flavor_id ← lift (vget flavor "id");
  api "BaseV2ComputeAdminTest.resize_server" [("server_id", VStr server_id); ("new_flavor_id", flavor_id)];;
  mret tt.

(** [target, source = line.split()] on every line that names the device: the
    last one counts, and a line that is not two words raises ValueError. *)
Definition blockdevice_line (device_name : string) (source : option string) (line : string)
    : outcome (option string) :=
  if contains device_name line then
    match py_words line with
    | [_; src] => Ret (Some src)
    | _ => Exn ValueError
    end
  else Ret source.

(** [s.splitlines()], whose line boundaries also include CR, VT, FF and the
    ASCII separators; a CR LF pair is one boundary. *)
Definition is_line_break (a : ascii) : bool :=
  let n := code a in ((10 <=? n) && (n <=? 13) || (28 <=? n) && (n <=? 30))%N.
Fixpoint splitlines_acc (cur s : string) : list string :=
  match s with
  | EmptyString => match cur with EmptyString => [] | _ => [cur] end
  | String a s' =>
      if is_line_break a then
        match s' with
        | String b s'' =>
            if (Ascii.eqb a "013" && Ascii.eqb b "010")%bool
            then cur :: splitlines_acc EmptyString s''
            else cur :: splitlines_acc EmptyString s'
        | EmptyString => [cur]
        end
      else splitlines_acc (cur ++ String a EmptyString) s'
  end.
Definition py_splitlines (s : string) : list string := splitlines_acc EmptyString s.

Definition get_server_blockdevice_path (server_id device_name : string) : P (option string) :=
  host ← get_host_for_server server_id;
  virshxml ← VirshXMLClient_init host;
  blklist ← domblklist virshxml server_id;
  lift (ofold (blockdevice_line device_name) None (py_splitlines blklist)).

Definition live_migrate (clients server_id state : string) (target_host : option string) : P unit :=
  orig_host ← get_host_for_server server_id;
  api "admin_servers_client.live_migrate_server"
    [("server_id", VStr server_id); ("block_migration", VStr "auto");
     ("host", vopt_str target_host)];;
  api "waiters.wait_for_server_status"
    [("client", VStr (clients ++ ".servers_client")); ("server_id", VStr server_id);
     ("status", VStr state)];;
  if truthy (vopt_str target_host) then
    host ← get_host_for_server server_id;
    assert_that (bool_decide (target_host = Some host))
  else
    host ← get_host_for_server server_id;
    assert_that (bool_decide (orig_host ≠ host)).

(** * Volumes *)
Definition cleanup_volume_type (volume_type : val) : P unit :=
  body ← api "os_admin.volumes_client_latest.list_volumes"
           [("detail", VBool true); ("params", VDict [("all_tenants", VInt 1)])];
  volumes ← lift (vget body "volumes" ≫= as_list);
  type_name ← lift (vget volume_type "name");
  of_type ← map_m (λ v, t ← lift (vget v "volume_type"); mret (v, py_eq t type_name)) volumes;
  for_each (λ volume,
      volume_id ← lift (vget volume "id");
      api "test_utils.call_and_ignore_notfound_exc"
        [("func", VStr "volumes_client.delete_volume"); ("volume_id", volume_id)];;
      volume_id' ← lift (vget volume "id");
      api "volumes_client.wait_for_resource_deletion" [("volume_id", volume_id')];;
      mret tt)
    (map fst (filter (λ vb, vb.2 = true) of_type));;
  type_id ← lift (vget volume_type "id");
  api "os_admin.volume_types_client_latest.delete_volume_type" [("volume_type_id", type_id)];;
  mret tt.

Definition rand_name (name : string) : P string :=
  n ← api "data_utils.rand_name" [("name", VStr name)];
  lift (as_str n).

(** The client is the one of [os_admin] when none is given, as everywhere in the
    plugin; [specs] is the keyword [extra_specs], the rest of the keywords [args]. *)
Definition create_volume_type (class_name : string) (name backend_name : option string)
    (specs : option kwargs) (args : kwargs) : P val :=
  name ← (if truthy (vopt_str name) then mret (default "" name)
          else rand_name (class_name ++ "-volume-type"));
  randomized_name ← rand_name ("scenario-type-" ++ name);
  let extra_specs := default [] specs in
  let extra_specs :=
    if truthy (vopt_str backend_name)
    then dict_set extra_specs "volume_backend_name" (vopt_str backend_name)
    else extra_specs in
  volume_type_resp ← api "os_admin.volume_types_client_latest.create_volume_type"
    (("name", VStr randomized_name) :: ("extra_specs", VDict extra_specs) :: args);
  volume_type ← lift (vget volume_type_resp "volume_type");
  d ← lift (as_dict volume_type);
  assert_that (bool_decide (is_Some (dict_get d "id")));;
  add_cleanup (CleanupVolumeType volume_type);;
  mret volume_type.

Definition create_encryption_type (class_name : string)
    (type_id provider key_size cipher control_location : val) : P unit :=
  type_id ← (if truthy type_id then mret type_id
             else volume_type ← create_volume_type class_name None None None [];
                  lift (vget volume_type "id"));
  api "os_admin.encryption_types_client_latest.create_encryption_type"
    [("volume_type_id", type_id); ("provider", provider); ("key_size", key_size);
     ("cipher", cipher); ("control_location", control_location)];;
  mret tt.

Definition create_encrypted_volume (class_name encryption_provider volume_type : string)
    (key_size : Z) (cipher control_location : string) : P val :=
  volume_type ← create_volume_type class_name (Some volume_type) None None [];
  type_id ← lift (vget volume_type "id");
  create_encryption_type class_name type_id (VStr encryption_provider) (VInt key_size)
    (VStr cipher) (VStr control_location);;
  type_name ← lift (vget volume_type "name");
  api "BaseV2ComputeAdminTest.create_volume" [("volume_type", type_name)].

(** * Ports and networks *)
Definition VNIC_MAPPING_DICT : list (string * string) :=
  [("vdpa", "vdpa"); ("direct", "hostdev"); ("macvtap", "direct")].

Definition get_expected_xml_interface_type (port : val) : outcome (option string) :=
  vnic_type ← vpath port ["port"; "binding:vnic_type"];
  match vnic_type with
  | VStr t => Ret (dict_get VNIC_MAPPING_DICT t)
  | VList _ | VDict _ => Exn TypeError
  | _ => Ret None
  end.

(** The interfaces of the mapped type with the MAC address of the port; both are
    formatted into the path, None as the text "None". *)
Definition interface_path (interface_type : option string) (mac : string) : list xstep :=
  [Child "devices"; Child "interface"; AttrIs "type" (fmt (vopt_str interface_type));
   Child "mac"; AttrIs "address" mac; Parent].

Definition show_port (port_id : string) : P val :=
  api "os_admin.ports_client.show_port" [("port_id", VStr port_id)].

Definition get_xml_interface_device (server_id port_id : string) : P elem :=
  port_info ← show_port port_id;
  interface_type ← lift (get_expected_xml_interface_type port_info);
  root ← get_server_xml server_id;
  mac ← lift (vpath port_info ["port"; "mac_address"]);
  match findall root (interface_path interface_type (fmt mac)) with
  | [iface] => mret iface
  | _ => raise AssertionFailure
  end.

Definition get_port_attribute (port_id attribute : string) : P val :=
  body ← show_port port_id;
  port ← lift (vget body "port");
  lift (vget_or port attribute VNone).

Definition create_net_from_physical_network (class_name : string) (vlan_id physical_net : val) : P val :=
  name_net ← rand_name class_name;
  net ← api "os_admin.networks_client.create_network"
    [("name", VStr name_net); ("provider:network_type", VStr "vlan");
     ("provider:physical_network", physical_net);
     ("provider:segmentation_id", vlan_id); ("shared", VBool true)];
  net_id ← lift (vpath net ["network"; "id"]);
  add_cleanup (CleanupCall "os_admin.networks_client.delete_network" [("network_id", net_id)]);;
  mret net.

Definition create_subnet (class_name : string) (network_id : val) : P val :=
  name_subnet ← rand_name class_name;
  subnet ← api "os_admin.subnets_client.create_subnet"
    [("name", VStr name_subnet); ("network_id", network_id);
     ("cidr", VStr project_network_cidr); ("ip_version", VInt 4)];
  subnet_id ← lift (vpath subnet ["subnet"; "id"]);
  add_cleanup (CleanupCall "os_admin.subnets_client.delete_subnet" [("subnet_id", subnet_id)]);;
  mret subnet.

Definition create_port_from_vnic_type (net vnic_type : val)
    (numa_affinity_policy : option string) : P val :=
  let vnic_params :=
    ("binding:vnic_type", vnic_type) ::
    (if truthy (vopt_str numa_affinity_policy)
     then [("numa_affinity_policy", vopt_str numa_affinity_policy)] else []) in
  network_id ← lift (vpath net ["network"; "id"]);
  port ← api "os_primary.ports_client.create_port" (("network_id", network_id) :: vnic_params);
  port_id ← lift (vpath port ["port"; "id"]);
  add_cleanup (CleanupCall "os_primary.ports_client.delete_port" [("port_id", port_id)]);;
  mret port.

(** * PCI devices in the Nova database *)
Definition run_query (db query : string) : P val :=
  cursor db false (λ c,
    api "cursor.execute" [("self", c); ("query", VStr query)];;
    api "cursor.fetchall" [("self", c)]).

Definition search_pci_devices (column value : string) : P val :=
  run_query nova_cell1_db_name
    ("SELECT address,status,dev_type FROM pci_devices WHERE " ++ column ++ " = " ++
     dq ++ value ++ dq).

(** The assertions on one row of the pci_devices table. *)
Definition verify_pci_row (binding_profile vnic_type pci_device : val) : P unit :=
  status ← lift (vget pci_device "status");
  address ← lift (vget pci_device "address");
  assert_that (py_eq (VStr "allocated") status);;
  pci_slot ← lift (vget binding_profile "pci_slot");
  assert_that (py_eq address pci_slot);;
  dev_type ← lift (vget pci_device "dev_type");
  if py_eq vnic_type (VStr "vdpa") then assert_that (py_eq dev_type (VStr "vdpa"))
  else if py_eq vnic_type (VStr "direct-physical") then
    assert_that (py_eq dev_type (VStr "type-PF"))
  else assert_that (py_eq dev_type (VStr "type-VF") || py_eq dev_type (VStr "type-PCI")).

Definition verify_neutron_port_binding (server_id port_id : string) : P unit :=
  binding_profile ← get_port_attribute port_id "binding:profile";
  pci_info ← search_pci_devices "instance_uuid" server_id;
  vnic_type ← get_port_attribute port_id "binding:vnic_type";
  rows ← lift (as_list pci_info);
  for_each (verify_pci_row binding_profile vnic_type) rows.

(** The condition is an equality, also when [status] is written as a pattern. *)
Definition pci_status_query (status : string) (pci_address : option string) : string :=
  "select COUNT(*) from pci_devices WHERE status = " ++ dq ++ status ++ dq ++
  (if truthy (vopt_str pci_address)
   then " AND address = " ++ dq ++ default "" pci_address ++ dq else "").

Definition get_pci_status_count (status : string) (pci_address : option string) : P val :=
  data ← run_query nova_cell1_db_name (pci_status_query status pci_address);
  row ← lift (vnth data 0);
  lift (vget row "COUNT(*)").

Definition get_hugepage_xml_element (server_id : string) : P (list elem) :=
  root ← get_server_xml server_id;
  mret (findall root [Child "memoryBacking"; Child "hugepages"; Child "page"]).

Definition evacuate_server (server_id : string) (args : kwargs) : P unit :=
  api "admin_servers_client.evacuate_server" (("server_id", VStr server_id) :: args);;
  wait_for_server_migration_complete fuel build_timeout build_interval server_id.

(** * Cleanups *)

(** [_admin_delete_server]: every exception is logged and dropped. *)
Definition admin_delete_server (server_id : string) : P unit :=
  try_except
    (api "os_admin.servers_client.delete_server" [("server_id", VStr server_id)];;
     api "waiters.wait_for_server_termination"
       [("client", VStr "os_admin.servers_client"); ("server_id", VStr server_id)];;
     mret tt)
    (λ _, Some (mret tt)).

Definition run_cleanup (c : cleanup) : P unit :=
  match c with
  | CleanupCall method args | ClassCleanup method args => api method args;; mret tt
  | AdminDeleteServer server_id => admin_delete_server server_id
  | CleanupVolumeType volume_type => cleanup_volume_type volume_type
  end.
End base.

(** * Lemmas and theorems *)
Section base_theorems.
Context {CONF : conf} {W : Type} `{C : cloud W}.
Implicit Types s : pystate W.
Abbreviation P := (M (pystate W)).

(** ** The interface of a port in the domain XML *)

(** The interfaces of the domain that have this type and MAC address. *)
Definition matching_interfaces (root : elem) (interface_type : option string) (mac : string)
    : list elem :=
  filter (λ e, elem_get e "type" = Some (fmt (vopt_str interface_type)) ∧
               has_child "mac" "address" mac e)
         (descend root ["devices"; "interface"]).

Lemma interface_path_selects root t mac :
  findall root (interface_path t mac) = matching_interfaces root t mac.
Proof. apply (findall_by_child root "type" _ "mac" "address" mac ["devices"; "interface"]). Qed.

(** C9: [_get_xml_interface_device] returns an interface exactly when the domain
    has one and only one interface of the type the port's vnic_type maps to that
    carries the port's MAC address, whatever the number of [mac] elements in it;
    with none or several the assertion fails. *)
Theorem get_xml_interface_device_unique server_id port_id s port s1 t root s2 mac :
  show_port port_id s = (Ret port, s1) → get_expected_xml_interface_type port = Ret t →
  get_server_xml server_id s1 = (Ret root, s2) →
  vpath port ["port"; "mac_address"] = Ret mac →
  get_xml_interface_device server_id port_id s =
  (match matching_interfaces root t (fmt mac) with
   | [iface] => Ret iface
   | _ => Exn AssertionFailure
   end, s2).
Proof.
  intros Hp Ht Hx Hm. unfold get_xml_interface_device.
  rewrite (bind_Ret _ _ _ _ _ Hp), bind_run. unfold lift at 1. rewrite Ht.
  rewrite (bind_Ret _ _ _ _ _ Hx), bind_run. unfold lift. rewrite Hm, interface_path_selects.
  by destruct (matching_interfaces root t (fmt mac)) as [|? [|]].
Qed.

(** ** Rows of the pci_devices table *)

(** What a row has to say for the port to be bound to its device. *)
Definition row_bound (binding_profile vnic_type pci_device : val) : bool :=
  match vget pci_device "status", vget pci_device "address",
        vget binding_profile "pci_slot", vget pci_device "dev_type" with
  | Ret status, Ret address, Ret pci_slot, Ret dev_type =>
      py_eq (VStr "allocated") status && py_eq address pci_slot &&
      existsb (λ t, py_eq dev_type (VStr t))
        (if py_eq vnic_type (VStr "vdpa") then ["vdpa"]
         else if py_eq vnic_type (VStr "direct-physical") then ["type-PF"]
         else ["type-VF"; "type-PCI"])
  | _, _, _, _ => false
  end.

Lemma verify_pci_row_verdict profile vnic row s :
  (verify_pci_row profile vnic row s = (Ret tt, s) ∧ row_bound profile vnic row = true) ∨
  ((verify_pci_row profile vnic row s).1 ≠ Ret tt ∧ row_bound profile vnic row = false).
Proof.
  unfold verify_pci_row, row_bound. cbv [mbind M_bind lift].
  destruct (vget row "status") as [status|e|]; [|by right..].
  destruct (vget row "address") as [address|e|]; [|by right..].
  destruct (py_eq (VStr "allocated") status); cbn [assert_that raise mret M_ret andb];
    [|right; by repeat case_match].
  destruct (vget profile "pci_slot") as [slot|e|]; [|by right..].
  destruct (py_eq address slot); cbn [assert_that raise mret M_ret andb];
    [|right; by repeat case_match].
  destruct (vget row "dev_type") as [dev_type|e|]; [|by right..].
  destruct (py_eq vnic (VStr "vdpa")), (py_eq vnic (VStr "direct-physical"));
    cbn [existsb]; rewrite ?orb_false_r;
    (destruct (_ || _)%bool || destruct (py_eq dev_type _)); (by left) || (by right).
Qed.

(** C35: [_verify_neutron_port_binding] passes exactly when every PCI device the
    database records for the instance is allocated, sits at the address of the
    port's binding profile and has the device type its vnic_type calls for. *)
Theorem verify_neutron_port_binding_verdict server_id port_id s profile s1 rows s2 vnic s3 :
  get_port_attribute port_id "binding:profile" s = (Ret profile, s1) →
  search_pci_devices "instance_uuid" server_id s1 = (Ret (VList rows), s2) →
  get_port_attribute port_id "binding:vnic_type" s2 = (Ret vnic, s3) →
  verify_neutron_port_binding server_id port_id s = (Ret tt, s3) ↔
  Forall (λ row, row_bound profile vnic row = true) rows.
Proof.
  intros Hp Hr Hv. unfold verify_neutron_port_binding.
  rewrite (bind_Ret _ _ _ _ _ Hp), (bind_Ret _ _ _ _ _ Hr), (bind_Ret _ _ _ _ _ Hv), bind_run.
  unfold lift at 1. cbn [as_list].
  rewrite <-forallb_Forall_true.
  destruct (for_each_pass _ _ rows s3 (λ row, verify_pci_row_verdict profile vnic row s3))
    as [[-> ->]|[Hne ->]]; [naive_solver|].
  split; [|done]. intros H. by rewrite H in Hne.
Qed.
End base_theorems.

(** ** Live migration *)
Section migration_theorems.
Context {CONF : conf} {W : Type} `{C : cloud W}.
Implicit Types s : pystate W.

Lemma live_migrate_run clients server_id state target_host s s' :
  live_migrate clients server_id state target_host s = (Ret tt, s') →
  ∃ s0 host, get_host_for_server server_id s0 = (Ret host, s') ∧
    match target_host with
    | Some t => t ≠ "" → host = t
    | None => ∃ s1 orig, get_host_for_server server_id s = (Ret orig, s1) ∧ orig ≠ host
    end.
Proof.
  unfold live_migrate. intros H. run_ret H.
  destruct target_host as [t|]; cbn [vopt_str] in H.
  - destruct (truthy (VStr t)) eqn:Ht; run_ret H; case_bool_decide as Hb; try done;
      injection H as <-; eexists _, _; (split; [eassumption|]); intros Hne.
    + congruence.
    + by apply negb_false_iff, String.eqb_eq in Ht.
  - cbn [truthy] in H. run_ret H. case_bool_decide as Hb; [|done].
    injection H as <-. eexists _, _. split; [eassumption|]. eexists _, _. by split; [eassumption|].
Qed.

(** A [live_migrate] that returns ends with a look-up of the server's host
    that gave the target host when one was asked for, and otherwise a host
    different from the one the server was on at the start. *)
Theorem live_migrate_moved clients server_id state target_host s s' :
  live_migrate clients server_id state target_host s = (Ret tt, s') →
  ∃ s0 host, get_host_for_server server_id s0 = (Ret host, s') ∧
    match target_host with
    | Some t => t ≠ "" → host = t
    | None => ∃ s1 orig, get_host_for_server server_id s = (Ret orig, s1) ∧ orig ≠ host
    end.
Proof. apply live_migrate_run. Qed.
End migration_theorems.

(** ** Resources and their cleanups *)
Section cleanup_theorems.
Context {CONF : conf} {W : Type} `{C : cloud W}.
Abbreviation P := (M (pystate W)).

(** On success [m] has registered exactly the cleanup [c] derives from its result. *)
Definition registers (m : P val) (c : val → outcome cleanup) : Prop :=
  ∀ s r s', m s = (Ret r, s') →
    ∃ c0, c r = Ret c0 ∧ st_cleanups s' = c0 :: st_cleanups s.

(** Statements that register nothing. *)
Class Registers_none {A} (m : P A) : Prop :=
  registers_none : ∀ s, st_cleanups (m s).2 = st_cleanups s.

#[export] Instance none_ret {A} (a : A) : Registers_none (mret a).
Proof. done. Qed.
#[export] Instance none_lift {A} (o : outcome A) : Registers_none (lift o).
Proof. done. Qed.
#[export] Instance none_api m a : Registers_none (api m a).
Proof. intros s. unfold api, in_world. by destruct (api_call m a (st_world s)). Qed.
#[export] Instance none_bind {A B} (m : P A) (f : A → P B) :
  Registers_none m → (∀ a, Registers_none (f a)) → Registers_none (m ≫= f).
Proof.
  intros Hm Hf s. rewrite bind_run. specialize (Hm s).
  destruct (m s) as [[a|e|] s']; simpl in *; [|done..]. by rewrite (Hf a s').
Qed.

Lemma none_run {A} (m : P A) `{!Registers_none m} s o s' :
  m s = (o, s') → st_cleanups s' = st_cleanups s.
Proof. intros H. pose proof (registers_none s) as Hn. by rewrite H in Hn. Qed.

Lemma add_cleanup_run c s o s' :
  add_cleanup c s = (o, s') → o = Ret tt ∧ st_cleanups s' = c :: st_cleanups (W:=W) s.
Proof. by intros [= <- <-]. Qed.
End cleanup_theorems.

(** Push the unchanged cleanup list through every statement of a run. *)
Ltac track_cleanups :=
  repeat match goal with
  | E : add_cleanup _ _ = _ |- _ => apply add_cleanup_run in E as [_ E]
  | E : lift _ _ = (Ret _, _) |- _ => apply lift_run in E as [? ->]
  | E : _ = (Ret _, _) |- _ => apply none_run in E; [|apply _]
  end.

Section cleanup_registration.
Context {CONF : conf} {W : Type} `{C : cloud W}.

Definition delete_call (method key : string) (path : list string) (r : val) : outcome cleanup :=
  v ← vpath r path; Ret (CleanupCall method [(key, v)]).

(** Each helper that creates a server, network, subnet or port has, when it
    returns, registered exactly one cleanup: the deletion of the resource with
    the id of the body it returns. *)
Theorem created_resources_registered :
  (∀ args, registers (create_test_server args)
     (λ r, i ← (vget r "id" ≫= as_str); Ret (AdminDeleteServer i))) ∧
  (∀ cls vlan net, registers (create_net_from_physical_network cls vlan net)
     (delete_call "os_admin.networks_client.delete_network" "network_id" ["network"; "id"])) ∧
  (∀ cls net_id, registers (create_subnet cls net_id)
     (delete_call "os_admin.subnets_client.delete_subnet" "subnet_id" ["subnet"; "id"])) ∧
  (∀ net vnic policy, registers (create_port_from_vnic_type net vnic policy)
     (delete_call "os_primary.ports_client.delete_port" "port_id" ["port"; "id"])).
Proof.
  split_and!; intros; intros s r s' H; unfold create_test_server, create_net_from_physical_network,
    create_subnet, create_port_from_vnic_type, id_of in H; run_ret H; injection H as <- <-;
    track_cleanups; eexists;
    (split; [|etrans; [eassumption|f_equal; congruence]]);
    unfold delete_call;
    match goal with E : Ret _ = ?x |- context [?x] => rewrite <-E; reflexivity end.
Qed.

(** Deleting a server in a cleanup never raises, whatever the API answers or
    raises, so that the cleanups registered before it still run. *)
Theorem admin_delete_server_never_raises `{L : !lawful_clock W} server_id (s : pystate W) :
  (admin_delete_server server_id s).1 = Ret tt.
Proof.
  unfold admin_delete_server, try_except.
  match goal with |- context [match ?m s with _ => _ end] => set (body := m) end.
  assert (Steady body) as Hb by (unfold body; apply _).
  destruct (body s) as [[[]|e|] s'] eqn:E; [done|done|].
  by destruct (Hb _ _ _ E).
Qed.
End cleanup_registration.

(** ** Waiting for a domain to shut down *)
Section shutdown_theorems.
Context {CONF : conf} {W : Type} `{C : cloud W} `{L : !lawful_clock W}.
Implicit Types s : pystate W.

Definition virsh_list (ssh_client : SSHClient) : M (pystate W) string :=
  execute ssh_client "virsh list --name" VNone true.

#[export] Instance steady_execute client cmd cname sudo : Steady (execute client cmd cname sudo).
Proof. unfold execute. apply _. Qed.

End shutdown_theorems.

(** The run of the loop as a sequence of polls: [polls client name start n s s']
    holds when [n] times in a row the clock was read within the timeout and the
    listing after that showed the domain, and nothing else was done. *)
Section polling.
Context {CONF : conf} {W : Type} `{C : cloud W}.
Context (client : SSHClient) (name : string).
Implicit Types s : pystate W.

Inductive polls (start : Z) : nat → pystate W → pystate W → Prop :=
| polls_none s : polls start 0 s s
| polls_one n s t s1 domains s2 s' :
    now s = (Ret t, s1) → t - start <= build_timeout →
    virsh_list client s1 = (Ret domains, s2) → contains name domains = true →
    polls start n s2 s' → polls start (S n) s s'.

(** What the loop does after [n] polls, of the [f] it may make, ending in [s'] with [o] *)
Inductive leaves (start : Z) (f n : nat) s s' : outcome unit → Prop :=
| leaves_gone t s1 domains :
    (n < f)%nat → now s = (Ret t, s1) → t - start <= build_timeout →
    virsh_list client s1 = (Ret domains, s') → contains name domains = false →
    leaves start f n s s' (Ret tt)
| leaves_late t :
    now s = (Ret t, s') → build_timeout < t - start → leaves start f n s s' (Exn TimeoutException)
| leaves_failed t s1 e :
    (n < f)%nat → now s = (Ret t, s1) → t - start <= build_timeout →
    virsh_list client s1 = (Exn e, s') → leaves start f n s s' (Exn e)
| leaves_running t :
    n = f → now s = (Ret t, s') → t - start <= build_timeout → leaves start f n s s' NoFuel.

Lemma domain_listed_run s :
  domain_listed client name s =
  (domains ← virsh_list client; mret (if contains name domains then Continue else Break)) s.
Proof.
  unfold domain_listed, virsh_list. rewrite !bind_run.
  destruct (execute _ _ _ _ s) as [[d|e|] s1]; [by destruct (contains name d)|done..].
Qed.
End polling.

Section polling_theorems.
Context {CONF : conf} {W : Type} `{C : cloud W} `{L : !lawful_clock W}.
Implicit Types s : pystate W.

Lemma leaves_more client name start f n s s' o :
  leaves client name start f n s s' o → leaves client name start (S f) (S n) s s' o.
Proof. destruct 1; econstructor; try done; lia. Qed.

Lemma shutdown_loop_polls f start client name s o s' :
  domain_shutdown_loop f build_timeout start client name s = (o, s') →
  ∃ n s1, (n <= f)%nat ∧ polls client name start n s s1 ∧ leaves client name start f n s1 s' o.
Proof.
  revert s. induction f as [|f IH]; intros s H; cbn [domain_shutdown_loop] in H.
  all: destruct (now s) as [o1 s1] eqn:Hn; pose proof Hn as (t & -> & _)%now_run.
  all: rewrite (bind_Ret _ _ _ _ _ Hn) in H; destruct (Z.leb_spec (t - start) build_timeout) as [Ht|Ht].
  2, 4: injection H as <- <-; exists 0%nat, s; split_and!; [lia|constructor|by econstructor].
  { injection H as <- <-. exists 0%nat, s. split_and!; [lia|constructor|by econstructor]. }
  rewrite bind_run, domain_listed_run, bind_run in H.
  destruct (virsh_list client s1) as [[domains|e|] s2] eqn:Hl; cbn in H.
  - destruct (contains name domains) eqn:Hc.
    + apply IH in H as (n & s3 & Hle & Hp & Hv). exists (S n), s3.
      split_and!; [lia|by econstructor|by apply leaves_more].
    + injection H as <- <-. exists 0%nat, s. split_and!; [lia|constructor|econstructor; eauto; lia].
  - injection H as <- <-. exists 0%nat, s. split_and!; [lia|constructor|econstructor; eauto; lia].
  - apply ssh_run in Hl as [??]. done.
Qed.

Lemma polls_shutdown_loop n f start client name s s1 o s' :
  polls client name start n s s1 → leaves client name start f n s1 s' o → (n <= f)%nat →
  domain_shutdown_loop f build_timeout start client name s = (o, s').
Proof.
  intros Hp. revert f. induction Hp as [s|n s t s1 domains s2 s3 Hn Ht Hl Hc _ IH]; intros f Hv Hf.
  - destruct f; destruct Hv as [t s2 domains ? Hn Ht Hl Hc|t Hn Ht|t s2 e ? Hn Ht Hl|t ? Hn Ht]; try lia;
      cbn [domain_shutdown_loop]; rewrite (bind_Ret _ _ _ _ _ Hn);
      destruct (Z.leb_spec (t - start) build_timeout); try lia; try done;
      by rewrite bind_run, domain_listed_run, bind_run, Hl, ?Hc.
  - destruct f as [|f]; [lia|]. cbn [domain_shutdown_loop]. rewrite (bind_Ret _ _ _ _ _ Hn).
    destruct (Z.leb_spec (t - start) build_timeout); [|lia].
    rewrite bind_run, domain_listed_run, bind_run, Hl. cbn. rewrite Hc. apply IH; [|lia].
    destruct Hv; econstructor; try done; lia.
Qed.

(** C36: a run of [_wait_for_domain_shutdown] is exactly a sequence of polls of the
    clock and of [virsh list], and one of four ends: it returns on a listing
    without the domain, raises TimeoutException on a clock reading later than the
    build timeout after the first one, lets an exception of the listing through,
    or is still running after as many listings as it was given iterations, all of
    which showed the domain and were made within the timeout. In particular it
    never polls again once the timeout has passed. *)
Theorem wait_for_domain_shutdown_spec fuel client name s o s' :
  wait_for_domain_shutdown fuel client name s = (o, s') ↔
  ∃ start s0 n s1, now s = (Ret start, s0) ∧ (n <= fuel)%nat ∧
    polls client name start n s0 s1 ∧ leaves client name start fuel n s1 s' o.
Proof.
  unfold wait_for_domain_shutdown. destruct (now s) as [o1 s0] eqn:Hn.
  pose proof Hn as (start & -> & _)%now_run. rewrite (bind_Ret _ _ _ _ _ Hn). split.
  - intros (n & s1 & ?)%shutdown_loop_polls. by exists start, s0, n, s1.
  - intros (start' & s0' & n & s1 & [= <- <-] & Hle & Hp & Hv). by eapply polls_shutdown_loop.
Qed.
End polling_theorems.

(** ** The sleep of the loop is never reached *)

(** The same deployment with another [time.sleep] *)
Definition with_sleep {W} (f : Z → W → W) (C : cloud W) : cloud W := {|
  ssh_exec_command := @ssh_exec_command W C;
  api_call := @api_call W C;
  time_time := @time_time W C;
  time_sleep := f;
  yaml_load_file := @yaml_load_file W C;
  et_fromstring := @et_fromstring W C;
  json_loads := @json_loads W C;
|}.

Section no_sleep.
Context {CONF : conf} {W : Type} (C : cloud W).

Lemma shutdown_loop_no_sleep f n timeout start client name s :
  domain_shutdown_loop (C:=with_sleep f C) n timeout start client name s =
  domain_shutdown_loop (C:=C) n timeout start client name s.
Proof.
  revert s. induction n as [|n IH]; intros s; [done|]. cbn [domain_shutdown_loop]. rewrite !bind_run.
  change (now (C:=with_sleep f C)) with (now (C:=C)).
  destruct (now (C:=C) s) as [[t|e|] s1]; [|done..]. destruct (t - start <=? timeout)%Z; [|done].
  rewrite !bind_run, !domain_listed_run, !bind_run.
  change (virsh_list (C:=with_sleep f C)) with (virsh_list (C:=C)).
  destruct (virsh_list (C:=C) client s1) as [[d|e|] s2]; [|done..].
  cbn. destruct (contains name d); [apply IH|done].
Qed.

(** C39: the [time.sleep(interval)] of [_wait_for_domain_shutdown] is dead code: on
    any deployment, whatever the sleep does, even if it would shut the domain
    down or never let time pass, the function behaves in the same way. Between
    two listings that show the domain it does not wait. *)
Theorem wait_for_domain_shutdown_never_sleeps f fuel client name (s : pystate W) :
  wait_for_domain_shutdown (C:=with_sleep f C) fuel client name s =
  wait_for_domain_shutdown (C:=C) fuel client name s.
Proof.
  unfold wait_for_domain_shutdown. rewrite !bind_run. change (now (C:=with_sleep f C)) with (now (C:=C)).
  destruct (now (C:=C) s) as [[t|e|] s1]; [|done..]. apply shutdown_loop_no_sleep.
Qed.
End no_sleep.

(** * Witnesses *)
Definition port_body : val :=
  VDict [("port", VDict [("id", VStr "port-1"); ("binding:vnic_type", VStr "direct");
                         ("mac_address", VStr "52:54:00:01");
                         ("binding:profile", VDict [("pci_slot", VStr "0000:81:00.1")])])].
Definition server_body : val :=
  VDict [("server", VDict [("OS-EXT-SRV-ATTR:host", VStr "compute-0");
                           ("OS-EXT-SRV-ATTR:instance_name", VStr "instance-1")])].
Definition base_bodies : list (string * val) :=
  [("os_admin.ports_client.show_port", port_body); ("os_admin.servers_client.show_server", server_body);
   ("BaseV2ComputeAdminTest.get_host_for_server", VStr "compute-0");
   ("admin_servers_client.live_migrate_server", VNone); ("waiters.wait_for_server_status", VNone);
   ("pymysql.connect", VNone); ("conn.cursor", VNone); ("cursor.__exit__", VNone);
   ("conn.close", VNone); ("cursor.execute", VNone);
   ("cursor.fetchall", VList [VDict [("address", VStr "0000:81:00.1");
                                     ("status", VStr "allocated");
                                     ("dev_type", VStr "type-VF")]])].
Definition host_yaml : val :=
  VDict [("compute-0", VDict [("services", VDict [("libvirt", VDict [])])])].

Definition iface (type mac : string) : elem :=
  Elem "interface" [("type", type)] None [Elem "mac" [("address", mac)] None []].
Definition domain_xml : elem :=
  Elem "domain" [] None [Elem "devices" [] None
    [iface "bridge" "52:54:00:01"; iface "hostdev" "52:54:00:01"; iface "hostdev" "52:54:00:02"]].

Definition base_env : cloud sim := sim_cloud (λ _, false) [("<domain/>", domain_xml)] host_yaml.
Definition base_state : pystate sim :=
  mkState None [] (mkSim 0 ∅ true [("sudo virsh dumpxml instance-1", "<domain/>")] base_bodies []).

Lemma get_xml_interface_device_unique_witness :
  (get_xml_interface_device (CONF:=sim_CONF) (C:=base_env) "server-1" "port-1" base_state).1 =
  Ret (iface "hostdev" "52:54:00:01").
Proof.
  rewrite (get_xml_interface_device_unique (CONF:=sim_CONF) (C:=base_env) "server-1" "port-1" base_state
    port_body base_state (Some "hostdev") domain_xml
    (get_server_xml (CONF:=sim_CONF) (C:=base_env) "server-1" base_state).2 (VStr "52:54:00:01"));
    vm_compute; reflexivity.
Defined.

Lemma verify_neutron_port_binding_verdict_witness :
  verify_neutron_port_binding (CONF:=sim_CONF) (C:=base_env) "server-1" "port-1" base_state =
  (Ret tt, base_state).
Proof.
  apply (verify_neutron_port_binding_verdict (CONF:=sim_CONF) (C:=base_env) "server-1" "port-1"
    base_state (VDict [("pci_slot", VStr "0000:81:00.1")]) base_state
    [VDict [("address", VStr "0000:81:00.1"); ("status", VStr "allocated");
            ("dev_type", VStr "type-VF")]] base_state (VStr "direct") base_state).
  - vm_compute. reflexivity.
  - vm_compute. reflexivity.
  - vm_compute. reflexivity.
  - repeat constructor.
Defined.

Lemma live_migrate_moved_witness :
  ∃ s0, get_host_for_server (C:=base_env) "server-1" s0 = (Ret "compute-0", base_state).
Proof.
  destruct (live_migrate_moved (C:=base_env) "os_primary" "server-1" "ACTIVE" (Some "compute-0")
    base_state base_state) as (s0 & host & Hrun & Hhost); [vm_compute; reflexivity|].
  exists s0. by rewrite Hhost in Hrun.
Defined.

Lemma admin_delete_server_never_raises_witness :
  (admin_delete_server (C:=base_env) "server-1" base_state).1 = Ret tt.
Proof.
  apply (admin_delete_server_never_raises (C:=base_env)
           (L:=sim_lawful_clock (λ _, false) [("<domain/>", domain_xml)] host_yaml)).
Defined.

Definition slow_env : cloud sim := slow_cloud (sim_cloud (λ _, false) [] VNone).
Definition shutdown_client : SSHClient := mkSSHClient "key" "stack" VNone "compute-0".
Definition shutdown_state (log : list string) : pystate sim :=
  mkState None [] (mkSim 0 ∅ true [("sudo virsh list --name", "instance-00000001")] [] log).

(** A domain that never goes away, where each listing takes a second: the run ends
    with the timeout. *)
Lemma wait_for_domain_shutdown_spec_witness :
  ∃ start s0 n s1, polls (CONF:=sim_CONF) (C:=slow_env) shutdown_client "instance-00000001" start n s0 s1 ∧
    leaves (CONF:=sim_CONF) (C:=slow_env) shutdown_client "instance-00000001" start 61 n s1
      (wait_for_domain_shutdown (CONF:=sim_CONF) (C:=slow_env) 61 shutdown_client
         "instance-00000001" (shutdown_state [])).2
      (Exn TimeoutException).
Proof.
  destruct (proj1 (wait_for_domain_shutdown_spec (CONF:=sim_CONF) (C:=slow_env)
    (L:=slow_lawful_clock (λ _, false) [] VNone) 61 shutdown_client "instance-00000001"
    (shutdown_state []) (Exn TimeoutException)
    (wait_for_domain_shutdown (CONF:=sim_CONF) (C:=slow_env) 61 shutdown_client
       "instance-00000001" (shutdown_state [])).2))
    as (start & s0 & n & s1 & _ & _ & Hp & Hl); [vm_compute; reflexivity|].
  by exists start, s0, n, s1.
Defined.
