(* ===== verification/AllComputes.v ===== *)
(** api/compute/base.py, [config_all_computes]: the configuration of every
    compute host is changed for the duration of a block and put back after it. *)
From Stdlib Require Import Ascii String.
From S2P Require Import Prelude PyString PyVal Xml Env Sim Hardware Utils Waiters Clients ServiceManager ComputeBase.
#[local] Open Scope string_scope.

(** A manager whose host runs crudini as documented. *)
Definition managed {W} `{C : cloud W} : Type := { m : ServiceManager & lawful_crudini m }.

Section fleet.
Context {CONF : conf} {W : Type} `{C : cloud W}.
Context (fuel : nat).
Abbreviation P := (M (pystate W)).
Implicit Types f g : managed.
Implicit Types s : pystate W.

Definition mgr f : ServiceManager := projT1 f.
Definition file f s : gmap (string * string) string := sfile (K:=projT2 f) (mgr f) s.
Definition keeps_file f {A} (m : P A) : Prop := Keeps (K:=projT2 f) (mgr f) m.

(** No command run on the host of [g] changes the configuration file of [f]. *)
Definition isolated f g : Prop := ∀ user key cmd w,
  cfile (lawful_crudini:=projT2 f)
    (ssh_exec_command (ctlplane_address (sm_ssh (mgr g))) user key cmd w).2
  = cfile (lawful_crudini:=projT2 f) w.

Fixpoint all_isolated (fleet : list managed) : Prop :=
  match fleet with
  | [] => True
  | f :: fleet' => Forall (λ g, isolated f g ∧ isolated g f) fleet' ∧ all_isolated fleet'
  end.

(** * What a manager leaves alone on the other hosts *)
Lemma keeps_then f {A B} (m : P A) (k : A → P B) :
  keeps_file f m → (∀ a, keeps_file f (k a)) → keeps_file f (m ≫= k).
Proof. apply keeps_bind. Qed.

Lemma keeps_try_except f {A} (m : P A) h :
  keeps_file f m → (∀ e k, h e = Some k → keeps_file f k) → keeps_file f (try_except m h).
Proof.
  intros Hm Hh s. unfold try_except. specialize (Hm s).
  destruct (m s) as [[a|e|] s'] eqn:E; simpl in Hm; [done| |done].
  destruct (h e) as [k|] eqn:Hk; [|done]. rewrite <-Hm. by apply (Hh e k).
Qed.

Lemma keeps_for_acc f {A B} (step : B → A → P B) b l :
  (∀ b x, keeps_file f (step b x)) → keeps_file f (for_acc step b l).
Proof.
  intros H. revert b. induction l as [|x l IH]; intros b; cbn [for_acc]; [apply keeps_ret|].
  apply keeps_bind; [apply H|intros b'; apply IH].
Qed.

Lemma keeps_for_each f {A} (step : A → P unit) l :
  (∀ x, keeps_file f (step x)) → keeps_file f (for_each step l).
Proof.
  intros H. induction l as [|x l IH]; cbn [for_each]; [apply keeps_ret|].
  apply keeps_bind; [apply H|intros _; apply IH].
Qed.

Lemma keeps_execute f g cmd container sudo :
  isolated f g → keeps_file f (execute (sm_ssh (mgr g)) cmd container sudo).
Proof. intros Hi. apply keeps_in_world. intros w. apply Hi. Qed.
#[local] Hint Resolve keeps_execute : whitebox.

(** Walk through the statements of a method of another host's manager. *)
Ltac keep_steps :=
  repeat first
    [ apply keeps_ret | apply keeps_raise | apply keeps_wait | by eauto with whitebox
    | apply keeps_then; [|intros] | destruct (truthy _) | destruct (contains _ _) ].

Lemma keeps_set f g sec opt v : isolated f g → keeps_file f (set_conf_opt (mgr g) sec opt v).
Proof. apply keeps_execute. Qed.

Lemma keeps_get f g sec opt : isolated f g → keeps_file f (get_conf_opt (mgr g) sec opt).
Proof.
  intros Hi. apply keeps_try_except; [keep_steps|].
  intros e k Hk. destruct e; try done. injection Hk as <-. keep_steps.
Qed.

Lemma keeps_command f g c : isolated f g → keeps_file f (run_command (mgr g) c).
Proof. intros Hi. unfold run_command. keep_steps. Qed.
#[local] Hint Resolve keeps_set keeps_get keeps_command : whitebox.

Lemma keeps_restart_other f g : isolated f g → keeps_file f (restart fuel (mgr g)).
Proof. intros Hi. unfold_service. apply keeps_then; [|intros _]; destruct (sm_class (mgr g)); keep_steps. Qed.
#[local] Hint Resolve keeps_restart_other : whitebox.

Lemma keeps_enter f g opts :
  isolated f g → keeps_file f (cm_enter (config_options fuel (mgr g) opts)).
Proof.
  intros Hi. simpl. apply keeps_then; [|intros iv; keep_steps].
  apply keeps_for_acc. intros iv [[sec opt] v]. unfold save_and_set. keep_steps.
Qed.

Lemma keeps_exit f g opts iv :
  isolated f g → keeps_file f (cm_exit (config_options fuel (mgr g) opts) iv).
Proof.
  intros Hi. simpl. apply keeps_then; [|intros; keep_steps].
  apply keeps_for_each. intros [[sec opt] v]. keep_steps.
Qed.

Lemma keeps_file_run f {A} (m : P A) s o s' : keeps_file f m → m s = (o, s') → file f s' = file f s.
Proof. intros Hk H. specialize (Hk s). by rewrite H in Hk. Qed.

(** * Restarts come to an end *)
Definition ends {A} (m : P A) : Prop := ∀ s, (m s).1 ≠ NoFuel.

Lemma ends_bind {A B} (m : P A) (k : A → P B) : ends m → (∀ a, ends (k a)) → ends (m ≫= k).
Proof.
  intros Hm Hk s. rewrite bind_run. specialize (Hm s). destruct (m s) as [[a|e|] s']; [apply Hk|done|done].
Qed.
Lemma ends_ret {A} (a : A) : ends (mret a).
Proof. done. Qed.

Context `{L : !lawful_clock W}.

Lemma ends_command self c : ends (run_command self c).
Proof.
  apply ends_bind; [|intros; apply ends_ret]. intros s.
  destruct (execute (sm_ssh self) (fmt c) VNone true s) as [o s'] eqn:E.
  by apply ssh_run in E as [? _].
Qed.

Lemma ends_wait host binary field state :
  enough fuel →
  ends (wait_for_nova_service_state fuel build_timeout build_interval host binary field state).
Proof.
  intros (Hi & Hf & Ht) s. destruct (wait_for_nova_service_state _ _ _ _ _ _ _ s) as [o s'] eqn:E.
  by apply wait_for_nova_service_state_run in E as [? _].
Qed.

Lemma ends_restart self : enough fuel → ends (restart fuel self).
Proof.
  intros He. unfold_service. apply ends_bind; [|intros _]; destruct (sm_class self);
    repeat first
      [ apply ends_command | by apply ends_wait | apply ends_ret
      | apply ends_bind; [|intros _] | destruct (truthy _) ].
Qed.

(** * Entering and leaving all hosts *)

(** Every context manager of the list is entered, in order, from [s] to [s1]. *)
Fixpoint entered (cms : list (context_manager (pystate W))) s s1 : Prop :=
  match cms with
  | [] => s1 = s
  | cm :: cms' => ∃ x s', cm_enter cm s = (Ret x, s') ∧ entered cms' s' s1
  end.

Definition managers_config (opts : list (string * string * val)) (fleet : list managed)
    : list (context_manager (pystate W)) :=
  map (λ f, config_options fuel (mgr f) opts) fleet.

Lemma entered_keeps f opts fleet s s1 :
  Forall (isolated f) fleet → entered (managers_config opts fleet) s s1 → file f s1 = file f s.
Proof.
  intros Hi. revert s. induction Hi as [|g fleet Hg _ IH]; intros s H; simpl in H; [by rewrite H|].
  destruct H as (x & s' & He & H). rewrite (IH _ H).
  by eapply keeps_file_run; [apply (keeps_enter f g opts)|exact He].
Qed.

(** The options of [opts] have the values asked for, in the file of [f]. *)
Definition options_set (opts : list (string * string * val)) s f : Prop :=
  ∀ opt, opt ∈ opts → file f s !! opt.1 = entry_value opt.
(** The options of [opts] have the values they have in [s]. *)
Definition options_back (opts : list (string * string * val)) s s' f : Prop :=
  ∀ k, k ∈ opt_key <$> opts → file f s' !! k = file f s !! k.

Lemma with_config_ends f opts {A} (inner : P A) s iv s1 ob s2 o s' :
  enough fuel → Forall plain_opt opts → NoDup (opt_key <$> opts) → plain_values (file f s) opts →
  cm_enter (config_options fuel (mgr f) opts) s = (Ret iv, s1) →
  inner s1 = (ob, s2) → ob ≠ NoFuel →
  with_cm (config_options fuel (mgr f) opts) inner s = (o, s') →
  o ≠ NoFuel ∧ ∃ o', cm_exit (config_options fuel (mgr f) opts) iv s2 = (o', s').
Proof.
  intros He Hp Hnd Hv Henter Hin Hob H.
  destruct (config_options_enter (mgr f) (K:=projT2 f) fuel opts s iv s1 Hp Hnd Hv Henter) as [-> _].
  unfold with_cm, with_as in H. rewrite (bind_Ret _ _ _ _ _ Henter) in H.
  unfold try_finally in H. rewrite Hin in H.
  destruct (restore_run (mgr f) (K:=projT2 f) (saved (file f s) opts) s2) as (s3 & Hr & _);
    [by apply saved_plain|].
  assert (cm_exit (config_options fuel (mgr f) opts) (saved (file f s) opts) s2 =
          restart fuel (mgr f) s3) as Hexit by (simpl; by rewrite (bind_Ret _ _ _ _ _ Hr)).
  fold (file f s) in H. rewrite Hexit in H. pose proof (ends_restart (mgr f) He s3) as Hends.
  destruct (restart fuel (mgr f) s3) as [o3 s4] eqn:E3.
  fold (file f s). rewrite Hexit. split; [|exists o3; f_equal]; destruct o3, ob; by simplify_eq.
Qed.

Lemma nested_config_restores {A} opts fleet (body : P A) s s1 ob s2 o s' :
  enough fuel → all_isolated fleet → Forall plain_opt opts → NoDup (opt_key <$> opts) →
  Forall (λ f, plain_values (file f s) opts) fleet →
  entered (managers_config opts fleet) s s1 → body s1 = (ob, s2) → ob ≠ NoFuel →
  nested (managers_config opts fleet) body s = (o, s') →
  o ≠ NoFuel ∧ Forall (options_set opts s1) fleet ∧ Forall (options_back opts s s') fleet.
Proof.
  intros He Hiso Hp Hnd. revert s o s'. induction fleet as [|f fleet IH];
    intros s o s' Hv Hent Hbody Hob H; simpl in Hent, H.
  { subst s1. rewrite Hbody in H. by simplify_eq. }
  destruct Hiso as [Hf Hiso]. apply Forall_cons in Hv as [Hvf Hv].
  destruct Hent as (iv & sa & Henter & Hent).
  assert (Forall (λ g, file g sa = file g s) fleet) as Hsa.
  { eapply Forall_impl; [exact Hf|]. intros g [_ Hg].
    by eapply keeps_file_run; [apply (keeps_enter g f opts)|exact Henter]. }
  destruct (nested (managers_config opts fleet) body sa) as [oi si] eqn:Hin.
  destruct (IH Hiso sa oi si) as (Hoi & Hset & Hback); [|done..|].
  { rewrite Forall_forall in *. intros g Hg. rewrite (Hsa g Hg). by apply Hv. }
  destruct (with_config_ends f opts _ s iv sa oi si o s' He Hp Hnd Hvf Henter Hin Hoi H)
    as (Ho & o' & Hexit).
  destruct (config_options_run (mgr f) (K:=projT2 f) fuel opts _ s iv sa oi si o s'
              Hp Hnd Hvf Henter Hin Hoi H) as (Hfset & Hfback & _).
  split_and!; [done|constructor|constructor].
  - intros opt Hopt. rewrite (entered_keeps f opts fleet sa s1); [by apply Hfset| |done].
    eapply Forall_impl; [exact Hf|]. by intros g [? _].
  - done.
  - exact Hfback.
  - rewrite Forall_forall in *. intros g Hg k Hk.
    rewrite (keeps_file_run g _ _ _ _ (keeps_exit g f opts iv (proj2 (Hf g Hg))) Hexit).
    rewrite (Hback g Hg k Hk). by rewrite (Hsa g Hg).
Qed.

(** C2: on compute hosts that do not share their configuration files, for options
    that are all different and whose names, new values and values in each file
    are words the shell passes on as they are, and once all the hosts could be
    entered: [config_all_computes] has set the options on every host when its
    block runs, and each of them is back on every host afterwards, whether the
    block returned or raised and even if leaving one of the hosts fails. *)
Theorem config_all_computes_restores {A} opts fleet (body : P A) computes s s0 sm s1 ob s2 o s' :
  enough fuel → all_isolated fleet → Forall plain_opt opts → NoDup (opt_key <$> opts) →
  Forall (λ f, plain_values (file f sm) opts) fleet →
  list_compute_hosts s = (Ret computes, s0) →
  map_m (λ compute, NovaServiceManager_init compute "nova-compute") computes s0
    = (Ret (map mgr fleet), sm) →
  entered (managers_config opts fleet) sm s1 → body s1 = (ob, s2) → ob ≠ NoFuel →
  config_all_computes fuel opts body s = (o, s') →
  Forall (options_set opts s1) fleet ∧ Forall (options_back opts sm s') fleet.
Proof.
  intros He Hiso Hp Hnd Hv Hl Hm Hent Hbody Hob H. unfold config_all_computes in H.
  rewrite (bind_Ret _ _ _ _ _ Hl), (bind_Ret _ _ _ _ _ Hm) in H. cbv zeta in H.
  rewrite map_map in H. unfold exit_stack in H.
  change (map _ fleet) with (managers_config opts fleet) in H.
  rewrite (enter_all_unwind (managers_config opts fleet) [] body sm) in H. simpl in H.
  by eapply nested_config_restores in H as (_ & ? & ?).
Qed.
End fleet.

(** * Two simulated compute hosts

    Each has its own file and service; the first one also keeps the clock and
    answers the API. *)
Definition host_name (b : bool) : string := if b then "compute-0" else "compute-1".
Definition pick (b : bool) (w : sim * sim) : sim := if b then w.1 else w.2.
Definition put (b : bool) (x : sim) (w : sim * sim) : sim * sim := if b then (x, w.2) else (w.1, x).

Definition service_params : val :=
  VDict [("services", VDict [("nova-compute", VDict
    [("config_path", VStr "/etc/nova/nova-cpu.conf");
     ("start_command", VStr "systemctl start devstack@n-cpu");
     ("stop_command", VStr "systemctl stop devstack@n-cpu")])])].

#[local] Instance pair_cloud : cloud (sim * sim) := {|
  ssh_exec_command := λ h u k cmd w,
    let b := String.eqb h "compute-0" in
    let r := sim_ssh (λ _, false) cmd (pick b w) in (r.1, put b r.2 w);
  api_call := λ m a w,
    if String.eqb m "services_client.list_services" then
      (Ret (sim_services (pick (py_eq (default VNone (dict_get a "host")) (VStr "compute-0")) w)), w)
    else let r := sim_api m w.1 in (r.1, (r.2, w.2));
  time_time := λ w, (sim_clock w.1, w);
  time_sleep := λ n w, (sim_tick n w.1, w.2);
  yaml_load_file := λ _ w,
    (Ret (VDict [("compute-0", service_params); ("compute-1", service_params)]), w);
  et_fromstring := λ _, Exn (GenericException "ParseError");
  json_loads := λ t, Ret (VStr t);
|}.

Definition pair_clock : lawful_clock (sim * sim).
Proof.
  unshelve refine {| clk := λ w, sim_clock w.1 |}; simpl.
  - intros w. lia.
  - intros n w Hn. lia.
  - intros m a w. destruct (String.eqb m _); simpl; [done|]. by destruct (sim_api_clock m w.1) as [-> _].
  - intros m a w. destruct (String.eqb m _); simpl; [done|]. apply sim_api_clock.
  - intros h u k c w. destruct (String.eqb h _); simpl; [|done].
    by destruct (sim_ssh_clock (λ _, false) c w.1) as [-> _].
  - intros h u k c w. destruct (String.eqb h _); simpl; apply sim_ssh_clock.
Defined.

Definition pair_manager (b : bool) : ServiceManager := sim_manager_at (host_name b) service_params.

Definition pair_lawful (b : bool) : lawful_crudini (pair_manager b).
Proof.
  pose (K := sim_lawful_crudini_at (host_name b) service_params).
  unshelve refine {| cfile := λ w, sim_conf (pick b w) |}.
  - intros s o w Hs Ho. pose proof (crudini_get_law (lawful_crudini:=K) s o (pick b w) Hs Ho) as H.
    destruct b; exact H.
  - intros s o v w Hs Ho Hv.
    pose proof (crudini_set_law (lawful_crudini:=K) s o v (pick b w) Hs Ho Hv) as H. destruct b; exact H.
  - intros s o w Hs Ho. pose proof (crudini_del_law (lawful_crudini:=K) s o (pick b w) Hs Ho) as H.
    destruct b; exact H.
  - intros c w Hc. pose proof (service_cmd_frame (lawful_crudini:=K) c (pick b w) Hc) as H.
    destruct b; exact H.
  - intros m a w. simpl. destruct (String.eqb m _); [done|]. destruct b; simpl; [apply sim_api_conf|done].
  - done.
  - intros n w. by destruct b.
Defined.

Definition pair_fleet : list managed :=
  [existT (pair_manager true) (pair_lawful true); existT (pair_manager false) (pair_lawful false)].

Definition pair_start : pystate (sim * sim) :=
  mkState None []
    (mkSim 0 {[("compute", "cpu_shared_set") := "0,1"]} true []
       [("os_admin.services_client.list_services",
         VDict [("services", VList [VDict [("host", VStr "compute-0")];
                                    VDict [("host", VStr "compute-1")]])])] [],
     mkSim 0 {[("compute", "cpu_shared_set") := "4-5"]} true [] [] []).

(** The states the run goes through. *)
Definition pair_built : pystate (sim * sim) :=
  mkState (Some (VDict [("compute-0", service_params); ("compute-1", service_params)]))
    (st_cleanups pair_start) (st_world pair_start).
Definition enter_host (b : bool) (s : pystate (sim * sim)) : pystate (sim * sim) :=
  (cm_enter (config_options (CONF:=sim_CONF) 12 (pair_manager b) sim_opts) s).2.
Definition pair_entered : pystate (sim * sim) := enter_host false (enter_host true pair_built).

Lemma config_all_computes_restores_witness :
  let r := config_all_computes (CONF:=sim_CONF) 12 sim_opts (raise (A:=unit) AssertionFailure) pair_start in
  sim_conf (st_world r.2).1 !! ("compute", "cpu_shared_set") = Some "0,1" ∧
  sim_conf (st_world r.2).2 !! ("compute", "cpu_shared_set") = Some "4-5".
Proof.
  cbv zeta.
  pose proof (config_all_computes_restores (CONF:=sim_CONF) 12 (L:=pair_clock) sim_opts pair_fleet
    (raise (A:=unit) AssertionFailure) ["compute-0"; "compute-1"] pair_start pair_start pair_built
    pair_entered (Exn AssertionFailure) pair_entered
    (config_all_computes (CONF:=sim_CONF) 12 sim_opts (raise (A:=unit) AssertionFailure) pair_start).1
    (config_all_computes (CONF:=sim_CONF) 12 sim_opts (raise (A:=unit) AssertionFailure) pair_start).2) as H.
  destruct H as [_ Hback].
  - repeat split; simpl; lia.
  - repeat constructor; intros user key cmd w; done.
  - repeat constructor; simpl; (done || (right; done) || by left).
  - repeat constructor; set_solver.
  - assert (∀ x k v, shell_word x →
      ({[("compute", "cpu_shared_set") := x]} : gmap (string * string) string) !! k = Some v →
      shell_word v) as Hone by (by intros x k v ? [_ <-]%lookup_singleton_Some).
    unfold pair_fleet. apply Forall_cons. split; [|apply Forall_cons; split; [|by apply Forall_nil]];
      intros k v _; [apply (Hone "0,1")|apply (Hone "4-5")]; done.
  - vm_compute. reflexivity.
  - vm_compute. reflexivity.
  - eexists _, (enter_host true pair_built). split; [vm_compute; reflexivity|].
    eexists _, pair_entered. split; [vm_compute; reflexivity|done].
  - reflexivity.
  - done.
  - apply surjective_pairing.
  - revert Hback.
    generalize (config_all_computes (CONF:=sim_CONF) 12 sim_opts (raise (A:=unit) AssertionFailure) pair_start).2.
    intros s' [H0 [H1 _]%Forall_cons]%Forall_cons.
    assert (("compute", "cpu_shared_set") ∈ opt_key <$> sim_opts) as Hk by (by left).
    split; [exact (H0 _ Hk)|exact (H1 _ Hk)].
Defined.
