(* ===== verification/Trace.v ===== *)
(** Runs as sequences of actions and observations.

    [Within R m]: whatever the outcome of the statement [m], the state it ends in
    is related by [R] to the one it started from. The rules hold for every
    preorder, and the operations of the library are within every preorder that
    admits the calls of the outside services ([Ambient]).

    [reaches] is the smallest such preorder, and [passes s l s'] says that between
    [s] and [s'] the calls listed in [l] returned the values given there, in this
    order. The theorems about whole tests are stated with it. *)
From Stdlib Require Import Ascii String.
From S2P Require Import Prelude PyString PyVal Xml Env Hardware Utils Waiters Clients ServiceManager ComputeBase.
#[local] Open Scope string_scope.

(** * Resources

    The cleanup that is owed for what a call has created, from its response and
    arguments; none for the calls that create nothing, for tempest's own methods
    [create_flavor], [create_volume] and [create_image_from_server], which register
    the deletion themselves, and for encryption types and attached interfaces,
    which go with their volume type and server. *)
Definition owed_call (method key : string) (path : list string) (body : val) : option cleanup :=
  match vpath body path with Ret v => Some (CleanupCall method [(key, v)]) | _ => None end.

Definition owed_cleanup (method : string) (args : kwargs) (body : val) : option cleanup :=
  if String.eqb method "BaseV2ComputeAdminTest.create_test_server" then
    match vget body "id" ≫= as_str with Ret i => Some (AdminDeleteServer i) | _ => None end
  else if String.eqb method "os_admin.networks_client.create_network" then
    owed_call "os_admin.networks_client.delete_network" "network_id" ["network"; "id"] body
  else if String.eqb method "os_admin.subnets_client.create_subnet" then
    owed_call "os_admin.subnets_client.delete_subnet" "subnet_id" ["subnet"; "id"] body
  else if String.eqb method "os_primary.ports_client.create_port" then
    owed_call "os_primary.ports_client.delete_port" "port_id" ["port"; "id"] body
  else if String.eqb method "images_client.create_image" then
    owed_call "images_client.delete_image" "image_id" ["id"] body
  else if String.eqb method "keypairs_client.create_keypair" then
    owed_call "keypairs_client.delete_keypair" "keypair_name" ["name"] (VDict args)
  else if String.eqb method "admin_flavors_client.create_flavor" then
    match vpath body ["flavor"; "id"] with
    | Ret v => Some (ClassCleanup "admin_flavors_client.delete_flavor" [("flavor_id", v)])
    | _ => None
    end
  else if String.eqb method "os_admin.volume_types_client_latest.create_volume_type" then
    match vget body "volume_type" with
    | Ret (VDict d) => if bool_decide (is_Some (dict_get d "id"))
                       then Some (CleanupVolumeType (VDict d)) else None
    | _ => None
    end
  else if String.eqb method "os_admin.placement_client.create_trait" then
    owed_call "os_admin.placement_client.delete_trait" "name" ["name"] (VDict args)
  else None.

(** Calls after which nothing is owed *)
Definition quiet (method : string) : Prop := ∀ args body, owed_cleanup method args body = None.

(** * Statements within a preorder *)
Definition Within {W A : Type} (R : pystate W → pystate W → Prop) (m : M (pystate W) A) : Prop :=
  ∀ s, R s (m s).2.

Class Ambient {W : Type} `{C : cloud W} (R : pystate W → pystate W → Prop) : Prop := {
  ambient_preorder : PreOrder R;
  ambient_api method args : quiet method → Within R (api method args);
  ambient_ssh addr user key cmd : Within R (ssh_exec addr user key cmd);
  ambient_now : Within R now;
  ambient_sleep n : Within R (sleep n);
  ambient_yaml path : Within R (load_yaml path);
  ambient_nodes v : Within R (set_nodes v);
}.

Section within.
Context {W : Type} `{C : cloud W} (R : pystate W → pystate W → Prop).
Implicit Types s : pystate W.
Abbreviation P := (M (pystate W)).
#[local] Abbreviation Within := (Within R).

Lemma within_run {A} (m : P A) s o s' : Within m → m s = (o, s') → R s s'.
Proof. intros H E. specialize (H s). by rewrite E in H. Qed.

Context {HR : Ambient R}.
#[local] Existing Instance ambient_preorder.

Lemma within_ret {A} (a : A) : Within (mret a).
Proof. intros s. done. Qed.
Lemma within_raise {A} e : Within (raise (A:=A) e).
Proof. intros s. done. Qed.
Lemma within_fuel {A} : Within (out_of_fuel (A:=A)).
Proof. intros s. done. Qed.
Lemma within_lift {A} (o : outcome A) : Within (lift o).
Proof. intros s. done. Qed.
Lemma within_gets {A} (f : pystate W → A) : Within (gets f).
Proof. intros s. done. Qed.
Lemma within_assert b : Within (assert_that b).
Proof. intros s. by destruct b. Qed.
Lemma within_skip b : Within (skip_unless b).
Proof. intros s. by destruct b. Qed.

Lemma within_bind {A B} (m : P A) (f : A → P B) :
  Within m → (∀ a, Within (f a)) → Within (m ≫= f).
Proof.
  intros Hm Hf s. rewrite bind_run. specialize (Hm s).
  destruct (m s) as [[a|e|] s1]; simpl in *; [|done..]. etrans; [done|apply Hf].
Qed.
Lemma within_finally {A} (m : P A) fin : Within m → Within fin → Within (try_finally m fin).
Proof.
  intros Hm Hf s. unfold try_finally. specialize (Hm s).
  destruct (m s) as [o s1]. simpl in Hm. specialize (Hf s1).
  destruct o, (fin s1) as [[] s2]; simpl in *; done || by etrans.
Qed.
Lemma within_except {A} (m : P A) h :
  Within m → (∀ e k, h e = Some k → Within k) → Within (try_except m h).
Proof.
  intros Hm Hh s. unfold try_except. specialize (Hm s).
  destruct (m s) as [[a|e|] s1]; simpl in *; [done| |done].
  destruct (h e) as [k|] eqn:E; [|done]. etrans; [done|by eapply Hh].
Qed.
Lemma within_for_each {A} (f : A → P unit) l : (∀ x, Within (f x)) → Within (for_each f l).
Proof. intros Hf. induction l; simpl; [apply within_ret|by apply within_bind]. Qed.
Lemma within_for_acc {A B} (f : B → A → P B) b l : (∀ b x, Within (f b x)) → Within (for_acc f b l).
Proof. intros Hf. revert b. induction l; intros b; simpl; [apply within_ret|by apply within_bind]. Qed.
Lemma within_map {A B} (f : A → P B) l : (∀ x, Within (f x)) → Within (map_m f l).
Proof.
  intros Hf. induction l; simpl; [apply within_ret|].
  apply within_bind; [done|]. intros y. apply within_bind; [done|]. intros ys. apply within_ret.
Qed.
Lemma within_with {A} (cm : context_manager (pystate W)) (body : cm_locals cm → P A) :
  Within (cm_enter cm) → (∀ x, Within (cm_exit cm x)) → (∀ x, Within (body x)) →
  Within (with_as cm body).
Proof. intros He Hx Hb. apply within_bind; [done|]. intros x. by apply within_finally. Qed.
Lemma within_nested {A} (cms : list (context_manager (pystate W))) (body : P A) :
  Forall (λ cm, Within (cm_enter cm) ∧ ∀ x, Within (cm_exit cm x)) cms →
  Within body → Within (exit_stack cms body).
Proof.
  intros Hcms Hb s. unfold exit_stack. rewrite enter_all_unwind. simpl. revert s.
  change (Within (nested cms body)).
  induction Hcms as [|cm cms [He Hx] _ IH]; [done|]. by apply within_with.
Qed.
Lemma within_assert_raises {A} e (m : P A) : Within m → Within (assert_raises e m).
Proof.
  intros Hm s. unfold assert_raises. specialize (Hm s).
  destruct (m s) as [[a|e'|] s1]; simpl in *; [done| |done]. by destruct (e e').
Qed.
End within.

Create HintDb within discriminated.
#[export] Hint Constants Opaque : within.
#[export] Hint Resolve within_ret within_raise within_fuel within_lift within_gets within_assert
  within_skip ambient_ssh ambient_now ambient_sleep ambient_yaml ambient_nodes : within.
#[export] Hint Extern 1 (Within _ (api _ _)) => apply ambient_api; intros ??; reflexivity : within.

Ltac head_of t := lazymatch t with ?f _ => head_of f | _ => t end.

(** Prove [Within R m]: the rules, case analysis on what [m] branches on, and the
    definition of the operation at the head of [m]. *)
Ltac solve_within :=
  intros; cbn [cm_enter cm_exit];
  first
  [ solve [eauto 3 with within nocore]
  | lazymatch goal with
    | |- Within _ (mbind _ _) => apply within_bind; [assumption| |intros ?]; solve_within
    | |- Within _ (try_finally _ _) => apply within_finally; [assumption|..]; solve_within
    | |- Within _ (try_except _ _) =>
        apply within_except; [assumption| |intros ?? ?; repeat case_match; simplify_eq]; solve_within
    | |- Within _ (for_each _ _) => apply within_for_each; [assumption|..]; intros ?; solve_within
    | |- Within _ (for_acc _ _ _) => apply within_for_acc; [assumption|..]; intros ??; solve_within
    | |- Within _ (map_m _ _) => apply within_map; [assumption|..]; intros ?; solve_within
    | |- Within _ (with_as _ _) => apply within_with; [assumption|..]; intros; solve_within
    | |- Within _ (with_cm _ _) => unfold with_cm; solve_within
    | |- Within _ (assert_raises _ _) => apply within_assert_raises; solve_within
    | |- Within _ (cm_enter ?cm) => let h := head_of cm in unfold h; solve_within
    | |- Within _ (cm_exit ?cm _) => let h := head_of cm in unfold h in *; solve_within
    | |- Within _ (match ?x with _ => _ end) => destruct x; solve_within
    | |- Within _ (let x := _ in _) => cbv zeta; solve_within
    | |- Within _ ?m => let h := head_of m in unfold h; cbv beta zeta; solve_within
    end ].

(** * The operations of the library *)
Section loops.
Context {CONF : conf} {W : Type} `{C : cloud W} (R : pystate W → pystate W → Prop) {HR : Ambient R}.

Lemma within_service_loop fuel timeout interval start host binary field state service :
  Within R (service_state_loop fuel timeout interval start host binary field state service).
Proof. revert service. induction fuel; intros; cbn [service_state_loop]; solve_within. Qed.
Lemma within_migration_loop fuel timeout interval start :
  Within R (migration_loop fuel timeout interval start).
Proof. induction fuel; cbn [migration_loop]; solve_within. Qed.
Lemma within_trait_loop fuel timeout interval start trait provider :
  Within R (trait_loop fuel timeout interval start trait provider).
Proof. induction fuel; cbn [trait_loop]; solve_within. Qed.
Lemma within_shutdown_loop fuel timeout start client name :
  Within R (domain_shutdown_loop fuel timeout start client name).
Proof. induction fuel; cbn [domain_shutdown_loop]; solve_within. Qed.
End loops.
#[export] Hint Resolve within_service_loop within_migration_loop within_trait_loop
  within_shutdown_loop : within.

Section base_operations.
Context {CONF : conf} {W : Type} `{C : cloud W} (R : pystate W → pystate W → Prop) {HR : Ambient R}.

Lemma within_execute client cmd name sudo : Within R (execute client cmd name sudo).
Proof. solve_within. Qed.
Lemma within_host_details host : Within R (get_host_details host).
Proof. solve_within. Qed.
Lemma within_nova_manager host binary : Within R (NovaServiceManager_init host binary).
Proof. solve_within. Qed.
Lemma within_start fuel self : Within R (start fuel self).
Proof. solve_within. Qed.
Lemma within_stop fuel self : Within R (stop fuel self).
Proof. solve_within. Qed.
Lemma within_get_conf_opt self section option : Within R (get_conf_opt self section option).
Proof. solve_within. Qed.
Lemma within_set_conf_opt self section option value : Within R (set_conf_opt self section option value).
Proof. solve_within. Qed.
Lemma within_config_enter fuel self opts : Within R (cm_enter (config_options fuel self opts)).
Proof. solve_within. Qed.
Lemma within_config_exit fuel self opts x : Within R (cm_exit (config_options fuel self opts) x).
Proof. solve_within. Qed.
Lemma within_server_xml server_id : Within R (get_server_xml server_id).
Proof. solve_within. Qed.
Lemma within_create_flavor ram vcpus disk specs : Within R (create_flavor ram vcpus disk specs).
Proof. solve_within. Qed.
Lemma within_live_migrate clients server_id state target :
  Within R (live_migrate clients server_id state target).
Proof. solve_within. Qed.
Lemma within_config_all_computes {A} fuel opts (body : M (pystate W) A) :
  Within R body → Within R (config_all_computes fuel opts body).
Proof.
  intros Hb. unfold config_all_computes.
  apply within_bind; [done|solve_within|intros hosts]. apply within_bind; [done|solve_within|intros mgrs].
  apply within_nested; [done| |done]. apply Forall_map, Forall_true.
  intros mgr. split; [apply within_config_enter; done|intros x; apply within_config_exit; done].
Qed.
Lemma within_cursor {A} db commit (body : val → M (pystate W) A) :
  (∀ c, Within R (body c)) → Within R (cursor db commit body).
Proof. intros Hb. unfold cursor, cursor_on, tunnel, conn_cursor, db_connect. solve_within; apply Hb. Qed.
Lemma within_run_query db query : Within R (run_query db query).
Proof. apply within_cursor. intros c. solve_within. Qed.
End base_operations.
#[export] Hint Resolve within_run_query : within.

Section more_operations.
Context {CONF : conf} {W : Type} `{C : cloud W} (R : pystate W → pystate W → Prop) {HR : Ambient R}.

Lemma within_port_binding server_id port_id : Within R (verify_neutron_port_binding server_id port_id).
Proof. solve_within. Qed.
Lemma within_interface_device server_id port_id : Within R (get_xml_interface_device server_id port_id).
Proof. solve_within. Qed.
Lemma within_dedicated_set self : Within R (get_cpu_dedicated_set self).
Proof. solve_within. Qed.
Lemma within_shared_set self : Within R (get_cpu_shared_set self).
Proof. solve_within. Qed.
Lemma within_shutdown fuel server host : Within R (shutdown_server_domain fuel server host).
Proof. solve_within. Qed.
Lemma within_evacuate fuel server_id args : Within R (evacuate_server fuel server_id args).
Proof. solve_within. Qed.
End more_operations.
#[export] Hint Resolve within_port_binding within_interface_device within_dedicated_set within_shared_set
  within_shutdown within_evacuate : within.
#[export] Hint Resolve within_execute within_host_details within_nova_manager within_start
  within_stop within_get_conf_opt within_set_conf_opt within_config_enter within_config_exit
  within_server_xml within_create_flavor within_live_migrate : within.
#[export] Hint Extern 1 (Within _ (config_all_computes _ _ _)) =>
  apply within_config_all_computes; [assumption|..]; solve_within : within.
#[export] Hint Extern 1 (Within _ (cursor _ _ _)) =>
  apply within_cursor; [assumption|..]; intros ?; solve_within : within.

(** * Reachability *)
Section reaches.
Context {W : Type} `{C : cloud W}.
Implicit Types s : pystate W.
Abbreviation P := (M (pystate W)).

Inductive action : pystate W → pystate W → Prop :=
| act_api method args s : action s (api method args s).2
| act_ssh addr user key cmd s : action s (ssh_exec addr user key cmd s).2
| act_now s : action s (now s).2
| act_sleep n s : action s (sleep n s).2
| act_yaml path s : action s (load_yaml path s).2
| act_nodes v s : action s (set_nodes v s).2
| act_cleanup c s : action s (add_cleanup c s).2.

Definition reaches : pystate W → pystate W → Prop := rtc action.

Lemma reaches_api method args : Within reaches (api method args).
Proof. intros s. apply rtc_once, act_api. Qed.
Lemma reaches_cleanup c : Within reaches (add_cleanup c).
Proof. intros s. apply rtc_once, act_cleanup. Qed.

#[export] Instance reaches_ambient : Ambient reaches.
Proof.
  split.
  - unfold reaches. apply _.
  - intros method args _. apply reaches_api.
  - intros addr user key cmd s. apply rtc_once, act_ssh.
  - intros s. apply rtc_once, act_now.
  - intros n s. apply rtc_once, act_sleep.
  - intros path s. apply rtc_once, act_yaml.
  - intros v s. apply rtc_once, act_nodes.
Qed.

(** ** Observations *)
Record observation := Obs { obs_type : Type; obs_call : P obs_type; obs_value : obs_type }.

Inductive passes : pystate W → list observation → pystate W → Prop :=
| passes_nil s s' : reaches s s' → passes s [] s'
| passes_cons {A} (m : P A) v s s1 s2 s' l :
    reaches s s1 → m s1 = (Ret v, s2) → passes s2 l s' → passes s (Obs A m v :: l) s'.

Lemma passes_skip s s1 l s' : reaches s s1 → passes s1 l s' → passes s l s'.
Proof.
  intros Hr Hp. destruct Hp as [s1 s' H|A m v s1 s2 s3 s' l H Hm Hp].
  - constructor. by etrans.
  - econstructor; [by etrans|done|done].
Qed.

Lemma passes_here {A} (m : P A) v s s1 l s' :
  m s = (Ret v, s1) → passes s1 l s' → passes s (Obs A m v :: l) s'.
Proof. intros. by eapply passes_cons; [apply rtc_refl| |]. Qed.

Lemma passes_app s l1 s1 l2 s' : passes s l1 s1 → passes s1 l2 s' → passes s (l1 ++ l2)%list s'.
Proof.
  induction 1; intros H'; simpl; [by eapply passes_skip|by eapply passes_cons; eauto].
Qed.

(** A loop: what holds of each iteration, in order *)
Lemma for_each_passes {A B} (f : A → P unit) (obs : A → B → list observation) (Q : A → B → Prop) l s u s' :
  (∀ x s s', f x s = (Ret tt, s') → ∃ y, passes s (obs x y) s' ∧ Q x y) →
  for_each f l s = (Ret u, s') →
  ∃ ys, passes s (concat (zip_with obs l ys)) s' ∧ Forall2 Q l ys.
Proof.
  intros Hf. revert s. induction l as [|x l IH]; cbn [for_each]; intros s H.
  - injection H as _ <-. exists []. split; [apply passes_nil, rtc_refl|constructor].
  - apply bind_Ret_inv in H as ([] & s1 & E & H). destruct (Hf _ _ _ E) as (y & Hy & HQ).
    destruct (IH _ H) as (ys & Hys & HQs). exists (y :: ys). split; [|by constructor].
    by eapply passes_app.
Qed.
End reaches.

Notation "m ⇓ v" := (Obs _ m v) (at level 70).
#[export] Hint Resolve reaches_api reaches_cleanup : within.

Ltac solve_reaches :=
  intros; match goal with |- Within (reaches (C:=?C)) _ => pose proof (reaches_ambient (C:=C)) end; solve_within.

(** Follow a run whose statements have been inverted: each observation is the
    next statement, and the statements between two observations are skipped. *)
Ltac walk_skip :=
  match goal with
  | E : ?m ?s = (_, ?s1) |- passes ?s _ _ =>
      tryif constr_eq s s1 then fail
      else (eapply passes_skip; [eapply (within_run _ m); [solve_reaches|exact E]|])
  end.
Ltac walk :=
  repeat first
  [ apply passes_nil, rtc_refl
  | eapply passes_here; [eassumption|]
  | match goal with Hp : passes ?s _ _ |- passes ?s _ _ => eapply (passes_app _ _ _ _ _ Hp) end
  | walk_skip ].

(** Turn the assertions, pure expressions and comparisons of an inverted run into facts. *)
Ltac read_facts :=
  use_asserts;
  repeat match goal with
  | E : lift _ _ = (Ret _, _) |- _ => apply lift_run in E as [E ->]; symmetry in E
  | E : bool_decide _ = true |- _ => apply bool_decide_eq_true in E
  | E : negb (bool_decide _) = true |- _ => apply negb_true_iff, bool_decide_eq_false in E
  | E : (_ =? _)%Z = true |- _ => apply Z.eqb_eq in E
  | E : (_ =? _)%nat = true |- _ => apply Nat.eqb_eq in E
  | E : (_ <=? _)%Z = true |- _ => apply Z.leb_le in E
  | u : unit |- _ => destruct u
  end.

Section base_runs.
Context {CONF : conf} {W : Type} `{C : cloud W}.

Lemma live_migrate_passes clients server_id state target (s s' : pystate W) :
  live_migrate clients server_id state target s = (Ret tt, s') →
  ∃ orig host,
    passes s [get_host_for_server server_id ⇓ orig; get_host_for_server server_id ⇓ host] s' ∧
    match target with Some t => t ≠ "" → host = t | None => orig ≠ host end.
Proof.
  unfold live_migrate. intros H. run_ret H. destruct target as [t|]; cbn [vopt_str truthy] in H.
  - destruct (String.eqb_spec t "") as [->|Hne]; cbn [negb] in H; run_ret H; read_facts;
      eexists _, _; (split; [walk|]); [done|]. intros _. congruence.
  - run_ret H. read_facts. eexists _, _. split; [walk|]. done.
Qed.
End base_runs.
