(* ===== verification/NumaHelper.v ===== *)
(** api/compute/numa_helper.py, NUMAHelperMixin: the CPU sets the domain XML of
    a server pins its vCPUs and emulator threads to. *)
From Stdlib Require Import Ascii String.
From S2P Require Import Prelude PyString PyVal Xml Env Sim Hardware Utils Clients ComputeBase.
#[local] Open Scope string_scope.

(** [hardware.parse_cpu_spec(e.get(...))]: [None] has no [split]. *)
Definition parse_cpuset (spec : option string) : outcome (gset Z) :=
  spec ← or_raise AttributeError spec; parse_cpu_spec spec.

(** [s |= hardware.parse_cpu_spec(pin.get('cpuset'))] over the pins *)
Definition union_cpusets (pins : list elem) : outcome (gset Z) :=
  ofold (λ acc pin, ids ← parse_cpuset (elem_get pin "cpuset"); mret (acc ∪ ids)) ∅ pins.

(** [','.join(l)], TypeError when an item is None *)
Definition join_cpusets (cpusets : list (option string)) : outcome string :=
  py_join "," <$> omap_l (or_raise TypeError) cpusets.

Section numa_helper.
Context {CONF : conf} {W : Type} `{C : cloud W}.
Abbreviation P := (M (pystate W)).

Definition get_pinning_as_set (server_id : string) : P (gset Z) :=
  root ← get_server_xml server_id;
  lift (union_cpusets (findall root [Child "cputune"; Child "vcpupin"])).

Definition get_server_emulator_threads (server_id : string) : P (gset Z) :=
  root ← get_server_xml server_id;
  lift (union_cpusets (findall root [Child "cputune"; Child "emulatorpin"])).

Definition vcpupin_path (cpu_id : Z) : list xstep :=
  [Child "cputune"; Child "vcpupin"; AttrIs "vcpu" (py_str cpu_id)].

Definition get_host_pcpus_for_guest_vcpu (server_id : string) (instance_cpu_ids : list Z)
    : P (gset Z) :=
  root ← get_server_xml server_id;
  let vcpus := map (λ cpu_id, find root (vcpupin_path cpu_id)) instance_cpu_ids in
  cpusets ← lift (omap_l (λ vcpu, pin ← or_raise AttributeError vcpu;
                                  mret (elem_get pin "cpuset")) vcpus);
  spec ← lift (join_cpusets cpusets);
  lift (parse_cpu_spec spec).
End numa_helper.

(** * Lemmas *)

#[export] Instance total_parse_cpu_spec spec : Total (parse_cpu_spec spec).
Proof.
  unfold Total. rewrite parse_cpu_spec_read. destruct (read_spec spec); [|done].
  by destruct (foldl _ _ _).
Qed.
#[export] Instance total_parse_cpuset spec : Total (parse_cpuset spec).
Proof. unfold parse_cpuset. apply _. Qed.

(** The CPU set an element's [cpuset] attribute stands for. *)
Definition cpuset_of (pin : elem) : option (gset Z) :=
  match parse_cpuset (elem_get pin "cpuset") with Ret ids => Some ids | _ => None end.

Lemma union_cpusets_acc acc pins :
  match mapM cpuset_of pins with
  | Some idss =>
      ofold (λ acc pin, ids ← parse_cpuset (elem_get pin "cpuset"); mret (acc ∪ ids)) acc pins
      = Ret (acc ∪ ⋃ idss)
  | None => ∃ e, ofold (λ acc pin, ids ← parse_cpuset (elem_get pin "cpuset"); mret (acc ∪ ids))
                   acc pins = Exn e
  end.
Proof.
  revert acc. induction pins as [|pin pins IH]; intros acc; simpl.
  - f_equal. set_solver.
  - assert (cpuset_of pin = match parse_cpuset (elem_get pin "cpuset") with
                            | Ret ids => Some ids | _ => None end) as -> by done.
    destruct (parse_cpuset (elem_get pin "cpuset")) as [ids|e|] eqn:E; simpl.
    + specialize (IH (acc ∪ ids)). destruct (mapM cpuset_of pins) as [idss|]; simpl; [|exact IH].
      refine (eq_trans IH _). f_equal. set_solver.
    + eauto.
    + by destruct (total_parse_cpuset _ E).
Qed.

Lemma split_on_cat c (a b : string) :
  split_on c (a ++ String c b) = (split_on c a ++ split_on c b)%list.
Proof.
  induction a as [|x a IH]; simpl.
  - by rewrite Ascii.eqb_refl.
  - destruct (Ascii.eqb x c); rewrite IH; [done|].
    pose proof (split_on_nonempty c a). by destruct (split_on c a).
Qed.

Lemma read_spec_cat a b :
  read_spec (a ++ "," ++ b) = (r ← read_spec a; r' ← read_spec b; Some (r ++ r')%list).
Proof. unfold read_spec. change ("," ++ b) with (String "," b). by rewrite split_on_cat, mapM_cat. Qed.

Lemma read_spec_concat spec specs :
  read_spec (py_join "," (spec :: specs)) = (λ l, List.concat l) <$> mapM read_spec (spec :: specs).
Proof.
  revert spec. induction specs as [|s' specs IH]; intros spec.
  - simpl. destruct (read_spec spec); simpl; [|done]. by rewrite app_nil_r.
  - change (py_join "," (spec :: s' :: specs)) with (spec ++ "," ++ py_join "," (s' :: specs)).
    rewrite read_spec_cat, IH. simpl. destruct (read_spec spec); simpl; [|done].
    destruct (read_spec s'); simpl; [|done]. by destruct (mapM read_spec specs).
Qed.

(** Rules without a caret exclude nothing. *)
Lemma read_rule_no_caret rule r x :
  has_char "^" rule = false → read_rule rule = Some r → ¬ excludes x r.
Proof.
  intros Hc. unfold read_rule. pose proof (has_char_strip "^" is_space rule Hc) as Hs.
  unfold py_strip. destruct (strip_by is_space rule) as [|c p]; [by intros [= <-] []|].
  simpl in Hs. destruct (Ascii.eqb c "^"); [done|].
  by intros ([lo hi] & _ & ->)%fmap_Some [].
Qed.

Lemma has_char_split c d s w :
  has_char d s = false → w ∈ split_on c s → has_char d w = false.
Proof.
  revert w. induction s as [|a s IH]; simpl; intros w Hd Hw; [by apply list_elem_of_singleton in Hw as ->|].
  apply orb_false_iff in Hd as [Ha Hd]. destruct (Ascii.eqb a c).
  - apply elem_of_cons in Hw as [->|Hw]; [done|by apply IH].
  - pose proof (split_on_nonempty c s). destruct (split_on c s) as [|w0 ws]; [done|].
    apply elem_of_cons in Hw as [->|Hw]; simpl.
    + rewrite Ha. apply IH; [done|]. by left.
    + apply IH; [done|]. by right.
Qed.

Lemma read_spec_no_caret spec rs x :
  has_char "^" spec = false → read_spec spec = Some rs → ¬ Exists (excludes x) rs.
Proof.
  intros Hc Hrs Hx. eapply Exists_mapM in Hx as (rule & r & Hin & Hr & Hx); [|exact Hrs].
  by eapply read_rule_no_caret in Hx; [|eapply has_char_split|].
Qed.

(** Joining specifications without exclusions parses to the union of their sets. *)
Lemma parse_join_union specs idss :
  Forall2 (λ spec ids, has_char "^" spec = false ∧ parse_cpu_spec spec = Ret ids) specs idss →
  parse_cpu_spec (py_join "," specs) = Ret (⋃ idss).
Proof.
  intros H. destruct specs as [|spec specs]; [inversion H; by vm_compute|].
  assert (∃ rss, mapM read_spec (spec :: specs) = Some rss ∧
    Forall2 (λ rs ids, (∀ x, ¬ Exists (excludes x) rs) ∧ ∀ x, x ∈ ids ↔ denotes rs x) rss idss)
    as (rss & Hrss & Hall).
  { clear -H. induction H as [|s ids l idss [Hc Hp] _ (rss & Hrss & IH)]; [by exists []|].
    apply parse_cpu_spec_Ret in Hp as (rs & Hrs & Hids). exists (rs :: rss). simpl.
    rewrite Hrs, Hrss. split; [done|]. constructor; [|done].
    split; [intros x; by eapply read_spec_no_caret|done]. }
  apply parse_cpu_spec_Ret. exists (List.concat rss). rewrite read_spec_concat, Hrss. split; [done|].
  clear -Hall. intros x. unfold denotes.
  assert (¬ Exists (excludes x) (List.concat rss) ∧
          (x ∈ ⋃ idss ↔ Exists (includes x) (List.concat rss))) as [? ->]; [|tauto].
  induction Hall as [|rs ids rss idss [Hex Hids] _ IH]; simpl.
  - rewrite !Exists_nil. set_solver.
  - rewrite !Exists_app. specialize (Hex x). rewrite elem_of_union, Hids. unfold denotes. tauto.
Qed.

(** * Theorems *)
Section numa_theorems.
Context {CONF : conf} {W : Type} `{C : cloud W}.
Implicit Types s : pystate W.

(** C10: [get_pinning_as_set] and [get_server_emulator_threads] return the union
    of the CPU sets of all [vcpupin] (respectively [emulatorpin]) elements of
    the domain's [cputune], and raise exactly when one of them has no cpuset
    attribute or one that is not a CPU specification. *)
Theorem pinning_sets_union server_id s root s1 :
  get_server_xml server_id s = (Ret root, s1) →
  (∀ tag getter, (tag, getter) ∈ [("vcpupin", get_pinning_as_set server_id);
                                  ("emulatorpin", get_server_emulator_threads server_id)] →
   match mapM cpuset_of (descend root ["cputune"; tag]) with
   | Some idss => getter s = (Ret (⋃ idss), s1)
   | None => ∃ e, getter s = (Exn e, s1)
   end).
Proof.
  intros Hx tag getter Hin.
  assert (getter s = (union_cpusets (descend root ["cputune"; tag]), s1)) as ->.
  { apply list_elem_of_In in Hin as [[= <- <-]|[[= <- <-]|[]]];
      unfold get_pinning_as_set, get_server_emulator_threads;
      rewrite (bind_Ret _ _ _ _ _ Hx); by rewrite <-findall_children. }
  pose proof (union_cpusets_acc ∅ (descend root ["cputune"; tag])) as H.
  fold (union_cpusets (descend root ["cputune"; tag])) in H.
  destruct (mapM _ _) as [idss|].
  - rewrite H. do 2 f_equal. set_solver.
  - destruct H as [e ->]. by exists e.
Qed.

(** The first [vcpupin] of the domain for a vCPU. *)
Definition vcpupin_of (root : elem) (cpu_id : Z) : option elem :=
  head (filter (λ e, elem_get e "vcpu" = Some (py_str cpu_id)) (descend root ["cputune"; "vcpupin"])).

Lemma find_vcpupin root cpu_id : find root (vcpupin_path cpu_id) = vcpupin_of root cpu_id.
Proof.
  unfold find, vcpupin_of. f_equal.
  apply (findall_by_attr root ["cputune"; "vcpupin"] "vcpu" (py_str cpu_id)).
Qed.

(** C13: for vCPUs whose [vcpupin] carries a cpuset without exclusions (libvirt
    writes none), [get_host_pcpus_for_guest_vcpu] returns the union of the sets
    the vCPUs are pinned to, although it parses the text of all of them joined. *)
Theorem get_host_pcpus_union server_id cpu_ids s root s1 idss :
  get_server_xml server_id s = (Ret root, s1) →
  Forall2 (λ i ids, ∃ pin spec, vcpupin_of root i = Some pin ∧ elem_get pin "cpuset" = Some spec ∧
             has_char "^" spec = false ∧ parse_cpu_spec spec = Ret ids) cpu_ids idss →
  get_host_pcpus_for_guest_vcpu server_id cpu_ids s = (Ret (⋃ idss), s1).
Proof.
  intros Hx Hall. unfold get_host_pcpus_for_guest_vcpu. rewrite (bind_Ret _ _ _ _ _ Hx).
  cbv zeta.
  assert (∃ specs,
    omap_l (λ vcpu, pin ← or_raise AttributeError vcpu; mret (elem_get pin "cpuset"))
      (map (λ cpu_id, find root (vcpupin_path cpu_id)) cpu_ids) = Ret (map Some specs) ∧
    Forall2 (λ spec ids, has_char "^" spec = false ∧ parse_cpu_spec spec = Ret ids) specs idss)
    as (specs & Hget & Hspecs).
  { clear -Hall. induction Hall as [|i ids l idss (pin & spec & Hpin & Hspec & Hc & Hp) _ (specs & IH & HF)].
    - by exists [].
    - exists (spec :: specs). split; [|by constructor]. cbn [map omap_l].
      rewrite IH, find_vcpupin, Hpin. simpl. by rewrite Hspec. }
  rewrite bind_run. unfold lift at 1. rewrite Hget, bind_run. unfold lift at 1, join_cpusets.
  assert (omap_l (or_raise TypeError) (map Some specs) = Ret specs) as ->.
  { clear. induction specs as [|x l IH]; [done|]. cbn [map omap_l]. by rewrite IH. }
  cbn [fmap outcome_fmap]. unfold lift. by rewrite (parse_join_union specs idss).
Qed.
End numa_theorems.

(** A domain with an exclusion in one of its cpusets. *)
Definition caret_domain : elem :=
  Elem "domain" [] None [Elem "cputune" [] None
    [Elem "vcpupin" [("vcpu", "0"); ("cpuset", "0-3,^1")] None [];
     Elem "vcpupin" [("vcpu", "1"); ("cpuset", "1")] None [];
     Elem "vcpupin" [("vcpu", "2"); ("cpuset", "4-5,7")] None []]].
Definition numa_env : cloud sim := sim_cloud (λ _, false) [("<domain/>", caret_domain)] host_yaml.

(** An exclusion in one vCPU's cpuset also removes that CPU from the set of
    another vCPU it is joined with: vCPU 1 alone is on CPU 1, but asked together
    with vCPU 0, pinned to [0-3,^1], CPU 1 is missing. *)
Theorem joined_exclusion_leaks :
  let ask ids := (get_host_pcpus_for_guest_vcpu (CONF:=sim_CONF) (C:=numa_env)
                    "server-1" ids base_state).1 in
  ask [1] = Ret ({[1]} : gset Z) ∧ ask [0; 1] = Ret ({[0; 2; 3]} : gset Z).
Proof. split; vm_compute; reflexivity. Qed.

Lemma pinning_sets_union_witness :
  (get_pinning_as_set (CONF:=sim_CONF) (C:=numa_env) "server-1" base_state).1 =
  Ret ({[0; 1; 2; 3; 4; 5; 7]} : gset Z).
Proof.
  pose proof (pinning_sets_union (CONF:=sim_CONF) (C:=numa_env) "server-1" base_state caret_domain
    (get_server_xml (CONF:=sim_CONF) (C:=numa_env) "server-1" base_state).2
    ltac:(vm_compute; reflexivity) "vcpupin"
    (get_pinning_as_set (CONF:=sim_CONF) (C:=numa_env) "server-1") ltac:(by left)) as H.
  destruct (mapM _ _) as [idss|] eqn:E; vm_compute in E; [|done].
  injection E as <-. rewrite H. vm_compute. reflexivity.
Defined.

Lemma get_host_pcpus_union_witness :
  (get_host_pcpus_for_guest_vcpu (CONF:=sim_CONF) (C:=numa_env) "server-1" [1; 2] base_state).1 =
  Ret (⋃ [{[1]}; ({[4; 5; 7]} : gset Z)]).
Proof.
  rewrite (get_host_pcpus_union (CONF:=sim_CONF) (C:=numa_env) "server-1" [1; 2] base_state
    caret_domain (get_server_xml (CONF:=sim_CONF) (C:=numa_env) "server-1" base_state).2
    [{[1]}; {[4; 5; 7]}]).
  - reflexivity.
  - vm_compute. reflexivity.
  - repeat constructor; (eexists _, _; repeat split; vm_compute; reflexivity).
Defined.
