(* ===== verification/Pinning.v ===== *)
(** api/compute/test_cpu_pinning.py, BasePinningTest and CPUPolicyTest: what the
    domain XML and the host configuration say about CPU pinning, and the tests
    of the shared and dedicated CPU policies. *)
From Stdlib Require Import Ascii String.
From S2P Require Import Prelude PyString PyVal Xml Env Sim Hardware Utils Clients ComputeBase Trace NumaHelper.
#[local] Open Scope string_scope.

(** [int(e.get(k))]: TypeError without the attribute, ValueError for other text *)
Definition int_attr (e : elem) (k : string) : outcome Z :=
  or_raise TypeError (elem_get e k) ≫= int_of.

(** * What the XML says *)

(** The loop over [memnode] elements; the right-hand side is evaluated first. *)
Definition cell_pin (cell_pins : list (Z * gset Z)) (memnode : elem)
    : outcome (list (Z * gset Z)) :=
  nodes ← parse_cpuset (elem_get memnode "nodeset");
  cell ← int_attr memnode "cellid";
  mret (dict_set cell_pins cell nodes).

Definition iothread_pin (pins : list (Z * gset Z)) (pin : elem) : outcome (list (Z * gset Z)) :=
  iothread ← int_attr pin "iothread";
  cpus ← parse_cpuset (elem_get pin "cpuset");
  mret (dict_set pins iothread cpus).

Definition cpu_pin (cpu_pins : list (Z * Z)) (pin : elem) : outcome (list (Z * Z)) :=
  vcpu ← int_attr pin "vcpu";
  pcpu ← int_attr pin "cpuset";
  mret (dict_set cpu_pins vcpu pcpu).

(** [int(root.find('./iothreads').text)] *)
Definition count_iothreads (root : elem) : outcome Z :=
  e ← or_raise AttributeError (find root [Child "iothreads"]);
  text ← or_raise TypeError (elem_text e);
  int_of text.

(** [set(d.values())] *)
Definition values_set {K} (d : list (K * Z)) : gset Z := list_to_set (d.*2).

Definition subset_of (X Y : gset Z) : bool := bool_decide (X ⊆ Y).
Definition isdisjoint (X Y : gset Z) : bool := bool_decide (X ## Y).

(** * Extra specs *)
Definition shared_cpu_policy : kwargs := [("hw:cpu_policy", VStr "shared")].
Definition dedicated_cpu_policy : kwargs := [("hw:cpu_policy", VStr "dedicated")].

Section pinning.
Context {CONF : conf} {W : Type} `{C : cloud W}.
(** The order in which Python iterates over a set of integers. *)
Context (set_iter : gset Z → list Z).
Abbreviation P := (M (pystate W)).

(** * BasePinningTest *)
Definition get_server_cell_pinning (server_id : string) : P (list (Z * gset Z)) :=
  root ← get_server_xml server_id;
  lift (ofold cell_pin [] (findall root [Child "numatune"; Child "memnode"])).

Definition get_server_iothreads (server_id : string) : P (Z * option (list (Z * gset Z))) :=
  root ← get_server_xml server_id;
  nr_of_iothreads ← lift (count_iothreads root);
  let iothreadpins := findall root [Child "cputune"; Child "iothreadpin"] in
  match iothreadpins with
  | [] => mret (nr_of_iothreads, None)
  | _ =>
      iothread_pins ← lift (ofold iothread_pin [] iothreadpins);
      mret (nr_of_iothreads, Some iothread_pins)
  end.

Definition get_cpus_with_sched (server_id : string) : P (list Z) :=
  root ← get_server_xml server_id;
  lift (omap_l (λ each, int_attr each "vcpus") (findall root [Child "cputune"; Child "vcpusched"])).

Definition get_server_cpu_pinning (server_id : string) : P (list (Z * Z)) :=
  root ← get_server_xml server_id;
  lift (ofold cpu_pin [] (findall root [Child "cputune"; Child "vcpupin"])).

Definition get_db_numa_topology (instance_uuid : string) : P val :=
  cursor nova_cell1_db_name false (λ c,
    api "cursor.execute"
      [("self", c);
       ("query", VStr ("SELECT numa_topology FROM instance_extra WHERE instance_uuid = " ++
                       dq ++ instance_uuid ++ dq))];;
    row ← api "cursor.fetchone" [("self", c)];
    text ← lift (vget row "numa_topology" ≫= as_str);
    numa_topology ← lift (json_loads text);
    lift (normalize_json numa_topology)).

(** [hardware.parse_cpu_spec(details.get(key, []))]: only a string has [split]. *)
Definition get_host_cpu_set (key host : string) : P (gset Z) :=
  details ← get_host_details host;
  cpu_set ← lift (vget_or details key (VList []));
  match cpu_set with
  | VStr spec => lift (parse_cpu_spec spec)
  | _ => raise AttributeError
  end.
Definition get_host_cpu_dedicated_set : string → P (gset Z) := get_host_cpu_set "cpu_dedicated_set".
Definition get_host_cpu_shared_set : string → P (gset Z) := get_host_cpu_set "cpu_shared_set".

(** The attribute [hosts_details], which no class of the plugin sets *)
Definition hosts_details : option (list string) := None.

Definition get_shared_set_size : P (list (gset Z)) :=
  hosts ← lift (or_raise AttributeError hosts_details);
  map_m get_host_cpu_shared_set hosts.
Definition get_dedicated_set_size : P (list (gset Z)) :=
  hosts ← lift (or_raise AttributeError hosts_details);
  map_m get_host_cpu_dedicated_set hosts.

(** [expected_pins] is the set of its argument, or None *)
Definition assert_iothread_pins (server_id : string) (expected_pins : option (gset Z)) : P unit :=
  if negb iothreads_enabled then mret tt
  else
    '(nr, pins) ← get_server_iothreads server_id;
    assert_that (nr =? 1)%Z;;
    pins ← match pins with
           | Some pins => lift (Some <$> or_raise KeyError (dict_get pins 1))
           | None => mret None
           end;
    assert_that (bool_decide (expected_pins = pins)).

(** * CPUPolicyTest *)

Definition test_cpu_shared : P unit :=
  skip_unless (0 <? shared_cpus_per_numa)%Z;;
  flavor ← create_flavor_default shared_cpus_per_numa (Some shared_cpu_policy);
  server ← boot flavor [];
  assert_iothread_pins server None.

Definition test_cpu_dedicated : P unit :=
  skip_unless (2 <=? dedicated_cpus_per_numa)%Z;;
  flavor ← create_flavor_default (dedicated_cpus_per_numa / 2) (Some dedicated_cpu_policy);
  server_a ← boot flavor [];
  server_b ← boot flavor (scheduler_hints "same_host" server_a);
  cpu_pinnings_a ← get_server_cpu_pinning server_a;
  cpu_pinnings_b ← get_server_cpu_pinning server_b;
  host ← get_host_for_server server_a;
  dedicated_vcpus ← get_host_cpu_dedicated_set host;
  assert_that (subset_of (values_set cpu_pinnings_a) dedicated_vcpus);;
  assert_that (subset_of (values_set cpu_pinnings_b) dedicated_vcpus);;
  assert_that (isdisjoint (values_set cpu_pinnings_a) (values_set cpu_pinnings_b));;
  assert_iothread_pins server_a (Some (values_set cpu_pinnings_a));;
  assert_iothread_pins server_b (Some (values_set cpu_pinnings_b)).

Definition test_realtime_cpu : P unit :=
  skip_unless (truthy (vopt_str realtime_mask));;
  let mask := default "" realtime_mask in
  realtime_set ← lift (parse_cpu_spec mask);
  let vcpu_count := Z.of_nat (size realtime_set) + 1 in
  let specs := dict_update dedicated_cpu_policy
                 [("hw:cpu_realtime", VStr "yes"); ("hw:cpu_realtime_mask", VStr mask)] in
  flavor ← create_flavor_default vcpu_count (Some specs);
  server ← boot flavor [];
  cpus ← get_cpus_with_sched server;
  expected ← lift (set_iter <$> parse_cpu_spec mask);
  assert_that (bool_decide (expected = cpus)).

Definition test_resize_pinned_server_to_unpinned : P unit :=
  skip_unless resize_enabled;;
  skip_unless (0 <? shared_cpus_per_numa)%Z;;
  skip_unless (0 <? dedicated_cpus_per_numa)%Z;;
  flavor_a ← create_flavor_default dedicated_cpus_per_numa (Some dedicated_cpu_policy);
  server ← boot flavor_a [];
  cpu_pinnings ← get_server_cpu_pinning server;
  host ← get_host_for_server server;
  dedicated_vcpus ← get_host_cpu_dedicated_set host;
  assert_that (subset_of (values_set cpu_pinnings) dedicated_vcpus);;
  flavor_b ← create_flavor_default shared_cpus_per_numa (Some shared_cpu_policy);
  resize_server server flavor_b;;
  cpu_pinnings ← get_server_cpu_pinning server;
  assert_that (length cpu_pinnings =? 0)%nat.

Definition test_resize_unpinned_server_to_pinned : P unit :=
  skip_unless resize_enabled;;
  skip_unless (0 <? shared_cpus_per_numa)%Z;;
  skip_unless (0 <? dedicated_cpus_per_numa)%Z;;
  flavor_a ← create_flavor_default shared_cpus_per_numa (Some shared_cpu_policy);
  server ← boot flavor_a [];
  cpu_pinnings ← get_server_cpu_pinning server;
  assert_that (length cpu_pinnings =? 0)%nat;;
  flavor_b ← create_flavor_default dedicated_cpus_per_numa (Some dedicated_cpu_policy);
  resize_server server flavor_b;;
  cpu_pinnings ← get_server_cpu_pinning server;
  host ← get_host_for_server server;
  dedicated_vcpus ← get_host_cpu_dedicated_set host;
  assert_that (subset_of (values_set cpu_pinnings) dedicated_vcpus).

Definition test_reboot_pinned_server : P unit :=
  skip_unless (0 <? dedicated_cpus_per_numa)%Z;;
  flavor ← create_flavor_default dedicated_cpus_per_numa (Some dedicated_cpu_policy);
  server ← boot flavor [];
  cpu_pinnings ← get_server_cpu_pinning server;
  host ← get_host_for_server server;
  dedicated_vcpus ← get_host_cpu_dedicated_set host;
  assert_that (subset_of (values_set cpu_pinnings) dedicated_vcpus);;
  reboot_server server "HARD";;
  cpu_pinnings ← get_server_cpu_pinning server;
  assert_that (subset_of (values_set cpu_pinnings) dedicated_vcpus).
End pinning.

(** * Lemmas and theorems *)

(** What libvirt writes for a vCPU pinned to one host CPU. *)
Definition print_pin (vp : Z * Z) : elem :=
  Elem "vcpupin" [("vcpu", py_str vp.1); ("cpuset", py_str vp.2)] None [].

Lemma cpu_pin_print pins vp :
  0 <= vp.1 → 0 <= vp.2 → cpu_pin pins (print_pin vp) = Ret (dict_set pins vp.1 vp.2).
Proof.
  intros Hv Hp. unfold cpu_pin, int_attr.
  change (elem_get (print_pin vp) "vcpu") with (Some (py_str vp.1)).
  change (elem_get (print_pin vp) "cpuset") with (Some (py_str vp.2)).
  cbn [or_raise mbind outcome_bind]. rewrite int_of_str by done. cbn [mbind outcome_bind].
  by rewrite int_of_str by done.
Qed.

Lemma cpu_pins_print acc pins :
  Forall (λ vp, 0 <= vp.1 ∧ 0 <= vp.2) pins → NoDup (acc ++ pins)%list.*1 →
  ofold cpu_pin acc (map print_pin pins) = Ret (acc ++ pins)%list.
Proof.
  revert acc. induction pins as [|vp pins IH]; intros acc Hp Hnd; cbn [map ofold].
  - by rewrite app_nil_r.
  - inversion_clear Hp as [|?? [??] ?]. rewrite cpu_pin_print by done. cbn [mbind outcome_bind].
    rewrite fmap_app in Hnd.
    rewrite dict_set_new.
    + change (acc ++ vp :: pins)%list with (acc ++ [vp] ++ pins)%list. rewrite app_assoc.
      destruct vp. apply IH; [done|]. by rewrite <-app_assoc, fmap_app.
    + intros Hin. apply NoDup_app in Hnd as (_ & Hd & _). apply (Hd _ Hin). by left.
Qed.

Section pinning_theorems.
Context {CONF : conf} {W : Type} `{C : cloud W}.
Implicit Types s : pystate W.

(** For a domain with dedicated CPUs, one [vcpupin] per vCPU naming one host
    CPU, [get_server_cpu_pinning] returns exactly the map of vCPUs to host CPUs
    libvirt printed, in document order. *)
Theorem get_server_cpu_pinning_print server_id s root s1 (pins : list (Z * Z)) :
  get_server_xml server_id s = (Ret root, s1) →
  descend root ["cputune"; "vcpupin"] = map print_pin pins →
  Forall (λ vp, 0 <= vp.1 ∧ 0 <= vp.2) pins → NoDup pins.*1 →
  get_server_cpu_pinning server_id s = (Ret pins, s1).
Proof.
  intros Hx Hd Hp Hnd. unfold get_server_cpu_pinning. rewrite (bind_Ret _ _ _ _ _ Hx).
  change [Child "cputune"; Child "vcpupin"] with (map Child ["cputune"; "vcpupin"]).
  rewrite findall_children, Hd. unfold lift. by rewrite (cpu_pins_print [] pins).
Qed.

(** [_assert_iothread_pins] passes exactly when the domain has one iothread
    and it is pinned to the expected CPUs (or not pinned at all, when None is
    expected); it checks nothing when the iothreads feature is off. *)
Theorem assert_iothread_pins_verdict server_id expected s nr pins s1 :
  iothreads_enabled = true → get_server_iothreads server_id s = (Ret (nr, pins), s1) →
  assert_iothread_pins server_id expected s = (Ret tt, s1) ↔
  nr = 1 ∧ match expected, pins with
           | Some e, Some pins => dict_get pins 1 = Some e
           | None, None => True
           | _, _ => False
           end.
Proof.
  intros Hio Hg. unfold assert_iothread_pins. rewrite Hio. cbn [negb].
  rewrite (bind_Ret _ _ _ _ _ Hg), bind_run. cbv beta iota.
  destruct (Z.eqb_spec nr 1) as [->|Hne]; cbn [assert_that raise mret M_ret]; cbv beta iota;
    [|naive_solver].
  destruct pins as [pins|]; rewrite bind_run.
  - unfold lift. destruct (dict_get pins 1) as [x|]; cbn [or_raise fmap outcome_fmap]; cbv beta iota.
    + case_bool_decide as Hb; subst; cbn [assert_that mret M_ret raise]; [naive_solver|].
      destruct expected; naive_solver.
    + destruct expected; naive_solver.
  - cbn [mret M_ret]. cbv beta iota. case_bool_decide as Hb; subst; [naive_solver|].
    destruct expected; naive_solver.
Qed.

(** C15: when [test_cpu_dedicated] passes, both servers' vCPUs were pinned to CPUs
    of the dedicated set of the host of server A, and no host CPU was shared
    between them. *)
Theorem test_cpu_dedicated_sound s s' :
  test_cpu_dedicated s = (Ret tt, s') →
  2 <= dedicated_cpus_per_numa ∧
  ∃ flavor server_a server_b a b host dedicated,
    passes s
      [boot flavor [] ⇓ server_a; boot flavor (scheduler_hints "same_host" server_a) ⇓ server_b;
       get_server_cpu_pinning server_a ⇓ a; get_server_cpu_pinning server_b ⇓ b;
       get_host_for_server server_a ⇓ host; get_host_cpu_dedicated_set host ⇓ dedicated;
       assert_iothread_pins server_a (Some (values_set a)) ⇓ tt;
       assert_iothread_pins server_b (Some (values_set b)) ⇓ tt] s' ∧
    values_set a ⊆ dedicated ∧ values_set b ⊆ dedicated ∧ values_set a ## values_set b.
Proof.
  unfold test_cpu_dedicated, subset_of, isdisjoint. intros H. run_ret H. read_facts.
  split; [done|]. eexists _, _, _, _, _, _, _. split; [walk|by split_and!].
Qed.

(** A host without a cpu_dedicated_set (or cpu_shared_set) entry in
    nodes.yaml makes its accessor raise AttributeError: the default is an empty
    list, which the parser cannot split, and not the empty set. *)
Theorem missing_host_cpu_set_raises key host s details s1 :
  get_host_details host s = (Ret (VDict details), s1) → dict_get details key = None →
  get_host_cpu_set key host s = (Exn AttributeError, s1).
Proof.
  intros Hd Hk. unfold get_host_cpu_set. rewrite (bind_Ret _ _ _ _ _ Hd), bind_run.
  unfold lift, vget_or. by rewrite Hk.
Qed.
End pinning_theorems.

(** * A simulated host with pinned guests *)
Definition named_server (name : string) : val :=
  VDict [("server", VDict [("OS-EXT-SRV-ATTR:host", VStr "compute-0");
                           ("OS-EXT-SRV-ATTR:instance_name", VStr name)])].
(** [names]: the domains asked for, in the order in which they are asked for *)
Definition pinning_bodies (names : list string) : list (string * val) :=
  ([("BaseV2ComputeAdminTest.create_flavor", VDict [("id", VStr "flavor-1")]);
    ("os_admin.flavors_client.set_flavor_extra_spec", VNone);
    ("BaseV2ComputeAdminTest.create_test_server", VDict [("id", VStr "server-1")]);
    ("BaseV2ComputeAdminTest.create_test_server", VDict [("id", VStr "server-2")]);
    ("BaseV2ComputeAdminTest.get_host_for_server", VStr "compute-0");
    ("BaseV2ComputeAdminTest.resize_server", VNone);
    ("servers_client.reboot_server", VNone); ("waiters.wait_for_server_status", VNone)] ++
   map (λ name, ("os_admin.servers_client.show_server", named_server name)) names)%list.

Definition pinned_domain (pins : list (Z * Z)) (iothreads : list elem) : elem :=
  Elem "domain" [] None
    [Elem "iothreads" [] (Some "1") []; Elem "cputune" [] None (map print_pin pins ++ iothreads)].
Definition pinning_yaml : val :=
  VDict [("compute-0", VDict [("cpu_dedicated_set", VStr "0-3");
                              ("services", VDict [("libvirt", VDict [])])])].
Definition pinning_env : cloud sim :=
  sim_cloud (λ _, false)
    [("<one/>", pinned_domain [(0, 2)] [Elem "iothreadpin" [("iothread", "1"); ("cpuset", "2")] None []]);
     ("<two/>", pinned_domain [(0, 3)] []); ("<none/>", pinned_domain [] [])] pinning_yaml.
Definition pinning_state (names : list string) : pystate sim :=
  mkState None [] (mkSim 0 ∅ true
    [("sudo virsh dumpxml one", "<one/>"); ("sudo virsh dumpxml two", "<two/>");
     ("sudo virsh dumpxml none", "<none/>")] (pinning_bodies names) []).

(** The subset checks of two tests accept a server without any pinning. With
    no [vcpupin] in the domain after the reboot (after the resize), the test
    that reports lost (missing) pinning passes. *)
Theorem unpinned_server_passes :
  (test_reboot_pinned_server (CONF:=sim_CONF) (C:=pinning_env) (pinning_state ["one"; "none"])).1 = Ret tt ∧
  (test_resize_unpinned_server_to_pinned (CONF:=sim_CONF) (C:=pinning_env)
     (pinning_state ["none"; "none"])).1 = Ret tt ∧
  (get_server_cpu_pinning (CONF:=sim_CONF) (C:=pinning_env) "server-1" (pinning_state ["none"])).1 = Ret [].
Proof. repeat split; vm_compute; reflexivity. Qed.

Lemma get_server_cpu_pinning_print_witness :
  (get_server_cpu_pinning (CONF:=sim_CONF) (C:=pinning_env) "server-1" (pinning_state ["one"])).1 =
  Ret [(0, 2)].
Proof.
  rewrite (get_server_cpu_pinning_print (CONF:=sim_CONF) (C:=pinning_env) "server-1"
    (pinning_state ["one"])
    (pinned_domain [(0, 2)] [Elem "iothreadpin" [("iothread", "1"); ("cpuset", "2")] None []])
    (get_server_xml (CONF:=sim_CONF) (C:=pinning_env) "server-1" (pinning_state ["one"])).2 [(0, 2)]);
    try (vm_compute; reflexivity).
  - repeat constructor; simpl; lia.
  - repeat constructor. set_solver.
Defined.

Definition iothreads_CONF : conf := mk_sim_CONF "journalctl" false true.
Lemma assert_iothread_pins_verdict_witness :
  (assert_iothread_pins (CONF:=iothreads_CONF) (C:=pinning_env) "server-1" (Some {[2]})
     (pinning_state ["one"])).1 = Ret tt.
Proof.
  rewrite (proj2 (assert_iothread_pins_verdict (CONF:=iothreads_CONF) (C:=pinning_env) "server-1"
    (Some {[2]}) (pinning_state ["one"]) 1 (Some [(1, {[2]})])
    (get_server_xml (CONF:=sim_CONF) (C:=pinning_env) "server-1" (pinning_state ["one"])).2
    ltac:(reflexivity) ltac:(vm_compute; reflexivity))).
  - reflexivity.
  - split; [done|]. vm_compute. reflexivity.
Defined.

Lemma test_cpu_dedicated_sound_witness :
  2 <= dedicated_cpus_per_numa (conf:=sim_CONF).
Proof.
  apply (test_cpu_dedicated_sound (CONF:=sim_CONF) (C:=pinning_env) (pinning_state ["one"; "two"])
    (test_cpu_dedicated (CONF:=sim_CONF) (C:=pinning_env) (pinning_state ["one"; "two"])).2).
  vm_compute. reflexivity.
Defined.

Lemma missing_host_cpu_set_raises_witness :
  (get_host_cpu_shared_set (CONF:=sim_CONF) (C:=pinning_env) "compute-0" (pinning_state [])).1 =
  Exn AttributeError.
Proof.
  unfold get_host_cpu_shared_set.
  rewrite (missing_host_cpu_set_raises (CONF:=sim_CONF) (C:=pinning_env) "cpu_shared_set" "compute-0"
    (pinning_state []) [("cpu_dedicated_set", VStr "0-3"); ("services", VDict [("libvirt", VDict [])])]
    (get_host_details (CONF:=sim_CONF) (C:=pinning_env) "compute-0" (pinning_state [])).2);
    vm_compute; reflexivity.
Defined.
