(* ===== verification/ThreadPolicy.v ===== *)
(** api/compute/test_cpu_pinning.py, CPUThreadPolicyTest: thread siblings of the
    host CPUs and the tests of the isolate, prefer and require policies. The
    tests remove CPUs from the lists of siblings while they loop, so the map of
    siblings is threaded through the loop as state. *)
From Stdlib Require Import Ascii String.
From S2P Require Import Prelude PyString PyVal Xml Env Sim Hardware Utils Clients ComputeBase Trace NumaHelper Pinning.
#[local] Open Scope string_scope.

(** * Siblings *)

(** [range(start, stop + 1)] *)
Definition range_list (start stop : Z) : list Z := seqZ start (stop + 1 - start).

Definition sub_siblings (siblings : list Z) (sub_sib : string) : outcome (list Z) :=
  if has_char "-" sub_sib then
    match split_on "-" sub_sib with
    | [start_sib; end_sib] =>
        start ← int_of start_sib;
        stop ← int_of end_sib;
        mret (siblings ++ range_list start stop)%list
    | _ => Exn ValueError
    end
  else
    n ← int_of sub_sib;
    mret (siblings ++ [n])%list.

Definition get_siblings_list (sib : string) : outcome (list Z) :=
  ofold sub_siblings [] (split_on "," sib).

(** [l.remove(x)]: the first occurrence goes, ValueError when there is none *)
Fixpoint py_remove (x : Z) (l : list Z) : outcome (list Z) :=
  match l with
  | [] => Exn ValueError
  | y :: l' => if (x =? y)%Z then Ret l' else cons y <$> py_remove x l'
  end.

Definition cpu_siblings (siblings : list (Z * list Z)) (cpu : elem) : outcome (list (Z * list Z)) :=
  cpu_id ← int_attr cpu "id";
  sib ← or_raise AttributeError (elem_get cpu "siblings");
  l ← get_siblings_list sib;
  mret (dict_set siblings cpu_id l).

(** The loops over the cells of the host and the CPUs of each cell. *)
Definition parse_host_siblings (root : elem) : outcome (list (Z * list Z)) :=
  ofold (λ siblings cell, ofold cpu_siblings siblings (findall cell [Child "cpu"]))
    [] (findall root [Child "host"; Child "topology"; Child "cells"; Child "cell"; Child "cpus"]).

(** * Extra specs *)
Definition thread_policy (policy : string) : kwargs :=
  [("hw:cpu_policy", VStr "dedicated"); ("hw:cpu_thread_policy", VStr policy)].
Definition isolate_thread_policy : kwargs := thread_policy "isolate".
Definition prefer_thread_policy : kwargs := thread_policy "prefer".
Definition require_thread_policy : kwargs := thread_policy "require".

(** One iteration of the check: the siblings left for the vCPU's host CPU,
    compared with all host CPUs of the guest. [unused]: whether the test asserts
    that they are not used. *)
Definition check_vcpu (unused : bool) (cpu_pinnings : list (Z * Z))
    (pcpu_siblings : list (Z * list Z)) (vcpu : Z) : outcome (list (Z * list Z)) :=
  pcpu ← or_raise KeyError (dict_get cpu_pinnings vcpu);
  sib ← or_raise KeyError (dict_get pcpu_siblings pcpu);
  sib ← py_remove pcpu sib;
  let pcpu_siblings := dict_set pcpu_siblings pcpu sib in
  if Bool.eqb (isdisjoint (list_to_set sib) (values_set cpu_pinnings)) unused
  then Ret pcpu_siblings else Exn AssertionFailure.

Section thread_policy.
Context {CONF : conf} {W : Type} `{C : cloud W}.
Context (set_iter : gset Z → list Z).
Abbreviation P := (M (pystate W)).

Definition get_host_cpu_siblings (host : string) : P (list (Z * list Z)) :=
  virshxml ← VirshXMLClient_init host;
  capxml ← capabilities virshxml;
  root ← fromstring capxml;
  lift (parse_host_siblings root).

Definition vcpus : Z := 2.

(** The three tests differ in the extra specs and in what they assert. *)
Definition test_threads (extra_specs : kwargs) (unused : bool) : P unit :=
  flavor ← create_flavor_default vcpus (Some extra_specs);
  server ← boot flavor [];
  host ← get_host_for_server server;
  cpu_pinnings ← get_server_cpu_pinning server;
  pcpu_siblings ← get_host_cpu_siblings host;
  assert_that (Z.of_nat (length cpu_pinnings) =? vcpus)%Z;;
  lift (ofold (check_vcpu unused cpu_pinnings) pcpu_siblings
          (set_iter (list_to_set (cpu_pinnings.*1))));;
  mret tt.

Definition test_threads_isolate : P unit := test_threads isolate_thread_policy true.
Definition test_threads_prefer : P unit :=
  skip_unless (0 <? length smt_hosts)%nat;;
  test_threads prefer_thread_policy false.
Definition test_threads_require : P unit :=
  skip_unless (0 <? length smt_hosts)%nat;;
  test_threads require_thread_policy false.
End thread_policy.

Example siblings_ex : get_siblings_list "0-2,3,4,5-6,9" = Ret [0; 1; 2; 3; 4; 5; 6; 9].
Proof. vm_compute. reflexivity. Qed.

(** * libvirt's notation for sets of CPUs *)

(** A single CPU, or an interval of at least two. *)
Definition print_interval (i : Z * Z) : string :=
  if (i.1 =? i.2)%Z then py_str i.1 else py_str i.1 ++ "-" ++ py_str i.2.
Definition print_siblings (l : list (Z * Z)) : string := py_join "," (map print_interval l).
Definition interval_cpus (l : list (Z * Z)) : list Z := l ≫= λ i, range_list i.1 i.2.

Lemma range_list_set lo hi : (list_to_set (range_list lo hi) : gset Z) = range_ids lo hi.
Proof. done. Qed.

Lemma sub_siblings_print acc i :
  0 <= i.1 <= i.2 → sub_siblings acc (print_interval i) = Ret (acc ++ range_list i.1 i.2)%list.
Proof.
  intros Hi. unfold sub_siblings, print_interval, range_list.
  assert (∀ n, 0 <= n → has_char "-" (py_str n) = false) as Hno by (intros; by apply py_str_no_char).
  destruct (Z.eqb_spec i.1 i.2) as [He|Hne].
  - rewrite Hno, int_of_str by lia. cbn [mbind outcome_bind]. rewrite He.
    by replace (i.2 + 1 - i.2) with 1 by lia.
  - rewrite has_char_app. change (has_char "-" ("-" ++ py_str i.2)) with true.
    rewrite orb_true_r. change ("-" ++ py_str i.2) with (String "-" (py_str i.2)).
    rewrite split_on_app, split_on_none by (apply Hno; lia).
    by rewrite int_of_str, int_of_str by lia.
Qed.

Lemma print_interval_no_comma i : 0 <= i.1 <= i.2 → has_char "," (print_interval i) = false.
Proof.
  intros Hi. unfold print_interval. destruct (_ =? _)%Z; rewrite ?has_char_app; simpl;
    rewrite ?py_str_no_char by (done || lia); done.
Qed.

Lemma read_rule_interval i :
  0 <= i.1 <= i.2 → read_rule (print_interval i) = Some (Include i.1 i.2).
Proof.
  intros Hi. unfold print_interval. destruct (Z.eqb_spec i.1 i.2) as [He|Hne].
  - rewrite read_rule_number by lia. by rewrite He at 2.
  - unfold read_rule.
    assert (py_strip (py_str i.1 ++ "-" ++ py_str i.2) = py_str i.1 ++ "-" ++ py_str i.2) as ->.
    { apply strip_by_none. rewrite !all_chars_app. simpl.
      rewrite !(all_chars_impl is_digit _ (py_str _)); try (apply py_str_digits; lia); [done|..];
        intros a Ha; by rewrite is_digit_not_space. }
    destruct (py_str i.1) as [|c p] eqn:E.
    { pose proof (nat_digits_nonempty i.1 ltac:(lia)) as Hn. by rewrite <-py_str_nonneg, E in Hn by lia. }
    pose proof (py_str_digits i.1 ltac:(lia)) as Hd. rewrite E in Hd. simpl in Hd.
    apply andb_true_iff in Hd as [Hc _]. cbn [String.append]. rewrite (is_digit_not "^") by done.
    change (String c (p ++ String "-" (py_str i.2))) with (String c p ++ String "-" (py_str i.2)).
    rewrite <-E. unfold read_interval. rewrite split_once_app by (apply py_str_no_char; [lia|done]).
    rewrite !py_strip_digits, !py_int_str by (try apply py_str_digits; lia).
    destruct (Z.leb_spec i.1 i.2); [done|lia].
Qed.

Lemma siblings_fold acc l :
  Forall (λ i, 0 <= i.1 <= i.2) l →
  ofold sub_siblings acc (map print_interval l) = Ret (acc ++ interval_cpus l)%list.
Proof.
  intros Hl. revert acc. induction Hl as [|i l Hi _ IH]; intros acc; cbn [map ofold].
  - by rewrite app_nil_r.
  - rewrite sub_siblings_print by done. cbn [mbind outcome_bind]. rewrite IH.
    unfold interval_cpus. by rewrite bind_cons, app_assoc.
Qed.

(** C38: on a list of CPUs as libvirt prints it, comma-separated numbers and
    ranges, [get_siblings_list] returns the CPUs in order, and agrees with
    [parse_cpu_spec] on the set they form. *)
Theorem get_siblings_list_print (l : list (Z * Z)) :
  l ≠ [] → Forall (λ i, 0 <= i.1 <= i.2) l →
  get_siblings_list (print_siblings l) = Ret (interval_cpus l) ∧
  parse_cpu_spec (print_siblings l) = Ret (list_to_set (interval_cpus l)).
Proof.
  intros Hne Hl.
  assert (Forall (λ r, has_char "," r = false) (map print_interval l)) as Hno.
  { apply Forall_map. eapply Forall_impl; [exact Hl|]. apply print_interval_no_comma. }
  assert (map print_interval l ≠ []) as Hne' by (by destruct l).
  split.
  - unfold get_siblings_list, print_siblings. rewrite split_on_join by done.
    by rewrite siblings_fold.
  - apply parse_cpu_spec_Ret. exists (map (λ i, Include i.1 i.2) l). split.
    + unfold print_siblings. rewrite read_spec_join by done. clear -Hl.
      induction Hl as [|i l Hi _ IH]; [done|]. simpl. by rewrite read_rule_interval, IH.
    + intros x. rewrite elem_of_list_to_set. unfold denotes, interval_cpus.
      rewrite list_elem_of_bind, !Exists_exists. split.
      * intros (i & Hx%elem_of_seqZ & Hi).
        split; [|by intros (? & (? & -> & _)%list_elem_of_fmap & [])].
        exists (Include i.1 i.2). simpl. split; [|lia].
        by apply (list_elem_of_fmap_2 (λ i, Include i.1 i.2)).
      * intros [(? & (i & -> & Hi)%list_elem_of_fmap & Hx) _]. simpl in Hx. exists i.
        split; [apply elem_of_seqZ; lia|done].
Qed.

(** * The verdict of the thread policy tests *)
Lemma py_remove_absent x l : x ∉ l → py_remove x l = Exn ValueError.
Proof.
  induction l as [|y l IH]; intros Hx; simpl; [done|].
  destruct (Z.eqb_spec x y) as [->|_]; [set_solver|]. by rewrite IH by set_solver.
Qed.

Lemma py_remove_present x l :
  NoDup l → x ∈ l → ∃ l', py_remove x l = Ret l' ∧ x ∉ l' ∧
    (list_to_set l' : gset Z) = (list_to_set l ∖ {[x]}).
Proof.
  induction 1 as [|y l Hy Hl IH]; intros Hx; [set_solver|]. simpl.
  destruct (Z.eqb_spec x y) as [->|Hne].
  - exists l. split_and!; [done|done|]. set_solver.
  - destruct IH as (l' & -> & Hx' & Hset); [set_solver|]. exists (y :: l'). split_and!; [done|set_solver|].
    simpl. rewrite Hset. set_solver.
Qed.

Section verdict.
Context (unused : bool) (pins : list (Z * Z)) (siblings : list (Z * list Z)).

(** The thread siblings of a host CPU, itself left out. *)
Definition other_siblings (pcpu : Z) : gset Z :=
  match dict_get siblings pcpu with Some l => list_to_set l ∖ {[pcpu]} | None => ∅ end.

(** What the test asks of a host CPU of the guest. *)
Definition pcpu_ok (pcpu : Z) : Prop :=
  isdisjoint (other_siblings pcpu) (values_set pins) = unused.

(** The host lists every CPU of the guest among its own siblings, once. *)
Definition siblings_wf : Prop :=
  ∀ p, p ∈ pins.*2 → ∃ l, dict_get siblings p = Some l ∧ p ∈ l ∧ NoDup l.

Definition pcpu_of (v : Z) : Z := default 0 (dict_get pins v).

(** The map of siblings when the CPUs of [used] have been looked at. *)
Definition looked_at (used : gset Z) (sibs : list (Z * list Z)) : Prop :=
  ∀ p, p ∈ pins.*2 →
    (p ∈ used → ∃ l, dict_get sibs p = Some l ∧ p ∉ l) ∧
    (p ∉ used → dict_get sibs p = dict_get siblings p).

Lemma dict_get_pcpu v : v ∈ pins.*1 → dict_get pins v = Some (pcpu_of v) ∧ pcpu_of v ∈ pins.*2.
Proof.
  unfold pcpu_of. induction pins as [|[v' p'] l IH]; simpl; [set_solver|].
  intros Hv. destruct (decide (v' = v)) as [->|Hne]; simpl; [set_solver|].
  destruct IH as [-> ?]; set_solver.
Qed.

Lemma check_vcpu_step used sibs v :
  siblings_wf → looked_at used sibs → v ∈ pins.*1 →
  (pcpu_of v ∉ used ∧ pcpu_ok (pcpu_of v) ∧
   ∃ sibs', check_vcpu unused pins sibs v = Ret sibs' ∧ looked_at ({[pcpu_of v]} ∪ used) sibs') ∨
  ((pcpu_of v ∈ used ∨ ¬ pcpu_ok (pcpu_of v)) ∧ ∃ e, check_vcpu unused pins sibs v = Exn e).
Proof.
  intros Hwf Hla Hv. destruct (dict_get_pcpu v Hv) as [Hp Hin].
  unfold check_vcpu. rewrite Hp. cbn [or_raise mbind outcome_bind].
  destruct (Hla _ Hin) as [Hused Hnew]. destruct (decide (pcpu_of v ∈ used)) as [Hu|Hu].
  - right. split; [by left|]. destruct (Hused Hu) as (l & -> & Hl). cbn [or_raise mbind outcome_bind].
    rewrite py_remove_absent by done. by eexists.
  - rewrite (Hnew Hu). destruct (Hwf _ Hin) as (l & Hl & Hpl & Hnd). rewrite Hl.
    cbn [or_raise mbind outcome_bind].
    destruct (py_remove_present _ _ Hnd Hpl) as (l' & -> & Hl' & Hset). cbn [mbind outcome_bind].
    unfold pcpu_ok, other_siblings. rewrite Hl, Hset.
    destruct (Bool.eqb _ _) eqn:Hb.
    + left. apply eqb_prop in Hb. split_and!; [done|done|]. eexists. split; [done|].
      intros p Hpin. destruct (Hla p Hpin) as [Hp1 Hp2]. setoid_rewrite dict_get_set.
      destruct (decide (pcpu_of v = p)) as [<-|Hne]; [split; [eauto|set_solver]|].
      split; [intros; apply Hp1; set_solver|intros; apply Hp2; set_solver].
    + right. apply eqb_false_iff in Hb. split; [by right|by eexists].
Qed.

Lemma check_loop used sibs vs :
  siblings_wf → looked_at used sibs → Forall (λ v, v ∈ pins.*1) vs →
  (∃ r, ofold (check_vcpu unused pins) sibs vs = Ret r) ↔
  NoDup (map pcpu_of vs) ∧ Forall (λ v, pcpu_of v ∉ used ∧ pcpu_ok (pcpu_of v)) vs.
Proof.
  intros Hwf Hla Hvs. revert used sibs Hla. induction Hvs as [|v vs Hv _ IH]; intros used sibs Hla;
    cbn [ofold map].
  - split; [by repeat constructor|by eexists].
  - rewrite NoDup_cons, Forall_cons.
    destruct (check_vcpu_step used sibs v Hwf Hla Hv) as [(Hu & Hok & sibs' & -> & Hla')|(Hbad & e & ->)];
      cbn [mbind outcome_bind].
    + rewrite (IH _ _ Hla'), !Forall_forall. setoid_rewrite not_elem_of_union.
      setoid_rewrite not_elem_of_singleton. split.
      * intros [Hnd Hall]. split_and!; [|done|done|done|].
        -- intros (w & Hw & Hin)%list_elem_of_fmap. destruct (Hall w Hin) as [[Hne _] _]. by destruct Hne.
        -- intros w Hin. by destruct (Hall w Hin) as [[_ ?] ?].
      * intros [[Hni Hnd] [_ Hall]]. split; [done|]. intros w Hin. destruct (Hall w Hin). split_and!; try done.
        intros Heq. destruct Hni. rewrite <-Heq. by apply list_elem_of_fmap_2.
    + split; [by intros [? ?]|]. intros [_ [[? ?] _]]. by destruct Hbad.
Qed.

Lemma check_vcpus_run (set_iter : gset Z → list Z) :
  (∀ X, set_iter X ≡ₚ elements X) → NoDup pins.*1 → siblings_wf →
  (∃ r, ofold (check_vcpu unused pins) siblings (set_iter (list_to_set pins.*1)) = Ret r) ↔
  NoDup pins.*2 ∧ Forall pcpu_ok pins.*2.
Proof.
  intros Hiter Hnd Hwf.
  assert (set_iter (list_to_set pins.*1) ≡ₚ pins.*1) as Hperm.
  { rewrite Hiter. by apply elements_list_to_set. }
  assert (map pcpu_of pins.*1 = pins.*2) as Hmap.
  { unfold pcpu_of. clear -Hnd. induction pins as [|[v p] l IH]; [done|].
    rewrite !fmap_cons in *. apply NoDup_cons in Hnd as [Hv Hnd]. cbn [map fst snd dict_get] in *.
    rewrite decide_True by done. cbn [default]. f_equal. etrans; [|exact (IH Hnd)].
    apply map_ext_in. intros w Hw%list_elem_of_In. by rewrite decide_False by set_solver. }
  rewrite (check_loop ∅ siblings); [|done|intros p _; set_solver|by rewrite Hperm, Forall_forall].
  rewrite Hperm, Hmap. rewrite <-Hmap, Forall_map, Hmap, !Forall_forall. set_solver.
Qed.

(** C5: the loop of the thread policy tests passes exactly when no two vCPUs sit
    on the same host CPU and, for every host CPU of the guest, the guest uses
    none of its thread siblings (isolate) or at least one of them (prefer and
    require), in whatever order the set of vCPUs is iterated and although the
    lists of siblings are changed on the way. *)
Theorem check_vcpus_verdict (set_iter : gset Z → list Z) :
  (∀ X, set_iter X ≡ₚ elements X) → NoDup pins.*1 → siblings_wf →
  (∃ r, ofold (check_vcpu unused pins) siblings (set_iter (list_to_set pins.*1)) = Ret r) ↔
  NoDup pins.*2 ∧ Forall pcpu_ok pins.*2.
Proof. apply check_vcpus_run. Qed.
End verdict.

Lemma cpu_pins_keys pins l : ofold cpu_pin [] l = Ret pins → NoDup pins.*1.
Proof.
  apply (ofold_invariant cpu_pin (λ d, NoDup d.*1)); [|constructor].
  intros d e d' Hd H. unfold cpu_pin in H.
  destruct (int_attr e "vcpu"), (int_attr e "cpuset"); try done. simpl in H. injection H as <-.
  by apply dict_set_keys_NoDup.
Qed.

Section test_theorems.
Context {CONF : conf} {W : Type} `{C : cloud W}.
Context (set_iter : gset Z → list Z).
Implicit Types s : pystate W.

(** When [test_threads_isolate] passes, the server has two vCPUs on two
    different host CPUs, neither of which is a thread sibling of the other
    according to the capabilities of the server's host. *)
Theorem test_threads_isolate_sound s s' :
  (∀ X, set_iter X ≡ₚ elements X) →
  test_threads_isolate set_iter s = (Ret tt, s') →
  ∃ flavor server host pins siblings,
    passes s
      [boot flavor [] ⇓ server; get_host_for_server server ⇓ host;
       get_server_cpu_pinning server ⇓ pins; get_host_cpu_siblings host ⇓ siblings] s' ∧
    length pins = 2%nat ∧
    (siblings_wf pins siblings → NoDup pins.*2 ∧
     ∀ p q, p ∈ pins.*2 → q ∈ pins.*2 → q ∉ other_siblings siblings p).
Proof.
  intros Hiter. unfold test_threads_isolate, test_threads. intros H. run_ret H. injection H as <-.
  read_facts. eexists _, _, _, _, _. split; [walk|].
  match goal with
  | Ep : get_server_cpu_pinning _ _ = (Ret ?p, _), Es : get_host_cpu_siblings _ _ = (Ret ?sib, _),
    El : ofold _ _ _ = Ret _, Hl : _ = vcpus |- _ =>
      rename p into pins; rename sib into siblings; rename Ep into Hpins;
      rename El into Hloop; rename Hl into Hlen
  end.
  unfold vcpus in Hlen. split; [lia|]. intros Hwf.
  unfold get_server_cpu_pinning in Hpins. run_ret Hpins. apply lift_run in Hpins as [Hpins _].
  pose proof (cpu_pins_keys _ _ (eq_sym Hpins)) as Hnd.
  destruct (proj1 (check_vcpus_run true pins siblings set_iter Hiter Hnd Hwf)) as [? Hok]; [eauto|].
  split; [done|]. intros p q Hp Hq Hsib. rewrite Forall_forall in Hok.
  specialize (Hok p Hp). apply bool_decide_eq_true in Hok. apply (Hok q Hsib).
  unfold values_set. by apply elem_of_list_to_set.
Qed.
End test_theorems.

(** * Witnesses *)
Lemma get_siblings_list_print_witness :
  get_siblings_list "0-2,7" = Ret [0; 1; 2; 7].
Proof.
  apply (get_siblings_list_print [(0, 2); (7, 7)]); [done|].
  repeat constructor; simpl; lia.
Defined.

(** Two cores of two threads each. *)
Definition smt_siblings : list (Z * list Z) := [(0, [0; 4]); (4, [0; 4]); (1, [1; 5]); (5, [1; 5])].

Lemma check_vcpus_verdict_witness :
  ∃ r, ofold (check_vcpu true [(0, 0); (1, 5)]) smt_siblings
         (elements (list_to_set [0; 1] : gset Z)) = Ret r.
Proof.
  apply (check_vcpus_verdict true [(0, 0); (1, 5)] smt_siblings elements).
  - done.
  - repeat constructor; set_solver.
  - intros p Hp. simpl in Hp. apply list_elem_of_In in Hp as [<-|[<-|[]]]; eexists;
      (split; [reflexivity|]); (split; [set_solver|repeat constructor; set_solver]).
  - split; [repeat constructor; set_solver|]. repeat constructor; vm_compute; reflexivity.
Defined.

Definition cap_cpu (id siblings : string) : elem :=
  Elem "cpu" [("id", id); ("siblings", siblings)] None [].
Definition capabilities_xml : elem :=
  Elem "capabilities" [] None [Elem "host" [] None [Elem "topology" [] None [Elem "cells" [] None
    [Elem "cell" [] None [Elem "cpus" [] None
       [cap_cpu "0" "0,4"; cap_cpu "4" "0,4"; cap_cpu "1" "1,5"; cap_cpu "5" "1,5"]]]]]].
Definition threads_env : cloud sim :=
  sim_cloud (λ _, false)
    [("<one/>", pinned_domain [(0, 0); (1, 5)] []); ("<caps/>", capabilities_xml)] pinning_yaml.
Definition threads_state : pystate sim :=
  mkState None [] (mkSim 0 ∅ true
    [("sudo virsh dumpxml one", "<one/>"); ("sudo virsh capabilities", "<caps/>")]
    (pinning_bodies ["one"]) []).

Lemma test_threads_isolate_sound_witness :
  ∃ pins : list (Z * Z), length pins = 2%nat.
Proof.
  destruct (test_threads_isolate_sound (CONF:=sim_CONF) (C:=threads_env) elements threads_state
    (test_threads_isolate (CONF:=sim_CONF) (C:=threads_env) elements threads_state).2)
    as (flavor & server & host & pins & siblings & _ & Hl & _).
  - done.
  - vm_compute. reflexivity.
  - by exists pins.
Defined.
