(* ===== verification/EmulatorThreads.v ===== *)
(** api/compute/test_cpu_pinning.py, EmulatorThreadTest: where the emulator
    threads (and the iothread) of a guest run under each threads policy. *)
From Stdlib Require Import Ascii String.
From S2P Require Import Prelude PyString PyVal Xml Env Sim Hardware Utils Waiters Clients ServiceManager ComputeBase Trace NumaHelper Pinning.
#[local] Open Scope string_scope.

Section emulator_threads.
Context {CONF : conf} {W : Type} `{C : cloud W}.
Context (fuel : nat).
Abbreviation P := (M (pystate W)).

(** [skip_checks] of the class, before every test of it *)
Definition emulator_skip_checks : P unit := skip_unless (bool_decide (is_Some cpu_topology)).

(** The [create_flavor] of this class *)
Definition create_flavor_threads (threads_policy : string) (vcpus : Z) : P val :=
  flavor ← create_flavor (VInt flavor_ram_size) vcpus 1 None;
  flavor_id ← lift (vget flavor "id");
  api "os_admin.flavors_client.set_flavor_extra_spec"
    [("flavor_id", flavor_id); ("hw:cpu_policy", VStr "dedicated");
     ("hw:emulator_threads_policy", VStr threads_policy)];;
  mret flavor.

Definition test_policy_share_cpu_shared_set : P unit :=
  skip_unless (negb (shared_cpus_per_numa =? 0)%Z);;
  flavor ← create_flavor_threads "share" shared_cpus_per_numa;
  server ← boot flavor [];
  host ← get_host_for_server server;
  cpu_shared_set ← get_host_cpu_shared_set host;
  emulator_threads ← get_server_emulator_threads server;
  assert_that (bool_decide (cpu_shared_set = emulator_threads));;
  assert_iothread_pins server (Some cpu_shared_set).

(** The body of the [with] block of [test_policy_share_cpu_shared_unset] *)
Definition shared_unset_body : P unit :=
  flavor ← create_flavor_threads "share" (Z.quot dedicated_cpus_per_numa 2);
  server_a ← boot flavor [];
  server_b ← boot flavor (scheduler_hints "same_host" server_a);
  emulator_threads_a ← get_server_emulator_threads server_a;
  emulator_threads_b ← get_server_emulator_threads server_b;
  cpu_pins_a ← get_pinning_as_set server_a;
  cpu_pins_b ← get_pinning_as_set server_b;
  assert_that (bool_decide (emulator_threads_a = cpu_pins_a));;
  assert_that (bool_decide (emulator_threads_b = cpu_pins_b));;
  assert_iothread_pins server_a (Some cpu_pins_a);;
  assert_iothread_pins server_b (Some cpu_pins_b);;
  assert_that (isdisjoint cpu_pins_a cpu_pins_b).

Definition test_policy_share_cpu_shared_unset : P unit :=
  skip_unless (negb (dedicated_cpus_per_numa <? 2)%Z);;
  config_all_computes fuel [("compute", "cpu_shared_set", VNone)] shared_unset_body.

(** [pins = pins[1]] of a guest with one iothread; [None[1]] is TypeError *)
Definition single_iothread_pins (server : string) : P (gset Z) :=
  '(nr, pins) ← get_server_iothreads server;
  assert_that (nr =? 1)%Z;;
  pins ← lift (or_raise TypeError pins);
  lift (or_raise KeyError (dict_get pins 1)).

Definition test_policy_isolate : P unit :=
  skip_unless (negb (dedicated_cpus_per_numa <? 2)%Z);;
  flavor ← create_flavor_threads "isolate" (dedicated_cpus_per_numa - 1);
  server ← boot flavor [];
  emulator_threads ← get_server_emulator_threads server;
  cpu_pins ← get_pinning_as_set server;
  host ← get_host_for_server server;
  cpu_dedicated_set ← get_host_cpu_dedicated_set host;
  assert_that (subset_of cpu_pins cpu_dedicated_set);;
  assert_that (isdisjoint cpu_pins emulator_threads);;
  pins ← (if iothreads_enabled then
            pins ← single_iothread_pins server;
            assert_that (isdisjoint cpu_pins pins);;
            mret (Some pins)
          else mret None);
  assert_that (subset_of emulator_threads cpu_dedicated_set);;
  match pins with
  | Some pins => assert_that (subset_of pins cpu_dedicated_set)
  | None => mret tt
  end.

Definition test_emulator_no_extra_cpu : P unit :=
  flavor ← create_flavor_threads "isolate" dedicated_cpus_per_numa;
  flavor_id ← lift (vget flavor "id");
  assert_raises is_BuildErrorException
    (create_test_server [("flavor", flavor_id); ("wait_until", VStr "ACTIVE")]);;
  mret tt.
End emulator_threads.

(** * Theorems *)
Section emulator_theorems.
Context {CONF : conf} {W : Type} `{C : cloud W}.
Implicit Types s : pystate W.

(** C16: when [test_policy_isolate] passes, the vCPUs and the emulator threads
    (and, with the iothreads feature on, the single iothread) of the guest all
    run on dedicated CPUs of its host, and neither the emulator threads nor the
    iothread share a CPU with a vCPU. *)
Theorem test_policy_isolate_sound s s' :
  test_policy_isolate s = (Ret tt, s') →
  ∃ flavor server host threads pins dedicated s5,
    passes s
      [boot flavor [] ⇓ server; get_server_emulator_threads server ⇓ threads;
       get_pinning_as_set server ⇓ pins; get_host_for_server server ⇓ host;
       get_host_cpu_dedicated_set host ⇓ dedicated] s5 ∧
    pins ∪ threads ⊆ dedicated ∧ pins ## threads ∧
    (if iothreads_enabled then
       ∃ iopins d, passes s5 [get_server_iothreads server ⇓ (1, Some d)] s' ∧
         dict_get d 1 = Some iopins ∧ iopins ⊆ dedicated ∧ pins ## iopins
     else s' = s5).
Proof.
  unfold test_policy_isolate, subset_of, isdisjoint. intros H. run_ret H. read_facts.
  eexists _, _, _, _, _, _, _. split; [walk|]. split; [set_solver|]. split; [done|].
  destruct iothreads_enabled;
    [|match goal with E : mret None _ = _ |- _ => injection E as <- <- end; by injection H as <-].
  match goal with E : (single_iothread_pins _ ≫= _) _ = _ |- _ => run_ret E; injection E as <- <- end.
  unfold single_iothread_pins in *.
  match goal with
  | Es : (get_server_iothreads _ ≫= _) _ = (Ret ?iopins, _) |- _ =>
      apply bind_Ret_inv in Es as ([nr dd] & sx & Eg & Es); run_ret Es; read_facts; exists iopins
  end.
  repeat match goal with E : or_raise _ ?o = Ret _ |- _ => destruct o eqn:?; simplify_eq/= end.
  eexists. split; [walk|]. by split_and!.
Qed.

(** [test_emulator_no_extra_cpu] passes exactly when building the server
    fails with BuildErrorException, and a server that is built nevertheless has
    its deletion registered. *)
Theorem no_extra_cpu_verdict s flavor s1 flavor_id :
  create_flavor_threads "isolate" dedicated_cpus_per_numa s = (Ret flavor, s1) →
  vget flavor "id" = Ret flavor_id →
  let create := create_test_server [("flavor", flavor_id); ("wait_until", VStr "ACTIVE")] s1 in
  (test_emulator_no_extra_cpu s = (Ret tt, create.2) ↔ create.1 = Exn BuildErrorException) ∧
  (∀ server, create.1 = Ret server →
     test_emulator_no_extra_cpu s = (Exn AssertionFailure, create.2) ∧
     ∃ i, vget server "id" = Ret (VStr i) ∧ AdminDeleteServer i ∈ st_cleanups create.2).
Proof.
  intros Hf Hid create. unfold test_emulator_no_extra_cpu.
  rewrite (bind_Ret _ _ _ _ _ Hf), bind_run. unfold lift. rewrite Hid, bind_run. unfold assert_raises.
  fold create. destruct create as [[server|e|] s2] eqn:E; simpl; split; try naive_solver.
  - intros server' [= <-]. split; [done|]. unfold create in E. unfold create_test_server, id_of in E.
    run_ret E. injection E as -> <-. apply add_cleanup_run in E2 as [_ Hc].
    apply lift_run in E1 as [Hi ->]. destruct (vget server "id") as [[]| |]; try done. simpl in Hi.
    injection Hi as ->. eexists. split; [done|]. rewrite Hc. by left.
  - destruct e; naive_solver.
Qed.
End emulator_theorems.

(** * Witnesses *)
Definition emulator_domain : elem :=
  Elem "domain" [] None [Elem "iothreads" [] (Some "1") []; Elem "cputune" [] None
    [print_pin (0, 2); Elem "emulatorpin" [("cpuset", "3")] None [];
     Elem "iothreadpin" [("iothread", "1"); ("cpuset", "3")] None []]].
Definition emulator_env : cloud sim :=
  sim_cloud (λ _, false) [("<one/>", emulator_domain)] pinning_yaml.

Lemma test_policy_isolate_sound_witness :
  ∃ pins threads : gset Z, pins ## threads.
Proof.
  destruct (test_policy_isolate_sound (CONF:=iothreads_CONF) (C:=emulator_env) (pinning_state ["one"])
    (test_policy_isolate (CONF:=iothreads_CONF) (C:=emulator_env) (pinning_state ["one"])).2)
    as (_ & _ & _ & threads & pins & _ & _ & _ & _ & Hd & _).
  - vm_compute. reflexivity.
  - by exists pins, threads.
Defined.

Lemma no_extra_cpu_verdict_witness :
  (test_emulator_no_extra_cpu (CONF:=sim_CONF) (C:=emulator_env) (pinning_state [])).1
  = Exn AssertionFailure.
Proof.
  destruct (no_extra_cpu_verdict (CONF:=sim_CONF) (C:=emulator_env) (pinning_state [])
    (VDict [("id", VStr "flavor-1")])
    (create_flavor_threads (CONF:=sim_CONF) (C:=emulator_env) "isolate" 2 (pinning_state [])).2
    (VStr "flavor-1")) as [_ H].
  - vm_compute. reflexivity.
  - reflexivity.
  - destruct (H (VDict [("id", VStr "server-1")])) as [-> _]; vm_compute; reflexivity.
Defined.
