(* ===== verification/NumaMigration.v ===== *)
(** api/compute/test_cpu_pinning.py, the classes on NUMA guests that move: live
    migration, in-place rebuild, and guests that mix shared and dedicated CPUs. *)
From Stdlib Require Import Ascii String.
From S2P Require Import Prelude PyString PyVal Xml Env Sim Hardware Utils Waiters Clients ServiceManager ComputeBase Trace NumaHelper Pinning ThreadPolicy EmulatorThreads.
#[local] Open Scope string_scope.

(** * NUMALiveMigrationBase *)

(** [cpu_pinning_raw] of each cell, numbered from 0 in their order *)
Definition get_cpu_pins_from_db_topology (db_topology : val) : outcome (list (Z * val)) :=
  cells ← vpath db_topology ["nova_object.data"; "cells"] ≫= as_list;
  '(pins, _) ← ofold (λ '(pins, cell_count) cell,
      raw ← vpath cell ["nova_object.data"; "cpu_pinning_raw"];
      mret (dict_set pins cell_count raw, cell_count + 1)) ([], 0) cells;
  mret pins.

(** [pcpus.update(set(pins.values()))] over the cells; Nova records host CPU
    numbers as integers. *)
Definition get_pcpus_from_cpu_pins (cpu_pins : list (Z * val)) : outcome (gset Z) :=
  ofold (λ pcpus cell_pins,
      d ← as_dict cell_pins.2;
      l ← omap_l as_int (d.*2);
      mret (pcpus ∪ list_to_set l)) ∅ cpu_pins.

(** The arguments are the lists of CPU lists to chain. *)
Definition get_cpus_per_node (args : list (list (list Z))) : gset Z :=
  list_to_set (map (λ cpu_list, Z.of_nat (length cpu_list)) (List.concat args)).

Definition nonempty (X : gset Z) : bool := negb (bool_decide (X = ∅)).

Section numa_migration.
Context {CONF : conf} {W : Type} `{C : cloud W}.
Abbreviation P := (M (pystate W)).

Definition live_migration_skip_checks : P unit :=
  skip_unless (negb ((min_compute_nodes <? 2)%Z || (2 <? max_compute_nodes)%Z)).

(** [compute.is_scheduler_filter_enabled(name)] *)
Definition scheduler_filter_skip_checks (name : string) : P unit :=
  enabled ← api "compute.is_scheduler_filter_enabled" [("filter_name", VStr name)];
  skip_unless (truthy enabled).

Definition get_shared_cpuset (server_id : string) : P (gset Z) :=
  root ← get_server_xml server_id;
  vcpu ← lift (or_raise AttributeError (find root [Child "vcpu"]));
  lift (parse_cpuset (elem_get vcpu "cpuset")).

Definition validate_hugepage_elements (server_id : string) (pagesize : Z) : P bool :=
  huge_pages_list ← get_hugepage_xml_element server_id;
  match huge_pages_list with
  | [huge_page_xml] =>
      size ← lift (or_raise KeyError (elem_get huge_page_xml "size") ≫= int_of);
      mret (size =? pagesize)%Z
  | _ => raise AssertionFailure
  end.

(** * NUMALiveMigrationTest *)
Definition db_pcpus (server_id : string) : P (gset Z) :=
  db_topo ← get_db_numa_topology server_id;
  pins ← lift (get_cpu_pins_from_db_topology db_topo);
  lift (get_pcpus_from_cpu_pins pins).

(** The checks of the first loop, on one server. *)
Definition check_guest_before (server : string) : P unit :=
  host ← get_host_for_server server;
  host_sm ← NovaServiceManager_init host "nova-compute";
  cpu_dedicated_set ← get_cpu_dedicated_set host_sm;
  cpu_shared_set ← get_cpu_shared_set host_sm;
  pcpus ← db_pcpus server;
  assert_that (subset_of pcpus cpu_dedicated_set);;
  emulator_threads ← get_server_emulator_threads server;
  assert_that (bool_decide (cpu_shared_set = emulator_threads));;
  assert_iothread_pins server (Some cpu_shared_set);;
  guest_pin_set ← get_pinning_as_set server;
  assert_that (subset_of guest_pin_set cpu_dedicated_set).

(** The local [shared_cpus_per_numa] is read from [dedicated_cpus_per_numa]. *)
Definition test_cpu_pinning_and_emulator_threads : P unit :=
  skip_unless (negb (dedicated_cpus_per_numa <? 2)%Z);;
  (let shared_cpus_per_numa := dedicated_cpus_per_numa in
   skip_unless (negb (shared_cpus_per_numa =? 0)%Z));;
  let specs := [("hw:cpu_policy", VStr "dedicated"); ("hw:emulator_threads_policy", VStr "share")] in
  flavor ← create_flavor_default (Z.quot dedicated_cpus_per_numa 2) (Some specs);
  server_a ← boot flavor [];
  server_b ← boot flavor (scheduler_hints "different_host" server_a);
  for_each check_guest_before [server_a; server_b];;
  host_a ← get_host_for_server server_a;
  live_migrate "os_primary" server_b "ACTIVE" (Some host_a);;
  pin_a ← get_pinning_as_set server_a;
  pin_b ← get_pinning_as_set server_b;
  assert_that (nonempty pin_a && nonempty pin_b);;
  assert_that (isdisjoint pin_a pin_b);;
  pcpus_a ← db_pcpus server_a;
  pcpus_b ← db_pcpus server_b;
  assert_that (nonempty pcpus_a && nonempty pcpus_b);;
  assert_that (isdisjoint pcpus_a pcpus_b);;
  threads_a ← get_server_emulator_threads server_a;
  threads_b ← get_server_emulator_threads server_b;
  assert_that (nonempty threads_a && nonempty threads_b);;
  assert_that (bool_decide (threads_a = threads_b));;
  if iothreads_enabled then
    iopins_a ← single_iothread_pins server_a;
    iopins_b ← single_iothread_pins server_b;
    assert_that (nonempty iopins_a && nonempty iopins_b);;
    assert_that (bool_decide (iopins_a = iopins_b))
  else mret tt.

(** The conditions under which the hugepages test is skipped, in order. *)
Definition hugepages_checks (topo_a topo_b : list (Z * list Z)) (pagesize_a pagesize_b : option Z)
    (pages_a pages_b : list (Z * (Z * Z))) : outcome Z :=
  let skip_if (b : bool) : outcome unit := if b then Exn SkipException else Ret tt in
  skip_if (existsb (λ p, (p.2.1 =? 0)%Z) (pages_a ++ pages_b)%list);;
  skip_if ((length topo_a <? 2)%nat || (length topo_b <? 2)%nat);;
  skip_if (negb (bool_decide (pagesize_a = pagesize_b)));;
  skip_if (negb (size (get_cpus_per_node [topo_a.*2; topo_b.*2]) =? 1)%nat);;
  let pagecounts := (pages_a.*2 ++ pages_b.*2)%list in
  skip_if (negb (size (list_to_set (pagecounts.*1) : gset Z) =? 1)%nat);;
  min_free ← match pagecounts.*2 with
             | [] => Exn ValueError
             | f :: l => Ret (foldl Z.min f l)
             end;
  first ← or_raise KeyError (dict_get pages_a 0);
  skip_if (2 * min_free <? first.1)%Z;;
  mret min_free.

(** The body of [test_hugepages]; the [skip_because] decorator on it keeps it
    from running at all. [pagesize / 1024 * min_free] is a float that the
    following [int] truncates. *)
Definition test_hugepages_body : P unit :=
  computes ← list_compute_hosts;
  addresses ← map_m (λ host, lift (get_ctlplane_address host)) computes;
  '(host_a, host_b) ← match addresses with
                      | [a; b] => mret (a, b)
                      | _ => raise ValueError
                      end;
  numaclient_a ← SSHClient_init host_a;
  numaclient_b ← SSHClient_init host_b;
  topo_a ← get_host_topology numaclient_a;
  pagesize_a ← get_pagesize numaclient_a;
  pages_a ← get_hugepages numaclient_a;
  topo_b ← get_host_topology numaclient_b;
  pagesize_b ← get_pagesize numaclient_b;
  pages_b ← get_hugepages numaclient_b;
  min_free ← lift (hugepages_checks topo_a topo_b pagesize_a pagesize_b pages_a pages_b);
  pagesize ← lift (or_raise TypeError pagesize_a);
  let ram := Z.quot (pagesize * min_free) 1024 in
  node0 ← lift (or_raise KeyError (dict_get topo_a 0));
  flavor ← create_flavor (VInt ram) (Z.of_nat (length node0)) flavor_volume_size
             (Some [("hw:numa_nodes", VStr "1"); ("hw:mem_page_size", VStr "large")]);
  server_a ← boot flavor [];
  server_b ← boot flavor (scheduler_hints "different_host" server_a);
  for_each (λ server_id, ok ← validate_hugepage_elements server_id pagesize; assert_that ok)
    [server_a; server_b];;
  pin_a ← get_server_cell_pinning server_a;
  pin_b ← get_server_cell_pinning server_b;
  assert_that (negb (bool_decide (pin_a = [])) && negb (bool_decide (pin_b = [])));;
  assert_that (bool_decide (list_to_map (M:=gmap Z (gset Z)) pin_a = list_to_map pin_b));;
  compute_a ← get_host_other_than server_b;
  live_migrate "os_primary" server_b "ACTIVE" (Some compute_a);;
  (ok ← validate_hugepage_elements server_b pagesize; assert_that ok);;
  pin_a ← get_server_cell_pinning server_a;
  pin_b ← get_server_cell_pinning server_b;
  cell_a ← lift (or_raise KeyError (dict_get pin_a 0));
  cell_b ← lift (if nonempty cell_a then or_raise KeyError (dict_get pin_b 0) else Ret ∅);
  assert_that (nonempty cell_a && nonempty cell_b);;
  assert_that (isdisjoint cell_a cell_b).

(** * NUMACPUDedicatedLiveMigrationTest *)
Definition dedicated_migration_skip_checks : P unit :=
  live_migration_skip_checks;;
  skip_unless (negb (dedicated_cpus_per_numa <? 2)%Z);;
  skip_unless (negb (shared_cpus_per_numa =? 0)%Z).

(** [self.create_test_server(clients=self.os_admin, flavor=..., host=...)] *)
Definition boot_on (flavor : val) (host : string) : P string :=
  boot flavor [("clients", VStr "os_admin"); ("host", VStr host)].

Definition check_dedicated (server : string) (host_sm : ServiceManager) : P unit :=
  cpu_dedicated_set ← get_cpu_dedicated_set host_sm;
  server_dedicated_cpus ← get_pinning_as_set server;
  assert_that (subset_of server_dedicated_cpus cpu_dedicated_set).

Definition check_shared (server : string) (host_sm : ServiceManager) : P unit :=
  cpu_shared_set ← get_cpu_shared_set host_sm;
  server_shared_cpus ← get_shared_cpuset server;
  assert_that (bool_decide (server_shared_cpus = cpu_shared_set)).

(** [APIVersionRequest(CONF.compute.max_microversion) < APIVersionRequest('2.96')] *)
Definition before_lp_bug_1869804_fix : P bool :=
  older ← api "APIVersionRequest.__lt__" [("self", VStr max_microversion); ("other", VStr "2.96")];
  mret (truthy older).

Definition test_collocation_migration : P unit :=
  let flavor_vcpu_size : Z := 1 in
  dedicated_flavor ← create_flavor_default flavor_vcpu_size (Some dedicated_cpu_policy);
  shared_flavor ← create_flavor_default flavor_vcpu_size None;
  dedicated_server_a ← boot dedicated_flavor [];
  host_a ← get_host_for_server dedicated_server_a;
  shared_server_a ← boot_on shared_flavor host_a;
  dedicated_server_b ← boot dedicated_flavor (scheduler_hints "different_host" dedicated_server_a);
  host_b ← get_host_for_server dedicated_server_b;
  shared_server_b ← boot_on shared_flavor host_b;
  host_sm_a ← NovaServiceManager_init host_a "nova-compute";
  host_sm_b ← NovaServiceManager_init host_b "nova-compute";
  for_each (λ '(server, host_sm), check_dedicated server host_sm)
    [(dedicated_server_a, host_sm_a); (dedicated_server_b, host_sm_b)];;
  for_each (λ '(server, host_sm), check_shared server host_sm)
    [(shared_server_a, host_sm_a); (shared_server_b, host_sm_b)];;
  live_migrate "os_admin" shared_server_a "ACTIVE" (Some host_b);;
  shared_set_a ← get_shared_cpuset shared_server_a;
  before_fix ← before_lp_bug_1869804_fix;
  host_shared_set ← get_cpu_shared_set (if (before_fix : bool) then host_sm_a else host_sm_b);
  assert_that (bool_decide (shared_set_a = host_shared_set));;
  live_migrate "os_admin" dedicated_server_a "ACTIVE" (Some host_b);;
  dedicated_pin_a ← get_pinning_as_set dedicated_server_a;
  dedicated_pin_b ← get_pinning_as_set dedicated_server_b;
  host_b_dedicated_set ← get_cpu_dedicated_set host_sm_b;
  host_b_shared_set ← get_cpu_shared_set host_sm_b;
  assert_that (subset_of dedicated_pin_a host_b_dedicated_set);;
  assert_that (isdisjoint dedicated_pin_a dedicated_pin_b);;
  assert_that (isdisjoint dedicated_pin_a host_b_shared_set).

(** * NUMARebuildTest *)
Definition test_in_place_rebuild : P unit :=
  flavor ← create_flavor_default 2 (Some prefer_thread_policy);
  server ← boot flavor [];
  db_topo_orig ← get_db_numa_topology server;
  host ← get_host_for_server server;
  body ← api "servers_client.rebuild_server"
           [("server_id", VStr server); ("image_ref", VStr image_ref_alt)];
  lift (vget body "server");;
  api "waiters.wait_for_server_status"
    [("client", VStr "servers_client"); ("server_id", VStr server); ("status", VStr "ACTIVE")];;
  host' ← get_host_for_server server;
  assert_that (bool_decide (host = host'));;
  db_topo_rebuilt ← get_db_numa_topology server;
  assert_that (py_eq db_topo_orig db_topo_rebuilt).

(** * MixedCPUPolicyTest *)
Definition mixed_cpu_policy : kwargs :=
  [("hw:cpu_policy", VStr "mixed"); ("hw:cpu_dedicated_mask", VStr "^0")].

Definition mixed_skip_checks : P unit := skip_unless (negb (shared_cpus_per_numa =? 0)%Z).

Definition set_size (X : gset Z) : Z := Z.of_nat (size X).

Definition test_shared_pinned_and_unpinned_guest : P unit :=
  flavor ← create_flavor_default 2 (Some mixed_cpu_policy);
  server ← boot flavor [];
  host ← get_host_for_server server;
  host_sm ← NovaServiceManager_init host "nova-compute";
  host_dedicated_cpus ← get_cpu_dedicated_set host_sm;
  host_shared_cpus ← get_cpu_shared_set host_sm;
  guest_shared_cpus ← get_host_pcpus_for_guest_vcpu server [0];
  assert_that (shared_cpus_per_numa =? set_size guest_shared_cpus)%Z;;
  assert_that (subset_of guest_shared_cpus host_shared_cpus);;
  guest_dedicated_cpus ← get_host_pcpus_for_guest_vcpu server [1];
  assert_that (1 =? set_size guest_dedicated_cpus)%Z;;
  assert_that (subset_of guest_dedicated_cpus host_dedicated_cpus).

(** * MixedCPUPolicyTestMultiNuma: 4 vCPUs, vCPU 0 shared and the others dedicated *)
Definition dedicated_guest_cpus_ids : list Z := drop 1 (seqZ 0 4).
Definition dedicated_cpu_count : Z := Z.of_nat (length dedicated_guest_cpus_ids).
Definition multi_numa_ram : Z := 1024.

Definition multi_numa_skip_checks : P unit :=
  mixed_skip_checks;;
  skip_unless (negb (dedicated_cpus_per_numa =? 0)%Z);;
  match cpu_topology with
  | None => raise SkipException
  | Some topology => skip_unless (negb (length topology <? 2)%nat)
  end.

Definition verify_multi_numa_guest (server_id : string) : P unit :=
  host ← get_host_for_server server_id;
  host_sm ← NovaServiceManager_init host "nova-compute";
  host_dedicated_cpus ← get_cpu_dedicated_set host_sm;
  host_shared_cpus ← get_cpu_shared_set host_sm;
  numa_nodes ← get_server_cell_pinning server_id;
  assert_that (2 =? length numa_nodes)%nat;;
  guest_shared_cpus ← get_host_pcpus_for_guest_vcpu server_id [0];
  assert_that (shared_cpus_per_numa =? set_size guest_shared_cpus)%Z;;
  assert_that (subset_of guest_shared_cpus host_shared_cpus);;
  dedicated_pin ← get_host_pcpus_for_guest_vcpu server_id dedicated_guest_cpus_ids;
  assert_that (subset_of dedicated_pin host_dedicated_cpus);;
  assert_that (dedicated_cpu_count =? set_size dedicated_pin)%Z;;
  assert_that (isdisjoint guest_shared_cpus dedicated_pin).

Definition numa_nodes_spec : kwargs := [("hw:numa_nodes", VStr "2")].

Definition test_symmetric_multi_numa : P unit :=
  flavor ← create_flavor_default 4 (Some (mixed_cpu_policy ++ numa_nodes_spec)%list);
  server ← boot flavor [];
  verify_multi_numa_guest server.

(** [str(int(self.ram * 0.25))] and [str(int(self.ram * 0.75))] of 1024 *)
Definition asymmetric_cpu_policy : kwargs :=
  (mixed_cpu_policy ++ numa_nodes_spec ++
   [("hw:numa_cpus.0", VStr "0");
    ("hw:numa_cpus.1", VStr (py_join "," (map py_str dedicated_guest_cpus_ids)));
    ("hw:numa_mem.0", VStr (py_str (Z.quot multi_numa_ram 4)));
    ("hw:numa_mem.1", VStr (py_str (Z.quot (3 * multi_numa_ram) 4)))])%list.

Definition test_asymmetric_multi_numa : P unit :=
  skip_unless (negb (dedicated_cpus_per_numa <? dedicated_cpu_count)%Z);;
  flavor ← create_flavor (VInt multi_numa_ram) 4 flavor_volume_size (Some asymmetric_cpu_policy);
  server ← boot flavor [];
  verify_multi_numa_guest server.
End numa_migration.

(** * Theorems *)

(** ** CPU pins recorded in the database *)

(** The pins of a cell as Nova stores them: guest CPU to host CPU. *)
Definition raw_pins (pins : list (string * Z)) : val := VDict (map (λ kv, (kv.1, VInt kv.2)) pins).

Definition cell_has (cell : val) (pins : list (string * Z)) : Prop :=
  vpath cell ["nova_object.data"; "cpu_pinning_raw"] = Ret (raw_pins pins).

Lemma raw_pins_values pins : omap_l as_int (map (λ kv : string * Z, (kv.1, VInt kv.2)) pins).*2 = Ret pins.*2.
Proof. induction pins as [|[k v] pins IH]; [done|]. cbn [map fmap list_fmap omap_l]. by rewrite IH. Qed.

Lemma pcpus_of_pins acc (cell_pins : list (Z * list (string * Z))) :
  ofold (λ pcpus (cp : Z * val), d ← as_dict cp.2; l ← omap_l as_int (d.*2); mret (pcpus ∪ list_to_set l))
    acc (map (λ cp, (cp.1, raw_pins cp.2)) cell_pins)
  = Ret (acc ∪ ⋃ (map (λ cp, values_set cp.2) cell_pins)).
Proof.
  revert acc. induction cell_pins as [|[c pins] l IH]; intros acc; cbn [map ofold].
  - f_equal. set_solver.
  - cbn [snd raw_pins as_dict mbind outcome_bind]. rewrite raw_pins_values. cbn [mbind outcome_bind].
    refine (eq_trans (IH _) _). f_equal. simpl. unfold values_set at 3. set_solver.
Qed.

Lemma cells_numbered cells pinss acc n :
  Forall2 cell_has cells pinss → (∀ k, k ∈ acc.*1 → k < n) →
  ofold (λ '(pins, cell_count) cell,
      raw ← vpath cell ["nova_object.data"; "cpu_pinning_raw"];
      mret (dict_set pins cell_count raw, cell_count + 1)) (acc, n) cells
  = Ret ((acc ++ map (λ cp, (cp.1, raw_pins cp.2)) (zip (seqZ n (Z.of_nat (length pinss))) pinss))%list,
         n + Z.of_nat (length pinss)).
Proof.
  intros H. revert acc n. induction H as [|cell pins cells pinss Hc _ IH]; intros acc n Hacc;
    cbn [ofold length].
  - simpl. by rewrite app_nil_r, Z.add_0_r.
  - rewrite Hc. cbn [mbind outcome_bind].
    refine (eq_trans (IH _ (n + 1) _) _).
    + intros k Hk%elem_of_dict_set_keys. destruct Hk as [->|Hk]; [lia|]. specialize (Hacc k Hk). lia.
    + rewrite dict_set_new by (intros Hn; specialize (Hacc n Hn); lia).
      rewrite (seqZ_cons n) by lia. rewrite Nat2Z.inj_succ.
      replace (Z.pred (Z.succ (Z.of_nat (length pinss)))) with (Z.of_nat (length pinss)) by lia.
      rewrite <-Z.add_1_r. f_equal. f_equal; [|lia]. cbn [zip_with map]. by rewrite <-app_assoc.
Qed.

(** C14: from a NUMA topology as Nova's database holds it, the host CPUs extracted
    are exactly those some cell pins a guest CPU to, with the cells numbered
    from 0 in their order. *)
Theorem db_pcpus_union topology cells pinss :
  vpath topology ["nova_object.data"; "cells"] = Ret (VList cells) →
  Forall2 cell_has cells pinss →
  ∃ pins, get_cpu_pins_from_db_topology topology = Ret pins ∧
    pins.*1 = seqZ 0 (Z.of_nat (length cells)) ∧ pins.*2 = map raw_pins pinss ∧
    get_pcpus_from_cpu_pins pins = Ret (⋃ (map values_set pinss)).
Proof.
  intros Ht Hc. unfold get_cpu_pins_from_db_topology. rewrite Ht. cbn [mbind outcome_bind as_list].
  rewrite (cells_numbered cells pinss [] 0 Hc) by set_solver. cbn [mbind outcome_bind].
  rewrite (Forall2_length _ _ _ Hc).
  assert (length (seqZ 0 (Z.of_nat (length pinss))) = length pinss) as Hlen.
  { rewrite length_seqZ. lia. }
  eexists. split; [done|]. rewrite app_nil_l. split_and!.
  - rewrite <-list_fmap_compose. change (fst ∘ _) with (@fst Z (list (string * Z))).
    by rewrite fst_zip by lia.
  - rewrite <-list_fmap_compose. change (snd ∘ _) with (raw_pins ∘ @snd Z (list (string * Z))).
    rewrite list_fmap_compose. by rewrite snd_zip by lia.
  - unfold get_pcpus_from_cpu_pins. rewrite pcpus_of_pins. f_equal. rewrite union_empty_l_L.
    f_equal. change (map (λ cp, values_set cp.2)) with (fmap (M:=list) (values_set ∘ @snd Z (list (string * Z)))).
    rewrite list_fmap_compose. by rewrite snd_zip by lia.
Qed.

(** ** When the hugepages test runs *)
Lemma foldl_min_spec f l : Forall (λ x, foldl Z.min f l <= x) (f :: l) ∧ foldl Z.min f l ∈ f :: l.
Proof.
  revert f. induction l as [|x l IH]; intros f; simpl; [split; [repeat constructor; lia|set_solver]|].
  destruct (IH (Z.min f x)) as [Hle Hin]. apply Forall_cons in Hle as [Hm Hl]. split.
  - repeat constructor; [lia|lia|done].
  - apply elem_of_cons in Hin as [Hin|Hin]; [|set_solver].
    destruct (Z.min_spec f x) as [[_ Hmin]|[_ Hmin]]; rewrite Hmin in Hin at 2; rewrite Hin; set_solver.
Qed.

Lemma set_size_one (l : list Z) :
  (size (list_to_set l : gset Z) =? 1)%nat = true → ∃ x, Forall (λ y, y = x) l.
Proof.
  intros Hs%Nat.eqb_eq. apply size_1_elem_of in Hs as [x Hx]. exists x.
  apply Forall_forall. intros y Hy. assert (y ∈ (list_to_set l : gset Z)) as Hin by set_solver.
  set_solver.
Qed.

Lemma skip_if_inv {A} (b : bool) (k : outcome A) a :
  ((if b then Exn SkipException else Ret tt) ;; k) = Ret a → b = false ∧ k = Ret a.
Proof. by destruct b. Qed.

(** C19: the hugepages test runs only on two hosts with the same page size and at
    least two NUMA nodes each, where all nodes have the same number of CPUs and
    the same non-zero number of hugepages, and where every node has at least
    [min_free] of them free, which is at least half of the total. *)
Theorem hugepages_checks_sound topo_a topo_b size_a size_b pages_a pages_b min_free :
  hugepages_checks topo_a topo_b size_a size_b pages_a pages_b = Ret min_free →
  size_a = size_b ∧ (2 <= length topo_a)%nat ∧ (2 <= length topo_b)%nat ∧
  (∃ cpus, Forall (λ node, Z.of_nat (length node.2) = cpus) (topo_a ++ topo_b)%list) ∧
  ∃ total, total ≠ 0 ∧ total <= 2 * min_free ∧
    Forall (λ p, p.2.1 = total ∧ min_free <= p.2.2) (pages_a ++ pages_b)%list ∧
    ∃ p, p ∈ (pages_a ++ pages_b)%list ∧ p.2.2 = min_free.
Proof.
  unfold hugepages_checks. cbv zeta.
  intros [Hz [Hlen [Hps [Hcpus [Htot H]%skip_if_inv]%skip_if_inv]%skip_if_inv]%skip_if_inv]%skip_if_inv.
  apply negb_false_iff in Hps, Hcpus, Htot. apply bool_decide_eq_true in Hps.
  apply orb_false_iff in Hlen as [Ha%Nat.ltb_ge Hb%Nat.ltb_ge].
  apply set_size_one in Htot as [total Htot]. apply set_size_one in Hcpus as [cpus Hcpus].
  rewrite <-fmap_app in H, Htot.
  destruct ((pages_a ++ pages_b)%list.*2.*2) as [|f l] eqn:Hfree; [done|].
  cbn [mbind outcome_bind] in H.
  destruct (dict_get pages_a 0) as [first|] eqn:Hfirst; [|done]. cbn [or_raise mbind outcome_bind] in H.
  apply (skip_if_inv _ (Ret _)) in H as [Hmin [= <-]]. apply Z.ltb_ge in Hmin.
  destruct (foldl_min_spec f l) as [Hle Hin]. rewrite <-Hfree in Hle, Hin.
  rewrite !Forall_fmap in Hle, Htot. rewrite Forall_forall in Hle, Htot.
  split_and!; [done|lia|lia| |].
  - exists cpus. simpl in Hcpus. rewrite app_nil_r, <-fmap_app, Forall_map, Forall_fmap in Hcpus. exact Hcpus.
  - exists total.
    assert (∃ k, (k, first) ∈ pages_a) as [k Hk].
    { clear -Hfirst. induction pages_a as [|[k v] d IH]; [done|]. simpl in Hfirst. case_decide.
      - simplify_eq. eexists. by left.
      - destruct (IH Hfirst) as [k' ?]. exists k'. by right. }
    assert (first.1 = total) as <-.
    { apply (Htot (k, first)). set_solver. }
    split_and!; [|done| |].
    + intros H0. assert (existsb (λ p : Z * (Z * Z), (p.2.1 =? 0)%Z) (pages_a ++ pages_b)%list = true) as Hex; [|congruence].
      apply existsb_exists. exists (k, first). split; [apply list_elem_of_In; set_solver|]. by apply Z.eqb_eq.
    + apply Forall_forall. intros p Hp. split; [by apply Htot|by apply Hle].
    + apply list_elem_of_fmap in Hin as ([t fr] & Heq & Hin).
      apply list_elem_of_fmap in Hin as (p & Heq' & Hin). exists p. split; [done|]. by rewrite <-Heq', Heq.
Qed.

(** The comparison with half of the total is not strict: with exactly half
    of the hugepages free everywhere the test goes on, although every node then
    has room for two guests of [min_free] pages. *)
Theorem hugepages_half_accepted :
  let topo := [(0, [0; 1]); (1, [2; 3])] in
  let pages := [(0, (4, 2)); (1, (4, 2))] in
  hugepages_checks topo topo (Some 2048) (Some 2048) pages pages = Ret 2 ∧ 2 + 2 <= 4.
Proof. split; [vm_compute; reflexivity|lia]. Qed.

(** ** What the tests establish when they pass *)
Section soundness.
Context {CONF : conf} {W : Type} `{C : cloud W}.
Implicit Types s : pystate W.

(** C17: when [_verify_multi_numa_guest] passes, the guest spans two host NUMA
    nodes, its vCPU 0 floats over exactly [shared_cpus_per_numa] CPUs of the
    host's shared set, vCPUs 1 to 3 occupy three CPUs of the dedicated set, and
    the two groups do not meet. *)
Theorem verify_multi_numa_guest_sound server_id s s' :
  verify_multi_numa_guest server_id s = (Ret tt, s') →
  ∃ host host_sm dedicated shared cells guest_shared guest_dedicated,
    passes s
      [get_host_for_server server_id ⇓ host; NovaServiceManager_init host "nova-compute" ⇓ host_sm;
       get_cpu_dedicated_set host_sm ⇓ dedicated; get_cpu_shared_set host_sm ⇓ shared;
       get_server_cell_pinning server_id ⇓ cells;
       get_host_pcpus_for_guest_vcpu server_id [0] ⇓ guest_shared;
       get_host_pcpus_for_guest_vcpu server_id [1; 2; 3] ⇓ guest_dedicated] s' ∧
    length cells = 2%nat ∧
    guest_shared ⊆ shared ∧ Z.of_nat (size guest_shared) = shared_cpus_per_numa ∧
    guest_dedicated ⊆ dedicated ∧ size guest_dedicated = 3%nat ∧ guest_shared ## guest_dedicated.
Proof.
  unfold verify_multi_numa_guest, subset_of, isdisjoint, set_size. intros H. run_ret H. read_facts.
  match goal with E : dedicated_cpu_count = _ |- _ => change dedicated_cpu_count with 3 in E end.
  eexists _, _, _, _, _, _, _. split; [walk|]. split_and!; try assumption; lia.
Qed.

(** C18: when [test_collocation_migration] passes, dedicated server A was found on
    the host of dedicated server B after its migration, pinned to dedicated CPUs
    of that host, none of which serve server B or belong to the shared set. *)
Theorem test_collocation_migration_sound s s' :
  test_collocation_migration s = (Ret tt, s') →
  ∃ flavor server_a server_b host_b host_sm_b orig host pin_a pin_b dedicated shared,
    passes s
      [boot flavor [] ⇓ server_a;
       boot flavor (scheduler_hints "different_host" server_a) ⇓ server_b;
       get_host_for_server server_b ⇓ host_b;
       NovaServiceManager_init host_b "nova-compute" ⇓ host_sm_b;
       get_host_for_server server_a ⇓ orig; get_host_for_server server_a ⇓ host;
       get_pinning_as_set server_a ⇓ pin_a; get_pinning_as_set server_b ⇓ pin_b;
       get_cpu_dedicated_set host_sm_b ⇓ dedicated; get_cpu_shared_set host_sm_b ⇓ shared] s' ∧
    (host_b ≠ "" → host = host_b) ∧
    pin_a ⊆ dedicated ∧ pin_a ## pin_b ∧ pin_a ## shared.
Proof.
  unfold test_collocation_migration, subset_of, isdisjoint. cbv zeta. intros H. run_ret H. read_facts.
  match goal with
  | Ea : boot _ [] _ = (Ret ?a, _), Em : live_migrate _ ?a _ _ _ = _,
    Eh : get_host_for_server _ _ = (Ret ?h, _), En : NovaServiceManager_init ?h _ _ = (Ret ?m, _),
    Ed : get_cpu_dedicated_set ?m _ = _ |- _ =>
      apply live_migrate_passes in Em as (orig & host & Hp & Hhost);
      eexists _, a, _, h, m, orig, host, _, _, _, _
  end.
  split; [walk|by split_and!].
Qed.
End soundness.

(** * Witnesses *)
Definition db_cell (pins : list (string * Z)) : val :=
  VDict [("nova_object.data", VDict [("cpu_pinning_raw", raw_pins pins)])].

Lemma db_pcpus_union_witness :
  ∃ pins, get_pcpus_from_cpu_pins pins = Ret (⋃ (map values_set [[("0", 2); ("1", 3)]; [("2", 6)]])).
Proof.
  destruct (db_pcpus_union
    (VDict [("nova_object.data", VDict [("cells", VList [db_cell [("0", 2); ("1", 3)]; db_cell [("2", 6)]])])])
    [db_cell [("0", 2); ("1", 3)]; db_cell [("2", 6)]] [[("0", 2); ("1", 3)]; [("2", 6)]])
    as (pins & _ & _ & _ & H).
  - reflexivity.
  - repeat constructor.
  - by exists pins.
Defined.

Lemma hugepages_checks_sound_witness : ∃ total, total ≠ 0 ∧ total <= 2 * 3.
Proof.
  destruct (hugepages_checks_sound [(0, [0; 1]); (1, [2; 3])] [(0, [0; 1]); (1, [2; 3])]
    (Some 2048) (Some 2048) [(0, (4, 4)); (1, (4, 3))] [(0, (4, 4)); (1, (4, 4))] 3)
    as (_ & _ & _ & _ & total & H0 & H1 & _).
  - vm_compute. reflexivity.
  - by exists total.
Defined.

Definition numa_pin (vcpu cpuset : string) : elem :=
  Elem "vcpupin" [("vcpu", vcpu); ("cpuset", cpuset)] None [].
Definition memnode (cell node : string) : elem :=
  Elem "memnode" [("cellid", cell); ("nodeset", node)] None [].
Definition numa_domain (pins : list elem) : elem :=
  Elem "domain" [] None
    [Elem "vcpu" [("cpuset", "4-5")] None [];
     Elem "numatune" [] None [memnode "0" "0"; memnode "1" "1"]; Elem "cputune" [] None pins].
Definition numa_yaml : val :=
  VDict [("compute-0", VDict [("services", VDict
    [("libvirt", VDict []);
     ("nova-compute", VDict [("config_path", VStr "/etc/nova/nova-cpu.conf")])])])].
Definition migration_env : cloud sim :=
  sim_cloud (λ _, false)
    [("<mixed/>", numa_domain [numa_pin "0" "4-5"; numa_pin "1" "0"; numa_pin "2" "1"; numa_pin "3" "2"]);
     ("<da/>", numa_domain [numa_pin "0" "0"]); ("<db/>", numa_domain [numa_pin "0" "1"]);
     ("<sh/>", numa_domain [])] numa_yaml.
Definition migration_state (names : list string) : pystate sim :=
  mkState None [] (mkSim 0
    (<[("compute", "cpu_dedicated_set") := "0-3"]> {[("compute", "cpu_shared_set") := "4-5"]}) true
    [("sudo virsh dumpxml mixed", "<mixed/>"); ("sudo virsh dumpxml da", "<da/>");
     ("sudo virsh dumpxml db", "<db/>"); ("sudo virsh dumpxml sh", "<sh/>")]
    (("admin_servers_client.live_migrate_server", VNone) ::
     ("APIVersionRequest.__lt__", VBool false) :: pinning_bodies names) []).

Lemma verify_multi_numa_guest_sound_witness :
  ∃ cells : list (Z * gset Z), length cells = 2%nat.
Proof.
  destruct (verify_multi_numa_guest_sound (CONF:=sim_CONF) (C:=migration_env) "server-1"
    (migration_state ["mixed"])
    (verify_multi_numa_guest (CONF:=sim_CONF) (C:=migration_env) "server-1" (migration_state ["mixed"])).2)
    as (_ & _ & _ & _ & cells & _ & _ & _ & Hc & _).
  - vm_compute. reflexivity.
  - by exists cells.
Defined.

Lemma test_collocation_migration_sound_witness :
  ∃ pin_a pin_b : gset Z, pin_a ## pin_b.
Proof.
  destruct (test_collocation_migration_sound (CONF:=sim_CONF) (C:=migration_env)
    (migration_state ["da"; "db"; "sh"; "sh"; "sh"; "da"; "db"])
    (test_collocation_migration (CONF:=sim_CONF) (C:=migration_env)
       (migration_state ["da"; "db"; "sh"; "sh"; "sh"; "da"; "db"])).2)
    as (_ & _ & _ & _ & _ & _ & _ & pin_a & pin_b & _ & _ & _ & _ & _ & H & _).
  - vm_compute. reflexivity.
  - by exists pin_a, pin_b.
Defined.
