(* ===== verification/Evacuation.v ===== *)
(** api/compute/test_server_evacuation.py and test_live_migration.py: servers that
    leave a host whose compute service is down, and servers that are migrated
    while they run. *)
From Stdlib Require Import Ascii String.
From S2P Require Import Prelude PyString PyVal Xml Env Sim Hardware Utils Waiters Clients ServiceManager ComputeBase Trace NumaHelper Pinning.
#[local] Open Scope string_scope.

Section evacuation.
Context {CONF : conf} {W : Type} `{C : cloud W}.
Context (fuel : nat).
Abbreviation P := (M (pystate W)).

Definition evacuation_skip_checks : P unit := skip_unless (negb (min_compute_nodes <? 2)%Z).

Definition nova_compute (host : string) : P ServiceManager := NovaServiceManager_init host "nova-compute".

(** [self.os_admin.servers_client.show_server(server_id)['server']] *)
Definition show_server (server_id : string) : P val :=
  body ← api "os_admin.servers_client.show_server" [("server_id", VStr server_id)];
  lift (vget body "server").

(** The block every test runs while the compute service of the source host is stopped. *)
Definition evacuate_while_stopped (svc : ServiceManager) (server : val) (host_a server_id : string)
    (args : kwargs) : P unit :=
  with_cm (stopped fuel svc)
    (shutdown_server_domain fuel server host_a;;
     evacuate_server fuel server_id args).

Definition assert_status (server : val) (status : string) : P unit :=
  found ← lift (vget server "status");
  assert_that (py_eq found (VStr status)).

(** [server['os-extended-volumes:volumes_attached'][0]['id']] *)
Definition first_volume (server : val) : outcome val :=
  attached ← vget server "os-extended-volumes:volumes_attached";
  first ← vnth attached 0;
  vget first "id".

(** The end of the tests: where the server is, and in which state. *)
Definition check_evacuated (server_id host_a status : string) : P val :=
  host ← get_host_for_server server_id;
  assert_that (negb (bool_decide (host = host_a)));;
  server ← show_server server_id;
  assert_status server status;;
  mret server.

Definition test_evacuate_to (status : string) : P unit :=
  server ← create_test_server [("wait_until", VStr "ACTIVE")];
  server_id ← id_of server;
  host_a ← get_host_for_server server_id;
  host_a_svc ← nova_compute host_a;
  evacuate_while_stopped host_a_svc server host_a server_id [];;
  check_evacuated server_id host_a status;;
  mret tt.

Definition test_evacuate_to_shutoff : P unit := test_evacuate_to "SHUTOFF".
(** of ServerEvacuationV294 *)
Definition test_evacuate_to_active : P unit := test_evacuate_to "ACTIVE".

Definition test_evacuate_with_target_host : P unit :=
  server ← create_test_server [("wait_until", VStr "ACTIVE")];
  server_id ← id_of server;
  host_a ← get_host_for_server server_id;
  host_b ← get_host_other_than server_id;
  host_a_svc ← nova_compute host_a;
  evacuate_while_stopped host_a_svc server host_a server_id [("host", VStr host_b)];;
  host ← get_host_for_server server_id;
  assert_that (bool_decide (host = host_b));;
  server ← show_server server_id;
  assert_status server "SHUTOFF".

Definition test_evacuate_attached_vol : P unit :=
  server ← create_test_server [("wait_until", VStr "ACTIVE")];
  server_id ← id_of server;
  volume ← api "BaseV2ComputeAdminTest.create_volume" [];
  vol_id ← lift (vget volume "id");
  attachment ← api "BaseV2ComputeAdminTest.attach_volume" [("server", server); ("volume", volume)];
  attached_id ← lift (vget attachment "volumeId");
  api "waiters.wait_for_volume_resource_status"
    [("client", VStr "volumes_client"); ("volume_id", attached_id); ("status", VStr "in-use")];;
  host_a ← get_host_for_server server_id;
  server ← show_server server_id;
  before ← lift (first_volume server);
  assert_that (py_eq before vol_id);;
  host_a_svc ← nova_compute host_a;
  evacuate_while_stopped host_a_svc server host_a server_id [];;
  server ← check_evacuated server_id host_a "SHUTOFF";
  after ← lift (first_volume server);
  assert_that (py_eq after vol_id).

Definition test_evacuate_bfv_server : P unit :=
  server ← create_test_server
    [("volume_backed", VBool true); ("wait_until", VStr "ACTIVE"); ("name", VStr "bfv-server")];
  server_id ← id_of server;
  host_a ← get_host_for_server server_id;
  host_a_svc ← nova_compute host_a;
  server ← show_server server_id;
  vol_id ← lift (first_volume server);
  evacuate_while_stopped host_a_svc server host_a server_id [];;
  server ← check_evacuated server_id host_a "SHUTOFF";
  after ← lift (first_volume server);
  assert_that (py_eq after vol_id).

(** * LiveMigrationBase *)
Definition live_migration_base_skip_checks : P unit :=
  skip_unless live_migration_enabled;;
  skip_unless (negb (min_compute_nodes <? 2)%Z).

(** The local function of the same name *)
Definition root_disk_cache (server_id : string) : P string :=
  domain ← get_server_xml server_id;
  driver ← lift (or_raise AttributeError
    (find domain [Child "devices"; Child "disk"; Child "target"; AttrIs "dev" "vda"; Parent;
                  Child "driver"]));
  lift (or_raise KeyError (elem_get driver "cache")).

(** The second decorator, [utils.services('volume')], is tempest's and not part of it. *)
Definition test_volume_backed_live_migration : P unit :=
  skip_unless volume_backed_live_migration;;
  server ← create_test_server [("wait_until", VStr "ACTIVE"); ("volume_backed", VBool true)];
  server_id ← id_of server;
  cache_type ← root_disk_cache server_id;
  live_migrate "os_primary" server_id "ACTIVE" None;;
  cache ← root_disk_cache server_id;
  assert_that (bool_decide (cache_type = cache)).

Definition test_live_migrate_and_reboot : P unit :=
  flavor ← create_flavor_default 2 (Some [("hw:cpu_policy", VStr "dedicated")]);
  server ← boot flavor [];
  pinned_cpus_pre_migration ← get_pinning_as_set server;
  live_migrate "os_primary" server "ACTIVE" None;;
  pinned_cpus_post_migration ← get_pinning_as_set server;
  assert_that (isdisjoint pinned_cpus_post_migration pinned_cpus_pre_migration);;
  reboot_server server "SOFT";;
  pinned_cpus_post_reboot ← get_pinning_as_set server;
  assert_that (bool_decide (pinned_cpus_post_migration = pinned_cpus_post_reboot)).
End evacuation.

(** * Theorems *)
Section evacuation_theorems.
Context {CONF : conf} {W : Type} `{C : cloud W} `{L : !lawful_clock W}.
Implicit Types s : pystate W.

Lemma nova_compute_class host s svc s' :
  nova_compute host s = (Ret svc, s') →
  monitored svc = Some (host, "nova-compute", "state") ∧ up_value svc = "up".
Proof.
  unfold nova_compute, NovaServiceManager_init, ServiceManager_init. intros H. run_ret H.
  by injection H as <- <-.
Qed.

Lemma evacuate_while_stopped_run fuel svc host server host_a server_id args s s' :
  enough fuel → monitored svc = Some (host, "nova-compute", "state") → up_value svc = "up" →
  evacuate_while_stopped fuel svc server host_a server_id args s = (Ret tt, s') →
  reports host "nova-compute" "state" "up" s'.
Proof.
  intros Hf Hm Hu H. unfold evacuate_while_stopped, with_cm, with_as in H.
  apply bind_Ret_inv in H as ([] & s1 & _ & H). unfold try_finally in H.
  destruct ((shutdown_server_domain fuel server host_a;; evacuate_server fuel server_id args) s1)
    as [[[]|e|] s2]; cbn [cm_exit stopped] in H;
    destruct (start fuel svc s2) as [[[]|e'|] s3] eqn:E; simplify_eq.
  rewrite <-Hu. by eapply start_reports.
Qed.

(** C20: when an evacuation test passes, the compute service of the source host
    is reported up again by the time the server's host is looked up, that host
    is not the source host, and the server is in the state expected of an
    evacuated server. *)
Theorem test_evacuate_to_sound fuel status s s' :
  enough fuel → test_evacuate_to fuel status s = (Ret tt, s') →
  ∃ created server_id host_a svc s1 host server found,
    passes s [create_test_server [("wait_until", VStr "ACTIVE")] ⇓ created; id_of created ⇓ server_id;
              get_host_for_server server_id ⇓ host_a; nova_compute host_a ⇓ svc] s1 ∧
    reports host_a "nova-compute" "state" "up" s1 ∧
    passes s1 [get_host_for_server server_id ⇓ host; show_server server_id ⇓ server] s' ∧
    host ≠ host_a ∧ vget server "status" = Ret found ∧ py_eq found (VStr status) = true.
Proof.
  intros Hf H. unfold test_evacuate_to in H. run_ret H. injection H as <-.
  match goal with
  | En : nova_compute ?h _ = _, Ev : evacuate_while_stopped _ _ _ _ ?i _ _ = (Ret ?u, ?s1),
    Ec : check_evacuated ?i ?h _ ?s1 = _ |- _ =>
      destruct u; pose proof (nova_compute_class _ _ _ _ En) as [Hm Hu];
      pose proof (evacuate_while_stopped_run _ _ _ _ _ _ _ _ _ Hf Hm Hu Ev) as Hup;
      unfold check_evacuated, assert_status in Ec; run_ret Ec; injection Ec as <- <-;
      repeat match goal with E : (_ ≫= _) _ = (Ret _, _) |- _ => run_ret E end; read_facts;
      eexists _, i, h, _, s1, _, _, _
  end.
  split_and!; [walk|exact Hup|walk|done..].
Qed.

(** When [test_live_migrate_and_reboot] passes, the server was seen on
    another host than before after the migration, none of its CPUs there is one
    it was pinned to before, and the reboot kept its CPUs. *)
Theorem test_live_migrate_and_reboot_sound s s' :
  test_live_migrate_and_reboot s = (Ret tt, s') →
  ∃ flavor server orig host pre post,
    passes s
      [boot flavor [] ⇓ server; get_pinning_as_set server ⇓ pre;
       get_host_for_server server ⇓ orig; get_host_for_server server ⇓ host;
       get_pinning_as_set server ⇓ post; reboot_server server "SOFT" ⇓ tt;
       get_pinning_as_set server ⇓ post] s' ∧
    orig ≠ host ∧ post ## pre.
Proof.
  unfold test_live_migrate_and_reboot, isdisjoint. intros H. run_ret H. read_facts. subst.
  match goal with
  | Em : live_migrate _ _ _ _ _ = _ |- _ => apply live_migrate_passes in Em as (orig & host & Hp & Hne)
  end.
  eexists _, _, orig, host, _, _. split; [walk|done].
Qed.
End evacuation_theorems.

(** * Witnesses *)
Definition evacuation_yaml : val :=
  VDict [("compute-0", VDict [("services", VDict
    [("libvirt", VDict []);
     ("nova-compute", VDict [("start_command", VStr "systemctl start devstack@n-cpu");
                             ("stop_command", VStr "systemctl stop devstack@n-cpu")])])])].
Definition evacuation_env : cloud sim := sim_cloud (λ _, false) [] evacuation_yaml.
Definition evacuation_state : pystate sim :=
  mkState None [] (mkSim 0 ∅ true
    [("sudo virsh shutdown one", ""); ("sudo virsh list --name", "other")]
    [("BaseV2ComputeAdminTest.create_test_server", VDict [("id", VStr "server-1")]);
     ("BaseV2ComputeAdminTest.get_host_for_server", VStr "compute-0");
     ("BaseV2ComputeAdminTest.get_host_for_server", VStr "compute-1");
     ("admin_servers_client.show_server", named_server "one");
     ("admin_servers_client.evacuate_server", VNone);
     ("migrations_client.list_migrations",
      VDict [("migrations", VList [VDict [("status", VStr "done")]])]);
     ("os_admin.servers_client.show_server",
      VDict [("server", VDict [("status", VStr "SHUTOFF")])])] []).

Lemma test_evacuate_to_sound_witness :
  ∃ host_a host : string, host ≠ host_a.
Proof.
  destruct (test_evacuate_to_sound (CONF:=sim_CONF) (C:=evacuation_env)
    (L:=sim_lawful_clock (λ _, false) [] evacuation_yaml) 12 "SHUTOFF" evacuation_state
    (test_evacuate_to (CONF:=sim_CONF) (C:=evacuation_env) 12 "SHUTOFF" evacuation_state).2)
    as (_ & _ & a & _ & _ & h & _ & _ & _ & _ & _ & Hne & _).
  - repeat split; simpl; lia.
  - vm_compute. reflexivity.
  - by exists a, h.
Defined.

Definition reboot_state : pystate sim :=
  mkState None [] (mkSim 0 ∅ true
    [("sudo virsh dumpxml one", "<one/>"); ("sudo virsh dumpxml two", "<two/>")]
    (("BaseV2ComputeAdminTest.get_host_for_server", VStr "compute-1") ::
     ("admin_servers_client.live_migrate_server", VNone) ::
     pinning_bodies ["one"; "two"; "two"]) []).

Lemma test_live_migrate_and_reboot_sound_witness :
  ∃ pre post : gset Z, post ## pre.
Proof.
  destruct (test_live_migrate_and_reboot_sound (CONF:=sim_CONF) (C:=pinning_env) reboot_state
    (test_live_migrate_and_reboot (CONF:=sim_CONF) (C:=pinning_env) reboot_state).2)
    as (_ & _ & _ & _ & pre & post & _ & _ & Hd).
  - vm_compute. reflexivity.
  - by exists pre, post.
Defined.
