(* ===== verification/Hugepages.v ===== *)
(** api/compute/test_hugepages.py: resizing guests between hugepage sizes. *)
From Stdlib Require Import Ascii String.
From S2P Require Import Prelude PyString PyVal Xml Env Sim Hardware Utils Clients ComputeBase Trace Pinning.
#[local] Open Scope string_scope.

Section hugepages.
Context {CONF : conf} {W : Type} `{C : cloud W}.
Abbreviation P := (M (pystate W)).

Definition hugepage_skip_checks : P unit :=
  skip_unless (negb (length configured_hugepage_sizes =? 0)%nat).

Definition get_xml_hugepage_size (server_id : string) : P Z :=
  huge_pages_list ← get_hugepage_xml_element server_id;
  match huge_pages_list with
  | [huge_page_xml] => lift (or_raise KeyError (elem_get huge_page_xml "size") ≫= int_of)
  | _ => raise AssertionFailure
  end.

(** [self.create_flavor(ram=str(...), extra_specs={'hw:mem_page_size': page_size})] *)
Definition create_page_flavor (page_size : string) : P val :=
  create_flavor (VStr (py_str hugepage_guest_ram_size)) 2 flavor_volume_size
    (Some [("hw:mem_page_size", VStr page_size)]).

(** [min(l)] *)
Definition py_min (l : list Z) : outcome Z :=
  match l with [] => Exn ValueError | x :: l' => Ret (foldl Z.min x l') end.

Definition test_hugepage_resize_large_to_small : P unit :=
  flavor_a ← create_page_flavor "large";
  server ← boot flavor_a [];
  large_page_size ← get_xml_hugepage_size server;
  minimum_pagesize_threshold ← lift (py_min configured_hugepage_sizes);
  assert_that (minimum_pagesize_threshold <=? large_page_size)%Z;;
  flavor_b ← create_page_flavor "small";
  resize_server server flavor_b;;
  resize_server server flavor_a;;
  large_page_size ← get_xml_hugepage_size server;
  assert_that (minimum_pagesize_threshold <=? large_page_size)%Z.

(** One round of [test_hugepage_resize_size_to_small]. *)
Definition resize_size_to_small (flavor_small : val) (page_size : Z) : P unit :=
  flavor_a ← create_page_flavor (py_str page_size);
  server ← boot flavor_a [];
  size_found ← get_xml_hugepage_size server;
  assert_that (page_size =? size_found)%Z;;
  resize_server server flavor_small;;
  resize_server server flavor_a;;
  size_found ← get_xml_hugepage_size server;
  assert_that (page_size =? size_found)%Z;;
  api "BaseV2ComputeAdminTest.delete_server" [("server_id", VStr server)];;
  mret tt.

Definition test_hugepage_resize_size_to_small : P unit :=
  flavor_small ← create_page_flavor "small";
  for_each (resize_size_to_small flavor_small) configured_hugepage_sizes.

(** The unpacking takes exactly two sizes, the guard only asks for more than one. *)
Definition test_hugepage_resize_size_to_size : P unit :=
  skip_unless (1 <? length configured_hugepage_sizes)%nat;;
  '(start_size, target_size) ← match configured_hugepage_sizes with
                               | [a; b] => mret (a, b)
                               | _ => raise ValueError
                               end;
  flavor_a ← create_page_flavor (py_str start_size);
  server ← boot flavor_a [];
  size_found ← get_xml_hugepage_size server;
  assert_that (start_size =? size_found)%Z;;
  flavor_b ← create_page_flavor (py_str target_size);
  resize_server server flavor_b;;
  size_found ← get_xml_hugepage_size server;
  assert_that (target_size =? size_found)%Z;;
  resize_server server flavor_a;;
  size_found ← get_xml_hugepage_size server;
  assert_that (start_size =? size_found)%Z.
End hugepages.

(** * Theorems *)
Section hugepage_theorems.
Context {CONF : conf} {W : Type} `{C : cloud W}.
Implicit Types s : pystate W.

(** [test_hugepage_resize_size_to_size] is skipped with fewer than two
    configured sizes, and with three or more it raises ValueError before it
    creates anything, although its guard lets it run. *)
Theorem resize_size_to_size_needs_two s :
  length configured_hugepage_sizes ≠ 2%nat →
  test_hugepage_resize_size_to_size s =
  (Exn (if (1 <? length configured_hugepage_sizes)%nat then ValueError else SkipException), s).
Proof.
  intros Hl. unfold test_hugepage_resize_size_to_size.
  by destruct configured_hugepage_sizes as [|a [|b [|c l]]].
Qed.

(** When [test_hugepage_resize_size_to_size] passes, exactly two sizes are
    configured and the guest was backed by pages of the first size, then of the
    second one after the resize, then of the first one again. *)
Theorem resize_size_to_size_sound s s' :
  test_hugepage_resize_size_to_size s = (Ret tt, s') →
  ∃ start target flavor_a flavor_b server,
    configured_hugepage_sizes = [start; target] ∧
    passes s
      [create_page_flavor (py_str start) ⇓ flavor_a; boot flavor_a [] ⇓ server;
       get_xml_hugepage_size server ⇓ start;
       create_page_flavor (py_str target) ⇓ flavor_b; resize_server server flavor_b ⇓ tt;
       get_xml_hugepage_size server ⇓ target;
       resize_server server flavor_a ⇓ tt; get_xml_hugepage_size server ⇓ start] s'.
Proof.
  unfold test_hugepage_resize_size_to_size. intros H. apply bind_Ret_inv in H as ([] & s0 & Es & H).
  destruct configured_hugepage_sizes as [|a [|b [|c l]]] eqn:Hsizes; try done.
  apply bind_Ret_inv in H as ([x y] & sx & Exy & H). injection Exy as <- <- <-.
  run_ret H. read_facts. subst. eexists _, _, _, _, _. split; [done|]. walk.
Qed.
End hugepage_theorems.

(** * Witnesses *)
Definition three_sizes_CONF : conf := mk_sim_CONF_with [2048; 65536; 1048576] "journalctl" false false.
Definition hugepage_domain (size : string) : elem :=
  Elem "domain" [] None [Elem "memoryBacking" [] None
    [Elem "hugepages" [] None [Elem "page" [("size", size); ("unit", "KiB")] None []]]].
Definition hugepage_env : cloud sim :=
  sim_cloud (λ _, false)
    [("<one/>", hugepage_domain "2048"); ("<two/>", hugepage_domain "1048576")] pinning_yaml.

Lemma resize_size_to_size_needs_two_witness :
  test_hugepage_resize_size_to_size (CONF:=three_sizes_CONF) (C:=hugepage_env) (pinning_state []) =
  (Exn ValueError, pinning_state []).
Proof.
  rewrite (resize_size_to_size_needs_two (CONF:=three_sizes_CONF) (C:=hugepage_env)); [reflexivity|].
  simpl. lia.
Defined.

Lemma resize_size_to_size_sound_witness :
  ∃ start target, configured_hugepage_sizes (conf:=sim_CONF) = [start; target].
Proof.
  destruct (resize_size_to_size_sound (CONF:=sim_CONF) (C:=hugepage_env)
    (pinning_state ["one"; "two"; "one"])
    (test_hugepage_resize_size_to_size (CONF:=sim_CONF) (C:=hugepage_env)
       (pinning_state ["one"; "two"; "one"])).2)
    as (start & target & _ & _ & _ & Hsizes & _).
  - vm_compute. reflexivity.
  - by exists start, target.
Defined.
