(* ===== verification/HostFeatures.v ===== *)
(** api/compute/test_file_backed_memory.py and test_cpu_state_mgmt.py: guests backed
    by file memory, and the dedicated CPUs Nova keeps offline. *)
From Stdlib Require Import Ascii String.
From S2P Require Import Prelude PyString PyVal Xml Env Sim Hardware Utils Clients ServiceManager ComputeBase Trace Pinning.
#[local] Open Scope string_scope.

Section file_backed_memory.
Context {CONF : conf} {W : Type} `{C : cloud W}.
Context (fuel : nat).
Abbreviation P := (M (pystate W)).

Definition file_backed_skip_checks : P unit :=
  skip_unless (negb (file_backed_memory_size =? 0)%Z);;
  skip_unless (negb (min_compute_nodes <? 2)%Z).

(** [setUp]: the flavor the tests resize to *)
Definition file_backed_setUp : P val := create_flavor (VInt 256) 2 flavor_volume_size None.

Definition assert_shared_mode_and_file_type (server_id : string) : P unit :=
  root ← get_server_xml server_id;
  let source_type := find root [Child "memoryBacking"; Child "source"] in
  let access_mode := find root [Child "memoryBacking"; Child "access"] in
  source_type ← lift (or_raise AttributeError source_type);
  assert_that (bool_decide (elem_get source_type "type" = Some "file"));;
  access_mode ← lift (or_raise AttributeError access_mode);
  assert_that (bool_decide (elem_get access_mode "mode" = Some "shared")).

Definition file_backed_options : list (string * string * val) :=
  [("libvirt", "file_backed_memory", VInt file_backed_memory_size);
   ("DEFAULT", "ram_allocation_ratio", VStr "1")].

Definition test_resize_file_backed_server_on_diff_host (new_flavor : val) : P unit :=
  config_all_computes fuel file_backed_options
    (server ← create_test_server [("wait_until", VStr "ACTIVE")];
     server_id ← id_of server;
     assert_shared_mode_and_file_type server_id;;
     resize_server server_id new_flavor;;
     assert_shared_mode_and_file_type server_id).

Definition test_live_migrate_file_backed_server : P unit :=
  config_all_computes fuel file_backed_options
    (server ← create_test_server [("wait_until", VStr "ACTIVE")];
     server_id ← id_of server;
     assert_shared_mode_and_file_type server_id;;
     live_migrate "os_primary" server_id "ACTIVE" None;;
     assert_shared_mode_and_file_type server_id).

(** The call the last test expects to be rejected *)
Definition live_migrate_to (server_id dest : string) : P val :=
  api "admin_servers_client.live_migrate_server" [("server_id", VStr server_id); ("host", VStr dest)].

Definition test_live_migrate_non_file_backed_host_to_file_backed_host : P unit :=
  server ← create_test_server [("wait_until", VStr "ACTIVE")];
  server_id ← id_of server;
  dest ← get_host_other_than server_id;
  dest_svc_mgr ← NovaServiceManager_init dest "nova-compute";
  with_cm (config_options fuel dest_svc_mgr file_backed_options)
    (assert_raises is_BadRequest (live_migrate_to server_id dest);; mret tt).
End file_backed_memory.

Section cpu_state.
Context {CONF : conf} {W : Type} `{C : cloud W}.
Abbreviation P := (M (pystate W)).

Definition cpu_state_skip_checks : P unit := skip_unless cpu_power_management.

Definition cpu_state_setUp : P val :=
  create_flavor_default 1 (Some [("hw:cpu_policy", VStr "dedicated")]).

(** [hardware.parse_cpu_spec(sysfsclient.get_sysfs_value('devices/system/cpu/...'))] *)
Definition sysfs_cpus (sysfsclient : SSHClient) (name : string) : P (gset Z) :=
  value ← get_sysfs_value sysfsclient ("devices/system/cpu/" ++ name);
  lift (parse_cpu_spec value).

Definition test_cpu_state (flavor : val) : P unit :=
  hosts ← list_compute_hosts;
  host ← lift (or_raise IndexError (hosts !! 0%nat));
  sysfsclient ← SSHClient_init host;
  sm ← NovaServiceManager_init host "nova-compute";
  dedicated_cpus ← get_cpu_dedicated_set sm;
  shared_cpus ← get_cpu_shared_set sm;
  let dedicated_cpus := dedicated_cpus ∖ {[0]} in
  skip_unless (negb (size dedicated_cpus <? 2)%nat);;
  online ← sysfs_cpus sysfsclient "online";
  assert_that (bool_decide (shared_cpus ⊆ online));;
  offline_before ← sysfs_cpus sysfsclient "offline";
  assert_that (bool_decide (dedicated_cpus = offline_before));;
  flavor_id ← lift (vget flavor "id");
  server ← create_test_server
    [("clients", VStr "os_admin"); ("flavor", flavor_id); ("host", VStr host);
     ("wait_until", VStr "ACTIVE")];
  offline_after ← sysfs_cpus sysfsclient "offline";
  assert_that (bool_decide (offline_after ⊂ offline_before));;
  server_id ← id_of server;
  api "os_admin.servers_client.delete_server" [("server_id", VStr server_id)];;
  api "waiters.wait_for_server_termination"
    [("client", VStr "os_admin.servers_client"); ("server_id", VStr server_id)];;
  offline_final ← sysfs_cpus sysfsclient "offline";
  assert_that (bool_decide (offline_before = offline_final)).
End cpu_state.

(** * Theorems *)
Section host_feature_theorems.
Context {CONF : conf} {W : Type} `{C : cloud W}.
Implicit Types s : pystate W.

(** The domain shares memory that comes from files. *)
Definition file_backed (root : elem) : Prop :=
  (λ e, elem_get e "type") <$> find root [Child "memoryBacking"; Child "source"] = Some (Some "file") ∧
  (λ e, elem_get e "mode") <$> find root [Child "memoryBacking"; Child "access"] = Some (Some "shared").

(** [_assert_shared_mode_and_file_type] passes exactly when the domain's
    memory backing has a [source] of type file and an [access] of mode shared. *)
Theorem assert_shared_mode_and_file_type_verdict server_id s root s' :
  get_server_xml server_id s = (Ret root, s') →
  assert_shared_mode_and_file_type server_id s = (Ret tt, s') ↔ file_backed root.
Proof.
  intros Hx. unfold assert_shared_mode_and_file_type, file_backed.
  rewrite (bind_Ret _ _ _ _ _ Hx). cbv [mbind M_bind lift].
  destruct (find root [Child "memoryBacking"; Child "source"]) as [src|];
    cbn [or_raise fmap option_fmap option_map]; [|by split; [|intros [??]; congruence]].
  destruct (bool_decide_reflect (elem_get src "type" = Some "file"));
    cbn [assert_that raise mret M_ret]; [|by split; [|intros [??]; congruence]].
  destruct (find root [Child "memoryBacking"; Child "access"]) as [acc|];
    cbn [or_raise fmap option_fmap option_map]; [|by split; [|intros [??]; congruence]].
  destruct (bool_decide_reflect (elem_get acc "mode" = Some "shared"));
    cbn [assert_that raise mret M_ret];
    split; try done; [by intros _; split; congruence|intros [??]; congruence].
Qed.

(** C21: when [test_cpu_state] passes, at least two dedicated CPUs besides CPU 0
    were offline and all shared CPUs online before the server was created on that
    host; once the server was active some of them were online and no other CPU was
    offline; and after the server had been deleted and its termination waited
    for, exactly the first ones were offline again. *)
Theorem test_cpu_state_sound flavor s s' :
  test_cpu_state flavor s = (Ret tt, s') →
  ∃ host sysfs sm dedicated shared online flavor_id server server_id after deleted ended,
    vget flavor "id" = Ret flavor_id ∧
    passes s
      [SSHClient_init host ⇓ sysfs; NovaServiceManager_init host "nova-compute" ⇓ sm;
       get_cpu_dedicated_set sm ⇓ dedicated; get_cpu_shared_set sm ⇓ shared;
       sysfs_cpus sysfs "online" ⇓ online; sysfs_cpus sysfs "offline" ⇓ dedicated ∖ {[0%Z]};
       create_test_server
         [("clients", VStr "os_admin"); ("flavor", flavor_id); ("host", VStr host);
          ("wait_until", VStr "ACTIVE")] ⇓ server;
       sysfs_cpus sysfs "offline" ⇓ after; id_of server ⇓ server_id;
       api "os_admin.servers_client.delete_server" [("server_id", VStr server_id)] ⇓ deleted;
       api "waiters.wait_for_server_termination"
         [("client", VStr "os_admin.servers_client"); ("server_id", VStr server_id)] ⇓ ended;
       sysfs_cpus sysfs "offline" ⇓ dedicated ∖ {[0%Z]}] s' ∧
    (2 ≤ size (dedicated ∖ {[0%Z]}))%nat ∧ shared ⊆ online ∧ after ⊂ dedicated ∖ {[0%Z]}.
Proof.
  unfold test_cpu_state. intros H. run_ret H. run_ret H.
  match goal with E : lift (vget flavor _) _ = _ |- _ => apply lift_run in E as [Hid ->] end.
  read_facts. subst.
  eexists _, _, _, _, _, _, _, _, _, _, _, _. split; [symmetry; exact Hid|]. split; [walk|].
  split_and!; [|done..].
  by apply Nat.ltb_ge, negb_true_iff.
Qed.

(** When the migration to a file-backed host is tested and the test passes, the
    destination is another host than the server's as tempest names it, its
    compute service was configured for file-backed memory at the time of the call,
    and Nova answered the call with BadRequest. *)
Theorem non_file_backed_migration_rejected fuel s s' :
  test_live_migrate_non_file_backed_host_to_file_backed_host fuel s = (Ret tt, s') →
  ∃ server_id dest svc saved s3,
    passes s [get_host_other_than server_id ⇓ dest; NovaServiceManager_init dest "nova-compute" ⇓ svc;
              cm_enter (config_options fuel svc file_backed_options) ⇓ saved] s3 ∧
    (∃ msg, (live_migrate_to server_id dest s3).1 = Exn (BadRequest msg)) ∧
    (cm_exit (config_options fuel svc file_backed_options) saved
       (live_migrate_to server_id dest s3).2) = (Ret tt, s').
Proof.
  unfold test_live_migrate_non_file_backed_host_to_file_backed_host. intros H. run_ret H.
  unfold with_cm, with_as in H. apply bind_Ret_inv in H as (iv & sx & Hen & H).
  unfold try_finally in H. rewrite bind_run in H. unfold assert_raises in H.
  match goal with
  | Eo : get_host_other_than ?i _ = (Ret ?d, _) |- _ =>
      exists i, d; destruct (live_migrate_to i d sx) as [[v|e|] sy] eqn:Em
  end; try destruct e; cbn [is_BadRequest mret M_ret] in H; destruct (cm_exit _ iv sy) as [[[]|e'|] sz] eqn:Ex; simplify_eq.
  eexists _, iv, sx. rewrite Em. split; [walk|split; [by eexists|exact Ex]].
Qed.
End host_feature_theorems.

(** * Witnesses *)
Definition file_backed_domain : elem :=
  Elem "domain" [] None [Elem "memoryBacking" [] None
    [Elem "source" [("type", "file")] None []; Elem "access" [("mode", "shared")] None []]].
Definition file_backed_env : cloud sim :=
  sim_cloud (λ _, false) [("<one/>", file_backed_domain)] pinning_yaml.

Lemma assert_shared_mode_and_file_type_verdict_witness :
  (assert_shared_mode_and_file_type (CONF:=sim_CONF) (C:=file_backed_env) "server-1"
     (pinning_state ["one"])).1 = Ret tt.
Proof.
  rewrite (proj2 (assert_shared_mode_and_file_type_verdict (CONF:=sim_CONF) (C:=file_backed_env)
    "server-1" (pinning_state ["one"]) file_backed_domain
    (get_server_xml (CONF:=sim_CONF) (C:=file_backed_env) "server-1" (pinning_state ["one"])).2
    ltac:(vm_compute; reflexivity))).
  - reflexivity.
  - split; reflexivity.
Defined.

(** A host whose offline CPUs change: successive reads are answered from the
    table of responses. *)
Definition cpu_cloud (base : cloud sim) : cloud sim := {|
  ssh_exec_command := λ h u k cmd w,
    if contains "cpu/offline" cmd
    then let r := sim_api "cpu/offline" w in (r.1 ≫= as_str, r.2)
    else @ssh_exec_command sim base h u k cmd w;
  api_call := @api_call sim base;
  time_time := @time_time sim base;
  time_sleep := @time_sleep sim base;
  yaml_load_file := @yaml_load_file sim base;
  et_fromstring := @et_fromstring sim base;
  json_loads := @json_loads sim base;
|}.
Definition host_yaml_full : val :=
  VDict [("compute-0", VDict [("services", VDict
    [("libvirt", VDict []);
     ("nova-compute", VDict [("config_path", VStr "/etc/nova/nova.conf");
                             ("start_command", VStr "systemctl start devstack@n-cpu");
                             ("stop_command", VStr "systemctl stop devstack@n-cpu")])])])].
Definition cpu_env : cloud sim := cpu_cloud (sim_cloud (λ _, false) [] host_yaml_full).
Definition offline_line (cpus : string) : string * val :=
  ("cpu/offline", VStr ("/sys/devices/system/cpu/offline:" ++ cpus)).
Definition cpu_state : pystate sim :=
  mkState None [] (mkSim 0
    {[("compute", "cpu_dedicated_set") := "0-3"; ("compute", "cpu_shared_set") := "4,5"]} true
    [("grep -H " ++ dq ++ dq ++ " /sys/devices/system/cpu/online", "/sys/devices/system/cpu/online:0,4-7")]
    [("os_admin.services_client.list_services",
      VDict [("services", VList [VDict [("host", VStr "compute-0")]])]);
     ("BaseV2ComputeAdminTest.create_test_server", VDict [("id", VStr "server-1")]);
     ("os_admin.servers_client.delete_server", VNone); ("waiters.wait_for_server_termination", VNone);
     offline_line "1-3"; offline_line "2,3"; offline_line "1-3"] []).
Definition cpu_flavor : val := VDict [("id", VStr "flavor-1")].

Lemma test_cpu_state_sound_witness :
  ∃ dedicated after : gset Z, after ⊂ dedicated ∖ {[0]}.
Proof.
  destruct (test_cpu_state_sound (CONF:=sim_CONF) (C:=cpu_env) cpu_flavor cpu_state
    (test_cpu_state (CONF:=sim_CONF) (C:=cpu_env) cpu_flavor cpu_state).2)
    as (_ & _ & _ & dedicated & _ & _ & _ & _ & _ & after & _ & _ & _ & _ & _ & _ & Hlt).
  - vm_compute. reflexivity.
  - by exists dedicated, after.
Defined.

(** A deployment whose Nova rejects live migrations. *)
Definition rejecting_cloud (base : cloud sim) : cloud sim := {|
  ssh_exec_command := @ssh_exec_command sim base;
  api_call := λ m a w,
    if String.eqb m "admin_servers_client.live_migrate_server" then (Exn (BadRequest "file-backed"), w)
    else @api_call sim base m a w;
  time_time := @time_time sim base;
  time_sleep := @time_sleep sim base;
  yaml_load_file := @yaml_load_file sim base;
  et_fromstring := @et_fromstring sim base;
  json_loads := @json_loads sim base;
|}.
Definition rejecting_env : cloud sim := rejecting_cloud (sim_cloud (λ _, false) [] host_yaml_full).
Definition rejecting_state : pystate sim :=
  mkState None [] (mkSim 0 ∅ true []
    [("BaseV2ComputeAdminTest.create_test_server", VDict [("id", VStr "server-1")]);
     ("BaseV2ComputeAdminTest.get_host_other_than", VStr "compute-0")] []).

Lemma non_file_backed_migration_rejected_witness :
  ∃ server_id dest s3 msg,
    (live_migrate_to (C:=rejecting_env) server_id dest s3).1 = Exn (BadRequest msg).
Proof.
  destruct (non_file_backed_migration_rejected (CONF:=sim_CONF) (C:=rejecting_env) 12 rejecting_state
    (test_live_migrate_non_file_backed_host_to_file_backed_host (CONF:=sim_CONF) (C:=rejecting_env)
       12 rejecting_state).2)
    as (server_id & dest & _ & _ & s3 & _ & [msg Hr] & _).
  - vm_compute. reflexivity.
  - by exists server_id, dest, s3, msg.
Defined.
