(* ===== verification/Vdpa.v ===== *)
(** api/compute/test_vdpa.py: servers with a vDPA port, and what becomes of the port
    when they are migrated, resized and evacuated. *)
From Stdlib Require Import Ascii String.
From S2P Require Import Prelude PyString PyVal Xml Env Sim Hardware Utils Clients ServiceManager ComputeBase Trace Pinning Evacuation.
#[local] Open Scope string_scope.

Section vdpa.
Context {CONF : conf} {W : Type} `{C : cloud W}.
Context (fuel : nat) (class_name : string).
Abbreviation P := (M (pystate W)).

Definition vdpa_skip_checks : P unit :=
  skip_unless (bool_decide (is_Some vdpa_physnet));;
  skip_unless (bool_decide (is_Some vdpa_vlan_id)).

(** [setUp]: the network the ports of the tests are created in *)
Definition vdpa_setUp : P val :=
  network ← create_net_from_physical_network class_name
              (default VNone (VInt <$> vdpa_vlan_id)) (vopt_str vdpa_physnet);
  network_id ← lift (vpath network ["network"; "id"]);
  create_subnet class_name network_id;;
  mret network.

Definition create_vdpa_port (network : val) : P string :=
  port ← create_port_from_vnic_type network (VStr "vdpa") None;
  lift (vpath port ["port"; "id"] ≫= as_str).

Definition port_network (port_id : string) : string * val :=
  ("networks", VList [VDict [("port", VStr port_id)]]).

(** The interface of the port, and the size of its receive queue where one is
    configured *)
Definition check_rx_queue (server_id port_id : string) : P unit :=
  interface_xml_element ← get_xml_interface_device server_id port_id;
  match rx_queue_size with
  | Some size =>
      if (size =? 0)%Z then mret tt else
      driver ← lift (or_raise AttributeError
        (find interface_xml_element [Child "driver"; AttrIs "name" "vhost"]));
      found ← lift (or_raise KeyError (elem_get driver "rx_queue_size"));
      assert_that (bool_decide (py_str size = found))
  | None => mret tt
  end.

Definition test_guest_creation_with_vdpa_port (network : val) : P unit :=
  flavor ← create_flavor (VInt flavor_ram_size) 2 flavor_volume_size None;
  port_id ← create_vdpa_port network;
  server_id ← boot flavor [port_network port_id];
  check_rx_queue server_id port_id;;
  verify_neutron_port_binding server_id port_id.

Definition create_vdpa_server (port_id : string) : P val :=
  create_test_server [port_network port_id; ("wait_until", VStr "ACTIVE")].

(** * VDPAColdMigration *)
Definition vdpa_cold_migration_skip_checks : P unit :=
  vdpa_skip_checks;;
  skip_unless (negb (min_compute_nodes <? 2)%Z);;
  skip_unless vdpa_cold_migration_supported.

Definition wait_for_server_status (server_id status : string) : P val :=
  api "waiters.wait_for_server_status"
    [("client", VStr "servers_client"); ("server_id", VStr server_id); ("status", VStr status)].

Definition vdpa_cold_migration (network : val) (revert : bool) : P unit :=
  port_id ← create_vdpa_port network;
  server ← create_vdpa_server port_id;
  server_id ← id_of server;
  dest_host ← get_host_other_than server_id;
  src_host ← get_host_for_server server_id;
  api "admin_servers_client.migrate_server" [("server_id", VStr server_id); ("host", VStr dest_host)];;
  wait_for_server_status server_id "VERIFY_RESIZE";;
  api (if revert then "admin_servers_client.revert_resize_server"
       else "admin_servers_client.confirm_resize_server") [("server_id", VStr server_id)];;
  wait_for_server_status server_id "ACTIVE";;
  dest_host ← get_host_for_server server_id;
  assert_that (if revert then bool_decide (src_host = dest_host)
               else bool_decide (src_host ≠ dest_host));;
  check_rx_queue server_id port_id;;
  verify_neutron_port_binding server_id port_id.

Definition test_vdpa_cold_migration (network : val) : P unit := vdpa_cold_migration network false.
Definition test_revert_vdpa_cold_migration (network : val) : P unit := vdpa_cold_migration network true.

(** * VDPAResizeInstance *)
Definition vdpa_resize_skip_checks : P unit :=
  vdpa_skip_checks;;
  skip_unless vdpa_cold_migration_supported;;
  skip_unless resize_enabled.

(** [setUp]: the network, then the flavor the test resizes to *)
Definition vdpa_resize_setUp : P (val * val) :=
  network ← vdpa_setUp;
  new_flavor ← create_flavor (VInt 256) 2 flavor_volume_size None;
  mret (network, new_flavor).

Definition test_vdpa_to_standard_resize (network new_flavor : val) : P unit :=
  port_id ← create_vdpa_port network;
  server ← create_vdpa_server port_id;
  server_id ← id_of server;
  resize_server server_id new_flavor;;
  check_rx_queue server_id port_id;;
  verify_neutron_port_binding server_id port_id.

(** * VDPAEvacuateInstance *)
Definition vdpa_evacuate_skip_checks : P unit :=
  vdpa_skip_checks;;
  skip_unless (negb (min_compute_nodes <? 2)%Z).

Definition test_evacuate_server_vdpa (network : val) : P unit :=
  port_id ← create_vdpa_port network;
  server ← create_vdpa_server port_id;
  server_id ← id_of server;
  host_a ← get_host_for_server server_id;
  host_a_svc ← nova_compute host_a;
  evacuate_while_stopped fuel host_a_svc server host_a server_id [];;
  host ← get_host_for_server server_id;
  assert_that (bool_decide (host ≠ host_a));;
  verify_neutron_port_binding server_id port_id.
End vdpa.

(** * Theorems *)
Section vdpa_theorems.
Context {CONF : conf} {W : Type} `{C : cloud W}.
Implicit Types s : pystate W.

(** The receive queue of the interface has the configured size, if any. *)
Definition rx_queue_ok (iface : elem) : Prop :=
  ∀ size, rx_queue_size = Some size → size ≠ 0 →
    (find iface [Child "driver"; AttrIs "name" "vhost"] ≫= λ d, elem_get d "rx_queue_size")
    = Some (py_str size).

Lemma check_rx_queue_run server_id port_id s s' :
  check_rx_queue server_id port_id s = (Ret tt, s') →
  ∃ iface, get_xml_interface_device server_id port_id s = (Ret iface, s') ∧ rx_queue_ok iface.
Proof.
  unfold check_rx_queue. intros H. apply bind_Ret_inv in H as (iface & s1 & E & H).
  exists iface. unfold rx_queue_ok. destruct rx_queue_size as [n|]; [|by injection H as <-].
  destruct (Z.eqb_spec n 0) as [Hz|Hne]; [split; [by injection H as <-|by intros ? [= <-] ?]|].
  run_ret H. use_asserts. repeat match goal with E : lift _ _ = _ |- _ => apply lift_run in E as [? ->] end.
  split; [done|]. intros ? [= <-] _.
  destruct (find iface _) as [d|]; simplify_eq/=.
  destruct (elem_get d "rx_queue_size"); simplify_eq/=.
  match goal with E : bool_decide _ = true |- _ => apply bool_decide_eq_true in E end. congruence.
Qed.

(** C22: when a cold migration of a server with a vDPA port passes, the server is
    last seen on its first host if the migration was reverted and on another
    one if it was confirmed; there its domain has exactly one interface of the
    port, with the configured receive queue, and the devices the database
    records for it passed the check of the port's binding. *)
Theorem vdpa_cold_migration_sound network revert s s' :
  vdpa_cold_migration network revert s = (Ret tt, s') →
  ∃ port_id server server_id src host iface,
    passes s
      [create_vdpa_port network ⇓ port_id; create_vdpa_server port_id ⇓ server;
       id_of server ⇓ server_id; get_host_for_server server_id ⇓ src;
       get_host_for_server server_id ⇓ host;
       get_xml_interface_device server_id port_id ⇓ iface;
       verify_neutron_port_binding server_id port_id ⇓ tt] s' ∧
    (src = host ↔ revert = true) ∧ rx_queue_ok iface.
Proof.
  unfold vdpa_cold_migration. intros H. run_ret H. read_facts.
  match goal with
  | Er : check_rx_queue _ _ _ = _ |- _ => apply check_rx_queue_run in Er as (iface & Hi & Hr)
  end.
  eexists _, _, _, _, _, iface. split; [walk|]. split; [|done].
  by destruct revert; read_facts.
Qed.
End vdpa_theorems.

(** * Witnesses *)
Definition vdpa_port : val :=
  VDict [("port", VDict [("id", VStr "port-1"); ("binding:vnic_type", VStr "vdpa");
                         ("mac_address", VStr "52:54:00:01");
                         ("binding:profile", VDict [("pci_slot", VStr "0000:81:00.1")])])].
Definition vdpa_network : val := VDict [("network", VDict [("id", VStr "net-1")])].
Definition vdpa_iface : elem :=
  Elem "interface" [("type", "vdpa")] None
    [Elem "mac" [("address", "52:54:00:01")] None [];
     Elem "driver" [("name", "vhost"); ("rx_queue_size", "1024")] None []].
Definition vdpa_env : cloud sim :=
  sim_cloud (λ _, false)
    [("<one/>", Elem "domain" [] None [Elem "devices" [] None [vdpa_iface]])] pinning_yaml.
Definition vdpa_state : pystate sim :=
  mkState None [] (mkSim 0 ∅ true [("sudo virsh dumpxml one", "<one/>")]
    [("os_primary.ports_client.create_port", vdpa_port); ("os_admin.ports_client.show_port", vdpa_port);
     ("BaseV2ComputeAdminTest.create_test_server", VDict [("id", VStr "server-1")]);
     ("BaseV2ComputeAdminTest.get_host_other_than", VStr "compute-0");
     ("BaseV2ComputeAdminTest.get_host_for_server", VStr "compute-1");
     ("BaseV2ComputeAdminTest.get_host_for_server", VStr "compute-0");
     ("admin_servers_client.migrate_server", VNone); ("waiters.wait_for_server_status", VNone);
     ("admin_servers_client.confirm_resize_server", VNone);
     ("os_admin.servers_client.show_server", named_server "one");
     ("pymysql.connect", VNone); ("conn.cursor", VNone); ("cursor.__exit__", VNone);
     ("conn.close", VNone); ("cursor.execute", VNone);
     ("cursor.fetchall", VList [VDict [("address", VStr "0000:81:00.1"); ("status", VStr "allocated");
                                       ("dev_type", VStr "vdpa")]])] []).

Lemma vdpa_cold_migration_sound_witness :
  ∃ src host : string, src ≠ host.
Proof.
  destruct (vdpa_cold_migration_sound (CONF:=sim_CONF) (C:=vdpa_env) vdpa_network false vdpa_state
    (vdpa_cold_migration (CONF:=sim_CONF) (C:=vdpa_env) vdpa_network false vdpa_state).2)
    as (_ & _ & _ & src & host & _ & _ & Heq & _).
  - vm_compute. reflexivity.
  - exists src, host. by intros ?%Heq.
Defined.
