(* ===== verification/Vgpu.v ===== *)
(** api/compute/test_vgpu.py: virtual GPUs. Inventories and usages are read from the
    tree of resource providers Placement keeps for each compute host. *)
From Stdlib Require Import Ascii String.
From S2P Require Import Prelude PyString PyVal Xml Env Sim Hardware Utils Waiters Clients ServiceManager ComputeBase Trace Pinning Evacuation.
#[local] Open Scope string_scope.

Section vgpu.
Context {CONF : conf} {W : Type} `{C : cloud W}.
Context (fuel : nat).
(** attributes of tempest's base class *)
Context (image_ssh_user image_ssh_password : val).
Abbreviation P := (M (pystate W)).

Definition vgpu_amount_per_instance : Z := 1.

Definition vgpu_skip_checks : P unit := skip_unless (bool_decide (is_Some vgpu_vendor_id)).

(** [addClassResourceCleanup] of the deletion of a flavor and, below it on the
    stack, of the wait for it *)
Definition add_flavor_class_cleanups (flavor_id : val) : P unit :=
  add_cleanup (ClassCleanup "admin_flavors_client.wait_for_resource_deletion" [("id", flavor_id)]);;
  add_cleanup (ClassCleanup "admin_flavors_client.delete_flavor" [("flavor_id", flavor_id)]).

(** A flavor made through the client, with its extra specs and cleanups *)
Definition create_vgpu_flavor (name : string) (extra_specs : kwargs) : P val :=
  flavor_name ← rand_name name;
  body ← api "admin_flavors_client.create_flavor"
    [("name", VStr flavor_name); ("ram", VInt flavor_ram_size); ("vcpus", VInt 2);
     ("disk", VInt flavor_volume_size); ("is_public", VStr "True")];
  vgpu_flavor ← lift (vget body "flavor");
  flavor_id ← lift (vget vgpu_flavor "id");
  api "os_admin.flavors_client.set_flavor_extra_spec" (("flavor_id", flavor_id) :: extra_specs);;
  add_flavor_class_cleanups flavor_id;;
  mret vgpu_flavor.

(** [resource_setup]: the flavor all tests of the class use *)
Definition vgpu_resource_setup : P val :=
  create_vgpu_flavor "vgpu_test_flavor" [("resources:VGPU", VStr (py_str vgpu_amount_per_instance))].

Definition create_ssh_client (server validation_resources : val) : P val :=
  ip ← api "BaseV2ComputeAdminTest.get_server_ip"
         [("server", server); ("validation_resources", validation_resources)];
  private_key ← lift (vpath validation_resources ["keypair"; "private_key"]);
  linux_client ← api "remote_client.RemoteClient"
    [("ip_address", ip); ("username", image_ssh_user); ("password", image_ssh_password);
     ("pkey", private_key); ("server", server)];
  api "linux_client.validate_authentication" [("self", linux_client)];;
  mret linux_client.

(** * Resource providers *)
Definition list_resource_providers (args : kwargs) : P val :=
  resp ← api "os_admin.resource_providers_client.list_resource_providers" args;
  lift (vget_or resp "resource_providers" VNone).

Definition get_rp_uuid_from_hostname (hostname : string) : P val :=
  rps ← list_resource_providers [("name", VStr hostname)];
  first ← lift (vnth rps 0);
  lift (vget_or first "uuid" VNone).

(** The condition compares the provider, a dictionary, with the uuid. *)
Definition get_all_children_of_resource_provider (rp_uuid : val) : P (list val) :=
  rps ← list_resource_providers [("in_tree", rp_uuid)];
  rps ← lift (as_list rps);
  map_m (λ x, lift (vget_or x "uuid" VNone)) (filter (λ x, negb (py_eq x rp_uuid) = true) rps).

(** One provider of the inner loop: its inventories, if they have the class VGPU *)
Definition add_vgpu_inventory (inventories : list (string * val)) (rp_uuid : val)
    : P (list (string * val)) :=
  inventory ← api "os_admin.resource_providers_client.list_resource_provider_inventories"
                [("rp_uuid", rp_uuid)];
  found ← lift (vget_or inventory "inventories" VNone);
  d ← lift (as_dict found);
  if bool_decide (is_Some (dict_get d "VGPU"))
  then uuid ← lift (as_str rp_uuid); mret (dict_set inventories uuid found)
  else mret inventories.

Definition get_vgpu_inventories_for_deployment : P (list (string * val)) :=
  hostnames ← list_compute_hosts;
  for_acc (λ inventories hostname,
      rp_uuid ← get_rp_uuid_from_hostname hostname;
      rp_children ← get_all_children_of_resource_provider rp_uuid;
      for_acc add_vgpu_inventory inventories rp_children) [] hostnames.

(** [list_resource_provider_usages(rp_uuid=...).get('usages').get('VGPU', 0)] *)
Definition vgpu_usage (rp_uuid : val) : P Z :=
  resp ← api "os_admin.resource_providers_client.list_resource_provider_usages" [("rp_uuid", rp_uuid)];
  rp_usages ← lift (vget_or resp "usages" VNone);
  lift (vget_or rp_usages "VGPU" (VInt 0) ≫= as_int).

Definition get_usage_for_resource_class_vgpu (rp_uuids : list val) : P Z :=
  for_acc (λ total_vgpu_usage rp_uuid,
      n ← vgpu_usage rp_uuid; mret (total_vgpu_usage + n)) 0 rp_uuids.

Definition get_vgpu_util_for_host (hostname : string) : P Z :=
  rp_uuid ← get_rp_uuid_from_hostname hostname;
  rp_children ← get_all_children_of_resource_provider rp_uuid;
  get_usage_for_resource_class_vgpu rp_children.

(** * Checks on the guest *)
Definition vendor_id_command (vendor_id : option string) : string :=
  "grep -nr 0x" ++ fmt (vopt_str vendor_id) ++ " /sys/bus/pci/devices/*/vendor | grep -E " ++
  "'[0-9a-e]{4}:[0-9a-e]{2}:[0-9a-e]{2}.[0-9a-e]{1}' | wc -l".

(** [int(linux_client.exec_command(cmd))], which must give some output *)
Definition count_in_guest (linux_client : val) (cmd : string) : P Z :=
  sys_out ← api "linux_client.exec_command" [("self", linux_client); ("cmd", VStr cmd)];
  assert_that (negb (py_eq sys_out VNone));;
  lift (as_str sys_out ≫= int_of).

Definition assert_vendor_id_in_guest (linux_client : val) (expected_device_count : Z) : P unit :=
  n ← count_in_guest linux_client (vendor_id_command vgpu_vendor_id);
  assert_that (expected_device_count =? n)%Z.

Definition wait_for_status (server_id status : string) : P val :=
  api "waiters.wait_for_server_status"
    [("client", VStr "servers_client"); ("server_id", VStr server_id); ("status", VStr status)].

Definition cold_migrate_server (server_id target_host : string) (revert : bool) : P unit :=
  src_host ← get_host_for_server server_id;
  api "admin_servers_client.migrate_server" [("server_id", VStr server_id); ("host", VStr target_host)];;
  wait_for_status server_id "VERIFY_RESIZE";;
  api (if revert then "admin_servers_client.revert_resize_server"
       else "admin_servers_client.confirm_resize_server") [("server_id", VStr server_id)];;
  wait_for_status server_id "ACTIVE";;
  dst_host ← get_host_for_server server_id;
  assert_that (if revert then bool_decide (src_host = dst_host) else bool_decide (src_host ≠ dst_host)).

Definition mdev_path : list xstep := [Child "devices"; Child "hostdev"; AttrIs "type" "mdev"].

Definition validate_vgpu_instance (server_id : string) (linux_client : val)
    (expected_device_count : Z) : P unit :=
  root ← get_server_xml server_id;
  let vgpu_devices := findall root mdev_path in
  assert_that (expected_device_count =? Z.of_nat (length vgpu_devices))%Z;;
  if (expected_device_count =? 0)%Z then mret tt
  else assert_vendor_id_in_guest linux_client expected_device_count.

Definition create_validateable_instance (flavor validation_resources : val) : P val :=
  flavor_id ← lift (vget flavor "id");
  create_test_server
    [("flavor", flavor_id); ("validatable", VBool true);
     ("validation_resources", validation_resources); ("wait_until", VStr "ACTIVE")].

Definition validate_final_vgpu_rp_inventory (starting ending : list (string * val)) : P unit :=
  for_each (λ rp_uuid,
      assert_that (py_eq (default VNone (dict_get starting rp_uuid))
                         (default VNone (dict_get ending rp_uuid)))) starting.*1.

(** * Tests *)

(** A validated guest: the server, its id and a client for it *)
Definition start_vgpu_guest (flavor : val) : P (val * string * val) :=
  validation_resources ← api "BaseV2ComputeAdminTest.get_test_validation_resources"
                           [("os_clients", VStr "os_primary")];
  server ← create_validateable_instance flavor validation_resources;
  linux_client ← create_ssh_client server validation_resources;
  server_id ← id_of server;
  mret (server, server_id, linux_client).

(** The end of the tests: without the guest, the inventories are the first ones *)
Definition delete_and_compare (server_id : string) (starting : list (string * val)) : P unit :=
  api "os_admin.servers_client.delete_server" [("server_id", VStr server_id)];;
  api "waiters.wait_for_server_termination"
    [("client", VStr "os_admin.servers_client"); ("server_id", VStr server_id)];;
  ending ← get_vgpu_inventories_for_deployment;
  validate_final_vgpu_rp_inventory starting ending.

Definition test_boot_instance_with_vgpu (vgpu_flavor : val) : P unit :=
  starting ← get_vgpu_inventories_for_deployment;
  '(_, server_id, linux_client) ← start_vgpu_guest vgpu_flavor;
  validate_vgpu_instance server_id linux_client vgpu_amount_per_instance;;
  delete_and_compare server_id starting.

Definition vgpu_cold_migration_skip_checks : P unit :=
  vgpu_skip_checks;;
  skip_unless (negb (min_compute_nodes <? 2)%Z);;
  skip_unless vgpu_cold_migration_supported.

(** The usages of both hosts have changed by the given amounts. *)
Definition check_usages (src_host dest_host : string) (src_usage dest_usage : Z) : P unit :=
  post_src_usage ← get_vgpu_util_for_host src_host;
  post_dest_usage ← get_vgpu_util_for_host dest_host;
  assert_that (src_usage =? post_src_usage)%Z;;
  assert_that (dest_usage =? post_dest_usage)%Z.

Definition test_vgpu_cold_migration (vgpu_flavor : val) : P unit :=
  starting ← get_vgpu_inventories_for_deployment;
  '(_, server_id, linux_client) ← start_vgpu_guest vgpu_flavor;
  src_host ← get_host_for_server server_id;
  dest_host ← get_host_other_than server_id;
  pre_src_usage ← get_vgpu_util_for_host src_host;
  pre_dest_usage ← get_vgpu_util_for_host dest_host;
  cold_migrate_server server_id dest_host false;;
  validate_vgpu_instance server_id linux_client vgpu_amount_per_instance;;
  check_usages src_host dest_host (pre_src_usage - vgpu_amount_per_instance)
                                  (pre_dest_usage + vgpu_amount_per_instance);;
  delete_and_compare server_id starting.

Definition test_revert_vgpu_cold_migration (vgpu_flavor : val) : P unit :=
  starting ← get_vgpu_inventories_for_deployment;
  '(_, server_id, linux_client) ← start_vgpu_guest vgpu_flavor;
  src_host ← get_host_for_server server_id;
  dest_host ← get_host_other_than server_id;
  pre_src_usage ← get_vgpu_util_for_host src_host;
  pre_dest_usage ← get_vgpu_util_for_host dest_host;
  cold_migrate_server server_id dest_host true;;
  validate_vgpu_instance server_id linux_client vgpu_amount_per_instance;;
  current_src_usage ← get_vgpu_util_for_host src_host;
  current_dest_usage ← get_vgpu_util_for_host dest_host;
  assert_that (pre_dest_usage =? current_dest_usage)%Z;;
  assert_that (pre_src_usage =? current_src_usage)%Z;;
  validate_vgpu_instance server_id linux_client vgpu_amount_per_instance;;
  delete_and_compare server_id starting.

Definition vgpu_resize_skip_checks : P unit :=
  vgpu_skip_checks;;
  skip_unless vgpu_cold_migration_supported;;
  skip_unless resize_enabled.

Definition test_vgpu_to_standard_resize (vgpu_flavor : val) : P unit :=
  server_id ← boot vgpu_flavor [];
  host ← get_host_for_server server_id;
  pre_resize_usage ← get_vgpu_util_for_host host;
  standard_flavor ← create_flavor_default 2 None;
  resize_server server_id standard_flavor;;
  validate_vgpu_instance server_id VNone 0;;
  (if console_output
   then api "servers_client.get_console_output" [("server_id", VStr server_id)];; mret tt
   else mret tt);;
  post_resize_usage ← get_vgpu_util_for_host host;
  assert_that (pre_resize_usage - vgpu_amount_per_instance =? post_resize_usage)%Z.

Definition test_standard_to_vgpu_resize (vgpu_flavor : val) : P unit :=
  validation_resources ← api "BaseV2ComputeAdminTest.get_test_validation_resources"
                           [("os_clients", VStr "os_primary")];
  standard_flavor ← create_flavor_default 2 None;
  server ← create_validateable_instance standard_flavor validation_resources;
  linux_client ← create_ssh_client server validation_resources;
  server_id ← id_of server;
  resize_server server_id vgpu_flavor;;
  validate_vgpu_instance server_id linux_client vgpu_amount_per_instance.

(** * VGPUMultiTypes *)
Definition vgpu_multi_types_skip_checks : P unit :=
  vgpu_skip_checks;;
  skip_unless (negb (bool_decide (default [] vgpu_type_mapping = []))).

Definition mdev_type_command (mdev_uuid : option string) : string :=
  "ls -al /sys/bus/mdev/devices/" ++ fmt (vopt_str mdev_uuid) ++
  "/ | awk -F'/' '/mdev_type/ {print $3}'".

Definition get_vgpu_mdev_type_on_guest (server_id : string) : P string :=
  host ← get_host_for_server server_id;
  ssh_client ← SSHClient_init host;
  root ← get_server_xml server_id;
  vgpu_dev ← lift (or_raise AttributeError (find root mdev_path));
  source_element ← lift (or_raise AttributeError (find vgpu_dev [Child "source"; Child "address"]));
  mdev_type ← execute ssh_client (mdev_type_command (elem_get source_element "uuid")) VNone false;
  mret (py_rstrip mdev_type).

Definition generate_vgpu_custom_trait_flavor (trait : string) : P val :=
  create_vgpu_flavor ("vgpu_test_flavor_" ++ trait)
    [("resources:VGPU", VStr (py_str vgpu_amount_per_instance)); ("trait:" ++ trait, VStr "required")].

Definition deploy_vgpu_type (trait_type : string * string) : P unit :=
  let '(trait, expected_mdev_type) := trait_type in
  vgpu_flavor ← generate_vgpu_custom_trait_flavor trait;
  validation_resources ← api "BaseV2ComputeAdminTest.get_test_validation_resources"
                           [("os_clients", VStr "os_primary")];
  server ← create_validateable_instance vgpu_flavor validation_resources;
  server_id ← id_of server;
  found_mdev_type ← get_vgpu_mdev_type_on_guest server_id;
  assert_that (bool_decide (expected_mdev_type = found_mdev_type)).

Definition test_deploy_multiple_vgpu_types : P unit :=
  custom_traits ← lift (or_raise AttributeError vgpu_type_mapping);
  for_each deploy_vgpu_type custom_traits.

(** * VGPUServerEvacuation; a decorator skips the class because of a bug of Nova *)
Definition vgpu_evacuation_skip_checks : P unit :=
  vgpu_skip_checks;;
  skip_unless (negb (min_compute_nodes <? 2)%Z).

Definition test_evacuate_server_having_vgpu (vgpu_flavor : val) : P unit :=
  starting ← get_vgpu_inventories_for_deployment;
  '(server, server_id, linux_client) ← start_vgpu_guest vgpu_flavor;
  src_host ← get_host_for_server server_id;
  dest_host ← get_host_other_than server_id;
  pre_src_usage ← get_vgpu_util_for_host src_host;
  pre_dest_usage ← get_vgpu_util_for_host dest_host;
  host_a_svc ← nova_compute src_host;
  evacuate_while_stopped fuel host_a_svc server src_host server_id [];;
  host ← get_host_for_server server_id;
  assert_that (bool_decide (host = dest_host));;
  validate_vgpu_instance server_id linux_client vgpu_amount_per_instance;;
  check_usages src_host dest_host (pre_src_usage - vgpu_amount_per_instance)
                                  (pre_dest_usage + vgpu_amount_per_instance);;
  delete_and_compare server_id starting.
End vgpu.

(** * Theorems *)
Section vgpu_theorems.
Context {CONF : conf} {W : Type} `{C : cloud W}.
Context (image_ssh_user image_ssh_password : val).
Implicit Types s : pystate W.
Implicit Types ds : list (list (string * val)).
Abbreviation P := (M (pystate W)).

(** ** The tree of resource providers *)
Definition uuid_of (d : list (string * val)) : val := default VNone (dict_get d "uuid").

Lemma no_dict_is_a_uuid u ds :
  filter (λ x, negb (py_eq x (VStr u)) = true) (VDict <$> ds) = VDict <$> ds.
Proof. induction ds as [|d ds IH]; [done|]. rewrite fmap_cons, filter_cons, decide_True by done. by rewrite IH. Qed.

Lemma map_uuids ds s :
  map_m (λ x, lift (vget_or x "uuid" VNone)) (VDict <$> ds) s = (Ret (uuid_of <$> ds), s).
Proof.
  induction ds as [|d ds IH]; [done|]. cbn [fmap list_fmap map_m].
  rewrite bind_run. cbn [lift vget_or]. by rewrite bind_run, IH.
Qed.

Lemma children_run u s ds s' :
  list_resource_providers [("in_tree", VStr u)] s = (Ret (VList (VDict <$> ds)), s') →
  get_all_children_of_resource_provider (VStr u) s = (Ret (uuid_of <$> ds), s').
Proof.
  intros H. unfold get_all_children_of_resource_provider. rewrite (bind_Ret _ _ _ _ _ H).
  rewrite bind_run. cbn [lift as_list]. by rewrite no_dict_is_a_uuid, map_uuids.
Qed.

(** [_get_all_children_of_resource_provider] returns the uuid of every provider
    in the tree. Its condition compares dictionaries with a string, so that the
    parent, which it is documented to leave out, is among them whenever
    Placement lists it. *)
Theorem children_include_parent u s ds s' :
  list_resource_providers [("in_tree", VStr u)] s = (Ret (VList (VDict <$> ds)), s') →
  get_all_children_of_resource_provider (VStr u) s = (Ret (uuid_of <$> ds), s') ∧
  (∀ d, d ∈ ds → dict_get d "uuid" = Some (VStr u) → VStr u ∈ uuid_of <$> ds).
Proof.
  intros H. split; [by apply children_run|]. intros d Hd Hu.
  apply list_elem_of_fmap. exists d. split; [|done]. unfold uuid_of. by rewrite Hu.
Qed.

(** ** Usage *)
Definition zsum (l : list Z) : Z := foldr Z.add 0 l.

Lemma foldl_zsum b l : foldl Z.add b l = b + zsum l.
Proof. revert b. induction l as [|x l IH]; intros b; simpl; [lia|]. rewrite IH. lia. Qed.

Lemma usage_sum rp_uuids s :
  get_usage_for_resource_class_vgpu rp_uuids s =
  (ns ← map_m vgpu_usage rp_uuids; mret (zsum ns)) s.
Proof.
  unfold get_usage_for_resource_class_vgpu.
  rewrite (for_acc_map_m _ vgpu_usage Z.add); [|done]. rewrite !bind_run.
  destruct (map_m vgpu_usage rp_uuids s) as [[ns|e|] s']; try done. cbn. f_equal. f_equal. by rewrite foldl_zsum.
Qed.

(** C27: the vGPU utilisation of a host is the sum of the VGPU usages of all the
    providers Placement lists in the tree of the host's first provider, that
    provider itself included. *)
Theorem vgpu_util_is_tree_sum hostname s u s1 ds s2 :
  get_rp_uuid_from_hostname hostname s = (Ret (VStr u), s1) →
  list_resource_providers [("in_tree", VStr u)] s1 = (Ret (VList (VDict <$> ds)), s2) →
  get_vgpu_util_for_host hostname s =
  (ns ← map_m vgpu_usage (uuid_of <$> ds); mret (zsum ns)) s2.
Proof.
  intros Hu Ht. unfold get_vgpu_util_for_host.
  by rewrite (bind_Ret _ _ _ _ _ Hu), (bind_Ret _ _ _ _ _ (children_run _ _ _ _ Ht)), usage_sum.
Qed.

(** ** Inventories *)

(** What one provider contributes *)
Definition read_vgpu_inventory (rp_uuid : val) : P (option (string * val)) :=
  inventory ← api "os_admin.resource_providers_client.list_resource_provider_inventories"
                [("rp_uuid", rp_uuid)];
  found ← lift (vget_or inventory "inventories" VNone);
  d ← lift (as_dict found);
  if bool_decide (is_Some (dict_get d "VGPU"))
  then uuid ← lift (as_str rp_uuid); mret (Some (uuid, found))
  else mret None.

Definition record_inventory (inventories : list (string * val)) (r : option (string * val))
    : list (string * val) :=
  match r with Some (uuid, found) => dict_set inventories uuid found | None => inventories end.

Definition host_inventories (hostname : string) : P (list (option (string * val))) :=
  rp_uuid ← get_rp_uuid_from_hostname hostname;
  rp_children ← get_all_children_of_resource_provider rp_uuid;
  map_m read_vgpu_inventory rp_children.

Lemma add_vgpu_inventory_read inventories rp_uuid s :
  add_vgpu_inventory inventories rp_uuid s =
  (r ← read_vgpu_inventory rp_uuid; mret (record_inventory inventories r)) s.
Proof.
  unfold add_vgpu_inventory, read_vgpu_inventory. rewrite !bind_run.
  destruct (api _ _ s) as [[v|e|] s1]; try done.
  unfold lift. rewrite !bind_run. destruct (vget_or v "inventories" VNone) as [f|e|]; try done.
  rewrite !bind_run. destruct (as_dict f) as [d|e|]; try done. case_bool_decide; [|done].
  rewrite !bind_run. by destruct (as_str rp_uuid).
Qed.

Lemma last_recorded_start inventories rs uuid :
  dict_get (foldl record_inventory inventories rs) uuid =
  match last (filter (λ r, r.1 = uuid) (omap id rs)) with
  | Some r => Some r.2
  | None => dict_get inventories uuid
  end.
Proof.
  revert inventories. induction rs as [|[[u f]|] rs IH]; intros inventories; [done| |apply IH].
  cbn [foldl record_inventory omap list_omap id]. rewrite IH, filter_cons, dict_get_set. simpl.
  case_decide; [|done]. rewrite last_cons. by destruct (last _).
Qed.

(** [_get_vgpu_inventories_for_deployment] reads the inventories of every
    provider in the tree of every compute host, in order, and records for each
    uuid the last one read that has the class VGPU, and nothing else. *)
Theorem vgpu_inventories_collected s :
  get_vgpu_inventories_for_deployment s =
  (hostnames ← list_compute_hosts;
   reads ← map_m host_inventories hostnames;
   mret (foldl record_inventory [] (concat reads))) s ∧
  (∀ reads uuid, dict_get (foldl record_inventory [] reads) uuid =
     snd <$> last (filter (λ r, r.1 = uuid) (omap id reads))).
Proof.
  split; [|intros reads uuid; rewrite last_recorded_start; by destruct (last _)].
  unfold get_vgpu_inventories_for_deployment. rewrite !bind_run.
  destruct (list_compute_hosts s) as [[hostnames|e|] s1]; try done.
  rewrite (for_acc_map_m _ host_inventories (foldl record_inventory)).
  - rewrite !bind_run. destruct (map_m host_inventories hostnames s1) as [[reads|e|] s2]; try done.
    cbn. f_equal. f_equal. generalize (@nil (string * val)) as b.
    induction reads as [|r reads IH]; intros b; [done|]. cbn. by rewrite foldl_app, IH.
  - intros b x s0. unfold host_inventories. rewrite !bind_run.
    destruct (get_rp_uuid_from_hostname x s0) as [[u|e|] s2]; try done. rewrite !bind_run.
    destruct (get_all_children_of_resource_provider u s2) as [[l|e|] s3]; try done.
    by rewrite (for_acc_map_m _ _ _ _ _ _ add_vgpu_inventory_read), !bind_run.
Qed.

(** ** Flavors of the class *)
Definition flavor_cleanups (flavor_id : val) : list cleanup :=
  [ClassCleanup "admin_flavors_client.delete_flavor" [("flavor_id", flavor_id)];
   ClassCleanup "admin_flavors_client.wait_for_resource_deletion" [("id", flavor_id)]].

(** A vGPU flavor that is returned has its deletion registered, above the
    wait for it, so that it is deleted first; when anything after its creation
    raises, setting its extra specs for example, nothing is registered and the
    flavor stays behind. *)
Theorem vgpu_flavor_registered_last name extra_specs s :
  let r := create_vgpu_flavor name extra_specs s in
  match r.1 with
  | Ret flavor => ∃ flavor_id, vget flavor "id" = Ret flavor_id ∧
                    st_cleanups r.2 = (flavor_cleanups flavor_id ++ st_cleanups s)%list
  | _ => st_cleanups r.2 = st_cleanups s
  end.
Proof.
  intros r. subst r. destruct (create_vgpu_flavor name extra_specs s) as [o s'] eqn:H. simpl.
  unfold create_vgpu_flavor, rand_name in H.
  do 5 (apply bind_inv in H as [(? & ? & ? & H)|[(? & ? & ->)|(? & ->)]];
        [|repeat match goal with E : _ = (_, _) |- _ => apply none_run in E; [|apply _] end;
          congruence..]).
  run_step H; [|done..]. apply (f_equal snd) in E. cbn in E. subst s0. injection H as <- <-.
  match goal with
  | Hf : lift _ _ = (Ret _, _), Hi : lift _ _ = (Ret ?i, _) |- _ =>
      apply lift_run in Hf as [Hf ->], Hi as [Hi ->]; exists i; split; [done|]
  end.
  cbn. do 2 f_equal. track_cleanups. congruence.
Qed.

(** ** Cold migration *)

Lemma inventory_kept starting ending s s' uuid inv :
  validate_final_vgpu_rp_inventory starting ending s = (Ret tt, s') →
  s' = s ∧ (dict_get starting uuid = Some inv → py_eq inv (default VNone (dict_get ending uuid)) = true).
Proof.
  unfold validate_final_vgpu_rp_inventory. intros H.
  apply for_each_asserts in H as [Hall ->]. split; [done|]. intros Hu.
  rewrite Forall_forall in Hall. specialize (Hall uuid). rewrite Hu in Hall.
  apply Hall, dict_get_key. eauto.
Qed.

(** C28: when [test_vgpu_cold_migration] passes, the server was moved to another
    host, its domain has exactly one mediated device, the utilisation of the
    source host dropped and that of the destination rose by exactly the one vGPU
    of the instance, and every inventory there was at the start is the same at
    the end. *)
Theorem test_vgpu_cold_migration_sound vgpu_flavor s s' :
  test_vgpu_cold_migration image_ssh_user image_ssh_password vgpu_flavor s = (Ret tt, s') →
  ∃ server server_id client src dest pre_src pre_dest old new root starting ending,
    passes s
      [get_vgpu_inventories_for_deployment ⇓ starting;
       start_vgpu_guest image_ssh_user image_ssh_password vgpu_flavor ⇓ (server, server_id, client);
       get_host_for_server server_id ⇓ src; get_host_other_than server_id ⇓ dest;
       get_vgpu_util_for_host src ⇓ pre_src; get_vgpu_util_for_host dest ⇓ pre_dest;
       get_host_for_server server_id ⇓ old; get_host_for_server server_id ⇓ new;
       get_server_xml server_id ⇓ root;
       get_vgpu_util_for_host src ⇓ pre_src - 1; get_vgpu_util_for_host dest ⇓ pre_dest + 1;
       get_vgpu_inventories_for_deployment ⇓ ending] s' ∧
    old ≠ new ∧ length (findall root mdev_path) = 1%nat ∧
    (∀ uuid inv, dict_get starting uuid = Some inv →
                 py_eq inv (default VNone (dict_get ending uuid)) = true).
Proof.
  unfold test_vgpu_cold_migration. intros H. run_ret H.
  match type of H with context [match ?p with _ => _ end] => destruct p as [[server server_id] client] end.
  run_ret H. unfold cold_migrate_server, validate_vgpu_instance, check_usages, delete_and_compare in *.
  repeat match goal with E : (_ ≫= _) _ = (Ret _, _) |- _ => run_ret E end. use_asserts.
  repeat match goal with E : (_ =? _)%Z = true |- _ => apply Z.eqb_eq in E; unfold vgpu_amount_per_instance in E; subst end.
  pose proof (inventory_kept _ _ _ _ "" VNone H) as [-> _].
  eexists server, server_id, client, _, _, _, _, _, _, _, _, _. split_and!.
  - walk.
  - by match goal with E : bool_decide _ = true |- _ => apply bool_decide_eq_true in E end.
  - lia.
  - intros uuid inv. by destruct (inventory_kept _ _ _ _ uuid inv H).
Qed.
End vgpu_theorems.

(** * Witnesses *)
Definition vgpu_provider : val :=
  VDict [("resource_providers", VList [VDict [("uuid", VStr "rp-0")]; VDict [("uuid", VStr "rp-1")]])].
Definition vgpu_used (n : Z) : list (string * val) :=
  [("os_admin.resource_providers_client.list_resource_provider_usages",
    VDict [("usages", VDict [("VCPU", VInt 2)])]);
   ("os_admin.resource_providers_client.list_resource_provider_usages",
    VDict [("usages", VDict [("VGPU", VInt n)])])].
Definition vgpu_domain : elem :=
  Elem "domain" [] None [Elem "devices" [] None
    [Elem "hostdev" [("type", "mdev")] None []; Elem "hostdev" [("type", "pci")] None []]].
Definition vgpu_env : cloud sim := sim_cloud (λ _, false) [("<one/>", vgpu_domain)] pinning_yaml.
Definition vgpu_flavor_body : val := VDict [("id", VStr "flavor-1")].

(** A host whose tree has two providers; the utilisations read in turn are given. *)
Definition vgpu_state (utils : list Z) : pystate sim :=
  mkState None [] (mkSim 0 ∅ true [("sudo virsh dumpxml one", "<one/>")]
    ([("os_admin.services_client.list_services",
       VDict [("services", VList [VDict [("host", VStr "compute-0")]])]);
      ("os_admin.resource_providers_client.list_resource_providers", vgpu_provider);
      ("os_admin.resource_providers_client.list_resource_provider_inventories",
       VDict [("inventories", VDict [("VGPU", VDict [("total", VInt 4)])])]);
      ("BaseV2ComputeAdminTest.get_test_validation_resources",
       VDict [("keypair", VDict [("private_key", VStr "key")])]);
      ("BaseV2ComputeAdminTest.create_test_server", VDict [("id", VStr "server-1")]);
      ("BaseV2ComputeAdminTest.get_server_ip", VStr "10.0.0.5");
      ("remote_client.RemoteClient", VStr "client"); ("linux_client.validate_authentication", VNone);
      ("linux_client.exec_command", VStr "1");
      ("BaseV2ComputeAdminTest.get_host_for_server", VStr "compute-0");
      ("BaseV2ComputeAdminTest.get_host_for_server", VStr "compute-0");
      ("BaseV2ComputeAdminTest.get_host_for_server", VStr "compute-1");
      ("BaseV2ComputeAdminTest.get_host_other_than", VStr "compute-1");
      ("admin_servers_client.migrate_server", VNone); ("waiters.wait_for_server_status", VNone);
      ("admin_servers_client.confirm_resize_server", VNone);
      ("os_admin.servers_client.show_server", named_server "one");
      ("os_admin.servers_client.delete_server", VNone);
      ("waiters.wait_for_server_termination", VNone)] ++ (utils ≫= vgpu_used))%list []).

Lemma test_vgpu_cold_migration_sound_witness :
  ∃ old new : string, old ≠ new.
Proof.
  destruct (test_vgpu_cold_migration_sound (CONF:=sim_CONF) (C:=vgpu_env) VNone VNone
    vgpu_flavor_body (vgpu_state [1; 0; 0; 1])
    (test_vgpu_cold_migration (CONF:=sim_CONF) (C:=vgpu_env) VNone VNone vgpu_flavor_body
       (vgpu_state [1; 0; 0; 1])).2)
    as (_ & _ & _ & _ & _ & _ & _ & old & new & _ & _ & _ & _ & Hne & _).
  - vm_compute. reflexivity.
  - by exists old, new.
Defined.

Lemma children_include_parent_witness :
  (get_all_children_of_resource_provider (C:=vgpu_env) (VStr "rp-0") (vgpu_state [])).1 =
  Ret [VStr "rp-0"; VStr "rp-1"].
Proof.
  rewrite (proj1 (children_include_parent (C:=vgpu_env) "rp-0" (vgpu_state [])
    [[("uuid", VStr "rp-0")]; [("uuid", VStr "rp-1")]] (vgpu_state [])
    ltac:(vm_compute; reflexivity))). reflexivity.
Defined.

Lemma vgpu_util_is_tree_sum_witness :
  (get_vgpu_util_for_host (C:=vgpu_env) "compute-0" (vgpu_state [3])).1 = Ret 3.
Proof.
  rewrite (vgpu_util_is_tree_sum (C:=vgpu_env) "compute-0" (vgpu_state [3]) "rp-0" (vgpu_state [3])
    [[("uuid", VStr "rp-0")]; [("uuid", VStr "rp-1")]] (vgpu_state [3]));
    vm_compute; reflexivity.
Defined.
