(* ===== verification/Sriov.v ===== *)
(** api/compute/test_sriov.py: SR-IOV ports. NUMA and socket affinity of servers with
    such ports, their live migration, and attaching and detaching them. *)
From Stdlib Require Import Ascii String.
From S2P Require Import Prelude PyString PyVal Xml Env Sim Hardware Utils Waiters Clients ServiceManager ComputeBase Trace NumaHelper Pinning NumaMigration Evacuation HostFeatures Vdpa Vgpu.
#[local] Open Scope string_scope.

Section sriov.
Context {CONF : conf} {W : Type} `{C : cloud W}.
Context (fuel : nat) (class_name : string).
Context (image_ssh_user image_ssh_password : val).
Abbreviation P := (M (pystate W)).

(** * SRIOVBase *)
Definition sriov_skip_checks : P unit :=
  skip_unless (bool_decide (is_Some sriov_physnet));;
  skip_unless (bool_decide (is_Some sriov_vlan_id)).

Definition port_id_of (port : val) : P string := lift (vpath port ["port"; "id"] ≫= as_str).

Definition validate_pf_pci_address_in_xml (port_id : string) (host_dev_xml : elem) : P unit :=
  binding_profile ← get_port_attribute port_id "binding:profile";
  pci_addr_element ← lift (or_raise AttributeError (find host_dev_xml [Child "source"; Child "address"]));
  pci_address ← lift (get_pci_address_from_xml_device (elem_get pci_addr_element));
  pci_slot ← lift (vget binding_profile "pci_slot");
  assert_that (py_eq (VStr pci_address) pci_slot).

Definition get_xml_pf_device (server_id : string) : P elem :=
  root ← get_server_xml server_id;
  match findall root [Child "devices"; Child "hostdev"; AttrIs "type" "pci"] with
  | [hostdev] => mret hostdev
  | _ => raise AssertionFailure
  end.

(** [int(tag.get('id')) if tag.get('id') else None] *)
Definition vlan_of (port_xml_element : elem) : outcome (option Z) :=
  tag ← or_raise AttributeError (find port_xml_element [Child "vlan"; Child "tag"]);
  match elem_get tag "id" with
  | Some interface_vlan =>
      if truthy_str interface_vlan then n ← int_of interface_vlan; Ret (Some n) else Ret None
  | None => Ret None
  end.

Definition validate_port_xml_vlan_tag (port_xml_element : elem) (expected_vlan : option Z) : P unit :=
  found_vlan ← lift (vlan_of port_xml_element);
  assert_that (bool_decide (expected_vlan = found_vlan)).

(** The interface of a port in the domain, and its VLAN tag *)
Definition check_sriov_interface (server_id : string) (port : val) (vlan_id : option Z) : P unit :=
  port_id ← port_id_of port;
  interface_xml_element ← get_xml_interface_device server_id port_id;
  validate_port_xml_vlan_tag interface_xml_element vlan_id.

(** * SRIOVNumaAffinity *)
Definition required : kwargs :=
  [("hw:cpu_policy", VStr "dedicated"); ("hw:pci_numa_affinity_policy", VStr "required")].
Definition preferred : kwargs :=
  [("hw:cpu_policy", VStr "dedicated"); ("hw:pci_numa_affinity_policy", VStr "preferred")].

(** [dedicated_cpus_per_numa] has an integer default and is never None. *)
Definition numa_affinity_skip_checks : P unit :=
  sriov_skip_checks;;
  skip_unless (bool_decide (sriov_vnic_type ∈ [Some "direct"; Some "macvtap"]));;
  skip_unless (bool_decide (is_Some physnet_numa_affinity));;
  topology ← lift (or_raise TypeError cpu_topology);
  skip_unless (negb (length topology <? 2)%nat);;
  scheduler_filter_skip_checks "SameHostFilter".

(** The network of the SR-IOV tests *)
Definition sriov_network : P val :=
  network ← create_net_from_physical_network class_name
              (default VNone (VInt <$> sriov_vlan_id)) (vopt_str sriov_physnet);
  network_id ← lift (vpath network ["network"; "id"]);
  create_subnet class_name network_id;;
  mret network.

(** [setUp]: the network and the flavor; the other attributes are those of CONF *)
Definition numa_affinity_setUp : P (val * val) :=
  network ← sriov_network;
  flavor ← create_flavor_default dedicated_cpus_per_numa (Some [("hw:cpu_policy", VStr "dedicated")]);
  mret (network, flavor).

Definition affinity_node : string := fmt (default VNone (VInt <$> physnet_numa_affinity)).

Definition get_dedicated_cpus_from_numa_node (numa_node : string) (cpu_dedicated_set : gset Z)
    : outcome (gset Z) :=
  topology ← or_raise AttributeError cpu_topology;
  cpu_ids ← or_raise TypeError (dict_get topology numa_node);
  Ret (cpu_dedicated_set ∩ list_to_set cpu_ids).

(** The arguments of a server with a port *)
Definition port_server_args (flavor port : val) (hints : kwargs) (image_id : val) : P kwargs :=
  flavor_id ← lift (vget flavor "id");
  port_id ← port_id_of port;
  mret ([("flavor", flavor_id); port_network port_id] ++ hints ++
        [("image_id", image_id); ("wait_until", VStr "ACTIVE")])%list.

Definition boot_with_port (flavor port : val) (hints : kwargs) (image_id : val) : P string :=
  args ← port_server_args flavor port hints image_id;
  server ← create_test_server args;
  id_of server.

Definition preferred_test_procedure (flavor port_a port_b image_id : val) : P unit :=
  server_a ← boot_with_port flavor port_a [] image_id;
  host ← get_host_for_server server_a;
  server_b ← boot_with_port flavor port_b (scheduler_hints "same_host" server_a) image_id;
  host_sm ← NovaServiceManager_init host "nova-compute";
  cpu_dedicated_set ← get_cpu_dedicated_set host_sm;
  cpu_pins_a ← get_pinning_as_set server_a;
  pcpus_with_affinity ← lift (get_dedicated_cpus_from_numa_node affinity_node cpu_dedicated_set);
  assert_that (bool_decide (cpu_pins_a = pcpus_with_affinity));;
  cpu_pins_b ← get_pinning_as_set server_b;
  assert_that (subset_of cpu_pins_b cpu_dedicated_set);;
  assert_that (isdisjoint cpu_pins_a cpu_pins_b);;
  check_sriov_interface server_a port_a sriov_vlan_id;;
  check_sriov_interface server_b port_b sriov_vlan_id.

Definition required_test_procedure (flavor port_a port_b image_id : val) : P unit :=
  server_a ← boot_with_port flavor port_a [] image_id;
  host ← get_host_for_server server_a;
  args_b ← port_server_args flavor port_b (scheduler_hints "same_host" server_a) image_id;
  assert_raises is_BuildErrorException (create_test_server args_b);;
  host_sm ← NovaServiceManager_init host "nova-compute";
  cpu_dedicated_set ← get_cpu_dedicated_set host_sm;
  pcpus_with_affinity ← lift (get_dedicated_cpus_from_numa_node affinity_node cpu_dedicated_set);
  cpu_pins_a ← get_pinning_as_set server_a;
  assert_that (bool_decide (cpu_pins_a = pcpus_with_affinity));;
  check_sriov_interface server_a port_a sriov_vlan_id.

Definition create_sriov_port (network : val) (policy : option string) : P val :=
  create_port_from_vnic_type network (vopt_str sriov_vnic_type) policy.

(** Two ports with their policies, then the procedure *)
Definition with_two_ports (network : val) (policy_a policy_b : option string)
    (procedure : val → val → P unit) : P unit :=
  port_a ← create_sriov_port network policy_a;
  port_b ← create_sriov_port network policy_b;
  procedure port_a port_b.

(** ** SRIOVNumaAffinityWithFlavor *)
Definition test_sriov_affinity_preferred_with_flavor (network : val) : P unit :=
  flavor ← create_flavor_default dedicated_cpus_per_numa (Some preferred);
  with_two_ports network None None
    (λ port_a port_b, preferred_test_procedure flavor port_a port_b (VStr image_ref)).

Definition test_sriov_affinity_required_with_flavor (network : val) : P unit :=
  flavor ← create_flavor_default dedicated_cpus_per_numa (Some required);
  with_two_ports network None None
    (λ port_a port_b, required_test_procedure flavor port_a port_b (VStr image_ref)).

(** ** SRIOVNumaAffinityWithImagePolicy *)
Definition image_policy_skip_checks : P unit :=
  numa_affinity_skip_checks;;
  skip_unless supports_image_level_numa_affinity.

Definition test_sriov_affinity_preferred_with_image (network flavor : val) : P unit :=
  image_id ← copy_default_image [("hw_pci_numa_affinity_policy", VStr "preferred")];
  with_two_ports network None None
    (λ port_a port_b, preferred_test_procedure flavor port_a port_b image_id).

Definition test_sriov_affinity_required_with_image (network flavor : val) : P unit :=
  image_id ← copy_default_image [("hw_pci_numa_affinity_policy", VStr "required")];
  with_two_ports network None None
    (λ port_a port_b, required_test_procedure flavor port_a port_b image_id).

(** ** SRIOVNumaAffinityWithPortPolicy *)
Definition port_policy_skip_checks : P unit :=
  numa_affinity_skip_checks;;
  skip_unless supports_port_level_numa_affinity.

Definition test_sriov_affinity_preferred_with_port_policy (network flavor : val) : P unit :=
  with_two_ports network (Some "preferred") (Some "preferred")
    (λ port_a port_b, preferred_test_procedure flavor port_a port_b (VStr image_ref)).

Definition test_sriov_mixed_affinity_port_policies (network flavor : val) : P unit :=
  with_two_ports network (Some "required") (Some "preferred")
    (λ port_a port_b, preferred_test_procedure flavor port_a port_b (VStr image_ref)).

Definition test_sriov_affinity_required_with_port_policy (network flavor : val) : P unit :=
  with_two_ports network (Some "required") (Some "required")
    (λ port_a port_b, required_test_procedure flavor port_a port_b (VStr image_ref)).

Definition test_sriov_affinity_port_policy_precedence_flavor (network : val) : P unit :=
  required_flavor ← create_flavor_default dedicated_cpus_per_numa (Some required);
  with_two_ports network (Some "preferred") (Some "preferred")
    (λ port_a port_b, preferred_test_procedure required_flavor port_a port_b (VStr image_ref)).

Definition test_sriov_affinity_port_policy_precedence_image (network flavor : val) : P unit :=
  image_id ← copy_default_image [("hw_pci_numa_affinity_policy", VStr "required")];
  with_two_ports network (Some "preferred") (Some "preferred")
    (λ port_a port_b, preferred_test_procedure flavor port_a port_b image_id).

(** ** SRIOVNumaAffinityWithSocketPolicy *)
Definition socket_specs : kwargs :=
  [("hw:cpu_policy", VStr "dedicated"); ("hw:pci_numa_affinity_policy", VStr "socket")].

(** [super(SRIOVNumaAffinity, cls)] goes past the checks of SRIOVNumaAffinity. *)
Definition socket_skip_checks : P unit :=
  sriov_skip_checks;;
  skip_unless (bool_decide (is_Some socket_topology));;
  skip_unless (bool_decide (is_Some socket_affinity)).

(** [l += set]; only the set of the resulting list is used *)
Definition get_cpu_ids_with_socket_affinity (host_dedicated_set : gset Z) : outcome (list Z) :=
  topology ← or_raise TypeError socket_topology;
  numa_nodes ← or_raise KeyError (dict_get topology (fmt (default VNone (VInt <$> socket_affinity))));
  ofold (λ pcpus numa,
      cpus ← get_dedicated_cpus_from_numa_node (py_str numa) host_dedicated_set;
      Ret (pcpus ++ elements cpus)%list) [] numa_nodes.

Definition socket_test_procedure (flavor port_a port_b image_id : val) : P unit :=
  server_a ← boot_with_port flavor port_a [] image_id;
  host ← get_host_for_server server_a;
  server_b ← boot_with_port flavor port_b (scheduler_hints "same_host" server_a) image_id;
  host_sm ← NovaServiceManager_init host "nova-compute";
  cpu_dedicated_set ← get_cpu_dedicated_set host_sm;
  cpu_pins_a ← get_pinning_as_set server_a;
  pcpus_with_affinity ← lift (get_dedicated_cpus_from_numa_node affinity_node cpu_dedicated_set);
  assert_that (bool_decide (cpu_pins_a = pcpus_with_affinity));;
  cpu_pins_b ← get_pinning_as_set server_b;
  pcpus_on_socket ← lift (get_cpu_ids_with_socket_affinity cpu_dedicated_set);
  assert_that (subset_of cpu_pins_b (list_to_set pcpus_on_socket));;
  assert_that (isdisjoint cpu_pins_a cpu_pins_b);;
  check_sriov_interface server_a port_a sriov_vlan_id;;
  check_sriov_interface server_b port_b sriov_vlan_id.

Definition test_sriov_affinity_socket_policy (network : val) : P unit :=
  socket_flavor ← create_flavor_default dedicated_cpus_per_numa (Some socket_specs);
  with_two_ports network None None
    (λ port_a port_b, socket_test_procedure socket_flavor port_a port_b (VStr image_ref)).

(** * SRIOVMigration *)
Definition sriov_migration_skip_checks : P unit :=
  sriov_skip_checks;;
  skip_unless (negb (min_compute_nodes <? 2)%Z).

(** The loop of [_validate_pci_allocation]; [count] is the local
    [pci_allocated_count], unbound before the first iteration. *)
Fixpoint pci_allocation_loop (f : nat) (timeout start_time : Z) (status : string)
    (count : option val) : P unit :=
  t ← now;
  if (t - start_time <=? timeout)%Z then
    match f with
    | O => out_of_fuel
    | S f' =>
        pci_allocated_count ← get_pci_status_count status None;
        if py_eq pci_allocated_count (VInt 1) then mret tt
        else sleep (build_interval + 1);;
             pci_allocation_loop f' timeout start_time status (Some pci_allocated_count)
    end
  else match count with
       | Some _ => raise TimeoutException
       | None => raise UnboundLocalError
       end.

Definition validate_pci_allocation (pci_device_status_regex : string) : P unit :=
  start_time ← now;
  pci_allocation_loop fuel build_timeout start_time pci_device_status_regex None.

(** What is checked after each migration *)
Definition check_migrated_port (server_id : string) (port : val) (status : string) : P unit :=
  check_sriov_interface server_id port sriov_vlan_id;;
  port_id ← port_id_of port;
  verify_neutron_port_binding server_id port_id;;
  validate_pci_allocation status.

Definition pci_device_status : string := if sriov_hotplug then "allocated" else "allocated|claimed".

Definition base_test_live_migration (network : val) (vnic_type : string) : P unit :=
  flavor ← create_flavor_default 2 None;
  port ← create_port_from_vnic_type network (VStr vnic_type) None;
  port_id ← port_id_of port;
  server_id ← boot flavor [port_network port_id];
  host ← get_host_for_server server_id;
  live_migrate "os_admin" server_id "ACTIVE" None;;
  check_migrated_port server_id port pci_device_status;;
  if live_migrate_back_and_forth then
    live_migrate "os_admin" server_id "ACTIVE" (Some host);;
    check_migrated_port server_id port pci_device_status
  else mret tt.

Definition test_sriov_direct_live_migration (network : val) : P unit :=
  base_test_live_migration network "direct".
Definition test_sriov_macvtap_live_migration (network : val) : P unit :=
  base_test_live_migration network "macvtap".

(** * SRIOVAttachAndDetach *)
Definition attach_detach_skip_checks : P unit :=
  sriov_skip_checks;;
  skip_unless sriov_hotplug;;
  skip_unless (bool_decide (is_Some sriov_nic_vendor_id)).

(** [self.os_primary.ports_client.show_port(port_id)['port']] *)
Definition show_primary_port (port_id : string) : P val :=
  body ← api "os_primary.ports_client.show_port" [("port_id", VStr port_id)];
  lift (vget body "port").

(** The loop of [wait_for_port_detach], with its locals *)
Fixpoint port_detach_loop (f : nat) (start : Z) (port_id : string) (port device_id : val) : P val :=
  if truthy device_id then
    match f with
    | O => out_of_fuel
    | S f' =>
        sleep build_interval;;
        port ← show_primary_port port_id;
        device_id ← lift (vget port "device_id");
        t ← now;
        if truthy device_id && (build_timeout <=? t - start)%Z then raise TimeoutException
        else port_detach_loop f' start port_id port device_id
    end
  else mret port.

Definition wait_for_port_detach (port_id : string) : P val :=
  port ← show_primary_port port_id;
  device_id ← lift (vget port "device_id");
  start ← now;
  port_detach_loop fuel start port_id port device_id.

Definition device_command (vendor_id product_id : option string) : string :=
  "lspci -nn  | grep " ++ fmt (vopt_str vendor_id) ++ ":" ++ fmt (vopt_str product_id) ++ " | wc -l".

Definition check_device_in_guest (linux_client : val) (vendor_id product_id : option string) : P unit :=
  n ← count_in_guest linux_client (device_command vendor_id product_id);
  assert_that (1 =? n)%Z.

Definition create_server_and_ssh : P (string * val) :=
  validation_resources ← api "BaseV2ComputeAdminTest.get_test_validation_resources"
                           [("os_clients", VStr "os_primary")];
  server ← create_test_server
    [("validatable", VBool true); ("validation_resources", validation_resources);
     ("wait_until", VStr "ACTIVE")];
  linux_client ← create_ssh_client image_ssh_user image_ssh_password server validation_resources;
  server_id ← id_of server;
  mret (server_id, linux_client).

(** [x['fixed_ips'][0]['ip_address']] *)
Definition first_fixed_ip (x : val) : outcome val :=
  ips ← vget x "fixed_ips";
  first ← vnth ips 0;
  vget first "ip_address".

(** [a == b] asserted of two entries *)
Definition assert_entry (x : val) (k : string) (expected : val) : P unit :=
  found ← lift (vget x k);
  assert_that (py_eq found expected).

Definition validate_port_data_after_attach (network pre_attached_port after_attached : val) : P unit :=
  net ← lift (vget_or network "network" VNone);
  net_id ← lift (vget_or net "id" VNone);
  pre ← lift (vget pre_attached_port "port");
  port_id ← lift (vget pre "id");
  port_ip_addr ← lift (first_fixed_ip pre);
  port_mac_addr ← lift (vget pre "mac_address");
  assert_entry after_attached "port_id" port_id;;
  assert_entry after_attached "net_id" net_id;;
  ip ← lift (first_fixed_ip after_attached);
  assert_that (py_eq ip port_ip_addr);;
  vnic_type ← lift (vget pre "binding:vnic_type");
  mac_addr ← lift (vget after_attached "mac_addr");
  if py_eq vnic_type (VStr "direct-physical")
  then assert_that (negb (py_eq mac_addr port_mac_addr))
  else assert_that (py_eq mac_addr port_mac_addr).

Definition attach_interface (server_id port_id : string) : P val :=
  body ← api "interfaces_client.create_interface"
           [("server_id", VStr server_id); ("port_id", VStr port_id)];
  lift (vget body "interfaceAttachment").

Definition detach_interface (server_id port_id : string) : P unit :=
  api "interfaces_client.delete_interface" [("server_id", VStr server_id); ("port_id", VStr port_id)];;
  wait_for_port_detach port_id;;
  mret tt.

(** One server of the loop of [_base_test_attach_and_detach_sriov_port] *)
Definition attach_and_detach_port (network port : val) (port_id : string)
    (vendor_id product_id : option string) (server : string * val) : P unit :=
  let '(server_id, linux_client) := server in
  iface ← attach_interface server_id port_id;
  validate_port_data_after_attach network port iface;;
  interface_xml_element ← get_xml_interface_device server_id port_id;
  mac_addr ← lift (vget iface "mac_addr");
  mac ← lift (or_raise AttributeError (find interface_xml_element [Child "mac"]));
  assert_that (py_eq mac_addr (vopt_str (elem_get mac "address")));;
  validate_port_xml_vlan_tag interface_xml_element sriov_vlan_id;;
  check_device_in_guest linux_client vendor_id product_id;;
  verify_neutron_port_binding server_id port_id;;
  detach_interface server_id port_id.

Definition base_test_attach_and_detach_sriov_port (network : val) (vnic_type : string) : P unit :=
  server_1 ← create_server_and_ssh;
  server_2 ← create_server_and_ssh;
  port ← create_port_from_vnic_type network (VStr vnic_type) None;
  port_id ← port_id_of port;
  let '(vendor_id, product_id) :=
    if String.eqb vnic_type "macvtap"
    then (macvtap_virtio_vendor_id, macvtap_virtio_product_id)
    else (sriov_nic_vendor_id, sriov_vf_product_id) in
  for_each (attach_and_detach_port network port port_id vendor_id product_id) [server_1; server_2].

Definition configured (o : option string) : bool := truthy (vopt_str o).

Definition test_sriov_direct_attach_detach_port (network : val) : P unit :=
  skip_unless (configured sriov_vf_product_id);;
  skip_unless (configured sriov_nic_vendor_id);;
  base_test_attach_and_detach_sriov_port network "direct".

Definition test_sriov_macvtap_attach_detach_port (network : val) : P unit :=
  skip_unless (configured macvtap_virtio_product_id);;
  skip_unless (configured macvtap_virtio_vendor_id);;
  base_test_attach_and_detach_sriov_port network "macvtap".

(** One server of the loop of [test_sriov_direct_physical_attach_detach_port] *)
Definition attach_and_detach_physical (network port : val) (port_id : string) (server : string * val)
    : P unit :=
  let '(server_id, linux_client) := server in
  iface ← attach_interface server_id port_id;
  validate_port_data_after_attach network port iface;;
  host_dev_xml ← get_xml_pf_device server_id;
  validate_pf_pci_address_in_xml port_id host_dev_xml;;
  check_device_in_guest linux_client sriov_nic_vendor_id sriov_pf_product_id;;
  verify_neutron_port_binding server_id port_id;;
  detach_interface server_id port_id.

Definition test_sriov_direct_physical_attach_detach_port (network : val) : P unit :=
  skip_unless (configured sriov_pf_product_id);;
  server_1 ← create_server_and_ssh;
  server_2 ← create_server_and_ssh;
  port ← create_port_from_vnic_type network (VStr "direct-physical") None;
  port_id ← port_id_of port;
  for_each (attach_and_detach_physical network port port_id) [server_1; server_2].
End sriov.

(** * Theorems *)
Section sriov_theorems.
Context {CONF : conf} {W : Type} `{C : cloud W}.
Implicit Types s : pystate W.

(** ** NUMA and socket affinity *)

(** The CPUs of a NUMA node according to the configuration *)
Definition node_cpus (node : string) : option (gset Z) :=
  list_to_set <$> (cpu_topology ≫= λ topology, dict_get topology node).

Lemma dedicated_cpus_run node dedicated cpus :
  get_dedicated_cpus_from_numa_node node dedicated = Ret cpus →
  ∃ X, node_cpus node = Some X ∧ cpus = dedicated ∩ X.
Proof.
  unfold get_dedicated_cpus_from_numa_node, node_cpus. intros H.
  destruct cpu_topology as [topology|]; simplify_eq/=.
  destruct (dict_get topology node) as [ids|]; simplify_eq/=. eauto.
Qed.

(** Read the assertions and pure expressions of an inverted affinity procedure. *)
Local Ltac read_affinity :=
  use_asserts;
  repeat match goal with
  | E : lift _ _ = _ |- _ => apply lift_run in E as [E ->]; symmetry in E
  | E : subset_of _ _ = true |- _ => apply bool_decide_eq_true in E
  | E : isdisjoint _ _ = true |- _ => apply bool_decide_eq_true in E
  | E : bool_decide _ = true |- _ => apply bool_decide_eq_true in E
  | E : get_dedicated_cpus_from_numa_node _ _ = Ret _ |- _ =>
      apply dedicated_cpus_run in E as (X & HX & ?)
  | u : unit |- _ => destruct u
  end; subst.

(** C26: when the procedure for the preferred policy passes, the first server is
    pinned to exactly the dedicated CPUs of the NUMA node with affinity to the
    port, and the second one, on the same host by its hint, only to dedicated
    CPUs of other nodes. *)
Theorem preferred_test_procedure_sound flavor port_a port_b image_id s s' :
  preferred_test_procedure flavor port_a port_b image_id s = (Ret tt, s') →
  ∃ server_a server_b host host_sm dedicated X pins_b,
    passes s
      [boot_with_port flavor port_a [] image_id ⇓ server_a;
       get_host_for_server server_a ⇓ host;
       boot_with_port flavor port_b (scheduler_hints "same_host" server_a) image_id ⇓ server_b;
       NovaServiceManager_init host "nova-compute" ⇓ host_sm;
       get_cpu_dedicated_set host_sm ⇓ dedicated;
       get_pinning_as_set server_a ⇓ dedicated ∩ X;
       get_pinning_as_set server_b ⇓ pins_b;
       check_sriov_interface server_a port_a sriov_vlan_id ⇓ tt;
       check_sriov_interface server_b port_b sriov_vlan_id ⇓ tt] s' ∧
    node_cpus affinity_node = Some X ∧ pins_b ⊆ dedicated ∖ X.
Proof.
  unfold preferred_test_procedure. intros H. run_ret H. read_affinity.
  eexists _, _, _, _, _, X, _. split_and!; [walk|done|set_solver].
Qed.

(** The nodes of the socket the port has affinity to *)
Definition socket_nodes : option (list Z) :=
  socket_topology ≫= λ topology, dict_get topology (fmt (default VNone (VInt <$> socket_affinity))).

Lemma socket_fold dedicated nodes acc l :
  ofold (λ pcpus numa,
      cpus ← get_dedicated_cpus_from_numa_node (py_str numa) dedicated;
      Ret (pcpus ++ elements cpus)%list) acc nodes = Ret l →
  ∃ Xs, mapM (λ numa, node_cpus (py_str numa)) nodes = Some Xs ∧
        (list_to_set l : gset Z) = list_to_set acc ∪ (dedicated ∩ ⋃ Xs).
Proof.
  revert acc. induction nodes as [|n nodes IH]; intros acc H; cbn [ofold] in H.
  - injection H as <-. exists []. split; [done|set_solver].
  - destruct (get_dedicated_cpus_from_numa_node (py_str n) dedicated) as [cpus|e|] eqn:E; try done.
    apply dedicated_cpus_run in E as (X & HX & ->).
    apply IH in H as (Xs & HXs & Hl). exists (X :: Xs). cbn [mapM]. rewrite HX. cbn.
    split; [by rewrite HXs|]. rewrite Hl, list_to_set_app_L, list_to_set_elements_L. set_solver.
Qed.

(** [_get_cpu_ids_with_socket_affinity] lists exactly the dedicated CPUs of the
    NUMA nodes of the configured socket. *)
Theorem socket_cpus_union dedicated l :
  get_cpu_ids_with_socket_affinity dedicated = Ret l →
  ∃ nodes Xs, socket_nodes = Some nodes ∧
    mapM (λ numa, node_cpus (py_str numa)) nodes = Some Xs ∧
    ∀ cpu, cpu ∈ l ↔ cpu ∈ dedicated ∧ ∃ X, X ∈ Xs ∧ cpu ∈ X.
Proof.
  unfold get_cpu_ids_with_socket_affinity, socket_nodes. intros H.
  destruct socket_topology as [topology|]; simplify_eq/=.
  destruct (dict_get topology _) as [nodes|]; simplify_eq/=.
  apply socket_fold in H as (Xs & HXs & Hl). exists nodes, Xs. split_and!; [done|done|].
  intros cpu. rewrite <-(elem_of_list_to_set (C:=gset Z)), Hl.
  rewrite elem_of_union, elem_of_intersection, elem_of_union_list. cbn. rewrite elem_of_empty. tauto.
Qed.

(** ** Skipping *)

(** The socket policy class replaces the checks of the class it extends: with
    its own two options set it is not skipped where every other affinity class is,
    when no NUMA node is configured for the physical network. *)
Theorem socket_checks_replace_affinity_checks s :
  is_Some sriov_physnet → is_Some sriov_vlan_id → is_Some socket_topology → is_Some socket_affinity →
  physnet_numa_affinity = None →
  socket_skip_checks s = (Ret tt, s) ∧ numa_affinity_skip_checks s = (Exn SkipException, s) ∧
  ∀ dedicated, is_Some cpu_topology → node_cpus "None" = None →
    get_dedicated_cpus_from_numa_node affinity_node dedicated = Exn TypeError.
Proof.
  intros Hp Hv Ht Ha Hn. unfold socket_skip_checks, numa_affinity_skip_checks, sriov_skip_checks,
    affinity_node. rewrite Hn, !bool_decide_eq_true_2 by done. split_and!; [done| |].
  - rewrite (bool_decide_eq_false_2 (is_Some None)) by (by intros [? ?]).
    by destruct (bool_decide (sriov_vnic_type ∈ _)).
  - intros dedicated [topology Hc] Hnone. unfold node_cpus in Hnone.
    unfold get_dedicated_cpus_from_numa_node. rewrite Hc in *. simpl in *.
    by destruct (dict_get topology "None").
Qed.
End sriov_theorems.

(** ** Waiting *)
Section sriov_waiting.
Context {CONF : conf} {W : Type} `{C : cloud W} `{L : !lawful_clock W}.
Implicit Types s : pystate W.

#[export] Instance steady_finally {A} (m : M (pystate W) A) fin :
  Steady m → Steady fin → Steady (try_finally m fin).
Proof.
  intros Hm Hf s o s' H. unfold try_finally in H. destruct (m s) as [o1 s1] eqn:E1.
  apply Hm in E1 as [Hn1 ?]. destruct (fin s1) as [o2 s2] eqn:E2. apply Hf in E2 as [Hn2 ?].
  destruct o1, o2; simplify_eq; (split; [done|lia]).
Qed.
#[export] Instance steady_with {A} (cm : context_manager (pystate W)) (body : cm_locals cm → M (pystate W) A) :
  Steady (cm_enter cm) → (∀ x, Steady (cm_exit cm x)) → (∀ x, Steady (body x)) →
  Steady (with_as cm body).
Proof. intros He Hx Hb. unfold with_as. apply _. Qed.

Lemma steady_cursor {A} db commit (body : val → M (pystate W) A) :
  (∀ c, Steady (body c)) → Steady (cursor db commit body).
Proof.
  intros Hb. unfold cursor, cursor_on, with_cm, tunnel, conn_cursor, db_connect.
  destruct db_internal_ip as [ip|]; [destruct (truthy_str ip)|]; destruct commit; apply _.
Qed.
#[export] Instance steady_pci_count status address : Steady (get_pci_status_count status address).
Proof. apply steady_bind; [|intros ?; apply _]. apply steady_cursor. intros c. apply _. Qed.
#[export] Instance steady_primary_port port_id : Steady (show_primary_port port_id).
Proof. apply _. Qed.

Lemma pci_loop_total f timeout start status count s o s' :
  0 <= build_interval → timeout < sclk s - start + Z.of_nat f * (build_interval + 1) →
  pci_allocation_loop f timeout start status count s = (o, s') → o ≠ NoFuel.
Proof.
  intros Hi. revert count s. induction f as [|f IH]; intros count s Ht H;
    cbn [pci_allocation_loop] in H; run_step H; apply now_run in E as (t & ? & ?); simplify_eq;
    run_leb H; try lia; try (destruct count; naive_solver).
  run_steady H; [|naive_solver]. destruct (py_eq _ _); [naive_solver|].
  run_step H; apply sleep_run in E as [? ?]; try lia; [|naive_solver..].
  eapply IH, H. lia.
Qed.

Lemma pci_loop_Ret f timeout start status count s s' :
  pci_allocation_loop f timeout start status count s = (Ret tt, s') →
  ∃ n, passes s [get_pci_status_count status None ⇓ n] s' ∧ py_eq n (VInt 1) = true.
Proof.
  revert count s. induction f as [|f IH]; intros count s H; cbn [pci_allocation_loop] in H;
    apply bind_Ret_inv in H as (t & s1 & E1 & H); destruct (_ <=? timeout)%Z;
    try (by destruct count).
  apply bind_Ret_inv in H as (n & s2 & E2 & H). destruct (py_eq n (VInt 1)) eqn:Hn.
  - injection H as <-. exists n. split; [walk|done].
  - apply bind_Ret_inv in H as (u & s3 & E3 & H). destruct (IH _ _ H) as (n' & Hp & ?).
    exists n'. split; [|done]. repeat walk_skip. exact Hp.
Qed.

(** [_validate_pci_allocation] ends within its timeout, and it returns only
    after a count of exactly one device with the status. *)
Theorem validate_pci_allocation_spec fuel status s o s' :
  0 <= build_interval → build_timeout < Z.of_nat fuel * (build_interval + 1) →
  validate_pci_allocation fuel status s = (o, s') →
  o ≠ NoFuel ∧
  (o = Ret tt → ∃ n, passes s [get_pci_status_count status None ⇓ n] s' ∧ py_eq n (VInt 1) = true).
Proof.
  intros Hi Hf H. unfold validate_pci_allocation in H. split.
  - run_step H; apply now_run in E as (t & ? & ?); simplify_eq.
    eapply pci_loop_total; [..|exact H]; lia.
  - intros ->. apply bind_Ret_inv in H as (t & s1 & E & H).
    apply pci_loop_Ret in H as (n & Hp & ?). exists n. split; [|done]. by walk_skip.
Qed.

Lemma pci_loop_never f timeout start status count s o s' :
  (∀ s0, ∃ s1, get_pci_status_count status None s0 = (Ret (VInt 0), s1)) →
  pci_allocation_loop f timeout start status count s = (o, s') →
  o = NoFuel ∨ o = Exn TimeoutException ∨ o = Exn UnboundLocalError.
Proof.
  intros Hc. revert count s. induction f as [|f IH]; intros count s H;
    cbn [pci_allocation_loop] in H; run_step H; apply now_run in E as (t & ? & _); simplify_eq;
    (destruct (_ <=? timeout)%Z; [|destruct count; injection H as <- _; tauto]).
  { injection H as <- _. by left. }
  destruct (Hc s0) as [s1 Hs1]. rewrite (bind_Ret _ _ _ _ _ Hs1) in H. cbn [py_eq] in H.
  apply bind_inv in H as [(u & s2 & _ & H)|[(e & E & ->)|(E & ->)]]; [by eapply IH| |by left].
  by apply (f_equal fst) in E.
Qed.

(** Without hot-plugging the status asked for is the text allocated|claimed,
    which the query compares for equality. Where no device has a status of that
    name, the check can only fail, however many devices are allocated or
    claimed: it times out, or fails on the unbound count if the timeout has
    passed before its first iteration. *)
Theorem pci_status_pattern_never_matches fuel s :
  sriov_hotplug = false → 0 <= build_interval →
  build_timeout < Z.of_nat fuel * (build_interval + 1) →
  (∀ s0, ∃ s1, get_pci_status_count "allocated|claimed" None s0 = (Ret (VInt 0), s1)) →
  let o := (validate_pci_allocation fuel pci_device_status s).1 in
  o = Exn TimeoutException ∨ o = Exn UnboundLocalError.
Proof.
  intros Hh Hi Hf Hc o. subst o. unfold pci_device_status. rewrite Hh.
  destruct (validate_pci_allocation fuel "allocated|claimed" s) as [o s'] eqn:H. simpl.
  unfold validate_pci_allocation in H. run_step H; apply now_run in E as (t & ? & ?); simplify_eq.
  assert (o ≠ NoFuel) by (eapply pci_loop_total; [..|exact H]; lia).
  by apply pci_loop_never in H as [?|?].
Qed.

Lemma detach_loop_total f start port_id port device_id s o s' :
  0 < build_interval → (truthy device_id = true → (1 <= f)%nat) →
  build_timeout <= sclk s - start + Z.of_nat f * build_interval →
  port_detach_loop f start port_id port device_id s = (o, s') → o ≠ NoFuel.
Proof.
  intros Hi. revert port device_id s. induction f as [|f IH]; intros port device_id s Hf Ht H;
    cbn [port_detach_loop] in H; (destruct (truthy device_id) eqn:Hd; [|by injection H as <- _]).
  { specialize (Hf eq_refl). lia. }
  run_step H; apply sleep_run in E as [? ?]; try lia; [|naive_solver..].
  do 2 (run_steady H; [|naive_solver]).
  run_step H; apply now_run in E as (t & ? & ?); simplify_eq.
  match type of H with context [truthy ?d && _] => destruct (truthy d) eqn:Hd' end; cbn [andb] in H.
  - run_leb H; [by injection H as <- _|]. eapply IH; [..|exact H]; [intros _|]; nia.
  - eapply IH; [..|exact H]; [by rewrite Hd'|lia].
Qed.

(** The port belongs to no device. *)
Definition detached (port : val) : Prop := ∃ d, vget port "device_id" = Ret d ∧ truthy d = false.

Lemma detach_loop_Ret f start port_id port device_id s0 s s' r :
  show_primary_port port_id s0 = (Ret port, s) → vget port "device_id" = Ret device_id →
  ∀ sx, reaches s sx → port_detach_loop f start port_id port device_id sx = (Ret r, s') →
  passes s0 [show_primary_port port_id ⇓ r] s' ∧ detached r.
Proof.
  revert port device_id s0 s. induction f as [|f IH]; intros port device_id s0 s Hp Hd sx Hr H;
    cbn [port_detach_loop] in H; (destruct (truthy device_id) eqn:Ht;
      [|injection H as <- <-; split; [eapply passes_here; [exact Hp|by constructor]|by exists device_id]]);
    [done|].
  apply bind_Ret_inv in H as (u & s1 & E1 & H). apply bind_Ret_inv in H as (p & s2 & E2 & H).
  apply bind_Ret_inv in H as (d & s3 & E3 & H). apply lift_run in E3 as [E3 ->].
  apply bind_Ret_inv in H as (t & s4 & E4 & H). destruct (_ && _)%bool; [done|].
  assert (reaches s2 s4) as H24 by (eapply within_run; [|exact E4]; solve_reaches).
  destruct (IH p d s1 s2 E2 (eq_sym E3) s4 H24 H) as (Hp' & ?). split; [|done].
  eapply passes_skip; [|exact Hp']. etrans; [eapply within_run; [|exact Hp]; solve_reaches|].
  etrans; [exact Hr|]. eapply within_run; [|exact E1]; solve_reaches.
Qed.

Lemma wait_for_port_detach_Ret fuel port_id s port s' :
  wait_for_port_detach fuel port_id s = (Ret port, s') →
  passes s [show_primary_port port_id ⇓ port] s' ∧ detached port.
Proof.
  intros H. unfold wait_for_port_detach in H. apply bind_Ret_inv in H as (p & s1 & E1 & H).
  apply bind_Ret_inv in H as (d & s2 & E2 & H). apply lift_run in E2 as [E2 ->].
  apply bind_Ret_inv in H as (t & s3 & E3 & H).
  eapply detach_loop_Ret; [exact E1|done| |exact H].
  eapply within_run; [|exact E3]; solve_reaches.
Qed.

(** C25: [wait_for_port_detach] ends within its timeout, and what it returns is a
    port the API showed during the wait without a device. *)
Theorem wait_for_port_detach_spec fuel port_id s o s' :
  0 < build_interval → (1 <= fuel)%nat → build_timeout <= Z.of_nat fuel * build_interval →
  wait_for_port_detach fuel port_id s = (o, s') →
  o ≠ NoFuel ∧
  (∀ port, o = Ret port → passes s [show_primary_port port_id ⇓ port] s' ∧ detached port).
Proof.
  intros Hi Hf Ht H. split.
  - unfold wait_for_port_detach in H. do 2 (run_steady H; [|naive_solver]).
    run_step H; apply now_run in E as (t & ? & ?); simplify_eq.
    eapply detach_loop_total; [..|exact H]; lia.
  - intros port ->. by apply wait_for_port_detach_Ret in H.
Qed.
End sriov_waiting.

Section sriov_loops.
Context {CONF : conf} {W : Type} `{C : cloud W} (R : pystate W → pystate W → Prop) {HR : Ambient R}.

Lemma within_detach_loop f start port_id port device_id :
  Within R (port_detach_loop f start port_id port device_id).
Proof. revert port device_id. induction f; intros; cbn [port_detach_loop]; solve_within. Qed.
Lemma within_allocation_loop f timeout start status count :
  Within R (pci_allocation_loop f timeout start status count).
Proof. revert count. induction f; intros; cbn [pci_allocation_loop]; solve_within. Qed.
End sriov_loops.
#[export] Hint Resolve within_detach_loop within_allocation_loop : within.

(** ** Attaching and detaching *)
Section sriov_attach.
Context {CONF : conf} {W : Type} `{C : cloud W}.
Context (fuel : nat) (image_ssh_user image_ssh_password : val).
Implicit Types s : pystate W.

(** The interface in the domain has the address the API reports. *)
Definition same_mac (iface : val) (xml : elem) : Prop :=
  ∃ mac addr, vget iface "mac_addr" = Ret addr ∧ find xml [Child "mac"] = Some mac ∧
              py_eq addr (vopt_str (elem_get mac "address")) = true.

Lemma attach_and_detach_run network port port_id vendor product server_id client s s' :
  attach_and_detach_port fuel network port port_id vendor product (server_id, client) s = (Ret tt, s') →
  ∃ iface xml port',
    passes s [attach_interface server_id port_id ⇓ iface;
              get_xml_interface_device server_id port_id ⇓ xml;
              verify_neutron_port_binding server_id port_id ⇓ tt;
              show_primary_port port_id ⇓ port'] s' ∧
    same_mac iface xml ∧ vlan_of xml = Ret sriov_vlan_id ∧ detached port'.
Proof.
  unfold attach_and_detach_port, detach_interface, validate_port_xml_vlan_tag. intros H. run_ret H.
  repeat match goal with E : (_ ≫= _) _ = (Ret _, _) |- _ => run_ret E end. use_asserts.
  repeat match goal with
  | E : lift _ _ = _ |- _ => apply lift_run in E as [E ->]; symmetry in E
  | E : bool_decide _ = true |- _ => apply bool_decide_eq_true in E
  | E : mret _ _ = _ |- _ => injection E as <-
  | u : unit |- _ => destruct u
  end. subst.
  match goal with E : wait_for_port_detach _ _ _ = _ |- _ =>
    apply wait_for_port_detach_Ret in E as [Hshow ?] end.
  eexists _, _, _. split_and!; [walk| |by subst|done].
  match goal with E : or_raise _ ?o = Ret ?m |- _ => destruct o eqn:Ho; [injection E as ->|done] end.
  by eexists _, _.
Qed.

(** C24: when a port is attached to and detached from two servers and the test
    passes, each server in turn had exactly one interface of the port, with the
    address the API reports and the configured VLAN, and the port was shown
    without a device before it was attached to the second server, and again at
    the end. *)
Theorem attach_and_detach_sound network vnic_type s s' :
  base_test_attach_and_detach_sriov_port fuel image_ssh_user image_ssh_password network vnic_type s
    = (Ret tt, s') →
  ∃ server_a client_a server_b client_b port port_id iface_a xml_a port_a iface_b xml_b port_b,
    passes s
      [create_server_and_ssh image_ssh_user image_ssh_password ⇓ (server_a, client_a);
       create_server_and_ssh image_ssh_user image_ssh_password ⇓ (server_b, client_b);
       create_port_from_vnic_type network (VStr vnic_type) None ⇓ port;
       port_id_of port ⇓ port_id;
       attach_interface server_a port_id ⇓ iface_a; get_xml_interface_device server_a port_id ⇓ xml_a;
       verify_neutron_port_binding server_a port_id ⇓ tt;
       show_primary_port port_id ⇓ port_a;
       attach_interface server_b port_id ⇓ iface_b; get_xml_interface_device server_b port_id ⇓ xml_b;
       verify_neutron_port_binding server_b port_id ⇓ tt;
       show_primary_port port_id ⇓ port_b] s' ∧
    same_mac iface_a xml_a ∧ vlan_of xml_a = Ret sriov_vlan_id ∧ detached port_a ∧
    same_mac iface_b xml_b ∧ vlan_of xml_b = Ret sriov_vlan_id ∧ detached port_b.
Proof.
  unfold base_test_attach_and_detach_sriov_port. intros H. run_ret H.
  match type of H with context [match ?p with _ => _ end] => destruct p as [vendor product] end.
  cbn [for_each] in H. run_ret H. injection H as <-.
  repeat match goal with u : unit |- _ => destruct u | p : string * val |- _ => destruct p end.
  repeat match goal with
  | E : attach_and_detach_port _ _ _ _ _ _ _ _ = _ |- _ =>
      apply attach_and_detach_run in E as (? & ? & ? & ? & ? & ? & ?)
  end.
  match goal with
  | Ha : passes _ _ ?s1, Hb : passes ?s1 _ _ |- _ => pose proof (passes_app _ _ _ _ _ Ha Hb) as Hab
  end.
  eexists _, _, _, _, _, _, _, _, _, _, _, _. split.
  - do 4 (eapply passes_here; [eassumption|]). exact Hab.
  - by split_and!.
Qed.
End sriov_attach.

(** * Witnesses *)
Definition sriov_domain (cpus : list Z) : elem :=
  Elem "domain" [] None
    [Elem "cputune" [] None (map print_pin (imap (λ i c, (Z.of_nat i, c)) cpus));
     Elem "devices" [] None
       [Elem "interface" [("type", "hostdev")] None
          [Elem "mac" [("address", "52:54:00:01")] None [];
           Elem "vlan" [] None [Elem "tag" [("id", "200")] None []]]]].
Definition sriov_env : cloud sim :=
  sim_cloud (λ _, false)
    [("<one/>", sriov_domain [0; 1; 2; 3]); ("<two/>", sriov_domain [4; 5; 6; 7])] host_yaml_full.
Definition sriov_port : val :=
  VDict [("port", VDict [("id", VStr "port-1"); ("binding:vnic_type", VStr "direct");
                         ("mac_address", VStr "52:54:00:01"); ("device_id", VStr "");
                         ("fixed_ips", VList [VDict [("ip_address", VStr "10.0.0.9")]]);
                         ("binding:profile", VDict [("pci_slot", VStr "0000:81:00.1")])])].
Definition sriov_state (names : list string) : pystate sim :=
  mkState None [] (mkSim 0 {[("compute", "cpu_dedicated_set") := "0-7"]} true
    [("sudo virsh dumpxml one", "<one/>"); ("sudo virsh dumpxml two", "<two/>")]
    ([("BaseV2ComputeAdminTest.get_test_validation_resources",
       VDict [("keypair", VDict [("private_key", VStr "key")])]);
      ("BaseV2ComputeAdminTest.get_server_ip", VStr "10.0.0.5");
      ("remote_client.RemoteClient", VStr "client"); ("linux_client.validate_authentication", VNone);
      ("linux_client.exec_command", VStr "1");
      ("BaseV2ComputeAdminTest.create_test_server", VDict [("id", VStr "server-1")]);
      ("BaseV2ComputeAdminTest.create_test_server", VDict [("id", VStr "server-2")]);
      ("BaseV2ComputeAdminTest.get_host_for_server", VStr "compute-0");
      ("os_admin.ports_client.show_port", sriov_port); ("os_primary.ports_client.show_port", sriov_port);
      ("os_primary.ports_client.create_port", sriov_port);
      ("interfaces_client.create_interface",
       VDict [("interfaceAttachment", VDict
         [("port_id", VStr "port-1"); ("net_id", VStr "net-1"); ("mac_addr", VStr "52:54:00:01");
          ("fixed_ips", VList [VDict [("ip_address", VStr "10.0.0.9")]])])]);
      ("interfaces_client.delete_interface", VNone);
      ("pymysql.connect", VNone); ("conn.cursor", VNone); ("cursor.__exit__", VNone);
      ("conn.close", VNone); ("cursor.execute", VNone);
      ("cursor.fetchall", VList [VDict [("address", VStr "0000:81:00.1"); ("status", VStr "allocated");
                                        ("dev_type", VStr "type-VF"); ("COUNT(*)", VInt 0)]])] ++
     map (λ name, ("os_admin.servers_client.show_server", named_server name)) names)%list []).

Lemma preferred_test_procedure_sound_witness :
  ∃ X, node_cpus (CONF:=sim_CONF) "0" = Some X.
Proof.
  destruct (preferred_test_procedure_sound (CONF:=sim_CONF) (C:=sriov_env) vgpu_flavor_body
    sriov_port sriov_port (VStr "cirros") (sriov_state ["one"; "two"; "one"; "two"])
    (preferred_test_procedure (CONF:=sim_CONF) (C:=sriov_env) vgpu_flavor_body sriov_port sriov_port
       (VStr "cirros") (sriov_state ["one"; "two"; "one"; "two"])).2)
    as (_ & _ & _ & _ & _ & X & _ & _ & HX & _).
  - vm_compute. reflexivity.
  - by exists X.
Defined.

Lemma socket_cpus_union_witness :
  ∃ nodes, socket_nodes (CONF:=sim_CONF) = Some nodes.
Proof.
  destruct (socket_cpus_union (CONF:=sim_CONF) {[2; 5; 9]} [2; 5]) as (nodes & _ & Hn & _).
  - vm_compute. reflexivity.
  - by exists nodes.
Defined.

Lemma attach_and_detach_sound_witness :
  ∃ xml, vlan_of xml = Ret (Some 200).
Proof.
  destruct (attach_and_detach_sound (CONF:=sim_CONF) (C:=sriov_env) 12 VNone VNone vdpa_network "direct"
    (sriov_state ["one"]) (base_test_attach_and_detach_sriov_port (CONF:=sim_CONF) (C:=sriov_env)
       12 VNone VNone vdpa_network "direct" (sriov_state ["one"])).2)
    as (_ & _ & _ & _ & _ & _ & _ & xml & _ & _ & _ & _ & _ & _ & Hv & _).
  - vm_compute. reflexivity.
  - by exists xml.
Defined.

Definition sriov_clock : @lawful_clock sim sriov_env := sim_lawful_clock _ _ _.

Lemma validate_pci_allocation_spec_witness :
  (validate_pci_allocation (CONF:=sim_CONF) (C:=sriov_env) 11 "allocated" (sriov_state [])).1 ≠ NoFuel.
Proof.
  eapply (validate_pci_allocation_spec (CONF:=sim_CONF) (C:=sriov_env) (L:=sriov_clock)
    11 "allocated" (sriov_state []));
    [simpl; lia|simpl; lia|apply surjective_pairing].
Defined.

Lemma wait_for_port_detach_spec_witness :
  (wait_for_port_detach (CONF:=sim_CONF) (C:=sriov_env) 12 "port-1" (sriov_state [])).1 ≠ NoFuel.
Proof.
  eapply (wait_for_port_detach_spec (CONF:=sim_CONF) (C:=sriov_env) (L:=sriov_clock)
    12 "port-1" (sriov_state []));
    [simpl; lia|lia|simpl; lia|apply surjective_pairing].
Defined.

(** A database in which no device has the status asked for. *)
Definition no_device_cloud (base : cloud sim) : cloud sim := {|
  ssh_exec_command := @ssh_exec_command sim base;
  api_call := λ m a w,
    (Ret (if String.eqb m "cursor.fetchall" then VList [VDict [("COUNT(*)", VInt 0)]] else VNone), w);
  time_time := @time_time sim base;
  time_sleep := @time_sleep sim base;
  yaml_load_file := @yaml_load_file sim base;
  et_fromstring := @et_fromstring sim base;
  json_loads := @json_loads sim base;
|}.
Definition no_device_env : cloud sim := no_device_cloud sriov_env.
Definition no_device_clock : @lawful_clock sim no_device_env.
Proof.
  unshelve refine {| clk := sim_clock |}; simpl.
  - intros w. lia.
  - intros n w Hn. lia.
  - intros _ _ w. lia.
  - done.
  - intros _ _ _ c w. by destruct (sim_ssh_clock (λ _, false) c w) as [-> _].
  - intros _ _ _ c w. apply sim_ssh_clock.
Defined.
Definition no_hotplug_CONF : conf := mk_sim_CONF_full false [] "journalctl" false false.

Lemma pci_status_pattern_never_matches_witness :
  let o := (validate_pci_allocation (CONF:=no_hotplug_CONF) (C:=no_device_env) 11
              (pci_device_status (CONF:=no_hotplug_CONF)) (sriov_state [])).1 in
  o = Exn TimeoutException ∨ o = Exn UnboundLocalError.
Proof.
  apply (pci_status_pattern_never_matches (CONF:=no_hotplug_CONF) (C:=no_device_env)
           (L:=no_device_clock)).
  - reflexivity.
  - simpl. lia.
  - simpl. lia.
  - intros [nodes cleanups w]. eexists. reflexivity.
Defined.
