(* ===== verification/GuestXml.v ===== *)
(** The tests that boot a guest and look at its domain XML: test_compute_id.py,
    test_console_encryption.py, test_cpu_model_extra_flags.py,
    test_default_hyperv_enlightenments.py, test_flavor_metadata.py,
    test_hw_video_type.py, test_iso_image.py, test_multiqueue.py, test_nvdimm.py,
    test_pointer_device_type.py, test_rx_tx_queue_size.py,
    test_validate_selinux_labels.py, test_viommu_devices.py, test_virtio_rng.py,
    test_vpmu.py and test_watchdog_devices.py of api/compute. *)
From Stdlib Require Import Ascii String.
From S2P Require Import Prelude PyString PyVal Xml Env Sim Hardware Utils Clients ServiceManager ComputeBase Trace.
#[local] Open Scope string_scope.

Section guest_xml.
Context {CONF : conf} {W : Type} `{C : cloud W}.
Context (class_name : string).
Abbreviation P := (M (pystate W)).

(** [x.get], [x.text], [x.attrib]... where [x] may be None *)
Definition the (o : option elem) : P elem := lift (or_raise AttributeError o).

(** [assertTrue(x)] of what [find] returns *)
Definition found_truthy (o : option elem) : bool :=
  match o with Some e => elem_truthy e | None => false end.

(** [self.create_test_server(..., wait_until='ACTIVE')], and the id the tests go on with *)
Definition boot_server (args : kwargs) : P string :=
  server ← create_test_server (args ++ [("wait_until", VStr "ACTIVE")])%list;
  id_of server.

(** [rebuild_server(server_id, image)], waiting for the server to be ACTIVE *)
Definition rebuild_with (server_id : string) (image_ref : val) : P unit :=
  api "servers_client.rebuild_server" [("server_id", VStr server_id); ("image_ref", image_ref)];;
  api "waiters.wait_for_server_status"
    [("client", VStr "servers_client"); ("server_id", VStr server_id); ("status", VStr "ACTIVE")];;
  mret tt.

(** [testtools.skipUnless(CONF.x, ...)] of an optional string *)
Definition skip_unless_set (o : option string) : P unit := skip_unless (truthy (vopt_str o)).

(** * TestStableCpuId *)
Definition compute_id_skip_checks : P unit := skip_unless stable_compute_uuid_supported.

Definition check_compute_id (compute_id_path : string) (hypervisor : val) : P unit :=
  name ← lift (vget hypervisor "hypervisor_hostname" ≫= as_str);
  ssh_client ← SSHClient_init name;
  out ← execute ssh_client ("cat " ++ compute_id_path) VNone true;
  let uuid_on_disk := py_rstrip out in
  id ← lift (vget hypervisor "id");
  assert_that (py_eq id (VStr uuid_on_disk)).

Definition test_compute_id_file_match_db_state : P unit :=
  body ← api "os_admin.hypervisor_client.list_hypervisors" [];
  hypervisors ← lift (vget body "hypervisors" ≫= as_list);
  for_each (check_compute_id (path_join state_path "compute_id")) hypervisors.

(** * TestVencrypt *)
Definition vencrypt_skip_checks : P unit := skip_unless vencrypt.

(** [setUp]: the attributes [instance] and [ssh_cl] *)
Definition vencrypt_setUp : P (string * SSHClient) :=
  server_id ← boot_server [];
  body ← api "os_admin.servers_client.show_server" [("server_id", VStr server_id)];
  server ← lift (vget body "server");
  instance ← lift (vget server "OS-EXT-SRV-ATTR:instance_name" ≫= as_str);
  server_id ← id_of server;
  host ← get_host_for_server server_id;
  ssh_cl ← SSHClient_init host;
  mret (instance, ssh_cl).

Definition vencrypt_line (obj : string) : bool :=
  contains "vnc-tls" obj && contains (dq ++ "verify-peer" ++ dq ++ ":true") obj.

Definition test_via_qemu_logs (instance : string) (ssh_cl : SSHClient) : P unit :=
  out ← execute ssh_cl ("cat /var/log/libvirt/qemu/" ++ instance ++ ".log| grep vnc") VNone true;
  assert_that (existsb vencrypt_line (py_splitlines out)).

(** * CpuModelExtraFlagsTest *)
Definition strip_char (c : ascii) : string → string := strip_by (Ascii.eqb c).

Definition feature_path (flag : string) : list xstep :=
  [Child "cpu"; AttrIs "mode" "custom"; Child "feature"] ++
  (if starts_with "-" flag
   then [AttrIs "name" (strip_char "-" flag); AttrIs "policy" "disable"]
   else [AttrIs "name" (strip_char "+" flag); AttrIs "policy" "require"]).

Definition test_cpu_model_extra_flags : P unit :=
  skip_unless_set cpu_model;;
  skip_unless (negb (bool_decide (default [] cpu_model_extra_flags = [])));;
  server ← boot_server [];
  root ← get_server_xml server;
  model ← the (find root [Child "cpu"; AttrIs "mode" "custom"; Child "model"]);
  assert_that (bool_decide (cpu_model = elem_text model));;
  for_each (λ flag, assert_that (negb (bool_decide (findall root (feature_path flag) = []))))
    (default [] cpu_model_extra_flags).

(** * HyperVEnlightenments *)
Definition hyperv_setUp : P val := copy_default_image [("os_type", VStr "windows")].

(** [{elem.tag: elem.get('state') for elem in hyperv.iter() if elem.tag != 'hyperv'}] *)
Definition hyperv_states (hyperv : elem) : list (string * option string) :=
  foldl (λ d e, dict_set d (elem_tag e) (elem_get e "state")) []
    (filter (λ e, elem_tag e ≠ "hyperv") (elem_iter hyperv)).

Definition DEFAULT_ATTRIBUTES : list string :=
  ["frequencies"; "ipi"; "relaxed"; "reset"; "runtime"; "spinlocks"; "synic"; "tlbflush"; "vapic";
   "vendor_id"; "vpindex"].

(** The expression [l.sort()]: it sorts the list in place, and its value is None. *)
Definition list_sort (l : list string) : outcome val :=
  py_sort (map VStr l);;
  Ret VNone.

Definition confirm_hyperv_elements (server_id : string) : P unit :=
  root ← get_server_xml server_id;
  let hyperv := find root [Child "features"; Child "hyperv"] in
  assert_that (found_truthy hyperv);;
  hyperv ← the hyperv;
  let elements := hyperv_states hyperv in
  found ← lift (list_sort (map fst elements));
  expected ← lift (list_sort DEFAULT_ATTRIBUTES);
  assert_that (py_eq found expected);;
  for_each (λ st, assert_that (bool_decide (st.2 = Some "on"))) elements.

Definition test_default_hyperv_enlightenments (windows_image_id : val) : P unit :=
  server ← boot_server [("image_id", windows_image_id)];
  confirm_hyperv_elements server.

Definition test_live_migrate_with_enlightenments (windows_image_id : val) : P unit :=
  server ← boot_server [("image_id", windows_image_id)];
  confirm_hyperv_elements server;;
  live_migrate "os_primary" server "ACTIVE" None;;
  confirm_hyperv_elements server.

(** * TestFlavorMetadata *)
Definition nova (tag : string) : string := "{http://openstack.org/xmlns/libvirt/nova/1.1}" ++ tag.

Definition parameters_to_validate : list (string * Z) :=
  [("vcpus", 2); ("disk", 1); ("memory", flavor_ram_size); ("ephemeral", 0); ("swap", 0)].

Definition check_flavor_parameter (flavor_element : elem) (param : string * Z) : P unit :=
  found_element ← the (find flavor_element [Descendant (nova param.1)]);
  text ← lift (or_raise TypeError (elem_text found_element));
  element_value ← lift (int_of text);
  assert_that (param.2 =? element_value)%Z.

Definition check_flavor_element (name : string) (flavor_id : val) (flavor_element : elem) : P unit :=
  assert_that (bool_decide (elem_get flavor_element "name" = Some name));;
  assert_that (py_eq flavor_id (vopt_str (elem_get flavor_element "id")));;
  for_each (check_flavor_parameter flavor_element) parameters_to_validate;;
  extra_specs_elem ← the (find flavor_element [Descendant (nova "extraSpecs")]);
  extra_spec ← the (find extra_specs_elem [Descendant (nova "extraSpec")]);
  assert_that (bool_decide (elem_get extra_spec "name" = Some "hw:cpu_policy"));;
  assert_that (bool_decide (elem_text extra_spec = Some "shared")).

Definition flavor_metadata (domain : elem) : P elem :=
  metadata ← the (find domain [Child "metadata"]);
  the (find metadata [Descendant (nova "instance"); Child (nova "flavor")]).

Definition test_flavor_metadata_is_present : P unit :=
  name ← api "data_utils.rand_name"
           [("prefix", VStr resource_name_prefix); ("name", VStr (class_name ++ "-flavor"))];
  name ← lift (as_str name);
  flavor ← create_named_flavor (VInt flavor_ram_size) 2 1 (VStr name)
             (Some [("hw:cpu_policy", VStr "shared")]);
  flavor_id ← lift (vget flavor "id");
  server ← boot_server [("flavor", flavor_id)];
  domain ← get_server_xml server;
  flavor_element ← flavor_metadata domain;
  check_flavor_element name flavor_id flavor_element.

(** * HwVideoModelTest *)

(** [setUp]: [virtio_image_id] and [none_image_id] *)
Definition hw_video_setUp : P (val * val) :=
  virtio ← copy_default_image [("hw_video_model", VStr "virtio")];
  none ← copy_default_image [("hw_video_model", VStr "none")];
  mret (virtio, none).

Definition assert_hw_video_type (server_id : string) (hw_video_type : option string) : P unit :=
  root ← get_server_xml server_id;
  hw_video ← the (find root [Child "devices"; Child "video"; Child "model"]);
  assert_that (bool_decide (hw_video_type = elem_get hw_video "type")).

Definition test_create_virtio_instance (virtio_image_id none_image_id : val) : P unit :=
  server ← boot_server [("image_id", virtio_image_id)];
  assert_hw_video_type server (Some "virtio").

Definition test_create_none_instance (virtio_image_id none_image_id : val) : P unit :=
  server ← boot_server [("image_id", none_image_id)];
  assert_hw_video_type server (Some "none").

Definition test_rebuild_virtio_to_none (virtio_image_id none_image_id : val) : P unit :=
  server ← boot_server [("image_id", virtio_image_id)];
  assert_hw_video_type server (Some "virtio");;
  rebuild_with server none_image_id;;
  assert_hw_video_type server (Some "none").

(** As the source has it: from virtio to none once more *)
Definition test_rebuild_none_to_virtio (virtio_image_id none_image_id : val) : P unit :=
  server ← boot_server [("image_id", virtio_image_id)];
  assert_hw_video_type server (Some "virtio");;
  rebuild_with server none_image_id;;
  assert_hw_video_type server (Some "none").

Definition test_default_hw_device : P unit :=
  skip_unless_set default_video_model;;
  server ← boot_server [];
  assert_hw_video_type server default_video_model.

Definition test_bochs_display_device : P unit :=
  skip_unless bochs_display_support;;
  skip_unless uefi_boot;;
  uefi_image_id ← copy_default_image
    [("hw_firmware_type", VStr "uefi"); ("hw_machine_type", VStr "q35"); ("hw_video_model", VStr "bochs")];
  server ← boot_server [("image_id", uefi_image_id)];
  assert_hw_video_type server (Some "bochs").

(** * TestIsoImage *)
Definition iso_skip_checks : P unit :=
  skip_unless (bool_decide ("iso" ∈ image_disk_formats));;
  exists_ ← api "os.path.exists" [("path", VStr http_iso_image)];
  skip_unless (truthy exists_).

Definition store_iso_image_in_glance : P val :=
  name ← api "data_utils.rand_name" [("prefix", VStr resource_name_prefix); ("name", VStr "-iso-image")];
  container_format ← lift (or_raise IndexError (image_container_formats !! 0%nat));
  image ← api "images_client.create_image"
    [("name", name); ("container_format", VStr container_format); ("disk_format", VStr "iso")];
  image_id ← lift (vget image "id");
  add_cleanup (CleanupCall "images_client.delete_image" [("image_id", image_id)]);;
  image_file ← api "open" [("file", VStr http_iso_image); ("mode", VStr "rb")];
  try_finally
    (api "images_client.store_image_file" [("image_id", image_id); ("data", image_file)];; mret tt)
    (api "file.close" [("self", image_file)];; mret tt);;
  mret image_id.

Definition assert_cdrom (server_id : string) : P unit :=
  domain_xml ← get_server_xml server_id;
  assert_that (bool_decide (is_Some
    (find domain_xml [Child "devices"; Child "disk"; AttrIs "device" "cdrom"]))).

Definition test_boot_server_from_iso_image : P unit :=
  image_id ← store_iso_image_in_glance;
  keypair ← create_keypair [] class_name;
  key_name ← lift (vget keypair "name");
  server ← boot_server [("image_id", image_id); ("key_name", key_name)];
  assert_cdrom server;;
  reboot_server server "HARD";;
  assert_cdrom server.

(** * MultiqueueTest *)
Definition test_multiqueue : P unit :=
  image_id ← copy_default_image [("hw_vif_multiqueue_enabled", VStr "true")];
  flavor ← create_flavor_default 2 None;
  flavor_id ← lift (vget flavor "id");
  network ← api "BaseV2ComputeAdminTest.get_tenant_network" [];
  network_id ← lift (vget network "id");
  server ← boot_server
    [("flavor", flavor_id); ("image_id", image_id);
     ("networks", VList [VDict [("uuid", network_id)]])];
  domain ← get_server_xml server;
  driver ← the (find domain [Child "devices"; Child "interface"; Child "driver"]);
  queues ← lift (or_raise KeyError (elem_get driver "queues"));
  assert_that (String.eqb queues "2").

(** * NVDIMMTests; [string_to_bytes] is oslo_utils.strutils'. *)
Definition nvdimm_skip_checks : P unit :=
  skip_unless (bool_decide (is_Some pmem_flavor_size));;
  skip_unless (bool_decide (is_Some pmem_expected_size)).

(** [e.text + e.get('unit')] *)
Definition size_text (e : elem) : outcome string :=
  text ← or_raise TypeError (elem_text e);
  unit_ ← or_raise TypeError (elem_get e "unit");
  Ret (text ++ unit_).

Definition test_nvdimm_instance_creation (string_to_bytes : string → outcome Z) : P unit :=
  flavor ← create_flavor_default 2 (Some [("hw:pmem", vopt_str pmem_flavor_size)]);
  flavor_id ← lift (vget flavor "id");
  server ← boot_server [("flavor", flavor_id)];
  root ← get_server_xml server;
  let pmem_device := find root [Child "devices"; Child "memory"; AttrIs "model" "nvdimm"] in
  assert_that (bool_decide (is_Some pmem_device));;
  pmem_device ← the pmem_device;
  target_size_element ← the (find pmem_device [Child "target"; Child "size"]);
  target_size ← lift (size_text target_size_element ≫= string_to_bytes);
  alignment_size_element ← the (find pmem_device [Child "source"; Child "alignsize"]);
  align_size ← lift (size_text alignment_size_element ≫= string_to_bytes);
  let total_size := target_size + align_size in
  expected ← lift (or_raise TypeError pmem_expected_size);
  expected_size ← lift (string_to_bytes expected);
  assert_that (expected_size =? total_size)%Z.

(** * PointerDeviceTypeFromImages *)
Definition test_pointer_device_type_from_images : P unit :=
  image_id ← copy_default_image [("hw_pointer_model", VStr "usbtablet")];
  server ← boot_server [("image_id", image_id)];
  domain ← get_server_xml server;
  let tablet := find domain [Child "devices"; Child "input"; AttrIs "type" "tablet"; AttrIs "bus" "usb"] in
  let mouse := find domain [Child "devices"; Child "input"; AttrIs "type" "mouse"; AttrIs "bus" "ps2"] in
  assert_that (found_truthy tablet);;
  assert_that (found_truthy mouse).

(** * RxTxQueueSizeTest *)
Definition vhost_driver (domain : elem) (type : string) : option elem :=
  find domain [Child "devices"; Child "interface"; AttrIs "type" type;
               Child "driver"; AttrIs "name" "vhost"].

Definition test_rx_queue_size : P unit :=
  skip_unless (truthy (default VNone (VInt <$> rx_queue_size)));;
  server ← boot_server [];
  domain ← get_server_xml server;
  driver ← the (match vhost_driver domain "ethernet" with
                | Some driver => Some driver
                | None => vhost_driver domain "bridge"
                end);
  size ← lift (or_raise KeyError (elem_get driver "rx_queue_size"));
  assert_that (String.eqb size (fmt (default VNone (VInt <$> rx_queue_size)))).

(** * SelinuxLabelsTest *)
Definition selinux_skip_checks : P unit :=
  skip_unless (truthy (vopt_str selinux_label) || truthy (vopt_str selinux_imagelabel)).

Definition selinux_setUp : P val := create_flavor (VInt 256) 2 flavor_volume_size None.

(** [assertIn(label, text)] of strings either of which may be None *)
Definition assert_in_text (label text : option string) : P unit :=
  label ← lift (or_raise TypeError label);
  text ← lift (or_raise TypeError text);
  assert_that (contains label text).

Definition assert_svirt_labels (server_id : string) : P unit :=
  root ← get_server_xml server_id;
  label ← the (find root [Child "seclabel"; AttrIs "model" "selinux"; Child "label"]);
  assert_in_text selinux_label (elem_text label);;
  imagelabel ← the (find root [Child "seclabel"; AttrIs "model" "selinux"; Child "imagelabel"]);
  assert_in_text selinux_imagelabel (elem_text imagelabel).

Definition test_create_server_with_label_check : P unit :=
  server ← boot_server [];
  assert_svirt_labels server.

Definition test_resize_with_label_check (new_flavor : val) : P unit :=
  server ← boot_server [];
  assert_svirt_labels server;;
  resize_server server new_flavor;;
  assert_svirt_labels server.

Definition test_live_migrate_with_label_check : P unit :=
  server ← boot_server [];
  assert_svirt_labels server;;
  live_migrate "os_primary" server "ACTIVE" None;;
  assert_svirt_labels server.

(** * ViommuTestQ35ViaImage *)

(** [setUp]: [viommu_intel_flavor] and [q35_image_id] *)
Definition viommu_setUp : P (val * val) :=
  flavor ← create_flavor_default 2 (Some [("hw:viommu_model", VStr "intel")]);
  image_id ← copy_default_image [("hw_machine_type", VStr "q35")];
  mret (flavor, image_id).

Definition get_iommu_xml_element (server_id : string) : P (option elem) :=
  root ← get_server_xml server_id;
  mret (find root [Child "devices"; Child "iommu"; AttrIs "model" "intel"]).

Definition assert_viommu_model (server_id : string) : P unit :=
  iommu ← get_iommu_xml_element server_id;
  assert_that (found_truthy iommu);;
  iommu ← the iommu;
  driver ← the (find iommu [Child "driver"]);
  assert_that (bool_decide (elem_get driver "intremap" = Some "on")).

Definition assert_viommu_not_present (server_id : string) : P unit :=
  iommu ← get_iommu_xml_element server_id;
  assert_that (negb (found_truthy iommu)).

Definition test_deploy_intel_viommu_model_q35_via_image (viommu_intel_flavor q35_image_id : val) : P unit :=
  flavor_id ← lift (vget viommu_intel_flavor "id");
  server ← boot_server [("image_id", q35_image_id); ("flavor", flavor_id)];
  assert_viommu_model server.

Definition test_resize_intel_viommu_via_image (viommu_intel_flavor q35_image_id : val) : P unit :=
  skip_unless resize_enabled;;
  server ← boot_server [("image_id", q35_image_id)];
  resize_server server viommu_intel_flavor;;
  assert_viommu_model server;;
  default_flavor ← create_flavor_default 2 None;
  resize_server server default_flavor;;
  assert_viommu_not_present server.

(** * TestVirtIORng *)
Definition virtio_rng_skip_checks : P unit := skip_unless virtio_rng.

Definition rng_device (server_id : string) : P (option elem) :=
  domain ← get_server_xml server_id;
  mret (find domain [Child "devices"; Child "rng"]).

Definition test_virtio_rng_model : P unit :=
  server ← boot_server [];
  rng_device ← rng_device server;
  rng_device ← the rng_device;
  model ← lift (or_raise KeyError (elem_get rng_device "model"));
  assert_that (String.eqb model "virtio").

Definition test_set_rng_device_false : P unit :=
  flavor ← create_flavor_default 2 (Some [("hw_rng:allowed", VStr "False")]);
  flavor_id ← lift (vget flavor "id");
  server ← boot_server [("flavor", flavor_id)];
  rng_device ← rng_device server;
  assert_that (bool_decide (rng_device = None)).

(** * VPMUTest *)
Record vpmu_attributes := mkVPMU { on_flavor : val; off_flavor : val; on_image_id : val; off_image_id : val }.

Definition vpmu_setUp : P vpmu_attributes :=
  on_flavor ← create_flavor_default 1 (Some [("hw:pmu", VStr "true")]);
  off_flavor ← create_flavor_default 1 (Some [("hw:pmu", VStr "false")]);
  on_image_id ← copy_default_image [("hw_pmu", VStr "true")];
  off_image_id ← copy_default_image [("hw_pmu", VStr "false")];
  mret (mkVPMU on_flavor off_flavor on_image_id off_image_id).

(** [_assert_pmu_on] and [_assert_pmu_off] *)
Definition assert_pmu (state : string) (server_id : string) : P unit :=
  root ← get_server_xml server_id;
  pmu ← the (find root [Child "features"; Child "pmu"]);
  assert_that (bool_decide (elem_get pmu "state" = Some state)).

Definition test_rebuild_on_to_off (self : vpmu_attributes) : P unit :=
  server ← boot_server [("image_id", on_image_id self)];
  assert_pmu "on" server;;
  rebuild_with server (off_image_id self);;
  assert_pmu "off" server.

Definition test_rebuild_off_to_on (self : vpmu_attributes) : P unit :=
  server ← boot_server [("image_id", off_image_id self)];
  assert_pmu "off" server;;
  rebuild_with server (on_image_id self);;
  assert_pmu "on" server.

Definition test_resize_on_to_off (self : vpmu_attributes) : P unit :=
  flavor_id ← lift (vget (on_flavor self) "id");
  server ← boot_server [("flavor", flavor_id)];
  assert_pmu "on" server;;
  resize_server server (off_flavor self);;
  assert_pmu "off" server.

Definition test_resize_off_to_on (self : vpmu_attributes) : P unit :=
  flavor_id ← lift (vget (off_flavor self) "id");
  server ← boot_server [("flavor", flavor_id)];
  assert_pmu "off" server;;
  resize_server server (on_flavor self);;
  assert_pmu "on" server.

(** * WatchdogDeviceTest *)
Definition get_watchdog_action_from_xml (server_id : string) : P (option elem) :=
  root ← get_server_xml server_id;
  mret (find root [Child "devices"; Child "watchdog"]).

(** The device must have the action, or be absent. *)
Definition check_watchdog (expected : option string) (watchdog_dev : option elem) : P unit :=
  match expected with
  | None => assert_that (bool_decide (watchdog_dev = None))
  | Some action =>
      watchdog_dev ← the watchdog_dev;
      found ← lift (or_raise KeyError (elem_get watchdog_dev "action"));
      assert_that (String.eqb action found)
  end.

Definition test_action_with_flavor (action : string) : P unit :=
  flavor ← create_flavor_default 2 (Some [("hw:watchdog_action", VStr action)]);
  flavor_id ← lift (vget flavor "id");
  server ← boot_server [("flavor", flavor_id)];
  watchdog_dev ← get_watchdog_action_from_xml server;
  check_watchdog (if String.eqb action "disabled" then None else Some action) watchdog_dev.

Definition image_watchdog (action m_type : string) : option string :=
  if (String.eqb m_type "q35" && String.eqb action "disabled")%bool then Some "reset"
  else if (String.eqb m_type "pc" && String.eqb action "disabled")%bool then None
  else Some action.

Definition test_action_with_image (action m_type : string) : P unit :=
  image_id ← copy_default_image [("hw_watchdog_action", VStr action); ("hw_machine_type", VStr m_type)];
  server ← boot_server [("image_id", image_id)];
  watchdog_dev ← get_watchdog_action_from_xml server;
  check_watchdog (image_watchdog action m_type) watchdog_dev.

(** The data of the [ddt] decorators *)
Definition watchdog_actions : list string := ["reset"; "poweroff"; "pause"; "none"; "disabled"].
Definition watchdog_image_data : list (string * string) :=
  m_type ← ["pc"; "q35"]; action ← watchdog_actions; [(action, m_type)].
End guest_xml.

(** * Theorems *)

(** ** Hyper-V *)
Lemma dict_set_Forall {K V} `{EqDecision K} (Q : V → Prop) (d : list (K * V)) k v :
  Forall (λ kv, Q kv.2) d → Q v → Forall (λ kv, Q kv.2) (dict_set d k v).
Proof.
  intros Hd Hv. induction Hd as [|[k' v'] d ? ? IH]; simpl; [by repeat constructor|].
  case_decide; by constructor.
Qed.

Lemma hyperv_states_on hyperv :
  Forall (λ e, elem_get e "state" = Some "on") (offspring hyperv) → elem_tag hyperv = "hyperv" →
  Forall (λ st, st.2 = Some "on") (hyperv_states hyperv).
Proof.
  intros Ho Ht. unfold hyperv_states, elem_iter. rewrite filter_cons_False by naive_solver.
  rewrite below_offspring.
  assert (Forall (λ st : string * option string, st.2 = Some "on") []) as Hnil by constructor.
  generalize dependent (@nil (string * option string)). intros d Hd. revert d Hd.
  induction Ho as [|e l He _ IH]; intros d Hd; [done|]. rewrite filter_cons.
  case_decide; [|by apply IH]. apply IH, (dict_set_Forall (λ st, st = Some "on")); done.
Qed.

(** Strings can always be ordered. *)
Lemma list_sort_None l : list_sort l = Ret VNone.
Proof.
  unfold list_sort, py_sort. case_match; [done|]. rewrite (proj2 (forallb_forall _ _)); [done|].
  intros x (a & <- & _)%in_map_iff. apply forallb_forall. intros y (b & <- & _)%in_map_iff. done.
Qed.

Lemma for_each_assert_true {S A} (f : A → bool) l (s : S) :
  Forall (λ x, f x = true) l → for_each (λ x, assert_that (f x)) l s = (Ret tt, s).
Proof. induction 1 as [|x l Hx _ IH]; cbn [for_each]; [done|]. rewrite bind_run, Hx. apply IH. Qed.

Definition enlightenment (tag : string) : elem := Elem tag [("state", "on")] None [].
Definition hyperv_domain (tags : list string) : elem :=
  Elem "domain" [] None [Elem "features" [] None [Elem "hyperv" [] None (map enlightenment tags)]].

Lemma offspring_enlightenments tags :
  offspring (Elem "hyperv" [] None (map enlightenment tags)) = map enlightenment tags.
Proof. cbn [offspring]. induction tags as [|t tags IH]; [done|]. simpl. f_equal. exact IH. Qed.

Section guest_theorems.
Context {CONF : conf} {W : Type} `{C : cloud W}.
Implicit Types s : pystate W.

(** C33: [_confirm_hyperv_elements] does not look at the names of the enlightenments:
    [list.sort()] returns None, so its comparison with the expected ones is None
    with None. It accepts any names at all, as long as there is one and each is
    in the state on. *)
Theorem hyperv_names_unchecked server_id tags s s' :
  tags ≠ [] → get_server_xml server_id s = (Ret (hyperv_domain tags), s') →
  confirm_hyperv_elements server_id s = (Ret tt, s').
Proof.
  intros Ht Hx. unfold confirm_hyperv_elements. rewrite (bind_Ret _ _ _ _ _ Hx). cbv zeta.
  change (find (hyperv_domain tags) [Child "features"; Child "hyperv"])
    with (Some (Elem "hyperv" [] None (map enlightenment tags))).
  cbn [found_truthy]. unfold elem_truthy. cbn [elem_children].
  rewrite bool_decide_eq_false_2 by (by destruct tags). cbn [negb].
  cbv [mbind M_bind lift the or_raise assert_that mret M_ret]. rewrite !list_sort_None.
  change (for_each (λ st, assert_that (bool_decide (st.2 = Some "on")))
    (hyperv_states (Elem "hyperv" [] None (map enlightenment tags))) s' = (Ret tt, s')).
  apply for_each_assert_true. eapply Forall_impl; [apply hyperv_states_on|].
  - rewrite offspring_enlightenments. apply Forall_map, Forall_true. done.
  - done.
  - intros st Hst. by apply bool_decide_eq_true.
Qed.

(** ** vIOMMU *)
Lemma iommu_run server_id s root s' :
  get_server_xml server_id s = (Ret root, s') →
  get_iommu_xml_element server_id s =
  (Ret (find root [Child "devices"; Child "iommu"; AttrIs "model" "intel"]), s').
Proof. intros Hx. unfold get_iommu_xml_element. by rewrite (bind_Ret _ _ _ _ _ Hx). Qed.

(** C32: the truth value of an XML element is whether it has children.
    [_assert_viommu_not_present] therefore also accepts a domain that has the
    Intel IOMMU, when the element is empty; [_assert_viommu_model] accepts exactly
    the domains whose IOMMU element has a first driver with [intremap] on. *)
Theorem viommu_verdicts server_id s root s' :
  get_server_xml server_id s = (Ret root, s') →
  let iommu := find root [Child "devices"; Child "iommu"; AttrIs "model" "intel"] in
  (assert_viommu_not_present server_id s = (Ret tt, s') ↔
     ∀ e, iommu = Some e → elem_children e = []) ∧
  (assert_viommu_model server_id s = (Ret tt, s') ↔
     ∃ e driver, iommu = Some e ∧ find e [Child "driver"] = Some driver ∧
                 elem_get driver "intremap" = Some "on").
Proof.
  intros Hx iommu. unfold assert_viommu_not_present, assert_viommu_model.
  rewrite !(bind_Ret _ _ _ _ _ (iommu_run server_id s root s' Hx)). fold iommu. split.
  - destruct iommu as [e|]; cbn [found_truthy]; [|by split].
    unfold elem_truthy. case_bool_decide as He; cbn [negb assert_that];
      (split; intros H; try done).
    + by intros e' [= <-].
    + destruct He. by apply H.
  - destruct iommu as [e|]; cbn [found_truthy]; [|by split; [|intros (?&?&?&_)]].
    unfold elem_truthy. case_bool_decide as He; cbn [negb assert_that].
    + split; [done|]. intros (e' & driver & [= <-] & Hd & _). exfalso.
      destruct e as [t a x cs]. simpl in He. by subst cs.
    + cbv [mbind M_bind the lift mret M_ret]. cbn [or_raise].
      destruct (find e [Child "driver"]) as [driver|] eqn:Hf; cbn [or_raise].
      * destruct (bool_decide_reflect (elem_get driver "intremap" = Some "on")) as [Hd|Hd]; cbn [assert_that].
        -- split; intros _; [by eexists _, _|reflexivity].
        -- split; [done|]. intros (?&?&[= <-]&Hf'&?). congruence.
      * split; [done|]. intros (?&?&[= <-]&?&_). congruence.
Qed.

(** ** Labels, compute ids, PMU, watchdog and flavor metadata *)

(** With only [selinux_imagelabel] configured the SELinux tests are not skipped,
    and their check raises TypeError on any domain with a label: [None in text]. *)
Theorem selinux_half_configured server_id s root s' label :
  selinux_label = None → truthy (vopt_str selinux_imagelabel) = true →
  get_server_xml server_id s = (Ret root, s') →
  find root [Child "seclabel"; AttrIs "model" "selinux"; Child "label"] = Some label →
  selinux_skip_checks s = (Ret tt, s) ∧
  assert_svirt_labels server_id s = (Exn TypeError, s').
Proof.
  intros Hl Hi Hx Hf. split.
  - unfold selinux_skip_checks. rewrite Hi, orb_true_r. done.
  - unfold assert_svirt_labels. rewrite (bind_Ret _ _ _ _ _ Hx), bind_run, Hf.
    cbn [the lift or_raise]. unfold the, lift. rewrite bind_run. unfold assert_in_text. by rewrite Hl.
Qed.

(** What the file on a hypervisor's disk said *)
Record disk_id := mkDiskId { di_host : string; di_client : SSHClient; di_text : string }.
Definition read_compute_id (d : disk_id) : list (observation (W:=W)) :=
  [SSHClient_init (di_host d) ⇓ di_client d;
   execute (di_client d) ("cat " ++ path_join state_path "compute_id") VNone true ⇓ di_text d].

(** When [test_compute_id_file_match_db_state] passes, the compute_id file has
    been read on every hypervisor the API listed, in order, and each holds the id
    the API gives for that hypervisor, up to trailing white space. *)
Theorem test_compute_id_sound s s' :
  test_compute_id_file_match_db_state s = (Ret tt, s') →
  ∃ body hypervisors disks,
    passes s ((api "os_admin.hypervisor_client.list_hypervisors" [] ⇓ body) ::
              concat (map read_compute_id disks)) s' ∧
    (vget body "hypervisors" ≫= as_list) = Ret hypervisors ∧
    Forall2 (λ h d, (vget h "hypervisor_hostname" ≫= as_str) = Ret (di_host d) ∧
                    ∃ id, vget h "id" = Ret id ∧ py_eq id (VStr (py_rstrip (di_text d))) = true)
      hypervisors disks.
Proof.
  unfold test_compute_id_file_match_db_state. intros H. run_ret H. read_facts.
  eapply (for_each_passes _ (λ _ d, read_compute_id d)) in H as (disks & Hp & HQ).
  - exists a, a0, disks. split_and!; [|done|exact HQ]. eapply passes_here; [done|].
    assert (concat (zip_with (λ _ d, read_compute_id d) a0 disks) = concat (map read_compute_id disks)) as <-;
      [|done]. f_equal. clear -HQ. induction HQ; simpl; congruence.
  - intros h s1 s2 Hc. unfold check_compute_id in Hc. run_ret Hc. read_facts.
    eexists (mkDiskId _ _ _). simpl. split; [unfold read_compute_id; simpl; walk|by eauto].
Qed.

Definition pmu_state (root : elem) : option string :=
  find root [Child "features"; Child "pmu"] ≫= λ e, elem_get e "state".

Lemma assert_pmu_passes state server_id s s' :
  assert_pmu state server_id s = (Ret tt, s') →
  ∃ root, passes s [get_server_xml server_id ⇓ root] s' ∧ pmu_state root = Some state.
Proof.
  unfold assert_pmu, the. intros H. run_ret H. read_facts.
  destruct (find a _) as [e|] eqn:Hf; [|done]. simplify_eq/=.
  eexists. split; [walk|]. unfold pmu_state. by rewrite Hf.
Qed.

(** When a vPMU test passes, the guest was seen with one state of its PMU before
    the rebuild or resize and with the other one after it. *)
Theorem vpmu_tests_sound self s s' :
  (test_rebuild_on_to_off self s = (Ret tt, s') → ∃ server before after,
     passes s [boot_server [("image_id", on_image_id self)] ⇓ server; get_server_xml server ⇓ before;
               rebuild_with server (off_image_id self) ⇓ tt; get_server_xml server ⇓ after] s' ∧
     pmu_state before = Some "on" ∧ pmu_state after = Some "off") ∧
  (test_resize_off_to_on self s = (Ret tt, s') → ∃ flavor_id server before after,
     vget (off_flavor self) "id" = Ret flavor_id ∧
     passes s [boot_server [("flavor", flavor_id)] ⇓ server; get_server_xml server ⇓ before;
               resize_server server (on_flavor self) ⇓ tt; get_server_xml server ⇓ after] s' ∧
     pmu_state before = Some "off" ∧ pmu_state after = Some "on").
Proof.
  unfold test_rebuild_on_to_off, test_resize_off_to_on. split; intros H; run_ret H; read_facts;
    repeat match goal with
    | E : assert_pmu _ _ _ = _ |- _ => apply assert_pmu_passes in E as (? & ? & ?)
    end.
  - eexists _, _, _. split; [walk|done].
  - eexists _, _, _, _. split; [done|]. split; [walk|done].
Qed.

Lemma check_watchdog_verdict expected dev s s' :
  check_watchdog (W:=W) expected dev s = (Ret tt, s') →
  s' = s ∧ match expected with
           | None => dev = None
           | Some action => ∃ e, dev = Some e ∧ elem_get e "action" = Some action
           end.
Proof.
  unfold check_watchdog, the. destruct expected as [action|]; intros H.
  - run_ret H. read_facts. destruct dev as [e|]; [|done]. simplify_eq/=.
    destruct (elem_get _ "action") as [x|] eqn:Hx; [|done]. simplify_eq/=.
    match goal with E : String.eqb _ _ = true |- _ => apply String.eqb_eq in E as -> end. eauto.
  - read_facts. done.
Qed.

(** When a watchdog test passes, the guest's domain has the watchdog the test data
    ask for: none for the action disabled, except on q35 machines, where an image
    with the action disabled still has the watchdog with the action reset. *)
Theorem watchdog_tests_sound action m_type s s' :
  test_action_with_image action m_type s = (Ret tt, s') →
  ∃ server root,
    passes s [get_server_xml server ⇓ root] s' ∧
    let dev := find root [Child "devices"; Child "watchdog"] in
    (action = "disabled" → m_type = "pc" → dev = None) ∧
    (action = "disabled" → m_type = "q35" → (dev ≫= λ e, elem_get e "action") = Some "reset") ∧
    (action ≠ "disabled" → (dev ≫= λ e, elem_get e "action") = Some action).
Proof.
  unfold test_action_with_image, get_watchdog_action_from_xml. intros H. run_ret H.
  apply check_watchdog_verdict in H as [-> H].
  match goal with E : (_ ≫= _) _ = (Ret _, _) |- _ => run_ret E; injection E as <- <- end.
  eexists _, _. split; [walk|]. cbv zeta. unfold image_watchdog in H.
  split_and!; [intros -> ->; exact H|intros -> ->; by destruct H as (e & -> & ?)|].
  intros Hd%String.eqb_neq. rewrite Hd, !andb_false_r in H. by destruct H as (e & -> & ?).
Qed.

Lemma check_flavor_parameter_run e p s s' :
  check_flavor_parameter (W:=W) e p s = (Ret tt, s') →
  s' = s ∧ (find e [Descendant (nova p.1)] ≫= elem_text) ≫= py_int = Some p.2.
Proof.
  unfold check_flavor_parameter, the, int_of. intros H. run_ret H. read_facts. split; [done|].
  destruct (find e _); [|done]. simplify_eq/=. destruct (elem_text _); [|done]. simplify_eq/=.
  destruct (py_int _); by simplify_eq/=.
Qed.

(** When [test_flavor_metadata_is_present] passes, the metadata of the guest's
    domain name the flavor that was created, by name and id, and give its vCPUs,
    disk, memory, ephemeral disk and swap as integers, and its first extra spec. *)
Theorem test_flavor_metadata_sound class_name s s' :
  test_flavor_metadata_is_present class_name s = (Ret tt, s') →
  ∃ name flavor flavor_id server domain metadata e,
    passes s [create_named_flavor (VInt flavor_ram_size) 2 1 (VStr name)
                (Some [("hw:cpu_policy", VStr "shared")]) ⇓ flavor;
              boot_server [("flavor", flavor_id)] ⇓ server; get_server_xml server ⇓ domain] s' ∧
    vget flavor "id" = Ret flavor_id ∧
    find domain [Child "metadata"] = Some metadata ∧
    find metadata [Descendant (nova "instance"); Child (nova "flavor")] = Some e ∧
    elem_get e "name" = Some name ∧ py_eq flavor_id (vopt_str (elem_get e "id")) = true ∧
    Forall (λ p, (find e [Descendant (nova p.1)] ≫= elem_text) ≫= py_int = Some p.2)
      parameters_to_validate ∧
    ∃ specs spec, find e [Descendant (nova "extraSpecs")] = Some specs ∧
      find specs [Descendant (nova "extraSpec")] = Some spec ∧
      elem_get spec "name" = Some "hw:cpu_policy" ∧ elem_text spec = Some "shared".
Proof.
  unfold test_flavor_metadata_is_present, flavor_metadata, check_flavor_element, the.
  intros H. run_ret H.
  match goal with E : (_ ≫= _) _ = (Ret _, _) |- _ => run_ret E; rename E into Hfl end. read_facts.
  match goal with
  | E : for_each (check_flavor_parameter _) _ _ = _ |- _ =>
      apply (for_each_checks _ _ _ _ _ _ (check_flavor_parameter_run _)) in E as [-> Hps]
  end.
  repeat match goal with
  | E : or_raise _ ?o = Ret _ |- _ => destruct o eqn:?; simplify_eq/=
  end.
  eexists _, _, _, _, _, _, _. split; [walk|]. split_and!; try done. by eexists _, _.
Qed.
End guest_theorems.

(** * Witnesses *)
Definition guest_env (root : elem) : cloud sim := sim_cloud (λ _, false) [("<domain/>", root)] host_yaml.
Definition guest_state (bodies : list (string * val)) : pystate sim :=
  mkState None [] (mkSim 0 ∅ true
    [("sudo virsh dumpxml instance-1", "<domain/>");
     ("sudo cat /var/lib/nova/compute_id", "9e3c" ++ String newline "")]
    (("os_admin.servers_client.show_server", server_body) ::
     ("BaseV2ComputeAdminTest.create_test_server", VDict [("id", VStr "server-1")]) ::
     ("waiters.wait_for_server_status", VNone) :: bodies) []).

Lemma hyperv_names_unchecked_witness :
  (confirm_hyperv_elements (CONF:=sim_CONF) (C:=guest_env (hyperv_domain ["quux"])) "server-1"
     (guest_state [])).1 = Ret tt.
Proof.
  rewrite (hyperv_names_unchecked (CONF:=sim_CONF) (C:=guest_env (hyperv_domain ["quux"])) "server-1"
    ["quux"] (guest_state [])
    (get_server_xml (CONF:=sim_CONF) (C:=guest_env (hyperv_domain ["quux"])) "server-1" (guest_state [])).2);
    [reflexivity|done|vm_compute; reflexivity].
Defined.

Definition iommu_domain : elem :=
  Elem "domain" [] None [Elem "devices" [] None [Elem "iommu" [("model", "intel")] None []]].
Lemma viommu_verdicts_witness :
  (assert_viommu_not_present (CONF:=sim_CONF) (C:=guest_env iommu_domain) "server-1" (guest_state [])).1 =
  Ret tt.
Proof.
  destruct (viommu_verdicts (CONF:=sim_CONF) (C:=guest_env iommu_domain) "server-1" (guest_state [])
    iommu_domain
    (get_server_xml (CONF:=sim_CONF) (C:=guest_env iommu_domain) "server-1" (guest_state [])).2) as [[_ H] _].
  - vm_compute. reflexivity.
  - rewrite H; [reflexivity|]. intros e [= <-]. reflexivity.
Defined.

Definition label_domain : elem :=
  Elem "domain" [] None [Elem "seclabel" [("model", "selinux")] None
    [Elem "label" [] (Some "system_u:system_r:svirt_t") [];
     Elem "imagelabel" [] (Some "system_u:object_r:svirt_image_t") []]].
Lemma selinux_half_configured_witness :
  (assert_svirt_labels (CONF:=sim_CONF) (C:=guest_env label_domain) "server-1" (guest_state [])).1 =
  Exn TypeError.
Proof.
  destruct (selinux_half_configured (CONF:=sim_CONF) (C:=guest_env label_domain) "server-1" (guest_state [])
    label_domain
    (get_server_xml (CONF:=sim_CONF) (C:=guest_env label_domain) "server-1" (guest_state [])).2
    (Elem "label" [] (Some "system_u:system_r:svirt_t") [])) as [_ ->]; vm_compute; reflexivity.
Defined.

Definition hypervisors_state : pystate sim :=
  guest_state [("os_admin.hypervisor_client.list_hypervisors",
    VDict [("hypervisors", VList [VDict [("hypervisor_hostname", VStr "compute-0"); ("id", VStr "9e3c")]])])].
Lemma test_compute_id_sound_witness :
  ∃ body hypervisors disks,
    (vget body "hypervisors" ≫= as_list) = Ret hypervisors ∧
    passes (C:=guest_env label_domain) hypervisors_state
      ((api (C:=guest_env label_domain) "os_admin.hypervisor_client.list_hypervisors" [] ⇓ body) ::
       concat (map (read_compute_id (CONF:=sim_CONF) (C:=guest_env label_domain)) disks))
      (test_compute_id_file_match_db_state (CONF:=sim_CONF) (C:=guest_env label_domain)
         hypervisors_state).2 ∧
    length hypervisors = length disks.
Proof.
  destruct (test_compute_id_sound (CONF:=sim_CONF) (C:=guest_env label_domain) hypervisors_state
    (test_compute_id_file_match_db_state (CONF:=sim_CONF) (C:=guest_env label_domain) hypervisors_state).2)
    as (body & hs & disks & Hp & Hh & HQ).
  - vm_compute. reflexivity.
  - exists body, hs, disks. split; [done|]. split; [done|]. exact (Forall2_length _ _ _ HQ).
Defined.

Definition flavor_domain : elem :=
  let leaf t x := Elem (nova t) [] (Some x) [] in
  Elem "domain" [] None [Elem "metadata" [] None [Elem (nova "instance") [] None
    [Elem (nova "flavor") [("name", "tempest-flavor"); ("id", "42")] None
       [leaf "memory" "64"; leaf "disk" "1"; leaf "swap" "0"; leaf "ephemeral" "0"; leaf "vcpus" "2";
        Elem (nova "extraSpecs") [] None
          [Elem (nova "extraSpec") [("name", "hw:cpu_policy")] (Some "shared") []]]]]].
Definition flavor_state : pystate sim :=
  guest_state [("data_utils.rand_name", VStr "tempest-flavor");
               ("BaseV2ComputeAdminTest.create_flavor", VDict [("id", VStr "42")]);
               ("os_admin.flavors_client.set_flavor_extra_spec", VNone)].
Lemma test_flavor_metadata_sound_witness :
  ∃ metadata e, find metadata [Descendant (nova "instance"); Child (nova "flavor")] = Some e ∧
    Forall (λ p, (find e [Descendant (nova p.1)] ≫= elem_text) ≫= py_int = Some p.2)
      (parameters_to_validate (CONF:=sim_CONF)).
Proof.
  destruct (test_flavor_metadata_sound (CONF:=sim_CONF) (C:=guest_env flavor_domain) "TestFlavorMetadata"
    flavor_state
    (test_flavor_metadata_is_present (CONF:=sim_CONF) (C:=guest_env flavor_domain) "TestFlavorMetadata"
       flavor_state).2) as (_ & _ & _ & _ & _ & metadata & e & _ & _ & _ & He & _ & _ & Hp & _).
  - vm_compute. reflexivity.
  - by exists metadata, e.
Defined.
