(* ===== verification/Volumes.v ===== *)
(** api/compute/test_virtio_scsi_attach.py, test_volume_encryption.py,
    test_volume_negative.py and test_rbd_direct_download.py: disks and volumes. *)
From Stdlib Require Import Ascii String.
From S2P Require Import Prelude PyString PyVal Xml Env Sim Hardware Utils Clients ServiceManager ComputeBase Trace GuestXml Vgpu.
#[local] Open Scope string_scope.

(** [assertCountEqual(xs, ys)]: the same elements, each as often *)
Definition occurrences (x : val) (l : list val) : nat := length (filter (λ y, py_eq x y = true) l).
Definition count_equal (xs ys : list val) : bool :=
  (length xs =? length ys)%nat && forallb (λ x, occurrences x xs =? occurrences x ys)%nat xs.

Section scsi.
Context {CONF : conf} {W : Type} `{C : cloud W}.
Abbreviation P := (M (pystate W)).

(** * VirtioSCSIBase *)

(** [setUp]: [flavor] and [img_id] *)
Definition scsi_setUp : P (val * val) :=
  flavor ← create_flavor_default 2 None;
  img_id ← copy_default_image [("hw_scsi_model", VStr "virtio-scsi"); ("hw_disk_bus", VStr "scsi")];
  mret (flavor, img_id).

Definition get_attached_disks (server_id : string) : P (list elem) :=
  root ← get_server_xml server_id;
  mret (findall root [Child "devices"; Child "disk"]).

Definition on_controller (controller_index : string) (disk : elem) : Prop :=
  is_Some (find disk [Child "target"; AttrIs "bus" "scsi"]) ∧
  is_Some (find disk [Child "address"; AttrIs "controller" controller_index]).

#[export] Instance on_controller_dec i disk : Decision (on_controller i disk).
Proof. unfold on_controller. apply _. Defined.

Definition get_scsi_disks (server_id controller_index : string) : P (list elem) :=
  all_disks ← get_attached_disks server_id;
  mret (filter (on_controller controller_index) all_disks).

Definition get_scsi_disk_controllers (server_id : string) : P (list elem) :=
  root ← get_server_xml server_id;
  mret (findall root [Child "devices"; Child "controller"; AttrIs "type" "scsi";
                      AttrIs "model" "virtio-scsi"]).

Definition get_attached_volume_ids (server_id : string) : P (list val) :=
  body ← api "servers_client.list_volume_attachments" [("server_id", VStr server_id)];
  attachments ← lift (vget body "volumeAttachments" ≫= as_list);
  map_m (λ a, lift (vget_or a "volumeId" VNone)) attachments.

Definition serial_of (disk : elem) : option string := find disk [Child "serial"] ≫= elem_text.
Definition get_attached_serial_ids (disks : list elem) : list val := VStr <$> omap serial_of disks.

(** The controller and disk checks every test makes; the serials of the disks *)
Definition check_scsi_disks (server_id : string) (disks_to_create : Z) : P (list val) :=
  disk_ctrl ← get_scsi_disk_controllers server_id;
  assert_that (length disk_ctrl =? 1)%nat;;
  ctrl ← lift (or_raise IndexError (disk_ctrl !! 0%nat));
  controller_index ← lift (or_raise KeyError (elem_get ctrl "index"));
  scsi_disks ← get_scsi_disks server_id controller_index;
  assert_that (Z.of_nat (length scsi_disks) =? disks_to_create)%Z;;
  mret (get_attached_serial_ids scsi_disks).

(** * VirtioSCSIDiskMultiAttachment *)
Definition disks_to_create : Z := 7.

Definition multi_attachment_skip_checks : P unit :=
  (if truthy (default VNone (VInt <$> max_disk_devices_to_attach))
   then skip_unless (negb (default 0 max_disk_devices_to_attach <? disks_to_create)%Z)
   else mret tt);;
  let required_disk_space := flavor_volume_size + disks_to_create in
  skip_unless (negb (available_cinder_storage <? required_disk_space)%Z).

Definition boot_dict (img_id : val) (i : Z) : val :=
  VDict ((if (i =? 0)%Z
          then [("uuid", img_id); ("source_type", VStr "image"); ("volume_size", VInt flavor_volume_size)]
          else [("source_type", VStr "blank"); ("volume_size", VInt 1)]) ++
         [("destination_type", VStr "volume"); ("boot_index", VInt i); ("disk_bus", VStr "scsi");
          ("delete_on_termination", VBool true)])%list.

Definition test_boot_with_multiple_disks (flavor img_id : val) : P unit :=
  let bdms := map (boot_dict img_id) (seqZ 0 disks_to_create) in
  flavor_id ← lift (vget flavor "id");
  server ← boot_server [("flavor", flavor_id); ("block_device_mapping_v2", VList bdms);
                        ("image_id", VStr "")];
  attached_serial_ids ← check_scsi_disks server disks_to_create;
  attached_volume_ids ← get_attached_volume_ids server;
  assert_that (count_equal attached_volume_ids attached_serial_ids).

Definition attach_volume (server volume : val) : P val :=
  api "BaseV2ComputeAdminTest.attach_volume" [("server", server); ("volume", volume)].

(** [self.create_volume(size=1)], registered for deletion *)
Definition create_disk : P (val * val) :=
  volume ← api "BaseV2ComputeAdminTest.create_volume" [("size", VInt 1)];
  volume_id ← lift (vget volume "id");
  add_cleanup (CleanupCall "BaseV2ComputeAdminTest.delete_volume" [("volume_id", volume_id)]);;
  mret (volume, volume_id).

(** [for _ in range(n - 1)]: a volume more; the ids of the volumes *)
Definition attach_disks (server : val) (n : Z) : P (list val) :=
  for_acc (λ vol_ids _,
      '(volume, volume_id) ← create_disk;
      attach_volume server volume;;
      mret (vol_ids ++ [volume_id])%list)
    [] (seqZ 0 (n - 1)).

(** The part the two attach tests share *)
Definition attach_and_check (flavor img_id : val) (n : Z) : P val :=
  flavor_id ← lift (vget flavor "id");
  server ← create_test_server
    [("flavor", flavor_id); ("image_id", img_id); ("wait_until", VStr "ACTIVE")];
  vol_ids ← attach_disks server n;
  server_id ← id_of server;
  attached_serial_ids ← check_scsi_disks server_id n;
  attached_volume_ids ← get_attached_volume_ids server_id;
  assert_that (count_equal vol_ids attached_volume_ids);;
  assert_that (count_equal vol_ids attached_serial_ids);;
  mret server.

Definition test_attach_multiple_scsi_disks (flavor img_id : val) : P unit :=
  attach_and_check flavor img_id disks_to_create;;
  mret tt.

(** * VirtioSCSIDiskRestrictAttachments *)
Definition restrict_attachments_skip_checks : P unit :=
  match max_disk_devices_to_attach with
  | None => raise SkipException
  | Some n => skip_unless (negb (available_cinder_storage <? flavor_volume_size + n)%Z)
  end.

Definition test_max_iscsi_disks_attachment_enforced (flavor img_id : val) : P unit :=
  n ← lift (or_raise TypeError max_disk_devices_to_attach);
  server ← attach_and_check flavor img_id n;
  '(volume, _) ← create_disk;
  assert_raises is_Forbidden (attach_volume server volume);;
  mret tt.
End scsi.

Section volumes.
Context {CONF : conf} {W : Type} `{C : cloud W}.
Context (fuel : nat) (class_name : string) (image_ssh_user image_ssh_password : val).
Abbreviation P := (M (pystate W)).

(** * TestQEMUVolumeEncryption *)
Definition encryption_skip_checks : P unit := skip_unless attach_encrypted_volume.

Definition encrypted_disk (volume_id : val) (disk : elem) : Prop :=
  py_eq (vopt_str (serial_of disk)) volume_id = true ∧
  is_Some (find disk [Child "encryption"; Child "secret"]).

#[export] Instance encrypted_disk_dec v disk : Decision (encrypted_disk v disk).
Proof. unfold encrypted_disk. apply _. Defined.

(** The path of the volume for qemu-img: None when the source has no [dev] *)
Definition volume_path (disk : elem) : P (option string) :=
  source ← the (find disk [Child "source"]);
  if bool_decide (elem_get source "protocol" = Some "rbd") then
    auth ← the (find disk [Child "auth"]);
    let volume := fmt (vopt_str (elem_get source "name")) in
    let user := elem_get auth "username" in
    mret (Some (if truthy (vopt_str user)
                then "rbd:" ++ volume ++ ":id=" ++ default "" user
                else "rbd:" ++ volume))
  else mret (elem_get source "dev").

Definition check_encrypted_disk (server_id : string) (disk : elem) : P unit :=
  encryption ← the (find disk [Child "encryption"]);
  assert_that (bool_decide (elem_get encryption "format" = Some "luks"));;
  path ← volume_path disk;
  host ← get_host_for_server server_id;
  qemu_img_client ← QEMUImgClient_init host;
  qemu_info ← qemu_img_info qemu_img_client (fmt (vopt_str path));
  encrypted ← lift (vget_or qemu_info "encrypted" VNone);
  assert_that (truthy encrypted);;
  format ← lift (vget_or qemu_info "format" VNone);
  assert_that (py_eq format (VStr "luks")).

Definition test_qemu_volume_encryption : P unit :=
  server ← create_test_server [("wait_until", VStr "ACTIVE")];
  unencrypted_vol ← api "BaseV2ComputeAdminTest.create_volume" [];
  encrypted_vol ← create_encrypted_volume class_name "luks" "luks" 256 "aes-xts-plain64" "front-end";
  attach_volume server unencrypted_vol;;
  attach_volume server encrypted_vol;;
  server_id ← id_of server;
  xml ← get_server_xml server_id;
  volume_id ← lift (vget encrypted_vol "id");
  let xml_disk_elements := filter (encrypted_disk volume_id) (findall xml [Descendant "disk"]) in
  assert_that (length xml_disk_elements =? 1)%nat;;
  disk ← lift (or_raise IndexError (xml_disk_elements !! 0%nat));
  check_encrypted_disk server_id disk.

(** * VolumesAdminNegativeTest *)
Definition volume_negative_skip_checks : P unit := skip_unless cinder_available.

(** [linux_client.list_disks()] *)
Definition list_disks (linux_client : val) : P (list val) :=
  disks ← api "linux_client.list_disks" [("self", linux_client)];
  lift (as_list disks).

Definition detach_volume (server_id : string) (volume_id : val) : P val :=
  api "servers_client.detach_volume" [("server_id", VStr server_id); ("volume_id", volume_id)].

Definition wait_for_volume (volume_id : val) (status : string) : P val :=
  api "waiters.wait_for_volume_resource_status"
    [("client", VStr "volumes_client"); ("volume_id", volume_id); ("status", VStr status)].

(** While libvirt is stopped the volume stays attached. *)
Definition failed_detach (server_id : string) (volume_id linux_client : val) (attached : list val) : P unit :=
  detach_volume server_id volume_id;;
  wait_for_volume volume_id "in-use";;
  disks_after_failed_detach ← list_disks linux_client;
  assert_that (length disks_after_failed_detach =? length attached)%nat.

(** [self._create_server()] is tempest's. *)
Definition test_detach_failure : P unit :=
  skip_unless run_validation;;
  created ← api "BaseAttachVolumeTest._create_server" [];
  server ← lift (vnth created 0);
  validation_resources ← lift (vnth created 1);
  linux_client ← create_ssh_client image_ssh_user image_ssh_password server validation_resources;
  disks_before_attach ← list_disks linux_client;
  volume ← api "BaseV2ComputeAdminTest.create_volume" [];
  attachment ← attach_volume server volume;
  volume_id ← lift (vget attachment "volumeId");
  wait_for_volume volume_id "in-use";;
  disks_after_attach ← list_disks linux_client;
  assert_that (length disks_before_attach <? length disks_after_attach)%nat;;
  server_id ← id_of server;
  host ← get_host_for_server server_id;
  libvirt ← ServiceManager_init host "libvirt" BaseServiceManager;
  with_cm (stopped fuel libvirt) (failed_detach server_id volume_id linux_client disks_after_attach);;
  detach_volume server_id volume_id;;
  wait_for_volume volume_id "available";;
  disks_after_detach ← list_disks linux_client;
  assert_that (length disks_before_attach =? length disks_after_detach)%nat.

(** * TestRBDDirectDownload *)
Definition rbd_skip_checks : P unit := skip_unless rbd_download.

(** [self.assertIsNotNone(x)] returns None. *)
Definition assert_is_not_none (x : option string) : P val :=
  assert_that (bool_decide (is_Some x));;
  mret VNone.

(** [self.assertIsNotNone(path) and self.assertNotIn('rbd', path)] *)
Definition check_disk_path (path : option string) : P unit :=
  r ← assert_is_not_none path;
  if truthy r then assert_that (negb (contains "rbd" (default "" path))) else mret tt.

(** The assertions on the options of the host; [rbd_pool] goes into the log query. *)
Definition check_rbd_options (host_sm : ServiceManager) : P (option string) :=
  rbd_pool ← get_conf_opt host_sm "glance" "rbd_pool";
  assert_that (bool_decide (rbd_pool = Some "images"));;
  enabled ← get_conf_opt host_sm "glance" "enable_rbd_download";
  assert_that (truthy (vopt_str enabled));;
  mret rbd_pool.

Definition log_query_string (rbd_pool : option string) (image_id : val) : string :=
  "Attempting to export RBD image: [[]pool_name: " ++ fmt (vopt_str rbd_pool) ++
  "[]] [[]image_uuid: " ++ fmt image_id ++ "[]]".

Definition rbd_body : P unit :=
  base_server ← boot_server [];
  image ← api "BaseV2ComputeAdminTest.create_image_from_server"
    [("server_id", VStr base_server); ("name", VStr "base-server-img"); ("wait_until", VStr "ACTIVE")];
  base_image_id ← lift (vget image "id");
  server ← boot_server [("image_id", base_image_id)];
  detailed_server_data ← api "os_admin.servers_client.show_server" [("server_id", VStr server)];
  image_id ← lift (vpath detailed_server_data ["server"; "image"; "id"]);
  host ← get_host_for_server server;
  host_sm ← NovaServiceManager_init host "nova-compute";
  rbd_pool ← check_rbd_options host_sm;
  logs_client ← SSHClient_init host;
  found ← log_parse logs_client (log_query_string rbd_pool image_id);
  assert_that (truthy_str found);;
  path ← get_server_blockdevice_path server "vda";
  check_disk_path path.

Definition test_rbd_logs_and_conf : P unit :=
  config_all_computes fuel [("libvirt", "images_type", VStr "default")] rbd_body.
End volumes.

(** * Theorems *)
Section volume_theorems.
Context {CONF : conf} {W : Type} `{C : cloud W}.
Implicit Types s : pystate W.

(** Of the two assertions joined with [and], only the first one is made, as it
    returns None: a root disk on RBD passes. *)
Theorem disk_path_unchecked path s :
  check_disk_path path s =
  (match path with Some _ => Ret tt | None => Exn AssertionFailure end, s).
Proof. by destruct path. Qed.

(** The option is read as text, so that any text enables it, False included. *)
Theorem rbd_download_any_text host_sm text s s1 s2 :
  get_conf_opt host_sm "glance" "rbd_pool" s = (Ret (Some "images"), s1) →
  get_conf_opt host_sm "glance" "enable_rbd_download" s1 = (Ret (Some text), s2) →
  text ≠ "" → check_rbd_options host_sm s = (Ret (Some "images"), s2).
Proof.
  intros H1 H2 Ht. unfold check_rbd_options. rewrite (bind_Ret _ _ _ _ _ H1).
  rewrite bind_run. cbn [assert_that]. rewrite bool_decide_eq_true_2 by done.
  cbn [assert_that mret M_ret]. rewrite (bind_Ret _ _ _ _ _ H2). cbn [vopt_str truthy].
  rewrite bind_run. apply String.eqb_neq in Ht. by rewrite Ht.
Qed.

(** ** Attached disks *)
Lemma attach_disks_length server n s ids s' :
  attach_disks server n s = (Ret ids, s') → length ids = Z.to_nat (n - 1).
Proof.
  unfold attach_disks. assert (∀ l (acc : list val) s0,
    for_acc (λ vol_ids (_ : Z), '(volume, volume_id) ← create_disk; attach_volume server volume;;
             mret (vol_ids ++ [volume_id])%list) acc l s0 = (Ret ids, s') →
    length ids = (length acc + length l)%nat) as H.
  { induction l as [|x l IH]; cbn [for_acc]; intros acc s0 H.
    - injection H as <- _. simpl. lia.
    - apply bind_Ret_inv in H as (acc' & s1 & E & H).
      apply bind_Ret_inv in E as ([volume vid] & s2 & _ & E). run_ret E. injection E as <- _.
      apply IH in H. rewrite H, length_app. simpl. lia. }
  intros Hr. apply H in Hr. rewrite Hr, length_seqZ. simpl. lia.
Qed.

Lemma omap_length_none {A B} (f : A → option B) l :
  (length (omap f l) + length (filter (λ x, f x = None) l))%nat = length l.
Proof.
  induction l as [|x l IH]; [done|]. rewrite list_omap_step, filter_cons.
  destruct (f x) eqn:Hx; [rewrite decide_False by done|rewrite decide_True by done]; simpl; lia.
Qed.

(** A domain with one virtio-scsi controller that serves [n] disks: the volumes
    with the given ids and one disk without a serial *)
Definition scsi_controllers (root : elem) : list elem :=
  findall root [Child "devices"; Child "controller"; AttrIs "type" "scsi"; AttrIs "model" "virtio-scsi"].
Definition serves (n : Z) (ids : list val) (ctrl_root disk_root : elem) : Prop :=
  ∃ ctrl idx, scsi_controllers ctrl_root = [ctrl] ∧ elem_get ctrl "index" = Some idx ∧
    let disks := filter (on_controller idx) (findall disk_root [Child "devices"; Child "disk"]) in
    Z.of_nat (length disks) = n ∧ count_equal ids (get_attached_serial_ids disks) = true ∧
    length (filter (λ d, serial_of d = None) disks) = 1%nat.

Lemma attach_and_check_run flavor img_id n s server s' :
  0 < n → attach_and_check flavor img_id n s = (Ret server, s') →
  ∃ args server_id ids attached root1 root2,
    (vget server "id" ≫= as_str) = Ret server_id ∧
    passes s [create_test_server args ⇓ server; attach_disks server n ⇓ ids; get_server_xml server_id ⇓ root1;
              get_server_xml server_id ⇓ root2; get_attached_volume_ids server_id ⇓ attached] s' ∧
    serves n ids root1 root2 ∧ count_equal ids attached = true.
Proof.
  intros Hn. unfold attach_and_check, id_of. intros H. run_ret H. injection H as -> ->.
  match goal with E : check_scsi_disks _ _ _ = _ |- _ => rename E into Hc end.
  unfold check_scsi_disks, get_scsi_disk_controllers, get_scsi_disks, get_attached_disks in Hc.
  run_ret Hc. repeat match goal with E : (_ ≫= _) _ = (Ret _, _) |- _ => run_ret E end. simplify_eq.
  read_facts. simplify_eq/=.
  match goal with E : attach_disks _ _ _ = _ |- _ => pose proof (attach_disks_length _ _ _ _ _ E) as Hlen end.
  repeat match goal with E : mret _ _ = (Ret _, _) |- _ => injection E as ? ? end. subst.
  eexists _, _, _, _, _, _. split; [done|]. split; [walk|]. split; [|done].
  match goal with E : or_raise IndexError (?l !! 0%nat) = _ |- _ => destruct l as [|ctrl []] eqn:Hl end;
    simplify_eq/=.
  match goal with E : or_raise KeyError ?o = _ |- _ => destruct o eqn:?; simplify_eq/= end.
  eexists _, _. split; [exact Hl|]. split; [done|]. cbv zeta. split_and!; [done|done|].
  unfold count_equal, get_attached_serial_ids in *.
  repeat match goal with E : (_ && _)%bool = true |- _ => apply andb_true_iff in E as [?%Nat.eqb_eq _] end.
  rewrite length_fmap in *.
  match goal with |- length (filter _ ?l) = _ => pose proof (omap_length_none serial_of l) end. lia.
Qed.

(** C29: when [test_max_iscsi_disks_attachment_enforced] passes, the guest has one
    virtio-scsi controller that serves the configured maximum of disks, which are
    the volumes the test has created and attached, as often as the attachments of
    the API list them, and one disk more without a serial; and the attachment of
    one more volume was answered with Forbidden. *)
Theorem scsi_limit_enforced flavor img_id n s s' :
  max_disk_devices_to_attach = Some n → 0 < n →
  test_max_iscsi_disks_attachment_enforced flavor img_id s = (Ret tt, s') →
  ∃ args server server_id ids attached root1 root2 volume s1,
    (vget server "id" ≫= as_str) = Ret server_id ∧
    passes s [create_test_server args ⇓ server; attach_disks server n ⇓ ids; get_server_xml server_id ⇓ root1;
              get_server_xml server_id ⇓ root2; get_attached_volume_ids server_id ⇓ attached;
              create_disk ⇓ volume] s1 ∧
    serves n ids root1 root2 ∧ count_equal ids attached = true ∧
    attach_volume server volume.1 s1 = (Exn Forbidden, s').
Proof.
  intros Hm Hn. unfold test_max_iscsi_disks_attachment_enforced. rewrite Hm. intros H.
  apply bind_Ret_inv in H as (n' & s1 & E & H). apply lift_run in E as [[= ->] ->].
  apply bind_Ret_inv in H as (server & s2 & E1 & H).
  apply attach_and_check_run in E1 as (args & server_id & ids & attached & r1 & r2 & Hid & Hp & Hs & Hc); [|done].
  apply bind_Ret_inv in H as ([volume vid] & s3 & E2 & H). run_ret H. injection H as <-.
  match goal with E : assert_raises _ _ _ = _ |- _ => unfold assert_raises in E; rename E into Ha end.
  destruct (attach_volume server volume s3) as [[v|e|] s4] eqn:Hat; [done| |done].
  destruct e; simplify_eq/=.
  exists args, server, server_id, ids, attached, r1, r2, (volume, vid), s3. split_and!; try done.
  eapply (passes_app _ _ _ [_] _ Hp). by eapply passes_here; [done|apply passes_nil, rtc_refl].
Qed.

(** C34: When [test_detach_failure] passes, the guest saw a disk more once a volume had
    been attached and was in use; with libvirt stopped on the server's host, the
    volume was still in use and the guest still saw as many disks after the detach
    request made then; and once libvirt had been started, the volume detached again
    and available, it saw as many disks as before the attachment. *)
Theorem test_detach_failure_sound fuel user password s s' :
  test_detach_failure fuel user password s = (Ret tt, s') →
  ∃ server server_id volume attachment volume_id linux host svc before attached failed after u v w x y,
    passes s
      [list_disks linux ⇓ before; attach_volume server volume ⇓ attachment;
       wait_for_volume volume_id "in-use" ⇓ u; list_disks linux ⇓ attached; id_of server ⇓ server_id;
       get_host_for_server server_id ⇓ host; ServiceManager_init host "libvirt" BaseServiceManager ⇓ svc;
       stop fuel svc ⇓ tt; detach_volume server_id volume_id ⇓ v;
       wait_for_volume volume_id "in-use" ⇓ w; list_disks linux ⇓ failed; start fuel svc ⇓ tt;
       detach_volume server_id volume_id ⇓ x; wait_for_volume volume_id "available" ⇓ y;
       list_disks linux ⇓ after] s' ∧
    vget attachment "volumeId" = Ret volume_id ∧
    (length before < length attached)%nat ∧ length failed = length attached ∧
    length after = length before.
Proof.
  unfold test_detach_failure. intros H. run_ret H.
  match goal with E : with_cm _ _ _ = _ |- _ => apply with_cm_Ret in E as (st & sa & sb & Hen & Hbody & Hex) end.
  destruct st. simpl in Hen, Hex. unfold failed_detach in Hbody. run_ret Hbody. read_facts.
  eexists _, _, _, _, _, _, _, _, _, _, _, _, _, _, _, _, _. split; [walk|].
  split_and!; [done|by apply Nat.ltb_lt|done|done].
Qed.

(** When [test_qemu_volume_encryption] passes, exactly one disk of the domain has the
    encrypted volume's id as its serial and an encryption secret, its encryption
    format is luks, and qemu-img reports the volume encrypted and in the format luks. *)
Theorem test_qemu_volume_encryption_sound class_name s s' :
  test_qemu_volume_encryption class_name s = (Ret tt, s') →
  ∃ server_id volume volume_id xml disk encryption client path info encrypted format,
    passes s [get_server_xml server_id ⇓ xml; qemu_img_info client path ⇓ info] s' ∧
    vget volume "id" = Ret volume_id ∧
    filter (encrypted_disk volume_id) (findall xml [Descendant "disk"]) = [disk] ∧
    find disk [Child "encryption"] = Some encryption ∧
    elem_get encryption "format" = Some "luks" ∧
    vget_or info "encrypted" VNone = Ret encrypted ∧ truthy encrypted = true ∧
    vget_or info "format" VNone = Ret format ∧ py_eq format (VStr "luks") = true.
Proof.
  unfold test_qemu_volume_encryption, check_encrypted_disk, the. intros H. run_ret H. read_facts.
  match goal with E : or_raise IndexError (?l !! 0%nat) = _ |- _ => destruct l as [|disk []] eqn:Hl end;
    simplify_eq/=.
  match goal with E : or_raise AttributeError ?o = _ |- _ => destruct o eqn:?; simplify_eq/= end.
  eexists _, _, _, _, _, _, _, _, _, _, _. split; [walk|]. by split_and!.
Qed.
End volume_theorems.

(** * Witnesses *)
Definition scsi_disk (serial : list elem) : elem :=
  Elem "disk" [] None ([Elem "target" [("bus", "scsi")] None []; Elem "address" [("controller", "0")] None []]
                       ++ serial)%list.
Definition scsi_domain : elem :=
  Elem "domain" [] None [Elem "devices" [] None
    [Elem "controller" [("type", "scsi"); ("model", "virtio-scsi"); ("index", "0")] None [];
     scsi_disk []; scsi_disk [Elem "serial" [] (Some "vol-1") []];
     scsi_disk [Elem "serial" [] (Some "vol-2") []]]].
Definition volume_body (id : string) : val := VDict [("id", VStr id)].

(** A deployment that refuses to attach vol-3. *)
Definition limiting_cloud (base : cloud sim) : cloud sim := {|
  ssh_exec_command := @ssh_exec_command sim base;
  api_call := λ m a w,
    if (String.eqb m "BaseV2ComputeAdminTest.attach_volume" &&
        py_eq (default VNone (dict_get a "volume")) (volume_body "vol-3"))%bool
    then (Exn Forbidden, w) else @api_call sim base m a w;
  time_time := @time_time sim base;
  time_sleep := @time_sleep sim base;
  yaml_load_file := @yaml_load_file sim base;
  et_fromstring := @et_fromstring sim base;
  json_loads := @json_loads sim base;
|}.
Definition scsi_env : cloud sim := limiting_cloud (guest_env scsi_domain).
Definition scsi_state : pystate sim :=
  guest_state
    [("BaseV2ComputeAdminTest.create_volume", volume_body "vol-1");
     ("BaseV2ComputeAdminTest.create_volume", volume_body "vol-2");
     ("BaseV2ComputeAdminTest.create_volume", volume_body "vol-3");
     ("BaseV2ComputeAdminTest.attach_volume", VNone);
     ("servers_client.list_volume_attachments",
      VDict [("volumeAttachments", VList [VDict [("volumeId", VStr "vol-2")];
                                          VDict [("volumeId", VStr "vol-1")]])])].

Lemma scsi_limit_enforced_witness :
  ∃ server volume s1, attach_volume (C:=scsi_env) server volume s1 =
    (Exn Forbidden, (test_max_iscsi_disks_attachment_enforced (CONF:=sim_CONF) (C:=scsi_env)
                       (volume_body "42") (VStr "image") scsi_state).2).
Proof.
  destruct (scsi_limit_enforced (CONF:=sim_CONF) (C:=scsi_env) (volume_body "42") (VStr "image") 3 scsi_state
    (test_max_iscsi_disks_attachment_enforced (CONF:=sim_CONF) (C:=scsi_env)
       (volume_body "42") (VStr "image") scsi_state).2)
    as (_ & server & _ & _ & _ & _ & _ & volume & s1 & _ & _ & _ & _ & Ha).
  - reflexivity.
  - lia.
  - vm_compute. reflexivity.
  - by exists server, volume.1, s1.
Defined.

Definition libvirt_yaml : val :=
  VDict [("compute-0", VDict [("services", VDict
    [("libvirt", VDict [("start_command", VStr "systemctl start libvirtd");
                        ("stop_command", VStr "systemctl stop libvirtd")])])])].
Definition detach_env : cloud sim := sim_cloud (λ _, false) [] libvirt_yaml.
Definition disks (n : nat) : val := VList (repeat (VStr "vd") n).
Definition detach_state : pystate sim :=
  guest_state
    [("BaseAttachVolumeTest._create_server",
      VList [volume_body "server-1"; VDict [("keypair", VDict [("private_key", VStr "key")])]]);
     ("BaseV2ComputeAdminTest.get_server_ip", VStr "10.0.0.2"); ("remote_client.RemoteClient", VNone);
     ("linux_client.validate_authentication", VNone);
     ("linux_client.list_disks", disks 1); ("linux_client.list_disks", disks 2);
     ("linux_client.list_disks", disks 2); ("linux_client.list_disks", disks 1);
     ("BaseV2ComputeAdminTest.create_volume", volume_body "vol-1");
     ("BaseV2ComputeAdminTest.attach_volume", VDict [("volumeId", VStr "vol-1")]);
     ("waiters.wait_for_volume_resource_status", VNone); ("servers_client.detach_volume", VNone);
     ("BaseV2ComputeAdminTest.get_host_for_server", VStr "compute-0")].

Lemma test_detach_failure_sound_witness :
  ∃ before attached : list val, (length before < length attached)%nat.
Proof.
  destruct (test_detach_failure_sound (CONF:=sim_CONF) (C:=detach_env) 12 VNone VNone detach_state
    (test_detach_failure (CONF:=sim_CONF) (C:=detach_env) 12 VNone VNone detach_state).2)
    as (_ & _ & _ & _ & _ & _ & _ & _ & before & attached & _ & _ & _ & _ & _ & _ & _ & _ & _ & Hl & _).
  - vm_compute. reflexivity.
  - by exists before, attached.
Defined.
