(* ===== verification/Devices.v ===== *)
(** api/compute/test_pci_passthrough.py, test_vtpm.py, test_uefi.py and
    test_provider_yaml.py: host devices, trusted platform modules, firmware, and
    the traits a provider file gives a compute node. *)
From Stdlib Require Import Ascii String.
From S2P Require Import Prelude PyString PyVal Xml Env Sim Hardware Utils Waiters Clients ServiceManager ComputeBase Trace GuestXml.
#[local] Open Scope string_scope.

(** [s.lower()] on ASCII *)
Definition lower_char (a : ascii) : ascii :=
  let n := code a in if ((65 <=? n) && (n <=? 90))%N%bool then ascii_of_N (n + 32) else a.
Fixpoint py_lower (s : string) : string :=
  match s with EmptyString => EmptyString | String a s' => String (lower_char a) (py_lower s') end.

Section pci_passthrough.
Context {CONF : conf} {W : Type} `{C : cloud W}.
Abbreviation P := (M (pystate W)).

(** * PCIPassthroughTest *)
Definition pci_skip_checks : P unit :=
  skip_unless (truthy (vopt_str pci_passthrough_alias));;
  skip_unless (negb (bool_decide (default [] pci_passthrough_addresses = []))).

(** A server with one device of the alias *)
Definition boot_with_pci_device : P string :=
  alias ← lift (or_raise TypeError pci_passthrough_alias);
  flavor ← create_flavor_default 2 (Some [("pci_passthrough:alias", VStr (alias ++ ":1"))]);
  flavor_id ← lift (vget flavor "id");
  boot_server [("flavor", flavor_id)].

(** The address of the only PCI host device of the domain, one of the configured ones *)
Definition check_pci_hostdev (server_id : string) : P string :=
  root ← get_server_xml server_id;
  let hostdev_list := findall root [Child "devices"; Child "hostdev"; AttrIs "type" "pci"] in
  assert_that (length hostdev_list =? 1)%nat;;
  host_dev_xml ← lift (or_raise IndexError (hostdev_list !! 0%nat));
  pci_addr_element ← the (find host_dev_xml [Child "source"; Child "address"]);
  pci_address ← lift (get_pci_address_from_xml_device (elem_get pci_addr_element));
  assert_that (existsb (λ addr, String.eqb (py_lower pci_address) (py_lower addr))
                 (default [] pci_passthrough_addresses));;
  mret pci_address.

Definition test_pci_passthrough_boot : P unit :=
  server ← boot_with_pci_device;
  pci_address ← check_pci_hostdev server;
  pci_allocated_count ← get_pci_status_count "allocated" (Some pci_address);
  assert_that (py_eq (VInt 1) pci_allocated_count).

Definition get_pci_resource_providers : P (list val) :=
  class ← lift (or_raise TypeError pci_passthrough_resource_class);
  body ← api "os_admin.resource_providers_client.list_resource_providers"
           [("resources", VStr (class ++ ":1"))];
  rps ← lift (vget body "resource_providers" ≫= as_list);
  assert_that (0 <? length rps)%nat;;
  mret rps.

Definition pci_usage (rp_uuid : val) : P val :=
  body ← api "os_admin.resource_providers_client.list_resource_provider_usages" [("rp_uuid", rp_uuid)];
  usages ← lift (vget body "usages");
  lift (vget_or usages (default "" pci_passthrough_resource_class) (VInt 0)).

Definition assert_unused (rp_uuid : val) : P unit :=
  usage ← pci_usage rp_uuid;
  assert_that (py_eq (VInt 0) usage).

Definition sum_of (usages : list val) : outcome Z := ofold (λ n u, k ← as_int u; Ret (n + k)) 0 usages.

Definition test_pci_passthrough_placement : P unit :=
  skip_unless (truthy (vopt_str pci_passthrough_resource_class));;
  rps ← get_pci_resource_providers;
  rp_uuids ← map_m (λ rp, lift (vget rp "uuid")) rps;
  for_each assert_unused rp_uuids;;
  server ← boot_with_pci_device;
  usages ← map_m pci_usage rp_uuids;
  total ← lift (sum_of usages);
  assert_that (1 =? total)%Z;;
  check_pci_hostdev server;;
  api "os_admin.servers_client.delete_server" [("server_id", VStr server)];;
  api "waiters.wait_for_server_termination"
    [("client", VStr "os_admin.servers_client"); ("server_id", VStr server)];;
  for_each assert_unused rp_uuids.
End pci_passthrough.

Section vtpm.
Context {CONF : conf} {W : Type} `{C : cloud W}.
Context (fuel : nat).
Abbreviation P := (M (pystate W)).

(** * VTPMTest *)
Definition vtpm_skip_checks : P unit := skip_unless vtpm_device_supported.

(** The secret of the vTPM, with the assertions on its metadata *)
Definition check_secret_metadata (server_id secret_uuid : string) : P unit :=
  secret_info ← api "os_primary.secrets_client.get_secret_metadata" [("secret_id", VStr secret_uuid)];
  status ← lift (vget_or secret_info "status" VNone);
  assert_that (py_eq (VStr "ACTIVE") status);;
  name ← lift (vget_or secret_info "name" VNone ≫= as_str);
  assert_that (contains server_id name);;
  assert_that (contains "vtpm" (py_lower name)).

Definition vtpm_check (server_id vtpm_model vtpm_version : string) : P string :=
  server_xml ← get_server_xml server_id;
  vtpm_element ← the (find server_xml [Child "devices"; Child "tpm"; HasAttr "model"]);
  assert_that (bool_decide (elem_get vtpm_element "model" = Some vtpm_model));;
  backend ← the (find vtpm_element [Child "backend"; HasAttr "version"]);
  assert_that (bool_decide (elem_get backend "version" = Some vtpm_version));;
  vtpm_secret_element ← the (find vtpm_element [Child "backend"; Child "encryption"]);
  assert_that (bool_decide (is_Some (elem_get vtpm_secret_element "secret")));;
  let secret_uuid := default "" (elem_get vtpm_secret_element "secret") in
  check_secret_metadata server_id secret_uuid;;
  mret secret_uuid.

Definition boot_vtpm (specs : kwargs) : P string :=
  vtpm_flavor ← create_flavor_default 2 (Some specs);
  flavor_id ← lift (vget vtpm_flavor "id");
  boot_server [("flavor", flavor_id)].

(** tempest's [self.delete_server] *)
Definition delete_server (server_id : string) : P unit :=
  api "BaseV2ComputeAdminTest.delete_server" [("server_id", VStr server_id)];;
  mret tt.

Definition vtpm_server_creation_check (vtpm_model vtpm_version : string) : P unit :=
  server ← boot_vtpm [("hw:tpm_version", VStr vtpm_version); ("hw:tpm_model", VStr vtpm_model)];
  vtpm_check server vtpm_model vtpm_version;;
  delete_server server.

Definition secret_check (secret_uuid host : string) : P unit :=
  secret_xml ← get_secret_xml secret_uuid host;
  assert_that (bool_decide (elem_get secret_xml "ephemeral" = Some "no"));;
  assert_that (bool_decide (elem_get secret_xml "private" = Some "no")).

Definition test_create_server_with_vtpm_tis : P unit := vtpm_server_creation_check "tpm-tis" "2.0".
Definition test_create_server_with_vtpm_crb : P unit := vtpm_server_creation_check "tpm-crb" "2.0".

Definition test_invalid_model_version_creation : P unit :=
  vtpm_flavor ← create_flavor_default 2
    (Some [("hw:tpm_version", VStr "1.2"); ("hw:tpm_model", VStr "2.0")]);
  flavor_id ← lift (vget vtpm_flavor "id");
  assert_raises (if negb unified_limits then is_BuildErrorException else is_ServerFault)
    (create_test_server [("flavor", flavor_id); ("wait_until", VStr "ACTIVE")]);;
  mret tt.

Definition test_vtpm_creation_after_virtqemud_restart : P unit :=
  hosts ← list_compute_hosts;
  for_each (λ host,
      host_svc ← VirtQEMUdManager_init host "libvirt";
      restart fuel host_svc) hosts;;
  vtpm_server_creation_check "tpm-crb" "2.0".

Definition vtpm_not_supported : string :=
  "Operation 'live-migration' not supported for vTPM-enabled instance".

(** [str(ex)] *)
Definition exn_text (e : exn) : string := match e with BadRequest msg => msg | _ => "" end.

Definition test_vtpm_live_migration_secret_security_user : P unit :=
  server ← boot_vtpm [("hw:tpm_version", VStr "1.2"); ("hw:tpm_model", VStr "tpm-tis")];
  ex ← assert_raises is_BadRequest (live_migrate "os_admin" server "ACTIVE" None);
  assert_that (contains vtpm_not_supported (exn_text ex));;
  delete_server server.

(** The checks before and after the migration *)
Definition check_vtpm_on_host (server_id : string) : P string :=
  secret_uuid ← vtpm_check server_id "tpm-tis" "1.2";
  host ← get_host_for_server server_id;
  secret_check secret_uuid host;;
  mret host.

Definition test_vtpm_live_migration_secret_security_host : P unit :=
  skip_unless vtpm_live_migration_supported;;
  server ← boot_vtpm
    [("hw:tpm_version", VStr "1.2"); ("hw:tpm_model", VStr "tpm-tis");
     ("hw:tpm_secret_security", VStr "host")];
  check_vtpm_on_host server;;
  live_migrate "os_admin" server "ACTIVE" None;;
  check_vtpm_on_host server;;
  delete_server server.
End vtpm.

Section uefi.
Context {CONF : conf} {W : Type} `{C : cloud W}.
Abbreviation P := (M (pystate W)).

(** * TestUEFIBoot *)
Definition uefi_skip_checks : P unit := skip_unless uefi_boot.

Definition validate_uefi_os_xml_elements (os_element : option elem) (secure_boot : bool) : P unit :=
  os_element ← the os_element;
  let loader := find os_element [Child "loader"] in
  assert_that (bool_decide (is_Some loader));;
  loader ← the loader;
  assert_that (bool_decide (elem_get loader "readonly" = Some "yes"));;
  let secure_boot_check := if secure_boot then "yes" else "no" in
  assert_that (String.eqb secure_boot_check (default "no" (elem_get loader "secure")));;
  assert_that (bool_decide (is_Some (find os_element [Child "nvram"]))).

Definition os_of (domain : elem) : option elem := find domain [Child "os"].

(** [rebuild_server(...)['server']] and the wait for it: the id of the server *)
Definition rebuild (server_id : string) (image_ref : val) : P string :=
  body ← api "servers_client.rebuild_server" [("server_id", VStr server_id); ("image_ref", image_ref)];
  server ← lift (vget body "server");
  server_id ← id_of server;
  api "waiters.wait_for_server_status"
    [("client", VStr "servers_client"); ("server_id", VStr server_id); ("status", VStr "ACTIVE")];;
  mret server_id.

(** A domain without firmware *)
Definition assert_no_uefi (domain : elem) : P unit :=
  os_element ← the (os_of domain);
  assert_that (bool_decide (find os_element [Child "nvram"] = None));;
  assert_that (bool_decide (elem_items os_element = [])).

Definition test_uefi_boot_and_rebuild : P unit :=
  uefi_image_id ← copy_default_image [("hw_firmware_type", VStr "uefi"); ("hw_machine_type", VStr "q35")];
  server ← boot_server [("image_id", uefi_image_id)];
  domain ← get_server_xml server;
  validate_uefi_os_xml_elements (os_of domain) false;;
  server ← rebuild server (VStr image_ref);
  domain2 ← get_server_xml server;
  assert_no_uefi domain2;;
  server ← rebuild server uefi_image_id;
  domain3 ← get_server_xml server;
  validate_uefi_os_xml_elements (os_of domain3) false.

Definition test_uefi_secure_boot : P unit :=
  skip_unless uefi_secure_boot;;
  uefi_image_id ← copy_default_image
    [("os_secure_boot", VStr "required"); ("hw_firmware_type", VStr "uefi"); ("hw_machine_type", VStr "q35")];
  server ← boot_server [("image_id", uefi_image_id)];
  domain ← get_server_xml server;
  validate_uefi_os_xml_elements (os_of domain) true;;
  features_element ← the (find domain [Child "features"]);
  let smm_element := find features_element [Child "smm"] in
  assert_that (bool_decide (is_Some smm_element));;
  smm_element ← the smm_element;
  assert_that (bool_decide (elem_get smm_element "state" = Some "on")).
End uefi.

Section provider_yaml.
Context {CONF : conf} {W : Type} `{C : cloud W}.
Context (fuel : nat).
(** PyYAML's *)
Context (yaml_safe_load : string → outcome val) (yaml_dump : val → string).
Abbreviation P := (M (pystate W)).

(** * TestProviderYamlViaTraits *)
Definition provider_yaml_skip_checks : P unit := skip_unless (negb (min_compute_nodes <? 2)%Z).

Record provider_hosts := mkProviders { host1 : string; host1_id : string; host2 : string; host2_id : string }.

Definition parent_at (parent_rps : list val) (i : nat) : outcome (string * string) :=
  rp ← or_raise IndexError (parent_rps !! i);
  name ← (vget rp "name" ≫= as_str);
  uuid ← (vget rp "uuid" ≫= as_str);
  Ret (name, uuid).

Definition provider_yaml_setUp : P provider_hosts :=
  body ← api "os_admin.resource_providers_client.list_resource_providers" [];
  rps ← lift (vget body "resource_providers" ≫= as_list);
  parents ← map_m (λ rp, p ← lift (vget_or rp "parent_provider_uuid" VNone); mret (rp, p)) rps;
  let parent_rps := map fst (filter (λ rp, py_eq rp.2 VNone = true) parents) in
  '(host1, host1_id) ← lift (parent_at parent_rps 0);
  '(host2, host2_id) ← lift (parent_at parent_rps 1);
  mret (mkProviders host1 host1_id host2 host2_id).

Definition trait_a : string := "CUSTOM_WB_TRAIT_A".
Definition trait_b : string := "CUSTOM_WB_TRAIT_B".
Definition invalid_trait : string := "CUSTOM_WB_TRAIT_INVALID".

Definition traits_list : P (list val) :=
  body ← api "os_admin.placement_client.list_traits" [];
  lift (vget body "traits" ≫= as_list).

Definition assert_trait_present_in_rp (trait provider : string) : P unit :=
  traits ← traits_list;
  assert_that (existsb (λ x, py_eq x (VStr trait)) traits);;
  wait_for_trait_add_in_rp fuel trait provider;;
  mret tt.

(** The loop over the extra specs: the first one named after the trait decides. *)
Fixpoint find_trait_spec (trait : string) (specs : list elem) : P unit :=
  match specs with
  | [] => raise AssertionFailure
  | extra_spec :: specs' =>
      if bool_decide (elem_get extra_spec "name" ∈ [Some ("trait: " ++ trait); Some ("trait:" ++ trait)])
      then assert_that (bool_decide (elem_text extra_spec = Some "required"))
      else find_trait_spec trait specs'
  end.

Definition verify_trait_in_xml (server_id trait : string) : P unit :=
  domain ← get_server_xml server_id;
  flavor_element ← flavor_metadata domain;
  extra_specs_elem ← the (find flavor_element [Descendant (nova "extraSpecs")]);
  find_trait_spec trait (findall extra_specs_elem [Descendant (nova "extraSpec")]).

Definition restart_nova_compute_service (host_name : string) : P unit :=
  host ← NovaServiceManager_init host_name "nova-compute";
  restart fuel host.

(** The text up to the placeholder, which ends it *)
Definition template_head : string :=
  py_join (String newline "")
    [""; "            meta:";
     "                # '1.0' is only supported version";
     "                # as per compute.provider_config.SUPPORTED_SCHEMAS";
     "                schema_version: " ++ dq ++ "1.0" ++ dq;
     "            providers:";
     "                # List of dicts";
     "                - identification:";
     "                    uuid: \$COMPUTE_NODE";
     "                  traits:";
     "                    additional:";
     "                    # trait name has to be start with CUSTOM_";
     "                    - "].

Definition create_provider_yaml_at_target_host (trait target_host : string) : P unit :=
  try_except (api "os_admin.placement_client.create_trait" [("name", VStr trait)])
    (λ _, Some (mret VNone));;
  template ← lift (v ← yaml_safe_load (template_head ++ trait); Ret (yaml_dump v));
  ssh_client ← SSHClient_init target_host;
  execute ssh_client ("mkdir -p " ++ provider_config_location) VNone true;;
  execute ssh_client ("echo " ++ dq ++ template ++ dq ++ " > /tmp/provider.yaml") VNone false;;
  execute ssh_client ("mv /tmp/provider.yaml " ++ provider_config_location ++ "/provider.yaml") VNone true;;
  mret tt.

(** A host is given the trait, and Nova started again. *)
Definition give_trait (trait host host_id : string) : P unit :=
  create_provider_yaml_at_target_host trait host;;
  restart_nova_compute_service host;;
  assert_trait_present_in_rp trait host_id.

Definition create_trait_flavor (trait : string) : P val :=
  flavor ← create_flavor_default 2 (Some [("trait: " ++ trait, VStr "required")]);
  lift (vget flavor "id").

Definition test_valid_trait_with_provider_yaml (self : provider_hosts) : P unit :=
  give_trait trait_a (host2 self) (host2_id self);;
  flavor_a ← create_trait_flavor trait_a;
  server1 ← boot_server [("flavor", flavor_a)];
  host ← get_host_for_server server1;
  assert_that (String.eqb host (host2 self));;
  verify_trait_in_xml server1 trait_a;;
  server2 ← boot_server [("flavor", flavor_a)];
  host ← get_host_for_server server2;
  assert_that (String.eqb host (host2 self));;
  give_trait trait_b (host1 self) (host1_id self);;
  flavor_b ← create_trait_flavor trait_b;
  server3 ← boot_server [("flavor", flavor_b)];
  host ← get_host_for_server server3;
  assert_that (negb (String.eqb host (host2 self)));;
  host ← get_host_for_server server3;
  assert_that (String.eqb host (host1 self));;
  verify_trait_in_xml server3 trait_b.

Definition test_invalid_trait (self : provider_hosts) : P unit :=
  traits ← traits_list;
  assert_that (negb (existsb (λ x, py_eq x (VStr invalid_trait)) traits));;
  flavor_id ← create_trait_flavor invalid_trait;
  assert_raises is_BuildErrorException
    (create_test_server [("flavor", flavor_id); ("wait_until", VStr "ACTIVE")]);;
  mret tt.
End provider_yaml.

(** * Theorems *)
Section device_theorems.
Context {CONF : conf} {W : Type} `{C : cloud W}.
Implicit Types s : pystate W.

(** ** PCI passthrough *)
Definition configured_address (pci_address : string) : Prop :=
  ∃ addr, addr ∈ default [] pci_passthrough_addresses ∧ py_lower addr = py_lower pci_address.

(** The domain has one PCI host device, at the address. *)
Definition pci_hostdev (root : elem) (pci_address : string) : Prop :=
  ∃ hostdev e,
    findall root [Child "devices"; Child "hostdev"; AttrIs "type" "pci"] = [hostdev] ∧
    find hostdev [Child "source"; Child "address"] = Some e ∧
    get_pci_address_from_xml_device (elem_get e) = Ret pci_address.

Lemma check_pci_hostdev_passes server_id s pci_address s' :
  check_pci_hostdev server_id s = (Ret pci_address, s') →
  ∃ root, passes s [get_server_xml server_id ⇓ root] s' ∧
          pci_hostdev root pci_address ∧ configured_address pci_address.
Proof.
  unfold check_pci_hostdev, the. intros H. run_ret H. injection H as -> <-. read_facts.
  match goal with E : or_raise IndexError (?l !! 0%nat) = _ |- _ => destruct l as [|hostdev []] eqn:Hl end;
    simplify_eq/=.
  match goal with E : or_raise AttributeError ?o = _ |- _ => destruct o eqn:?; simplify_eq/= end.
  eexists _. split; [walk|]. split; [by eexists _, _|].
  match goal with E : existsb _ _ = true |- _ => apply existsb_exists in E as (addr & Hin & Heq) end.
  exists addr. split; [by apply list_elem_of_In|]. by apply String.eqb_eq in Heq.
Qed.

(** When [test_pci_passthrough_boot] passes, the domain has exactly one PCI host
    device, its address is, up to case, one of the configured ones, and the
    database counts one allocated device at that address. *)
Theorem test_pci_passthrough_boot_sound s s' :
  test_pci_passthrough_boot s = (Ret tt, s') →
  ∃ server root pci_address count,
    passes s [get_server_xml server ⇓ root;
              get_pci_status_count "allocated" (Some pci_address) ⇓ count] s' ∧
    pci_hostdev root pci_address ∧ configured_address pci_address ∧ py_eq (VInt 1) count = true.
Proof.
  unfold test_pci_passthrough_boot. intros H. run_ret H. read_facts.
  match goal with
  | E : check_pci_hostdev _ _ = _ |- _ => apply check_pci_hostdev_passes in E as (root & Hp & ? & ?)
  end.
  eexists _, root, _, _. split; [|by split_and!]. 
  eapply passes_skip; [eapply within_run; [|eassumption]; solve_reaches|].
  eapply (passes_app _ _ _ [_] _ Hp). walk.
Qed.

Definition usage_readings (uuids usages : list val) : list (observation (W:=W)) :=
  concat (zip_with (λ x u, [pci_usage x ⇓ u]) uuids usages).

Lemma assert_unused_passes uuids s u s' :
  for_each assert_unused uuids s = (Ret u, s') →
  ∃ usages, passes s (usage_readings uuids usages) s' ∧
            Forall2 (λ _ u, py_eq (VInt 0) u = true) uuids usages.
Proof.
  intros H. eapply (for_each_passes _ (λ x u, [pci_usage x ⇓ u])) in H; [exact H|].
  intros x s1 s2 Hx. unfold assert_unused in Hx. run_ret Hx. read_facts. eexists. split; [walk|done].
Qed.

(** C30: when [test_pci_passthrough_placement] passes, Placement reported no device of
    the class in use on any provider before the server was created, exactly one in
    all while it ran with one of the configured devices, and none again after its
    deletion. *)
Theorem test_pci_passthrough_placement_sound s s' :
  test_pci_passthrough_placement s = (Ret tt, s') →
  ∃ rps uuids before server usages root pci_address deleted s1 s2 s3 after,
    rps ≠ [] ∧
    passes s [get_pci_resource_providers ⇓ rps; map_m (λ rp, lift (vget rp "uuid")) rps ⇓ uuids] s1 ∧
    passes s1 (usage_readings uuids before) s2 ∧
    passes s2 [boot_with_pci_device ⇓ server; map_m pci_usage uuids ⇓ usages;
               get_server_xml server ⇓ root;
               api "os_admin.servers_client.delete_server" [("server_id", VStr server)] ⇓ deleted] s3 ∧
    passes s3 (usage_readings uuids after) s' ∧
    Forall2 (λ _ u, py_eq (VInt 0) u = true) uuids before ∧ sum_of usages = Ret 1 ∧
    pci_hostdev root pci_address ∧ configured_address pci_address ∧
    Forall2 (λ _ u, py_eq (VInt 0) u = true) uuids after.
Proof.
  unfold test_pci_passthrough_placement. intros H. run_ret H.
  apply assert_unused_passes in H as (after & Hafter & Qafter).
  match goal with E : for_each assert_unused _ _ = _ |- _ => apply assert_unused_passes in E as (before & Hb & Qb) end.
  match goal with
  | E : check_pci_hostdev _ _ = _ |- _ =>
      apply check_pci_hostdev_passes in E as (root & Hp & Hd & Hca)
  end.
  match goal with E : get_pci_resource_providers ?s0 = (Ret ?r, ?s1) |- _ =>
    assert (r ≠ []) as Hne by
      (clear -E; unfold get_pci_resource_providers in E; run_ret E; injection E as -> <-; read_facts;
       match goal with E : (0 <? _)%nat = true |- _ => apply Nat.ltb_lt in E end; intros ->; simpl in *; lia)
  end.
  read_facts.
  eexists _, _, before, _, _, root, _, _, _, _, _, after. split; [exact Hne|].
  split; [walk|]. split; [exact Hb|]. split; [|split; [exact Hafter|by subst]].
  walk.
Qed.

(** ** vTPM *)

(** [_vtpm_check] returns the secret of the domain's first TPM with a model: the
    model and the version are the expected ones, and Barbican has the secret
    active, under a name with the server's id and, up to case, vtpm. *)
Theorem vtpm_check_sound server_id model version s secret s' :
  vtpm_check server_id model version s = (Ret secret, s') →
  ∃ root tpm backend encryption info name,
    passes s [get_server_xml server_id ⇓ root;
              api "os_primary.secrets_client.get_secret_metadata" [("secret_id", VStr secret)] ⇓ info] s' ∧
    find root [Child "devices"; Child "tpm"; HasAttr "model"] = Some tpm ∧
    elem_get tpm "model" = Some model ∧
    find tpm [Child "backend"; HasAttr "version"] = Some backend ∧
    elem_get backend "version" = Some version ∧
    find tpm [Child "backend"; Child "encryption"] = Some encryption ∧
    elem_get encryption "secret" = Some secret ∧
    vget_or info "name" VNone = Ret (VStr name) ∧
    contains server_id name = true ∧ contains "vtpm" (py_lower name) = true.
Proof.
  unfold vtpm_check, the. intros H. run_ret H. injection H as H <-.
  match goal with E : check_secret_metadata _ _ _ = _ |- _ => rename E into Hm end.
  unfold check_secret_metadata in Hm. run_ret Hm. read_facts.
  repeat match goal with
  | E : or_raise AttributeError ?o = Ret _ |- _ => destruct o eqn:?; simplify_eq/=
  | E : is_Some ?o |- _ => destruct o eqn:?; [|by destruct E]; clear E
  end.
  match goal with E : (?v ≫= as_str) = Ret _ |- _ => destruct v as [[]| |] eqn:?; simplify_eq/= end.
  eexists _, _, _, _, _, _. split; [walk|]. by split_and!.
Qed.

(** When the live migration of a vTPM guest passes, its vTPM and its secret were
    checked on the source host and again after the migration, and tempest reported
    the server on another host then. *)
Theorem vtpm_live_migration_sound s s' :
  test_vtpm_live_migration_secret_security_host s = (Ret tt, s') →
  ∃ server h1 orig host h2,
    passes s [check_vtpm_on_host server ⇓ h1; get_host_for_server server ⇓ orig;
              get_host_for_server server ⇓ host; check_vtpm_on_host server ⇓ h2;
              delete_server server ⇓ tt] s' ∧ orig ≠ host.
Proof.
  unfold test_vtpm_live_migration_secret_security_host. intros H. run_ret H. read_facts.
  match goal with
  | Em : live_migrate _ _ _ _ _ = _ |- _ => apply live_migrate_passes in Em as (orig & host & Hp & Hne)
  end.
  eexists _, _, orig, host, _. split; [walk|done].
Qed.

(** ** UEFI *)
Definition uefi_firmware (secure : bool) (domain : elem) : Prop :=
  ∃ os loader nvram, os_of domain = Some os ∧ find os [Child "loader"] = Some loader ∧
    find os [Child "nvram"] = Some nvram ∧ elem_get loader "readonly" = Some "yes" ∧
    default "no" (elem_get loader "secure") = (if secure then "yes" else "no").

Lemma validate_uefi_run domain secure s s' :
  validate_uefi_os_xml_elements (W:=W) (os_of domain) secure s = (Ret tt, s') →
  s' = s ∧ uefi_firmware secure domain.
Proof.
  unfold validate_uefi_os_xml_elements, the. intros H. run_ret H. read_facts. split; [done|].
  repeat match goal with
  | E : or_raise AttributeError ?o = Ret _ |- _ => destruct o eqn:?; simplify_eq/=
  | E : is_Some _ |- _ => destruct E as [? ?]; simplify_eq/=
  | E : String.eqb _ _ = true |- _ => apply String.eqb_eq in E
  end.
  eexists _, _, _. by split_and!.
Qed.

(** When [test_uefi_boot_and_rebuild] passes, the guest had UEFI firmware without
    secure boot when it was built from the UEFI image, neither NVRAM nor attributes
    of its [os] element after the rebuild with the default image, and the firmware
    again after the rebuild with the UEFI image. *)
Theorem test_uefi_boot_and_rebuild_sound s s' :
  test_uefi_boot_and_rebuild s = (Ret tt, s') →
  ∃ image server server2 server3 d1 d2 d3 os,
    passes s [boot_server [("image_id", image)] ⇓ server; get_server_xml server ⇓ d1;
              rebuild server (VStr image_ref) ⇓ server2; get_server_xml server2 ⇓ d2;
              rebuild server2 image ⇓ server3; get_server_xml server3 ⇓ d3] s' ∧
    uefi_firmware false d1 ∧ uefi_firmware false d3 ∧
    os_of d2 = Some os ∧ find os [Child "nvram"] = None ∧ elem_items os = [].
Proof.
  unfold test_uefi_boot_and_rebuild, assert_no_uefi, the. intros H. run_ret H.
  apply validate_uefi_run in H as [-> H3].
  match goal with E : validate_uefi_os_xml_elements _ _ _ = (Ret ?u, _) |- _ =>
    destruct u; apply validate_uefi_run in E as [-> H1] end.
  match goal with E : (_ ≫= _) _ = (Ret _, _) |- _ => run_ret E end. read_facts.
  repeat match goal with E : or_raise AttributeError ?o = Ret _ |- _ => destruct o eqn:?; simplify_eq/= end.
  eexists _, _, _, _, _, _, _, _. split; [walk|]. by split_and!.
Qed.

(** ** Traits *)
Definition names_trait (trait : string) (spec : elem) : Prop :=
  elem_get spec "name" ∈ [Some ("trait: " ++ trait); Some ("trait:" ++ trait)].
#[export] Instance names_trait_dec trait spec : Decision (names_trait trait spec).
Proof. unfold names_trait. apply _. Defined.

Lemma find_trait_spec_run trait specs s s' :
  find_trait_spec (W:=W) trait specs s = (Ret tt, s') →
  s' = s ∧ ∃ spec, head (filter (names_trait trait) specs) = Some spec ∧ elem_text spec = Some "required".
Proof.
  induction specs as [|spec specs IH]; cbn [find_trait_spec]; intros H; [done|]. rewrite filter_cons.
  change (bool_decide (elem_get spec "name" ∈ _)) with (bool_decide (names_trait trait spec)) in H.
  case_bool_decide as Hn; [rewrite decide_True by done|rewrite decide_False by done; by apply IH].
  apply assert_run in H as [Ht ->]. split; [done|]. exists spec. split; [done|]. by apply bool_decide_eq_true_1 in Ht.
Qed.

(** The flavor metadata of the guest require the trait. *)
Definition requires_trait (trait : string) (root : elem) : Prop :=
  ∃ metadata flavor specs spec, find root [Child "metadata"] = Some metadata ∧
    find metadata [Descendant (nova "instance"); Child (nova "flavor")] = Some flavor ∧
    find flavor [Descendant (nova "extraSpecs")] = Some specs ∧
    head (filter (names_trait trait) (findall specs [Descendant (nova "extraSpec")])) = Some spec ∧
    elem_text spec = Some "required".

Lemma verify_trait_passes server_id trait s s' :
  verify_trait_in_xml server_id trait s = (Ret tt, s') →
  ∃ root, passes s [get_server_xml server_id ⇓ root] s' ∧ requires_trait trait root.
Proof.
  unfold verify_trait_in_xml, flavor_metadata, the. intros H. run_ret H.
  apply find_trait_spec_run in H as [-> (spec & Hs & Ht)].
  match goal with E : (_ ≫= _) _ = (Ret _, _) |- _ => run_ret E end. read_facts.
  repeat match goal with E : or_raise AttributeError ?o = Ret _ |- _ => destruct o eqn:?; simplify_eq/= end.
  eexists. split; [walk|]. eexists _, _, _, _. by split_and!.
Qed.

(** C31: when [test_valid_trait_with_provider_yaml] passes, both guests built after
    the second host had been given the first trait were found on that host, the
    guest built after the first host had been given the other trait was found on
    the first host and not on the second, and the metadata of the first guest of
    each trait require that trait. The metadata of the second guest of the first
    trait are not looked at. *)
Theorem test_valid_trait_sound fuel yaml_safe_load yaml_dump self s s' :
  test_valid_trait_with_provider_yaml fuel yaml_safe_load yaml_dump self s = (Ret tt, s') →
  ∃ flavor_a flavor_b server1 server2 server3 root1 root3 h,
    passes s
      [give_trait fuel yaml_safe_load yaml_dump trait_a (host2 self) (host2_id self) ⇓ tt;
       create_trait_flavor trait_a ⇓ flavor_a; boot_server [("flavor", flavor_a)] ⇓ server1;
       get_host_for_server server1 ⇓ host2 self; get_server_xml server1 ⇓ root1;
       boot_server [("flavor", flavor_a)] ⇓ server2; get_host_for_server server2 ⇓ host2 self;
       give_trait fuel yaml_safe_load yaml_dump trait_b (host1 self) (host1_id self) ⇓ tt;
       create_trait_flavor trait_b ⇓ flavor_b; boot_server [("flavor", flavor_b)] ⇓ server3;
       get_host_for_server server3 ⇓ h; get_host_for_server server3 ⇓ host1 self;
       get_server_xml server3 ⇓ root3] s' ∧
    h ≠ host2 self ∧ requires_trait trait_a root1 ∧ requires_trait trait_b root3.
Proof.
  unfold test_valid_trait_with_provider_yaml. intros H. run_ret H.
  apply verify_trait_passes in H as (root3 & Hp3 & Ht3).
  match goal with E : verify_trait_in_xml _ _ _ = (Ret ?u, _) |- _ =>
    destruct u; apply verify_trait_passes in E as (root1 & Hp1 & Ht1) end.
  read_facts.
  repeat match goal with
  | E : String.eqb _ _ = true |- _ => apply String.eqb_eq in E; subst
  | E : negb (String.eqb _ _) = true |- _ => apply negb_true_iff, String.eqb_neq in E
  end.
  eexists _, _, _, _, _, root1, root3, _. split; [walk|]. by split_and!.
Qed.
End device_theorems.

(** * Witnesses *)
Definition pci_address_elem : elem :=
  Elem "address" [("domain", "0x0000"); ("bus", "0x81"); ("slot", "0x00"); ("function", "0x0")] None [].
Definition hostdev_domain : elem :=
  Elem "domain" [] None [Elem "devices" [] None [Elem "hostdev" [("type", "pci")] None
    [Elem "source" [] None [pci_address_elem]]]].
Definition pci_usages (n : Z) : val := VDict [("usages", VDict [("CUSTOM_NIC", VInt n)])].
Definition pci_state : pystate sim :=
  guest_state
    [("BaseV2ComputeAdminTest.create_flavor", VDict [("id", VStr "42")]);
     ("os_admin.flavors_client.set_flavor_extra_spec", VNone);
     ("os_admin.resource_providers_client.list_resource_providers",
      VDict [("resource_providers", VList [VDict [("uuid", VStr "rp-1")]])]);
     ("os_admin.resource_providers_client.list_resource_provider_usages", pci_usages 0);
     ("os_admin.resource_providers_client.list_resource_provider_usages", pci_usages 1);
     ("os_admin.resource_providers_client.list_resource_provider_usages", pci_usages 0);
     ("os_admin.servers_client.delete_server", VNone); ("waiters.wait_for_server_termination", VNone)].

Lemma test_pci_passthrough_placement_sound_witness :
  ∃ usages pci_address, sum_of usages = Ret 1 ∧ configured_address (CONF:=sim_CONF) pci_address.
Proof.
  destruct (test_pci_passthrough_placement_sound (CONF:=sim_CONF) (C:=guest_env hostdev_domain) pci_state
    (test_pci_passthrough_placement (CONF:=sim_CONF) (C:=guest_env hostdev_domain) pci_state).2)
    as (_ & _ & _ & _ & usages & _ & pci_address & _ & _ & _ & _ & _ & _ & _ & _ & _ & _ & _ & Hs & _ & Hc & _).
  - vm_compute. reflexivity.
  - by exists usages, pci_address.
Defined.

Definition two_computes_yaml : val :=
  let services := VDict [("services", VDict
    [("libvirt", VDict []);
     ("nova-compute", VDict [("start_command", VStr "systemctl start devstack@n-cpu");
                             ("stop_command", VStr "systemctl stop devstack@n-cpu")])])] in
  VDict [("compute-0", services); ("compute-1", services)].
Definition trait_domain (trait : string) : elem :=
  Elem "domain" [] None [Elem "metadata" [] None [Elem (nova "instance") [] None
    [Elem (nova "flavor") [] None [Elem (nova "extraSpecs") [] None
       [Elem (nova "extraSpec") [("name", "trait:" ++ trait)] (Some "required") []]]]]].
Definition trait_env : cloud sim :=
  sim_cloud (λ _, false) [("<a/>", trait_domain trait_a); ("<b/>", trait_domain trait_b)] two_computes_yaml.
Definition named (name : string) : val :=
  VDict [("server", VDict [("OS-EXT-SRV-ATTR:host", VStr "compute-0");
                           ("OS-EXT-SRV-ATTR:instance_name", VStr name)])].
Definition trait_state : pystate sim :=
  mkState None [] (mkSim 0 ∅ true
    [("sudo virsh dumpxml a", "<a/>"); ("sudo virsh dumpxml b", "<b/>");
     ("sudo mkdir -p /etc/nova/provider_config", "");
     ("echo " ++ dq ++ "traits" ++ dq ++ " > /tmp/provider.yaml", "");
     ("sudo mv /tmp/provider.yaml /etc/nova/provider_config/provider.yaml", "")]
    [("os_admin.placement_client.list_traits",
      VDict [("traits", VList [VStr trait_a; VStr trait_b])]);
     ("resource_providers_client.list_resource_provider_traits",
      VDict [("traits", VList [VStr trait_a; VStr trait_b])]);
     ("BaseV2ComputeAdminTest.create_flavor", VDict [("id", VStr "42")]);
     ("os_admin.flavors_client.set_flavor_extra_spec", VNone);
     ("BaseV2ComputeAdminTest.create_test_server", VDict [("id", VStr "server-1")]);
     ("BaseV2ComputeAdminTest.get_host_for_server", VStr "compute-1");
     ("BaseV2ComputeAdminTest.get_host_for_server", VStr "compute-1");
     ("BaseV2ComputeAdminTest.get_host_for_server", VStr "compute-0");
     ("os_admin.servers_client.show_server", named "a");
     ("os_admin.servers_client.show_server", named "b")] []).
Definition trait_hosts : provider_hosts := mkProviders "compute-0" "rp-0" "compute-1" "rp-1".

Lemma test_valid_trait_sound_witness :
  ∃ root1 root3, requires_trait trait_a root1 ∧ requires_trait trait_b root3.
Proof.
  destruct (test_valid_trait_sound (CONF:=sim_CONF) (C:=trait_env) 20 (λ _, Ret (VStr "traits")) fmt
    trait_hosts trait_state
    (test_valid_trait_with_provider_yaml (CONF:=sim_CONF) (C:=trait_env) 20 (λ _, Ret (VStr "traits")) fmt
       trait_hosts trait_state).2) as (_ & _ & _ & _ & _ & root1 & root3 & _ & _ & _ & H1 & H3).
  - vm_compute. reflexivity.
  - by exists root1, root3.
Defined.
