(* ===== verification/ResourceSafety.v ===== *)
(** What the tests create is given back: on every path through a test, exceptions
    included, each server, network, subnet, port, image, key pair, flavor, volume
    type and trait whose deletion is left to the plugin is registered for deletion,
    and its deletion is run when the test case has ended. Two tests are excepted
    ([leaking_tests]): one is shown to leave its trait behind, the other creates
    flavors the way the vGPU class set-up does, which is shown to leave its flavor
    behind when the extra specs cannot be set.

    The account of what has been created is kept by the outside world
    ([Accounting]): any deployment can be observed this way ([observed]). *)
From Stdlib Require Import Ascii String.
From S2P Require Import Prelude PyString PyVal Xml Env Sim Hardware Utils Waiters Clients ServiceManager.
From S2P Require Import ComputeBase Trace NumaHelper Pinning ThreadPolicy EmulatorThreads NumaMigration.
From S2P Require Import Evacuation Hugepages HostFeatures Vdpa Vgpu Sriov GuestXml Volumes Devices.
#[local] Open Scope string_scope.

(** * The account of the created resources *)
Class Accounting (W : Type) `{C : cloud W} := {
  created : W → list cleanup;
  created_api m a w : created (api_call m a w).2 =
    match (api_call m a w).1 with
    | Ret body => option_list (owed_cleanup m a body) ++ created w
    | _ => created w
    end%list;
  created_ssh h u k c w : created (ssh_exec_command h u k c w).2 = created w;
  created_time w : created (time_time w).2 = created w;
  created_sleep n w : created (time_sleep n w) = created w;
  created_yaml p w : created (yaml_load_file p w).2 = created w;
}.

(** Any deployment, observed. *)
Definition observed {W} (C : cloud W) : cloud (W * list cleanup) := {|
  ssh_exec_command := λ h u k c '(w, l), let '(o, w') := ssh_exec_command h u k c w in (o, (w', l));
  api_call := λ m a '(w, l),
    let '(o, w') := api_call m a w in
    (o, (w', match o with Ret body => option_list (owed_cleanup m a body) ++ l | _ => l end%list));
  time_time := λ '(w, l), let '(t, w') := time_time w in (t, (w', l));
  time_sleep := λ n '(w, l), (time_sleep n w, l);
  yaml_load_file := λ p '(w, l), let '(o, w') := yaml_load_file p w in (o, (w', l));
  et_fromstring := et_fromstring;
  json_loads := json_loads;
|}.

#[export] Instance observed_accounting {W} (C : cloud W) : Accounting (C:=observed C) (W * list cleanup).
Proof.
  refine (Build_Accounting _ (observed C) snd _ _ _ _ _).
  - intros m a [w l]. simpl. by destruct (api_call m a w) as [[] ?].
  - intros h u k c [w l]. simpl. by destruct (ssh_exec_command h u k c w).
  - intros [w l]. simpl. by destruct (time_time w).
  - by intros n [w l].
  - intros p [w l]. simpl. by destruct (yaml_load_file p w).
Defined.

Section account.
Context {CONF : conf} {W : Type} `{C : cloud W} `{AC : !Accounting W}.
Implicit Types s : pystate W.
Abbreviation P := (M (pystate W)).

(** Every created resource is registered, but for those of [pending]. *)
Definition registered_but (pending : list cleanup) (s : pystate W) : Prop :=
  ∀ c, c ∈ created (st_world s) → c ∈ pending ∨ c ∈ st_cleanups s.
Definition no_leak : pystate W → Prop := registered_but [].

(** Cleanups are only added, and nothing is left unregistered. *)
Definition keeps (s s' : pystate W) : Prop :=
  (∃ l, st_cleanups s' = l ++ st_cleanups s)%list ∧ ∀ p, registered_but p s → registered_but p s'.

#[export] Instance keeps_preorder : PreOrder keeps.
Proof.
  split.
  - intros s. split; [by exists []|done].
  - intros s1 s2 s3 [[l1 H1] Hk1] [[l2 H2] Hk2]. split; [|auto].
    exists (l2 ++ l1)%list. by rewrite H2, H1, <-app_assoc.
Qed.

Lemma keeps_same s s' :
  st_cleanups s' = st_cleanups s → created (st_world s') = created (st_world s) → keeps s s'.
Proof. intros Hc Hw. split; [by exists []|]. intros p H c. rewrite Hw, Hc. apply H. Qed.

Lemma in_world_keeps {A} (f : W → outcome A * W) :
  (∀ w, created (f w).2 = created w) → Within keeps (in_world f).
Proof.
  intros Hf s. unfold in_world. specialize (Hf (st_world s)).
  destruct (f (st_world s)) as [o w]. by apply keeps_same.
Qed.

#[export] Instance keeps_ambient : Ambient keeps.
Proof.
  split; [apply _|..].
  - intros method args Hq. apply in_world_keeps. intros w. rewrite created_api.
    destruct (api_call method args w).1; [|done..]. by rewrite Hq.
  - intros. apply in_world_keeps. intros. apply created_ssh.
  - apply in_world_keeps. intros w. pose proof (created_time w). by destruct (time_time w).
  - intros. apply in_world_keeps. intros. apply created_sleep.
  - intros. apply in_world_keeps. intros. apply created_yaml.
  - intros v s. by apply keeps_same.
Qed.

Lemma add_cleanup_keeps c : Within keeps (add_cleanup c).
Proof.
  intros s. split; [by exists [c]|]. intros p H c' Hc'.
  destruct (H c' Hc'); [by left|right; by right].
Qed.

(** A statement that registers [c] on every path. *)
Definition Settles {A} (c : cleanup) (m : P A) : Prop :=
  ∀ s, keeps s (m s).2 ∧ c ∈ st_cleanups (m s).2.

Lemma settles_add {A} c (m : P A) : Within keeps m → Settles c (add_cleanup c;; m).
Proof.
  intros Hm s. rewrite bind_run. destruct (add_cleanup c s) as [o s1] eqn:E.
  apply add_cleanup_run in E as Hc. destruct Hc as [-> Hc]. specialize (Hm s1).
  split; [etrans; [|done]; eapply within_run; [apply add_cleanup_keeps|done]|].
  destruct Hm as [[l ->] _]. rewrite Hc. set_solver.
Qed.

(** A creating call and the statements that register its result. *)
Lemma within_creating {A} method args (f : val → P A) :
  (∀ body, match owed_cleanup method args body with
           | Some c => Settles c (f body)
           | None => Within keeps (f body)
           end) →
  Within keeps (api method args ≫= f).
Proof.
  intros Hf s. rewrite bind_run. unfold api, in_world.
  pose proof (created_api method args (st_world s)) as Hc.
  destruct (api_call method args (st_world s)) as [o w]. simpl in Hc.
  destruct o as [body|e|]; [|by apply keeps_same..].
  specialize (Hf body). destruct (owed_cleanup method args body) as [c|].
  - destruct (Hf (mkState (st_nodes s) (st_cleanups s) w)) as [[Hl Hk] Hin]. split; [done|].
    intros p Hp c' Hc'.
    destruct (Hk (c :: p) ltac:(intros c2; simpl; rewrite Hc; specialize (Hp c2); set_solver) c' Hc')
      as [[->|?]%elem_of_cons|?]; auto.
  - etrans; [|apply Hf]. by apply keeps_same.
Qed.
End account.
#[export] Hint Resolve keeps_ambient add_cleanup_keeps : within.


Ltac solve_keeps :=
  intros; match goal with |- Within (keeps (AC:=?AC)) _ => pose proof (keeps_ambient (AC:=AC)) end; solve_within.

Section helpers.
Context {CONF : conf} {W : Type} `{C : cloud W} `{AC : !Accounting W}.
Abbreviation P := (M (pystate W)).

(** The shape of the helpers: the result of the creating call is read with a pure
    expression and registered at once. *)
Lemma within_registered {A B} method args (x : val → outcome B) (c : B → cleanup)
    (rest : val → B → P A) :
  (∀ body, owed_cleanup method args body =
           match x body with Ret v => Some (c v) | _ => None end) →
  (∀ body v, Within keeps (rest body v)) →
  Within keeps (body ← api method args; v ← lift (x body); add_cleanup (c v);; rest body v).
Proof.
  intros Ho Hr. apply within_creating. intros body. rewrite Ho.
  destruct (x body) as [v|e|]; [by apply settles_add|solve_keeps..].
Qed.

Lemma create_test_server_keeps args : Within keeps (create_test_server args).
Proof.
  apply (within_registered _ _ (λ body, vget body "id" ≫= as_str)); [done|solve_keeps].
Qed.
Lemma create_network_keeps cls vlan net : Within keeps (create_net_from_physical_network cls vlan net).
Proof.
  apply within_bind; [apply _|solve_keeps|intros name].
  apply (within_registered _ _ (λ body, vpath body ["network"; "id"])); [done|solve_keeps].
Qed.
Lemma create_subnet_keeps cls network_id : Within keeps (create_subnet cls network_id).
Proof.
  apply within_bind; [apply _|solve_keeps|intros name].
  apply (within_registered _ _ (λ body, vpath body ["subnet"; "id"])); [done|solve_keeps].
Qed.
Lemma create_port_keeps net vnic policy : Within keeps (create_port_from_vnic_type net vnic policy).
Proof.
  apply within_bind; [apply _|solve_keeps|intros network_id].
  apply (within_registered _ _ (λ body, vpath body ["port"; "id"])); [done|solve_keeps].
Qed.
Lemma copy_default_image_keeps args : Within keeps (copy_default_image args).
Proof.
  unfold copy_default_image. repeat (apply within_bind; [apply _|solve_keeps|intros ?]).
  apply (within_registered _ _ (λ body, vget body "id")); [|solve_keeps].
  intros body. unfold owed_cleanup, owed_call. simpl.
  by destruct (vget body "id").
Qed.
Lemma create_keypair_keeps args cls : Within keeps (create_keypair args cls).
Proof.
  unfold create_keypair. do 2 (apply within_bind; [apply _|solve_keeps|intros ?]).
  apply (within_registered _ _ (λ _, vget (VDict a0) "name")); [|solve_keeps].
  intros body. unfold owed_cleanup, owed_call. simpl. by destruct (dict_get a0 "name").
Qed.
Lemma create_volume_type_keeps cls name backend specs args :
  Within keeps (create_volume_type cls name backend specs args).
Proof.
  unfold create_volume_type. do 2 (apply within_bind; [apply _|solve_keeps|intros ?]).
  apply within_creating. intros body. unfold owed_cleanup. simpl.
  destruct (vget body "volume_type") as [[]|e|]; try solve_keeps. simpl.
  case_bool_decide as Hd; [|solve_keeps].
  change (Settles (CleanupVolumeType (VDict d))
    (assert_that (bool_decide (is_Some (dict_get d "id")));;
     add_cleanup (CleanupVolumeType (VDict d));; mret (VDict d) : P val)).
  rewrite bool_decide_eq_true_2 by done. change (Settles (CleanupVolumeType (VDict d))
    (add_cleanup (CleanupVolumeType (VDict d));; mret (VDict d) : P val)).
  apply settles_add. solve_keeps.
Qed.
Lemma store_iso_image_keeps : Within keeps store_iso_image_in_glance.
Proof.
  unfold store_iso_image_in_glance. do 2 (apply within_bind; [apply _|solve_keeps|intros ?]).
  apply (within_registered _ _ (λ body, vget body "id")); [|solve_keeps].
  intros body. unfold owed_cleanup, owed_call. simpl. by destruct (vget body "id").
Qed.
Lemma find_trait_spec_keeps trait specs : Within keeps (find_trait_spec trait specs).
Proof. induction specs; cbn [find_trait_spec]; solve_keeps. Qed.
End helpers.
#[export] Hint Resolve store_iso_image_keeps find_trait_spec_keeps create_test_server_keeps create_network_keeps create_subnet_keeps
  create_port_keeps copy_default_image_keeps create_keypair_keeps create_volume_type_keeps : within.

(** * The tests

    Each with the [skip_checks] and the [setUp] of its class. The classes of
    test_vgpu.py make their flavor in [resource_setup], once for all their tests. *)

(** What the tests take from elsewhere: the iteration order of a set, the number of
    iterations a polling loop may make, tempest's attributes, the flavor of the
    vGPU classes, and functions of oslo.utils and PyYAML *)
Record suite_parameters := mkParameters {
  set_iter : gset Z → list Z;
  fuel : nat;
  image_ssh_user : val;
  image_ssh_password : val;
  vgpu_flavor : val;
  string_to_bytes : string → outcome Z;
  yaml_safe_load : string → outcome val;
  yaml_dump : val → string;
}.

Section suite.
Context {CONF : conf} {W : Type} `{C : cloud W} (parameters : suite_parameters).
Abbreviation P := (M (pystate W)).
#[local] Abbreviation set_iter := (set_iter parameters).
#[local] Abbreviation fuel := (fuel parameters).
#[local] Abbreviation image_ssh_user := (image_ssh_user parameters).
#[local] Abbreviation image_ssh_password := (image_ssh_password parameters).
#[local] Abbreviation vgpu_flavor := (vgpu_flavor parameters).
#[local] Abbreviation string_to_bytes := (string_to_bytes parameters).
#[local] Abbreviation yaml_safe_load := (yaml_safe_load parameters).
#[local] Abbreviation yaml_dump := (yaml_dump parameters).

Definition cpu_pinning_tests : list (string * P unit) :=
  [("CPUPolicyTest.test_cpu_shared", test_cpu_shared);
   ("CPUPolicyTest.test_cpu_dedicated", test_cpu_dedicated);
   ("CPUPolicyTest.test_realtime_cpu", test_realtime_cpu set_iter);
   ("CPUPolicyTest.test_resize_pinned_server_to_unpinned", test_resize_pinned_server_to_unpinned);
   ("CPUPolicyTest.test_resize_unpinned_server_to_pinned", test_resize_unpinned_server_to_pinned);
   ("CPUPolicyTest.test_reboot_pinned_server", test_reboot_pinned_server);
   ("CPUThreadPolicyTest.test_threads_isolate", test_threads_isolate set_iter);
   ("CPUThreadPolicyTest.test_threads_prefer", test_threads_prefer set_iter);
   ("CPUThreadPolicyTest.test_threads_require", test_threads_require set_iter);
   ("EmulatorThreadTest.test_policy_share_cpu_shared_set",
      emulator_skip_checks;; test_policy_share_cpu_shared_set);
   ("EmulatorThreadTest.test_policy_share_cpu_shared_unset",
      emulator_skip_checks;; test_policy_share_cpu_shared_unset fuel);
   ("EmulatorThreadTest.test_policy_isolate", emulator_skip_checks;; test_policy_isolate);
   ("EmulatorThreadTest.test_emulator_no_extra_cpu", emulator_skip_checks;; test_emulator_no_extra_cpu);
   ("NUMALiveMigrationTest.test_cpu_pinning_and_emulator_threads",
      live_migration_skip_checks;; scheduler_filter_skip_checks "DifferentHostFilter";;
      test_cpu_pinning_and_emulator_threads);
   ("NUMACPUDedicatedLiveMigrationTest.test_collocation_migration",
      dedicated_migration_skip_checks;; test_collocation_migration);
   ("NUMARebuildTest.test_in_place_rebuild",
      scheduler_filter_skip_checks "NUMATopologyFilter";; test_in_place_rebuild);
   ("MixedCPUPolicyTest.test_shared_pinned_and_unpinned_guest",
      mixed_skip_checks;; test_shared_pinned_and_unpinned_guest);
   ("MixedCPUPolicyTestMultiNuma.test_symmetric_multi_numa",
      multi_numa_skip_checks;; test_symmetric_multi_numa);
   ("MixedCPUPolicyTestMultiNuma.test_asymmetric_multi_numa",
      multi_numa_skip_checks;; test_asymmetric_multi_numa)].

Definition migration_tests : list (string * P unit) :=
  [("ServerEvacuation.test_evacuate_to_shutoff", evacuation_skip_checks;; test_evacuate_to_shutoff fuel);
   ("ServerEvacuationV294.test_evacuate_to_active", evacuation_skip_checks;; test_evacuate_to_active fuel);
   ("ServerEvacuation.test_evacuate_with_target_host",
      evacuation_skip_checks;; test_evacuate_with_target_host fuel);
   ("ServerEvacuation.test_evacuate_attached_vol",
      evacuation_skip_checks;; test_evacuate_attached_vol fuel);
   ("ServerEvacuation.test_evacuate_bfv_server", evacuation_skip_checks;; test_evacuate_bfv_server fuel);
   ("LiveMigrationBase.test_volume_backed_live_migration",
      live_migration_base_skip_checks;; test_volume_backed_live_migration);
   ("LiveMigrationBase.test_live_migrate_and_reboot",
      live_migration_base_skip_checks;; test_live_migrate_and_reboot)].

Definition memory_tests : list (string * P unit) :=
  [("HugePageResize.test_hugepage_resize_large_to_small",
      hugepage_skip_checks;; test_hugepage_resize_large_to_small);
   ("HugePageResize.test_hugepage_resize_size_to_small",
      hugepage_skip_checks;; test_hugepage_resize_size_to_small);
   ("HugePageResize.test_hugepage_resize_size_to_size",
      hugepage_skip_checks;; test_hugepage_resize_size_to_size);
   ("FileBackedMemory.test_resize_file_backed_server_on_diff_host",
      file_backed_skip_checks;; f ← file_backed_setUp; test_resize_file_backed_server_on_diff_host fuel f);
   ("FileBackedMemory.test_live_migrate_file_backed_server",
      file_backed_skip_checks;; file_backed_setUp;; test_live_migrate_file_backed_server fuel);
   ("FileBackedMemory.test_live_migrate_non_file_backed_host_to_file_backed_host",
      file_backed_skip_checks;; file_backed_setUp;;
      test_live_migrate_non_file_backed_host_to_file_backed_host fuel);
   ("TestCPUStateMgmt.test_cpu_state", cpu_state_skip_checks;; f ← cpu_state_setUp; test_cpu_state f)].

Definition vdpa_tests : list (string * P unit) :=
  [("VDPASmokeTests.test_guest_creation_with_vdpa_port",
      vdpa_skip_checks;; n ← vdpa_setUp "VDPASmokeTests"; test_guest_creation_with_vdpa_port n);
   ("VDPAColdMigration.test_vdpa_cold_migration",
      vdpa_cold_migration_skip_checks;; n ← vdpa_setUp "VDPAColdMigration"; test_vdpa_cold_migration n);
   ("VDPAColdMigration.test_revert_vdpa_cold_migration",
      vdpa_cold_migration_skip_checks;;
      n ← vdpa_setUp "VDPAColdMigration"; test_revert_vdpa_cold_migration n);
   ("VDPAResizeInstance.test_vdpa_to_standard_resize",
      vdpa_resize_skip_checks;;
      nf ← vdpa_resize_setUp "VDPAResizeInstance"; test_vdpa_to_standard_resize nf.1 nf.2);
   ("VDPAEvacuateInstance.test_evacuate_server_vdpa",
      vdpa_evacuate_skip_checks;;
      n ← vdpa_setUp "VDPAEvacuateInstance"; test_evacuate_server_vdpa fuel n)].

Definition vgpu_tests : list (string * P unit) :=
  [("VGPUSmoke.test_boot_instance_with_vgpu",
      vgpu_skip_checks;; test_boot_instance_with_vgpu image_ssh_user image_ssh_password vgpu_flavor);
   ("VGPUColdMigration.test_vgpu_cold_migration",
      vgpu_cold_migration_skip_checks;;
      test_vgpu_cold_migration image_ssh_user image_ssh_password vgpu_flavor);
   ("VGPUColdMigration.test_revert_vgpu_cold_migration",
      vgpu_cold_migration_skip_checks;;
      test_revert_vgpu_cold_migration image_ssh_user image_ssh_password vgpu_flavor);
   ("VGPUResizeInstance.test_vgpu_to_standard_resize",
      vgpu_resize_skip_checks;; test_vgpu_to_standard_resize vgpu_flavor);
   ("VGPUResizeInstance.test_standard_to_vgpu_resize",
      vgpu_resize_skip_checks;;
      test_standard_to_vgpu_resize image_ssh_user image_ssh_password vgpu_flavor);
   ("VGPUMultiTypes.test_deploy_multiple_vgpu_types",
      vgpu_multi_types_skip_checks;; test_deploy_multiple_vgpu_types);
   ("VGPUServerEvacuation.test_evacuate_server_having_vgpu",
      vgpu_evacuation_skip_checks;;
      test_evacuate_server_having_vgpu fuel image_ssh_user image_ssh_password vgpu_flavor)].

Definition affinity_test (cls : string) (skip : P unit) (test : val → val → P unit) : P unit :=
  skip;; nf ← numa_affinity_setUp cls; test nf.1 nf.2.

Definition sriov_tests : list (string * P unit) :=
  let flavor_cls := "SRIOVNumaAffinityWithFlavor" in
  let image_cls := "SRIOVNumaAffinityWithImagePolicy" in
  let port_cls := "SRIOVNumaAffinityWithPortPolicy" in
  let attach test :=
    attach_detach_skip_checks;; n ← sriov_network "SRIOVAttachAndDetach";
    test fuel image_ssh_user image_ssh_password n in
  [("SRIOVNumaAffinityWithFlavor.test_sriov_affinity_preferred_with_flavor",
      affinity_test flavor_cls numa_affinity_skip_checks
        (λ n _, test_sriov_affinity_preferred_with_flavor n));
   ("SRIOVNumaAffinityWithFlavor.test_sriov_affinity_required_with_flavor",
      affinity_test flavor_cls numa_affinity_skip_checks
        (λ n _, test_sriov_affinity_required_with_flavor n));
   ("SRIOVNumaAffinityWithImagePolicy.test_sriov_affinity_preferred_with_image",
      affinity_test image_cls image_policy_skip_checks test_sriov_affinity_preferred_with_image);
   ("SRIOVNumaAffinityWithImagePolicy.test_sriov_affinity_required_with_image",
      affinity_test image_cls image_policy_skip_checks test_sriov_affinity_required_with_image);
   ("SRIOVNumaAffinityWithPortPolicy.test_sriov_affinity_preferred_with_port_policy",
      affinity_test port_cls port_policy_skip_checks test_sriov_affinity_preferred_with_port_policy);
   ("SRIOVNumaAffinityWithPortPolicy.test_sriov_mixed_affinity_port_policies",
      affinity_test port_cls port_policy_skip_checks test_sriov_mixed_affinity_port_policies);
   ("SRIOVNumaAffinityWithPortPolicy.test_sriov_affinity_required_with_port_policy",
      affinity_test port_cls port_policy_skip_checks test_sriov_affinity_required_with_port_policy);
   ("SRIOVNumaAffinityWithPortPolicy.test_sriov_affinity_port_policy_precedence_flavor",
      affinity_test port_cls port_policy_skip_checks
        (λ n _, test_sriov_affinity_port_policy_precedence_flavor n));
   ("SRIOVNumaAffinityWithPortPolicy.test_sriov_affinity_port_policy_precedence_image",
      affinity_test port_cls port_policy_skip_checks test_sriov_affinity_port_policy_precedence_image);
   ("SRIOVNumaAffinityWithSocketPolicy.test_sriov_affinity_socket_policy",
      affinity_test "SRIOVNumaAffinityWithSocketPolicy" socket_skip_checks
        (λ n _, test_sriov_affinity_socket_policy n));
   ("SRIOVMigration.test_sriov_direct_live_migration",
      sriov_migration_skip_checks;;
      n ← sriov_network "SRIOVMigration"; test_sriov_direct_live_migration fuel n);
   ("SRIOVMigration.test_sriov_macvtap_live_migration",
      sriov_migration_skip_checks;;
      n ← sriov_network "SRIOVMigration"; test_sriov_macvtap_live_migration fuel n);
   ("SRIOVAttachAndDetach.test_sriov_direct_attach_detach_port",
      attach test_sriov_direct_attach_detach_port);
   ("SRIOVAttachAndDetach.test_sriov_macvtap_attach_detach_port",
      attach test_sriov_macvtap_attach_detach_port);
   ("SRIOVAttachAndDetach.test_sriov_direct_physical_attach_detach_port",
      attach test_sriov_direct_physical_attach_detach_port)].

Definition guest_xml_tests : list (string * P unit) :=
  let video test := vn ← hw_video_setUp; test vn.1 vn.2 in
  let vpmu test := self ← vpmu_setUp; test self in
  let viommu test := fi ← viommu_setUp; test fi.1 fi.2 in
  [("TestStableCpuId.test_compute_id_file_match_db_state",
      compute_id_skip_checks;; test_compute_id_file_match_db_state);
   ("TestVencrypt.test_via_qemu_logs",
      vencrypt_skip_checks;; self ← vencrypt_setUp; test_via_qemu_logs self.1 self.2);
   ("CpuModelExtraFlagsTest.test_cpu_model_extra_flags", test_cpu_model_extra_flags);
   ("HyperVEnlightenments.test_default_hyperv_enlightenments",
      image ← hyperv_setUp; test_default_hyperv_enlightenments image);
   ("HyperVEnlightenments.test_live_migrate_with_enlightenments",
      image ← hyperv_setUp; test_live_migrate_with_enlightenments image);
   ("TestFlavorMetadata.test_flavor_metadata_is_present",
      test_flavor_metadata_is_present "TestFlavorMetadata");
   ("HwVideoModelTest.test_create_virtio_instance", video test_create_virtio_instance);
   ("HwVideoModelTest.test_create_none_instance", video test_create_none_instance);
   ("HwVideoModelTest.test_rebuild_virtio_to_none", video test_rebuild_virtio_to_none);
   ("HwVideoModelTest.test_rebuild_none_to_virtio", video test_rebuild_none_to_virtio);
   ("HwVideoModelTest.test_default_hw_device", video (λ _ _, test_default_hw_device));
   ("HwVideoModelTest.test_bochs_display_device", video (λ _ _, test_bochs_display_device));
   ("TestIsoImage.test_boot_server_from_iso_image",
      iso_skip_checks;; test_boot_server_from_iso_image "TestIsoImage");
   ("MultiqueueTest.test_multiqueue", test_multiqueue);
   ("NVDIMMTests.test_nvdimm_instance_creation",
      nvdimm_skip_checks;; test_nvdimm_instance_creation string_to_bytes);
   ("PointerDeviceTypeFromImages.test_pointer_device_type_from_images",
      test_pointer_device_type_from_images);
   ("RxTxQueueSizeTest.test_rx_queue_size", test_rx_queue_size);
   ("SelinuxLabelsTest.test_create_server_with_label_check",
      selinux_skip_checks;; selinux_setUp;; test_create_server_with_label_check);
   ("SelinuxLabelsTest.test_resize_with_label_check",
      selinux_skip_checks;; f ← selinux_setUp; test_resize_with_label_check f);
   ("SelinuxLabelsTest.test_live_migrate_with_label_check",
      selinux_skip_checks;; selinux_setUp;; test_live_migrate_with_label_check);
   ("ViommuTestQ35ViaImage.test_deploy_intel_viommu_model_q35_via_image",
      viommu test_deploy_intel_viommu_model_q35_via_image);
   ("ViommuTestQ35ViaImage.test_resize_intel_viommu_via_image", viommu test_resize_intel_viommu_via_image);
   ("TestVirtIORng.test_virtio_rng_model", virtio_rng_skip_checks;; test_virtio_rng_model);
   ("TestVirtIORng.test_set_rng_device_false", virtio_rng_skip_checks;; test_set_rng_device_false);
   ("VPMUTest.test_rebuild_on_to_off", vpmu test_rebuild_on_to_off);
   ("VPMUTest.test_rebuild_off_to_on", vpmu test_rebuild_off_to_on);
   ("VPMUTest.test_resize_on_to_off", vpmu test_resize_on_to_off);
   ("VPMUTest.test_resize_off_to_on", vpmu test_resize_off_to_on)].

Definition watchdog_tests : list (string * P unit) :=
  (map (λ a, ("WatchdogDeviceTest.test_action_with_flavor", test_action_with_flavor a)) watchdog_actions ++
   map (λ am, ("WatchdogDeviceTest.test_action_with_image", test_action_with_image am.1 am.2))
     watchdog_image_data)%list.

Definition volume_tests : list (string * P unit) :=
  [("VirtioSCSIDiskMultiAttachment.test_boot_with_multiple_disks",
      multi_attachment_skip_checks;; fi ← scsi_setUp; test_boot_with_multiple_disks fi.1 fi.2);
   ("VirtioSCSIDiskMultiAttachment.test_attach_multiple_scsi_disks",
      multi_attachment_skip_checks;; fi ← scsi_setUp; test_attach_multiple_scsi_disks fi.1 fi.2);
   ("VirtioSCSIDiskRestrictAttachments.test_max_iscsi_disks_attachment_enforced",
      restrict_attachments_skip_checks;;
      fi ← scsi_setUp; test_max_iscsi_disks_attachment_enforced fi.1 fi.2);
   ("TestQEMUVolumeEncryption.test_qemu_volume_encryption",
      encryption_skip_checks;; test_qemu_volume_encryption "TestQEMUVolumeEncryption");
   ("VolumesAdminNegativeTest.test_detach_failure",
      volume_negative_skip_checks;; test_detach_failure fuel image_ssh_user image_ssh_password);
   ("TestRBDDirectDownload.test_rbd_logs_and_conf", rbd_skip_checks;; test_rbd_logs_and_conf fuel)].

Definition device_tests : list (string * P unit) :=
  let traits test := provider_yaml_skip_checks;; self ← provider_yaml_setUp; test self in
  [("PCIPassthroughTest.test_pci_passthrough_boot", pci_skip_checks;; test_pci_passthrough_boot);
   ("PCIPassthroughTest.test_pci_passthrough_placement",
      pci_skip_checks;; test_pci_passthrough_placement);
   ("VTPMTest.test_create_server_with_vtpm_tis", vtpm_skip_checks;; test_create_server_with_vtpm_tis);
   ("VTPMTest.test_create_server_with_vtpm_crb", vtpm_skip_checks;; test_create_server_with_vtpm_crb);
   ("VTPMTest.test_invalid_model_version_creation",
      vtpm_skip_checks;; test_invalid_model_version_creation);
   ("VTPMTest.test_vtpm_creation_after_virtqemud_restart",
      vtpm_skip_checks;; test_vtpm_creation_after_virtqemud_restart fuel);
   ("VTPMTest.test_vtpm_live_migration_secret_security_user",
      vtpm_skip_checks;; test_vtpm_live_migration_secret_security_user);
   ("VTPMTest.test_vtpm_live_migration_secret_security_host",
      vtpm_skip_checks;; test_vtpm_live_migration_secret_security_host);
   ("TestUEFIBoot.test_uefi_boot_and_rebuild", uefi_skip_checks;; test_uefi_boot_and_rebuild);
   ("TestUEFIBoot.test_uefi_secure_boot", uefi_skip_checks;; test_uefi_secure_boot);
   ("TestProviderYamlViaTraits.test_valid_trait_with_provider_yaml",
      traits (test_valid_trait_with_provider_yaml fuel yaml_safe_load yaml_dump));
   ("TestProviderYamlViaTraits.test_invalid_trait", traits test_invalid_trait)].

Definition compute_tests : list (string * P unit) :=
  (cpu_pinning_tests ++ migration_tests ++ memory_tests ++ vdpa_tests ++ vgpu_tests ++ sriov_tests ++
   guest_xml_tests ++ watchdog_tests ++ volume_tests ++ device_tests)%list.
End suite.

(** The tests that do not register everything they create *)
Definition leaking_tests : list string :=
  ["VGPUMultiTypes.test_deploy_multiple_vgpu_types";
   "TestProviderYamlViaTraits.test_valid_trait_with_provider_yaml"].

(** The name of a test is on the list. *)
Ltac solve_leaking H := exfalso; apply H, (bool_decide_unpack _); vm_compute; exact I.
Ltac solve_all_keep :=
  repeat first
    [ apply Forall_nil_2
    | apply Forall_cons_2;
      [cbn [fst snd]; let H := fresh in intros H; first [solve_leaking H | clear H; solve_keeps]|] ].

Section shared_steps.
Context {CONF : conf} {W : Type} `{C : cloud W} `{AC : !Accounting W}.

Lemma boot_server_keeps args : Within keeps (boot_server args).
Proof. solve_keeps. Qed.
Lemma pinning_keeps server : Within keeps (get_pinning_as_set server).
Proof. solve_keeps. Qed.
Lemma inventories_keeps : Within keeps get_vgpu_inventories_for_deployment.
Proof. solve_keeps. Qed.
Lemma vgpu_util_keeps host : Within keeps (get_vgpu_util_for_host host).
Proof. solve_keeps. Qed.
Lemma vgpu_guest_keeps user password flavor : Within keeps (start_vgpu_guest user password flavor).
Proof. solve_keeps. Qed.
Lemma validate_vgpu_keeps server_id client n : Within keeps (validate_vgpu_instance server_id client n).
Proof. solve_keeps. Qed.
Lemma cold_migrate_keeps server_id host revert : Within keeps (cold_migrate_server server_id host revert).
Proof. destruct revert; solve_keeps. Qed.
Lemma sriov_interface_keeps server_id port vlan : Within keeps (check_sriov_interface server_id port vlan).
Proof. solve_keeps. Qed.
Lemma sriov_network_keeps cls : Within keeps (sriov_network cls).
Proof. solve_keeps. Qed.
Lemma boot_with_port_keeps flavor port hints image : Within keeps (boot_with_port flavor port hints image).
Proof. solve_keeps. Qed.
End shared_steps.
#[export] Hint Resolve boot_server_keeps pinning_keeps inventories_keeps vgpu_util_keeps vgpu_guest_keeps
  validate_vgpu_keeps cold_migrate_keeps sriov_interface_keeps sriov_network_keeps boot_with_port_keeps
  : within.

Section procedures.
Context {CONF : conf} {W : Type} `{C : cloud W} `{AC : !Accounting W}.

Lemma preferred_keeps flavor a b image : Within keeps (preferred_test_procedure flavor a b image).
Proof. solve_keeps. Qed.
Lemma required_keeps flavor a b image : Within keeps (required_test_procedure flavor a b image).
Proof. solve_keeps. Qed.
End procedures.
#[export] Hint Resolve preferred_keeps required_keeps : within.

Section suite_keeps.
Context {CONF : conf} {W : Type} `{C : cloud W} `{AC : !Accounting W} (parameters : suite_parameters).
Abbreviation kept tests :=
  (Forall (λ t : string * M (pystate W) unit, t.1 ∉ leaking_tests → Within keeps t.2) tests).

Lemma cpu_pinning_tests_keep : kept (cpu_pinning_tests parameters).
Proof. solve_all_keep. Qed.
Lemma migration_tests_keep : kept (migration_tests parameters).
Proof. solve_all_keep. Qed.
Lemma memory_tests_keep : kept (memory_tests parameters).
Proof. solve_all_keep. Qed.
Lemma vdpa_tests_keep : kept (vdpa_tests parameters).
Proof. solve_all_keep. Qed.
Lemma vgpu_tests_keep : kept (vgpu_tests parameters).
Proof. solve_all_keep. Qed.
Lemma sriov_tests_keep : kept (sriov_tests parameters).
Proof. solve_all_keep. Qed.
Lemma guest_xml_tests_keep : kept (guest_xml_tests parameters).
Proof. solve_all_keep. Qed.
Lemma watchdog_tests_keep : kept watchdog_tests.
Proof. apply Forall_app_2; apply Forall_map, Forall_true; intros x _; cbn [snd]; solve_keeps. Qed.
Lemma volume_tests_keep : kept (volume_tests parameters).
Proof. solve_all_keep. Qed.
Lemma device_tests_keep : kept (device_tests parameters).
Proof. solve_all_keep. Qed.

Lemma compute_tests_keep : kept (compute_tests parameters).
Proof.
  unfold compute_tests.
  apply Forall_app_2; [apply cpu_pinning_tests_keep|].
  apply Forall_app_2; [apply migration_tests_keep|].
  apply Forall_app_2; [apply memory_tests_keep|].
  apply Forall_app_2; [apply vdpa_tests_keep|].
  apply Forall_app_2; [apply vgpu_tests_keep|].
  apply Forall_app_2; [apply sriov_tests_keep|].
  apply Forall_app_2; [apply guest_xml_tests_keep|].
  apply Forall_app_2; [apply watchdog_tests_keep|].
  apply Forall_app_2; [apply volume_tests_keep|].
  apply device_tests_keep.
Qed.
End suite_keeps.

(** * A test case and its cleanups *)
Section test_case.
Context {CONF : conf} {W : Type} `{C : cloud W}.
Implicit Types s : pystate W.

(** [unittest.TestCase.doCleanups]: the registered actions, last one first, each
    whatever the ones before it did *)
Definition do_cleanups (cs : list cleanup) (s : pystate W) : pystate W :=
  foldl (λ s c, (run_cleanup c s).2) s cs.

(** A test, then its cleanups, however the test ended *)
Definition run_case (test : M (pystate W) unit) (s : pystate W) : pystate W :=
  let s' := (test s).2 in do_cleanups (st_cleanups s') s'.

Lemma run_cleanup_reaches c : Within reaches (run_cleanup c).
Proof. solve_reaches. Qed.
Lemma do_cleanups_reaches cs s : reaches s (do_cleanups cs s).
Proof.
  revert s. induction cs as [|c cs IH]; intros s; [apply rtc_refl|].
  simpl. etrans; [apply run_cleanup_reaches|apply IH].
Qed.

Lemma do_cleanups_runs cs c s :
  c ∈ cs → ∃ s1, reaches s s1 ∧ reaches (run_cleanup c s1).2 (do_cleanups cs s).
Proof.
  intros [cs1 [cs2 ->]]%list_elem_of_split. exists (do_cleanups cs1 s). split; [apply do_cleanups_reaches|].
  unfold do_cleanups at 2. rewrite foldl_app. simpl. apply do_cleanups_reaches.
Qed.
End test_case.

Section theorems.
Context {CONF : conf} {W : Type} `{C : cloud W} `{AC : !Accounting W}.
Context (parameters : suite_parameters).
Implicit Types s : pystate W.

(** C3: when everything created so far is registered for deletion, it still is
    when any of the tests but the two of [leaking_tests] has ended, by returning,
    by an exception from any of its calls, by a skip or by a failed assertion; no
    cleanup registered before is lost; and when the registered cleanups are run
    after the test, the deletion of every resource created is among the actions
    run, whatever the others do. The resources are those whose deletion is left to
    the plugin: servers, networks, subnets, ports, images, key pairs, the flavors
    of the vGPU classes, volume types and traits. *)
Theorem tests_register_what_they_create name test s :
  (name, test) ∈ compute_tests parameters → name ∉ leaking_tests → no_leak s →
  no_leak (test s).2 ∧ (∃ l, st_cleanups (test s).2 = (l ++ st_cleanups s)%list) ∧
  ∀ c, c ∈ created (st_world (test s).2) →
       ∃ s1, reaches (test s).2 s1 ∧ reaches (run_cleanup c s1).2 (run_case test s).
Proof.
  intros Ht Hn Hs. pose proof (compute_tests_keep parameters) as Hk. rewrite Forall_forall in Hk.
  destruct (Hk _ Ht Hn s) as [Hl Hp]. split_and!; [by apply Hp|done|]. intros c Hc.
  destruct (Hp [] Hs c Hc) as [[]%elem_of_nil|Hin]. by apply do_cleanups_runs.
Qed.
End theorems.

(** * The tests that leak *)

(** Statements that forget nothing and never register the deletion of a trait *)
Section traits.
Context {CONF : conf} {W : Type} `{C : cloud W} `{AC : !Accounting W}.
Implicit Types s : pystate W.
Abbreviation P := (M (pystate W)).

Definition trait_deletion (trait : string) : cleanup :=
  CleanupCall "os_admin.placement_client.delete_trait" [("name", VStr trait)].

Definition no_trait_deletion s s' : Prop :=
  (∀ c, c ∈ created (st_world s) → c ∈ created (st_world s')) ∧
  ∀ trait, trait_deletion trait ∈ st_cleanups s' → trait_deletion trait ∈ st_cleanups s.

Lemma no_trait_in_world {A} (f : W → outcome A * W) :
  (∀ w c, c ∈ created w → c ∈ created (f w).2) → Within no_trait_deletion (in_world f).
Proof.
  intros Hf s. unfold in_world. specialize (Hf (st_world s)). by destruct (f (st_world s)) as [o w].
Qed.

Lemma no_trait_api method args : Within no_trait_deletion (api method args).
Proof.
  apply no_trait_in_world. intros w c Hc. rewrite created_api.
  destruct (api_call method args w).1; [set_solver|done..].
Qed.

#[export] Instance no_trait_ambient : Ambient no_trait_deletion.
Proof.
  split.
  - split; [by intros s|]. intros s1 s2 s3 [H1 H1'] [H2 H2']. split; auto.
  - intros. apply no_trait_api.
  - intros. apply no_trait_in_world. intros w c. by rewrite created_ssh.
  - apply no_trait_in_world. intros w c Hc. pose proof (created_time w) as Ht.
    destruct (time_time w) as [t w']. simpl in *. by rewrite Ht.
  - intros. apply no_trait_in_world. intros w c. simpl. by rewrite created_sleep.
  - intros. apply no_trait_in_world. intros w c. by rewrite created_yaml.
  - by intros v s.
Qed.

Lemma no_trait_cleanup server_id : Within no_trait_deletion (add_cleanup (AdminDeleteServer server_id)).
Proof. intros s. split; [done|]. intros trait [?|?]%elem_of_cons; done. Qed.
End traits.
#[export] Hint Resolve no_trait_api no_trait_cleanup : within.

Section leaks.
Context {CONF : conf} {W : Type} `{C : cloud W} `{AC : !Accounting W}.
Context (fuel : nat) (yaml_safe_load : string → outcome val) (yaml_dump : val → string).
Implicit Types s : pystate W.

Lemma no_trait_find_spec trait specs : Within no_trait_deletion (find_trait_spec trait specs).
Proof. pose proof (no_trait_ambient (AC:=AC)). induction specs; cbn [find_trait_spec]; solve_within. Qed.
#[local] Hint Resolve no_trait_find_spec : within.

(** What has happened before a statement of a body and what the rest may do *)
Lemma no_trait_then {A B} (m : M (pystate W) A) (k : A → M (pystate W) B) s1 s :
  no_trait_deletion s1 (m s).2 → (∀ a, Within no_trait_deletion (k a)) →
  no_trait_deletion s1 ((m ≫= k) s).2.
Proof.
  intros Hm Hk. rewrite bind_run. destruct (m s) as [[a|e|] s2] eqn:E; try done.
  simpl in *. destruct Hm as [H1 H2], (Hk a s2) as [H3 H4]. split; auto.
Qed.

Lemma no_trait_after_creation self s body s1 :
  api "os_admin.placement_client.create_trait" [("name", VStr trait_a)] s = (Ret body, s1) →
  no_trait_deletion s1 (test_valid_trait_with_provider_yaml fuel yaml_safe_load yaml_dump self s).2.
Proof.
  intros Hc. pose proof (no_trait_ambient (AC:=AC)).
  unfold test_valid_trait_with_provider_yaml. apply no_trait_then; [|solve_within].
  unfold give_trait. apply no_trait_then; [|solve_within].
  unfold create_provider_yaml_at_target_host. apply no_trait_then; [|solve_within].
  unfold try_except. rewrite Hc. done.
Qed.

(** C23: [test_valid_trait_with_provider_yaml] never deletes the trait it creates:
    whenever placement accepts the first [create_trait], the trait is created and
    its deletion is not among the registered cleanups when the test has ended, in
    whichever way it ended, unless it was registered before the test. *)
Theorem valid_trait_test_leaks self s body s1 :
  api "os_admin.placement_client.create_trait" [("name", VStr trait_a)] s = (Ret body, s1) →
  trait_deletion trait_a ∉ st_cleanups s →
  let s' := (test_valid_trait_with_provider_yaml fuel yaml_safe_load yaml_dump self s).2 in
  trait_deletion trait_a ∈ created (st_world s') ∧ trait_deletion trait_a ∉ st_cleanups s' ∧ ¬ no_leak s'.
Proof.
  intros Hc Hn. destruct (no_trait_after_creation self s body s1 Hc) as [Hw Hd].
  unfold api, in_world in Hc. pose proof (created_api (C:=C) "os_admin.placement_client.create_trait"
    [("name", VStr trait_a)] (st_world s)) as Ha.
  destruct (api_call _ _ (st_world s)) as [o w]. simplify_eq/=.
  assert (Hin : trait_deletion trait_a ∈ created w) by (rewrite Ha; left).
  assert (Hout : trait_deletion trait_a ∉
    st_cleanups (test_valid_trait_with_provider_yaml fuel yaml_safe_load yaml_dump self s).2) by auto.
  split_and!; [by apply Hw|done|]. intros Hl. destruct (Hl _ (Hw _ Hin)) as [[]%elem_of_nil|?]; done.
Qed.
End leaks.

(** * Witnesses *)
Definition observed_env : cloud (sim * list cleanup) := observed (guest_env label_domain).
Definition observed_account : Accounting (C:=observed_env) (sim * list cleanup) := observed_accounting _.
Definition observed_state (bodies : list (string * val)) : pystate (sim * list cleanup) :=
  mkState None [] (st_world (guest_state bodies), []).
Definition some_parameters : suite_parameters :=
  mkParameters elements 12 VNone VNone (VDict [("id", VStr "1")]) (λ _, Ret 0) (λ s, Ret (VStr s)) fmt.
Definition flavor_bodies : list (string * val) :=
  [("BaseV2ComputeAdminTest.create_flavor", VDict [("id", VStr "42")]);
   ("os_admin.flavors_client.set_flavor_extra_spec", VNone)].

(** A run that has created a server and then failed to read its domain *)
Definition shared_run : outcome unit * pystate (sim * list cleanup) :=
  test_cpu_shared (CONF:=sim_CONF) (C:=observed_env) (observed_state flavor_bodies).

Lemma tests_register_what_they_create_witness :
  no_leak (AC:=observed_account) shared_run.2 ∧
  ∃ s1, reaches (C:=observed_env) shared_run.2 s1 ∧
        reaches (C:=observed_env) (run_cleanup (C:=observed_env) (AdminDeleteServer "server-1") s1).2
          (run_case (C:=observed_env) (test_cpu_shared (CONF:=sim_CONF) (C:=observed_env))
             (observed_state flavor_bodies)).
Proof.
  destruct (tests_register_what_they_create (CONF:=sim_CONF) (C:=observed_env) (AC:=observed_account)
    some_parameters "CPUPolicyTest.test_cpu_shared"
    (test_cpu_shared (CONF:=sim_CONF) (C:=observed_env)) (observed_state flavor_bodies))
    as (Hn & _ & Hc); [by left|by vm_compute; set_solver|by intros c ?%elem_of_nil|].
  split; [exact Hn|]. apply Hc. vm_compute. left.
Defined.

Definition observed_traits : cloud (sim * list cleanup) := observed trait_env.
Definition traits_accounting : Accounting (C:=observed_traits) (sim * list cleanup) := observed_accounting _.
Definition observed_trait_state : pystate (sim * list cleanup) :=
  let w := st_world trait_state in
  mkState None [] (mkSim 0 ∅ true (sim_answers w)
    (("os_admin.placement_client.create_trait", VNone) :: sim_bodies w) [], []).

Lemma valid_trait_test_leaks_witness :
  let r := test_valid_trait_with_provider_yaml (CONF:=sim_CONF) (C:=observed_traits) 20
    (λ _, Ret (VStr "traits")) fmt trait_hosts observed_trait_state in
  r.1 = Ret tt ∧ ¬ no_leak (AC:=traits_accounting) r.2.
Proof.
  intros r. split; [vm_compute; reflexivity|].
  apply (valid_trait_test_leaks (CONF:=sim_CONF) (C:=observed_traits) (AC:=traits_accounting) 20
    (λ _, Ret (VStr "traits")) fmt trait_hosts observed_trait_state VNone
    (api (C:=observed_traits) "os_admin.placement_client.create_trait" [("name", VStr trait_a)]
       observed_trait_state).2).
  - vm_compute. reflexivity.
  - apply not_elem_of_nil.
Defined.

(** The flavor of the vGPU classes, by contrast, is registered last: when its extra
    specs cannot be set, it is left behind. *)
Theorem vgpu_resource_setup_leaks :
  let s := observed_state [("data_utils.rand_name", VStr "vgpu");
                           ("admin_flavors_client.create_flavor", VDict [("flavor", VDict [("id", VStr "7")])])] in
  let r := vgpu_resource_setup (CONF:=sim_CONF) (C:=observed_env) s in
  no_leak (AC:=observed_account) s ∧ r.1 ≠ Ret (VDict [("id", VStr "7")]) ∧
  ¬ no_leak (AC:=observed_account) r.2.
Proof.
  intros s r. split; [by intros c ?%elem_of_nil|]. split; [by vm_compute|]. intros H.
  destruct (H (ClassCleanup "admin_flavors_client.delete_flavor" [("flavor_id", VStr "7")])) as [H'|H'].
  - vm_compute. left.
  - by apply elem_of_nil in H'.
  - vm_compute in H'. by apply elem_of_nil in H'.
Qed.
