(* ===== verification/Config.v ===== *)
(** config.py and plugin.py: the options the plugin registers with tempest, their
    types and defaults, and the configuration a deployment gets that sets only
    what has no default. *)
From Stdlib Require Import Ascii String.
From S2P Require Import Prelude PyString PyVal Xml Env Sim Hardware Utils Clients ComputeBase NumaHelper Pinning ThreadPolicy EmulatorThreads NumaMigration.
#[local] Open Scope string_scope.

(** * Options *)
Inductive opt_type :=
| Str | StrOf (choices : list val) | Bool | Int | StrList | StrDict | IntList | IntListDict.

Record option_def := opt {
  opt_name : string;
  opt_kind : opt_type;
  opt_default : val;
  opt_deprecated : list string;     (* DeprecatedOpt names, all of the same group *)
}.

Definition general_opts : list option_def :=
  [opt "nodes_yaml" Str VNone [];
   opt "ctlplane_ssh_username" Str (VStr "heat-admin") ["target_ssh_user"];
   opt "ctlplane_ssh_private_key_path" Str (VStr "/home/stack/.ssh/id_rsa") ["target_private_key_path"];
   opt "containers" Bool (VBool false) [];
   opt "ctlplane_addresses" StrDict VNone ["hypervisors"];
   opt "max_compute_nodes" Int (VInt 31337) [];
   opt "available_cinder_storage" Int (VInt 0) [];
   opt "container_runtime" (StrOf [VStr "docker"; VStr "podman"]) (VStr "docker") [];
   opt "file_backed_memory_size" Int (VInt 0) [];
   opt "selinux_label" Str VNone [];
   opt "selinux_imagelabel" Str VNone [];
   opt "flavor_volume_size" Int (VInt 1) [];
   opt "flavor_ram_size" Int (VInt 64) [];
   opt "cpu_model" Str VNone [];
   opt "cpu_model_extra_flags" StrList VNone [];
   opt "pmem_flavor_size" Str VNone [];
   opt "pmem_expected_size" Str VNone [];
   opt "rx_queue_size" Int VNone [];
   opt "default_video_model" Str VNone [];
   opt "max_disk_devices_to_attach" Int VNone [];
   opt "libvirt_hw_machine_type" (StrOf [VStr "pc"; VStr "q35"]) (VStr "pc") [];
   opt "provider_config_location" Str (VStr "/etc/nova/provider_config") [];
   opt "hugepage_guest_ram_size" Int (VInt 64) [];
   opt "http_iso_image" Str (VStr "/opt/stack/devstack/files/Core-14.0.iso") []].

Definition nova_compute_opts : list option_def :=
  [opt "log_query_command" (StrOf [VStr "journalctl"; VStr "zgrep"]) (VStr "journalctl") [];
   opt "journalctl_unit" Str (VStr "devstack@n-cpu") [];
   opt "state_path" Str (VStr "/var/lib/nova") []].

Definition database_opts : list option_def :=
  [opt "host" Str VNone [];
   opt "internal_ip" Str VNone [];
   opt "user" Str VNone [];
   opt "password" Str VNone [];
   opt "nova_cell1_db_name" Str (VStr "nova_cell1") [];
   opt "ssh_gateway_port" Int (VInt 3306) []].

Definition hardware_opts : list option_def :=
  [opt "vgpu_vendor_id" Str VNone [];
   opt "sriov_nic_vendor_id" Str VNone [];
   opt "sriov_vf_product_id" Str VNone [];
   opt "sriov_pf_product_id" Str VNone [];
   opt "macvtap_virtio_vendor_id" Str VNone [];
   opt "macvtap_virtio_product_id" Str VNone [];
   opt "smt_hosts" StrList (VList []) [];
   opt "cpu_topology" IntListDict VNone [];
   opt "configured_hugepage_sizes" IntList (VList []) [];
   opt "dedicated_cpus_per_numa" Int (VInt 0) [];
   opt "shared_cpus_per_numa" Int (VInt 0) [];
   opt "realtime_mask" Str VNone [];
   opt "sriov_physnet" Str VNone [];
   opt "sriov_vnic_type" (StrOf [VNone; VStr "direct"; VStr "macvtap"; VStr "direct-physical"]) VNone [];
   opt "sriov_vlan_id" Int VNone [];
   opt "vdpa_physnet" Str VNone [];
   opt "vdpa_vlan_id" Int VNone [];
   opt "physnet_numa_affinity" Int VNone [];
   opt "vgpu_type_mapping" StrDict VNone [];
   opt "socket_affinity" Int VNone [];
   opt "socket_topology" IntListDict VNone [];
   opt "pci_passthrough_alias" Str VNone [];
   opt "pci_passthrough_addresses" StrList VNone [];
   opt "pci_passthrough_resource_class" Str VNone []].

Definition compute_features_group_opts : list option_def :=
  [opt "virtio_rng" Bool (VBool false) [];
   opt "rbd_download" Bool (VBool false) [];
   opt "sriov_hotplug" Bool (VBool true) [];
   opt "supports_image_level_numa_affinity" Bool (VBool true) [];
   opt "supports_port_level_numa_affinity" Bool (VBool true) [];
   opt "uefi_boot" Bool (VBool true) [];
   opt "uefi_secure_boot" Bool (VBool false) [];
   opt "vtpm_device_supported" Bool (VBool false) [];
   opt "vtpm_live_migration_supported" Bool (VBool true) [];
   opt "vdpa_cold_migration_supported" Bool (VBool false) [];
   opt "vgpu_cold_migration_supported" Bool (VBool false) [];
   opt "stable_compute_uuid_supported" Bool (VBool false) [];
   opt "bochs_display_support" Bool (VBool false) [];
   opt "cpu_power_management" Bool (VBool false) [];
   opt "vencrypt" Bool (VBool true) [];
   opt "iothreads" Bool (VBool true) []].

Definition general_group : string := "whitebox".
Definition nova_compute_group : string := "whitebox-nova-compute".
Definition database_group : string := "whitebox-database".
Definition hardware_group : string := "whitebox-hardware".

(** * The plugin *)
Section plugin.
(** tempest.config: the registry, [register_opt_group] and the name of its
    [compute_features_group] *)
Context {R : Type} (register_opt_group : R → string → list option_def → R).
Context (compute_features_group : string).

Definition register_opts (conf : R) : R :=
  let conf := register_opt_group conf general_group general_opts in
  let conf := register_opt_group conf nova_compute_group nova_compute_opts in
  let conf := register_opt_group conf database_group database_opts in
  let conf := register_opt_group conf hardware_group hardware_opts in
  register_opt_group conf compute_features_group compute_features_group_opts.
End plugin.

(** [load_tests] in a file with this absolute path: where the tests are, and the
    directory they are imported from *)
Definition load_tests (file : string) : string * string :=
  let base_path := path_head (path_head file) in
  let full_test_dir := path_join base_path "whitebox_tempest_plugin/api" in
  (full_test_dir, base_path).

Definition get_opt_lists : list (string * list option_def) :=
  [(general_group, general_opts); (nova_compute_group, nova_compute_opts);
   (database_group, database_opts); (hardware_group, hardware_opts)].

(** * Well-formedness *)

(** A value an option of this type can hold: one of its choices where it has some,
    otherwise a value of the type, or None, which an option without a default holds *)
Definition conforms (t : opt_type) (v : val) : bool :=
  match t, v with
  | StrOf choices, _ => existsb (py_eq v) choices
  | _, VNone => true
  | Str, VStr _ => true
  | Bool, VBool _ => true
  | Int, VInt _ => true
  | StrList, VList l => forallb (λ x, match x with VStr _ => true | _ => false end) l
  | IntList, VList l => forallb (λ x, match x with VInt _ => true | _ => false end) l
  | StrDict, VDict d => forallb (λ kx, match kx.2 with VStr _ => true | _ => false end) d
  | IntListDict, VDict d =>
      forallb (λ kx, match kx.2 with
                     | VList l => forallb (λ x, match x with VInt _ => true | _ => false end) l
                     | _ => false end) d
  | _, _ => false
  end.

(** Every name under which an option of the group can be set. *)
Definition setting_names (opts : list option_def) : list string :=
  opts ≫= λ o, opt_name o :: opt_deprecated o.

(** What a sequence of registrations records, in order. *)
Definition record_group (reg : list (string * list option_def)) (group : string)
    (opts : list option_def) : list (string * list option_def) := (reg ++ [(group, opts)])%list.

Definition find_default (opts : list option_def) (name : string) : val :=
  default VNone (opt_default <$> head (filter (λ o, opt_name o = name) opts)).

(** Every option the plugin registers has no default (None) or one of its own type,
    and one among its choices where it has choices; and within a group no two options, deprecated names
    included, can be set under the same name. *)
Theorem options_well_formed :
  Forall (λ g, Forall (λ o, conforms (opt_kind o) (opt_default o) = true) g.2 ∧
               NoDup (setting_names g.2))
    (register_opts record_group "compute-feature-enabled" []).
Proof.
  apply Forall_forall. intros [g opts] Hin. simpl in Hin. apply list_elem_of_In in Hin.
  repeat destruct Hin as [[= <- <-]|Hin]; try done;
    (split; [by apply forallb_Forall_true|]; apply (bool_decide_unpack _); vm_compute; exact I).
Qed.

(** Installed below a directory [root], the plugin has its tests looked for in its
    own api directory, imported from [root]. *)
Theorem load_tests_locates root :
  root ≠ "" → rstrip_by is_slash root = root →
  load_tests (root ++ "/whitebox_tempest_plugin/plugin.py") =
  (root ++ "/whitebox_tempest_plugin/api", root).
Proof.
  intros Hne Hr. unfold load_tests.
  change (root ++ "/whitebox_tempest_plugin/plugin.py")
    with (root ++ ("/whitebox_tempest_plugin" ++ "/" ++ "plugin.py")).
  rewrite <-app_assoc_s, path_head_file; [|by destruct root| |done].
  - change (root ++ "/whitebox_tempest_plugin") with (root ++ "/" ++ "whitebox_tempest_plugin").
    rewrite path_head_file by done. f_equal. unfold path_join. simpl.
    destruct (String.eqb_spec root "") as [->|_]; [done|]. by rewrite Hr, String.eqb_refl.
  - by apply rstrip_by_keeps.
Qed.

(** [get_opt_lists], from which the sample configuration is generated, lists
    every group the plugin registers except the options it adds to
    compute-feature-enabled: those can be set but are not listed. *)
Theorem get_opt_lists_incomplete (group : string) :
  register_opts record_group group [] = (get_opt_lists ++ [(group, compute_features_group_opts)])%list ∧
  compute_features_group_opts ∉ get_opt_lists.*2.
Proof.
  split; [done|]. intros Hin. apply list_elem_of_In in Hin. simpl in Hin.
  repeat destruct Hin as [Hin|Hin]; done.
Qed.

(** * The default configuration *)
Definition str_default (opts : list option_def) (name : string) : string :=
  match find_default opts name with VStr s => s | _ => "" end.
Definition int_default (opts : list option_def) (name : string) : Z :=
  match find_default opts name with VInt z => z | _ => 0 end.
Definition opt_str_default (opts : list option_def) (name : string) : option string :=
  match find_default opts name with VStr s => Some s | _ => None end.
Definition opt_int_default (opts : list option_def) (name : string) : option Z :=
  match find_default opts name with VInt z => Some z | _ => None end.
Definition bool_default (opts : list option_def) (name : string) : bool :=
  truthy (find_default opts name).

(** [site]: the values a deployment has to provide (options without a default)
    and those of the options tempest itself registers. *)
Definition default_conf (site : conf) : conf := {|
  nodes_yaml := @nodes_yaml site;
  ctlplane_ssh_username := str_default general_opts "ctlplane_ssh_username";
  ctlplane_ssh_private_key_path := str_default general_opts "ctlplane_ssh_private_key_path";
  containers := bool_default general_opts "containers";
  ctlplane_addresses := @ctlplane_addresses site;
  max_compute_nodes := int_default general_opts "max_compute_nodes";
  container_runtime := str_default general_opts "container_runtime";
  flavor_volume_size := int_default general_opts "flavor_volume_size";
  flavor_ram_size := int_default general_opts "flavor_ram_size";
  file_backed_memory_size := int_default general_opts "file_backed_memory_size";
  hugepage_guest_ram_size := int_default general_opts "hugepage_guest_ram_size";
  rx_queue_size := opt_int_default general_opts "rx_queue_size";
  log_query_command := str_default nova_compute_opts "log_query_command";
  journalctl_unit := str_default nova_compute_opts "journalctl_unit";
  db_host := @db_host site;
  db_internal_ip := @db_internal_ip site;
  db_user := @db_user site;
  db_password := @db_password site;
  nova_cell1_db_name := str_default database_opts "nova_cell1_db_name";
  ssh_gateway_port := int_default database_opts "ssh_gateway_port";
  smt_hosts := match find_default hardware_opts "smt_hosts" with
               | VList l => omap (λ v, match v with VStr s => Some s | _ => None end) l
               | _ => []
               end;
  cpu_topology := match find_default hardware_opts "cpu_topology" with
                  | VNone => None
                  | _ => @cpu_topology site
                  end;
  dedicated_cpus_per_numa := int_default hardware_opts "dedicated_cpus_per_numa";
  shared_cpus_per_numa := int_default hardware_opts "shared_cpus_per_numa";
  realtime_mask := opt_str_default hardware_opts "realtime_mask";
  configured_hugepage_sizes := match find_default hardware_opts "configured_hugepage_sizes" with
                               | VList l => omap (λ v, match v with VInt z => Some z | _ => None end) l
                               | _ => []
                               end;
  vdpa_physnet := opt_str_default hardware_opts "vdpa_physnet";
  vdpa_vlan_id := opt_int_default hardware_opts "vdpa_vlan_id";
  build_timeout := @build_timeout site;
  build_interval := @build_interval site;
  image_ref := @image_ref site;
  image_ref_alt := @image_ref_alt site;
  max_microversion := @max_microversion site;
  min_compute_nodes := @min_compute_nodes site;
  project_network_cidr := @project_network_cidr site;
  resource_name_prefix := @resource_name_prefix site;
  iothreads_enabled := bool_default compute_features_group_opts "iothreads";
  vdpa_cold_migration_supported := bool_default compute_features_group_opts "vdpa_cold_migration_supported";
  cpu_power_management := bool_default compute_features_group_opts "cpu_power_management";
  live_migration_enabled := @live_migration_enabled site;
  volume_backed_live_migration := @volume_backed_live_migration site;
  resize_enabled := @resize_enabled site;
  available_cinder_storage := int_default general_opts "available_cinder_storage";
  max_disk_devices_to_attach := opt_int_default general_opts "max_disk_devices_to_attach";
  provider_config_location := str_default general_opts "provider_config_location";
  http_iso_image := str_default general_opts "http_iso_image";
  selinux_label := opt_str_default general_opts "selinux_label";
  selinux_imagelabel := opt_str_default general_opts "selinux_imagelabel";
  cpu_model := opt_str_default general_opts "cpu_model";
  cpu_model_extra_flags := match find_default general_opts "cpu_model_extra_flags" with VNone => None | _ => @cpu_model_extra_flags site end;
  pmem_flavor_size := opt_str_default general_opts "pmem_flavor_size";
  pmem_expected_size := opt_str_default general_opts "pmem_expected_size";
  default_video_model := opt_str_default general_opts "default_video_model";
  state_path := str_default nova_compute_opts "state_path";
  vgpu_vendor_id := opt_str_default hardware_opts "vgpu_vendor_id";
  sriov_nic_vendor_id := opt_str_default hardware_opts "sriov_nic_vendor_id";
  sriov_vf_product_id := opt_str_default hardware_opts "sriov_vf_product_id";
  sriov_pf_product_id := opt_str_default hardware_opts "sriov_pf_product_id";
  macvtap_virtio_vendor_id := opt_str_default hardware_opts "macvtap_virtio_vendor_id";
  macvtap_virtio_product_id := opt_str_default hardware_opts "macvtap_virtio_product_id";
  sriov_physnet := opt_str_default hardware_opts "sriov_physnet";
  sriov_vnic_type := opt_str_default hardware_opts "sriov_vnic_type";
  sriov_vlan_id := opt_int_default hardware_opts "sriov_vlan_id";
  physnet_numa_affinity := opt_int_default hardware_opts "physnet_numa_affinity";
  vgpu_type_mapping := match find_default hardware_opts "vgpu_type_mapping" with VNone => None | _ => @vgpu_type_mapping site end;
  socket_affinity := opt_int_default hardware_opts "socket_affinity";
  socket_topology := match find_default hardware_opts "socket_topology" with VNone => None | _ => @socket_topology site end;
  pci_passthrough_alias := opt_str_default hardware_opts "pci_passthrough_alias";
  pci_passthrough_addresses := match find_default hardware_opts "pci_passthrough_addresses" with VNone => None | _ => @pci_passthrough_addresses site end;
  pci_passthrough_resource_class := opt_str_default hardware_opts "pci_passthrough_resource_class";
  virtio_rng := bool_default compute_features_group_opts "virtio_rng";
  rbd_download := bool_default compute_features_group_opts "rbd_download";
  sriov_hotplug := bool_default compute_features_group_opts "sriov_hotplug";
  supports_image_level_numa_affinity := bool_default compute_features_group_opts "supports_image_level_numa_affinity";
  supports_port_level_numa_affinity := bool_default compute_features_group_opts "supports_port_level_numa_affinity";
  uefi_boot := bool_default compute_features_group_opts "uefi_boot";
  uefi_secure_boot := bool_default compute_features_group_opts "uefi_secure_boot";
  vtpm_device_supported := bool_default compute_features_group_opts "vtpm_device_supported";
  vtpm_live_migration_supported := bool_default compute_features_group_opts "vtpm_live_migration_supported";
  vgpu_cold_migration_supported := bool_default compute_features_group_opts "vgpu_cold_migration_supported";
  stable_compute_uuid_supported := bool_default compute_features_group_opts "stable_compute_uuid_supported";
  bochs_display_support := bool_default compute_features_group_opts "bochs_display_support";
  vencrypt := bool_default compute_features_group_opts "vencrypt";
  live_migrate_back_and_forth := @live_migrate_back_and_forth site;
  console_output := @console_output site;
  unified_limits := @unified_limits site;
  attach_encrypted_volume := @attach_encrypted_volume site;
  image_disk_formats := @image_disk_formats site;
  image_container_formats := @image_container_formats site;
  cinder_available := @cinder_available site;
  run_validation := @run_validation site;
|}.

Section defaults.
Context {W : Type} `{C : cloud W}.
Context (site : conf) (set_iter : gset Z → list Z) (fuel : nat).

(** With the defaults of the options, every CPU pinning test that depends on
    the layout of the hosts (all but the isolate and rebuild ones) is skipped
    before it calls any service or changes any state. *)
Theorem defaults_skip_pinning_tests (s : pystate W) (test : M (pystate W) unit) :
  let CONF := default_conf site in
  test ∈ [test_cpu_shared; test_cpu_dedicated; test_realtime_cpu set_iter;
          test_resize_pinned_server_to_unpinned; test_resize_unpinned_server_to_pinned;
          test_reboot_pinned_server; test_threads_prefer set_iter; test_threads_require set_iter;
          emulator_skip_checks; test_policy_share_cpu_shared_set;
          test_policy_share_cpu_shared_unset fuel; test_policy_isolate;
          live_migration_skip_checks; dedicated_migration_skip_checks;
          test_cpu_pinning_and_emulator_threads; mixed_skip_checks; multi_numa_skip_checks;
          test_asymmetric_multi_numa] →
  test s = (Exn SkipException, s).
Proof.
  intros CONF Hin. apply list_elem_of_In in Hin.
  assert (live_migration_skip_checks s = (Exn SkipException, s)) as Hlm.
  { unfold live_migration_skip_checks. change (2 <? max_compute_nodes)%Z with true.
    by rewrite orb_true_r. }
  assert (∀ b (m : M (pystate W) unit), m s = (Exn SkipException, s) →
    (skip_unless b;; m) s = (Exn SkipException, s)) as Hskip by (by intros []).
  repeat destruct Hin as [<-|Hin]; try done.
  - by apply Hskip.
  - by apply Hskip.
  - unfold dedicated_migration_skip_checks. by rewrite bind_run, Hlm.
Qed.
End defaults.

Lemma defaults_skip_pinning_tests_witness :
  (test_cpu_dedicated (CONF:=default_conf sim_CONF) (C:=pinning_env) (pinning_state ["one"])).1
  = Exn SkipException.
Proof.
  rewrite (defaults_skip_pinning_tests (C:=pinning_env) sim_CONF elements 1 (pinning_state ["one"])
             (test_cpu_dedicated (CONF:=default_conf sim_CONF))); [done|].
  right. by left.
Defined.
